(** * tsd-file-api: a shallow embedding of [tsdfileapi/api.py]

    The development follows the handler classes of the module:

    - [Py]       the Python builtins the handlers rely on (exceptions and
                 their class hierarchy, [str.split], [int], list indexing)
                 and the state-and-exception monad the handlers run in;
    - [Http]     Tornado's request and response objects, as far as the
                 handlers touch them;
    - [Os]       the file system, the subprocess calls and the trace of
                 system calls a request performs;
    - [Auth]     [AuthRequestHandler];
    - [FileStreamer] [FileStreamerHandler];
    - [Resumable] the resumable engine, which is not part of [api.py];
    - [Stream]   [StreamHandler];
    - [Proxy]    [ProxyHandler];
    - [FormData] [GenericFormDataHandler] and its two subclasses;
    - [StreamPatch] [StreamHandler.patch];
    - [Resumables] [ResumablesHandler];
    - [Tables]   [GenericTableHandler] and [HealthCheckHandler].

    A Python exception never rolls back the attributes a handler has set
    or the files it has touched, so the monad keeps the state on both
    outcomes. *)

From Stdlib Require Import ZArith List String Ascii Lia Bool.
From Stdlib Require Strings.Byte.
From stdpp Require Import base option list gmap strings.
Import ListNotations.

Local Open Scope string_scope.
Local Open Scope Z_scope.

(** ** Python builtins *)

Module Py.

(** The exception classes that occur in [api.py]. [Exception] is the
    class raised by a bare [raise Exception]. *)
Inductive exn : Type :=
| Exception
| KeyError
| IndexError
| AssertionError
| AttributeError
| TypeError
| ValueError
| NameError
| UnboundLocalError
| OSError
| RuntimeError
| MissingArgumentError.

#[global] Instance exn_eq_dec : EqDecision exn.
Proof. solve_decision. Defined.

(** [isinstance e cls]: every class derives from [Exception],
    [UnboundLocalError] derives from [NameError]. *)
Definition isinstance (e cls : exn) : bool :=
  match cls with
  | Exception => true
  | NameError => bool_decide (e = NameError) || bool_decide (e = UnboundLocalError)
  | _ => bool_decide (e = cls)
  end.

Definition caught (e : exn) (classes : list exn) : bool :=
  existsb (isinstance e) classes.

(** The outcome of running a block: a value, or a raised exception. *)
Inductive outcome (A : Type) : Type :=
| Ret (a : A)
| Raise (e : exn).
Arguments Ret {A} a.
Arguments Raise {A} e.

(** State and exceptions; the state survives a raise. *)
Definition M (S A : Type) : Type := S -> outcome A * S.

Definition ret {S A} (a : A) : M S A := fun s => (Ret a, s).
Definition raise {S A} (e : exn) : M S A := fun s => (Raise e, s).

Definition bind {S A B} (c : M S A) (k : A -> M S B) : M S B :=
  fun s =>
    match c s with
    | (Ret a, s') => k a s'
    | (Raise e, s') => (Raise e, s')
    end.

Definition get {S} : M S S := fun s => (Ret s, s).
Definition gets {S A} (f : S -> A) : M S A := fun s => (Ret (f s), s).
Definition modify {S} (f : S -> S) : M S unit := fun s => (Ret tt, f s).

(** [try: c except classes as e: h e]. *)
Definition try_except {S A} (c : M S A) (classes : list exn)
    (h : exn -> M S A) : M S A :=
  fun s =>
    match c s with
    | (Ret a, s') => (Ret a, s')
    | (Raise e, s') => if caught e classes then h e s' else (Raise e, s')
    end.

(** [try: c finally: f]; an exception of [f] replaces the pending one. *)
Definition try_finally {S A} (c : M S A) (f : M S unit) : M S A :=
  fun s =>
    match c s with
    | (r, s') =>
        match f s' with
        | (Ret _, s'') => (r, s'')
        | (Raise e, s'') => (Raise e, s'')
        end
    end.

(** A partial builtin: [None] stands for the exception [e]. *)
Definition of_option {S A} (e : exn) (o : option A) : M S A :=
  match o with
  | Some a => ret a
  | None => raise e
  end.

(** [assert b]. *)
Definition assert {S} (b : bool) : M S unit :=
  if b then ret tt else raise AssertionError.

Definition lift {S A B} (f : A -> B) (c : M S A) : M S B :=
  bind c (fun a => ret (f a)).

(** Run a block on a component of the state. *)
Definition zoom {S T A} (proj : S -> T) (inj : T -> S -> S) (c : M T A) : M S A :=
  fun s => match c (proj s) with (r, t) => (r, inj t s) end.

(** [s.split(sep)] for a one-character separator. *)
Fixpoint split (sep : ascii) (s : string) : list string :=
  match s with
  | EmptyString => [EmptyString]
  | String c s' =>
      let r := split sep s' in
      if Ascii.eqb c sep then EmptyString :: r
      else match r with
           | [] => [String c EmptyString]
           | w :: ws => String c w :: ws
           end
  end.

(** [l[i]] for [i >= 0] and [l[-1]]. *)
Definition index {A} (l : list A) (i : nat) : option A := l !! i.
Definition last_item {A} (l : list A) : option A := last l.

(** [sub in s] on strings. *)
Fixpoint contains (sub s : string) : bool :=
  String.prefix sub s ||
  match s with
  | EmptyString => false
  | String _ s' => contains sub s'
  end.

(** [x in l] on a list of strings. *)
Definition mem (x : string) (l : list string) : bool :=
  existsb (String.eqb x) l.

(** [int(s)]: surrounding ASCII white space, an optional sign and a
    non-empty run of ASCII digits. [None] stands for [ValueError]. *)
Definition is_space (c : ascii) : bool :=
  let n := nat_of_ascii c in
  (n =? 32)%nat || ((9 <=? n)%nat && (n <=? 13)%nat).

Definition digit (c : ascii) : option Z :=
  let n := Z.of_nat (nat_of_ascii c) in
  if (48 <=? n) && (n <=? 57) then Some (n - 48) else None.

Fixpoint digits (acc : Z) (l : list ascii) : option Z :=
  match l with
  | [] => Some acc
  | c :: l' =>
      match digit c with
      | Some d => digits (10 * acc + d) l'
      | None => None
      end
  end.

Fixpoint lstrip (l : list ascii) : list ascii :=
  match l with
  | c :: l' => if is_space c then lstrip l' else l
  | [] => []
  end.

Definition strip (l : list ascii) : list ascii :=
  rev (lstrip (rev (lstrip l))).

Definition unsigned (l : list ascii) : option Z :=
  match l with
  | [] => None
  | _ => digits 0 l
  end.

Definition int (s : string) : option Z :=
  match strip (list_ascii_of_string s) with
  | "+"%char :: l => unsigned l
  | "-"%char :: l => Z.opp <$> unsigned l
  | l => unsigned l
  end.

(** Truth value of a string and of a list. *)
Definition truthy (s : string) : bool := negb (String.eqb s "").

End Py.

Declare Scope py_scope.
Delimit Scope py_scope with py.
Notation "'let!' x ':=' c 'in' k" := (Py.bind c (fun x => k))
  (at level 10, x name, c at level 100, k at level 200) : py_scope.
Notation "'let!' ' p ':=' c 'in' k" := (Py.bind c (fun x => match x with p => k end))
  (at level 10, p pattern, c at level 100, k at level 200) : py_scope.
Notation "'do!' c 'in' k" := (Py.bind c (fun _ => k))
  (at level 10, c at level 100, k at level 200) : py_scope.
Notation "f <$$> c" := (Py.lift f c) (at level 61, left associativity) : py_scope.
Local Open Scope py_scope.

(** ** Tornado's request and response *)

Module Http.

(** The JSON scalars the handlers write, and a JSON object of them. *)
Inductive jval : Type :=
| JNull
| JBool (b : bool)
| JInt (z : Z)
| JStr (s : string).

#[global] Instance jval_eq_dec : EqDecision jval.
Proof. solve_decision. Defined.

Definition jobj : Type := list (string * jval).

(** A value given to [set_header]. *)
Inductive hval : Type :=
| HStr (s : string)
| HInt (z : Z).

#[global] Instance hval_eq_dec : EqDecision hval.
Proof. solve_decision. Defined.

(** One [self.write(...)]: a dict of scalars, the listing
    [{'files': [...]}], or raw bytes. *)
Inductive out : Type :=
| OutJson (o : jobj)
| OutFiles (files : list jobj)
| OutBytes (b : list Byte.byte).

Definition is_bytes (o : out) : bool :=
  match o with
  | OutBytes _ => true
  | _ => false
  end.

(** [self.request]. [headers] is keyed by the normalised header name;
    [query] holds the decoded query arguments of [uri]. *)
Record request : Type := {
  method : string;
  uri : string;
  headers : gmap string string;
  query : gmap string string
}.

(** The response under construction. [status_code] is [_status_code];
    [wire_status] is the status line once the headers have been flushed,
    after which [set_status] no longer reaches the client. *)
Record response : Type := {
  status_code : Z;
  out_headers : gmap string hval;
  body : list out;
  wire_status : option Z;
  finished : bool
}.

Definition fresh : response :=
  {| status_code := 200; out_headers := ∅; body := [];
     wire_status := None; finished := false |}.

Definition set_status (c : Z) (r : response) : response :=
  {| status_code := c; out_headers := out_headers r; body := body r;
     wire_status := wire_status r; finished := finished r |}.

Definition set_header (k : string) (v : hval) (r : response) : response :=
  {| status_code := status_code r; out_headers := <[k := v]> (out_headers r);
     body := body r; wire_status := wire_status r; finished := finished r |}.

Definition flush (r : response) : response :=
  {| status_code := status_code r; out_headers := out_headers r; body := body r;
     wire_status := Some (default (status_code r) (wire_status r));
     finished := finished r |}.

Definition push (o : out) (r : response) : response :=
  {| status_code := status_code r; out_headers := out_headers r;
     body := body r ++ [o];
     wire_status := wire_status r; finished := finished r |}.

Definition close (r : response) : response :=
  {| status_code := status_code r; out_headers := out_headers r; body := body r;
     wire_status := Some (default (status_code r) (wire_status r));
     finished := true |}.

(** The status the client sees. *)
Definition client_status (r : response) : Z :=
  default (status_code r) (wire_status r).

(** The file bytes the client receives. *)
Definition served_bytes (r : response) : list Byte.byte :=
  concat (omap (fun o => match o with OutBytes b => Some b | _ => None end)
               (body r)).

Definition message_body (msg : string) : out :=
  OutJson [("message", JStr msg)].

End Http.

(** ** The file system and the operating system calls *)

Module Os.

(** A claim of the access token: a string, or a list of strings (the
    group memberships). *)
Inductive claim : Type :=
| CStr (s : string)
| CList (l : list string).

#[global] Instance claim_eq_dec : EqDecision claim.
Proof. solve_decision. Defined.

(** A directory entry: what [os.stat] reports, and the bytes. *)
Record node : Type := {
  n_dir : bool;
  n_data : list Byte.byte;
  n_mode : Z;
  n_mtime : Z;
  n_uid : Z
}.

(** A file object returned by [open]. *)
Record handle : Type := {
  fh_path : string;
  fh_mode : string;
  fh_closed : bool
}.

(** The record the resumable engine keeps per upload id. *)
Record upload : Type := {
  u_target : string;
  u_owner : claim;
  u_group : string;
  u_last : Z;
  u_merged : Z
}.

(** The calls a request makes, in order. *)
Inductive event : Type :=
| EvCall (argv : list string)
| EvPopen (argv : list string)
| EvStat (p : string)
| EvMagic (p : string)
| EvListdir (p : string)
| EvOpen (p mode : string)
| EvWrite (p : string) (n : nat)
| EvClose (p : string)
| EvChmod (p : string) (mode : Z)
| EvRename (src dst : string)
| EvRmtree (p : string)
| EvStdin (proc : string) (n : nat)
| EvWait (proc : string)
| EvHook (hook : string) (args : list string) (as_sudo : bool).

#[global] Instance event_eq_dec : EqDecision event.
Proof. solve_decision. Defined.

Record world : Type := {
  fs : gmap string node;
  uploads : gmap string upload;
  trace : list event;
  clock : Z;
  uuid_next : nat
}.

Definition with_fs (f : gmap string node -> gmap string node) (w : world) : world :=
  {| fs := f (fs w); uploads := uploads w; trace := trace w;
     clock := clock w; uuid_next := uuid_next w |}.

Definition with_uploads (f : gmap string upload -> gmap string upload) (w : world) : world :=
  {| fs := fs w; uploads := f (uploads w); trace := trace w;
     clock := clock w; uuid_next := uuid_next w |}.

Definition log (e : event) (w : world) : world :=
  {| fs := fs w; uploads := uploads w; trace := trace w ++ [e];
     clock := clock w; uuid_next := uuid_next w |}.

Definition bump_uuid (w : world) : world :=
  {| fs := fs w; uploads := uploads w; trace := trace w;
     clock := clock w; uuid_next := S (uuid_next w) |}.

(** [stat.S_IREAD | stat.S_IWRITE] and the group bits. *)
Definition S_IREAD : Z := 256.
Definition S_IWRITE : Z := 128.
Definition S_IRGRP : Z := 32.
Definition S_IWGRP : Z := 16.
Definition S_IROTH : Z := 4.
Definition _RW______ : Z := Z.lor S_IREAD S_IWRITE.
Definition _RW_RW___ : Z := Z.lor (Z.lor (Z.lor S_IREAD S_IWRITE) S_IRGRP) S_IWGRP.

(** The bits [chmod go+r] adds. *)
Definition go_r : Z := Z.lor S_IRGRP S_IROTH.

Definition set_mode (m : Z) (n : node) : node :=
  {| n_dir := n_dir n; n_data := n_data n; n_mode := m;
     n_mtime := n_mtime n; n_uid := n_uid n |}.

Definition set_data (d : list Byte.byte) (now : Z) (n : node) : node :=
  {| n_dir := n_dir n; n_data := d; n_mode := n_mode n;
     n_mtime := now; n_uid := n_uid n |}.

Definition bytes (s : string) : list Byte.byte := list_byte_of_string s.

End Os.

(** ** What [api.py] imports

    [options] is the process-wide configuration set by [set_config].
    [externals] collects the functions the module imports from its
    sibling modules ([auth], [utils], [pgp]) and from libraries
    ([hashlib], [magic], [pwd], [uuid], [datetime], [os.path],
    [tornado.escape]). A partial function returns [None] where the
    Python function raises. *)

Record policy : Type := {
  p_enabled : bool;
  p_allowed_mime_types : list string;
  p_max_size : option Z
}.

Record options : Type := {
  port : Z;
  api_user : string;
  check_tenant : bool;
  check_exp : bool;
  start_chars : string;
  requestor_claim_name : string;
  tenant_claim_name : string;
  export_chunk_size : Z;
  export_max_num_list : Z;
  valid_tenant : string -> bool
}.

(** The dict returned by [auth.process_access_token]. *)
Record authnz : Type := {
  az_status : bool;
  az_claims : gmap string Os.claim;
  az_reason : option string
}.

Record externals : Type := {
  tenant_from_url : string -> option string;
  process_access_token : string -> string -> bool -> bool -> string -> option authnz;
  check_filename : string -> string -> option string;
  IS_VALID_GROUPNAME : string -> bool;
  decrypt_aes_key : string -> option string;
  url_unescape : string -> string;
  url_escape : string -> string;
  md5_hexdigest : string -> string;
  str_of_mtime : Z -> string;
  isoformat : Z -> string;
  getpwuid : Z -> option string;
  normpath : string -> string;
  magic_from_file : Os.node -> option string;
  uuid4 : nat -> string;
  str_of_int : Z -> string;
  creat_mode : Z;
  creat_uid : Z
}.

Module OsCalls.
Import Py Os.

Section WithExternals.
Context (X : externals).

(** [os.path.lexists] and [os.path.isdir]. *)
Definition lexists (p : string) : M world bool :=
  gets (fun w => bool_decide (is_Some (fs w !! p))).

Definition isdir (p : string) : M world bool :=
  gets (fun w => match fs w !! p with
                 | Some n => n_dir n
                 | None => false
                 end).

(** [os.stat]. *)
Definition stat (p : string) : M world node :=
  fun w =>
    match fs w !! p with
    | Some n => (Ret n, log (EvStat p) w)
    | None => (Raise OSError, w)
    end.

(** [magic.from_file(p, mime=True)]. *)
Definition magic (p : string) : M world string :=
  fun w =>
    match fs w !! p with
    | Some n =>
        match magic_from_file X n with
        | Some m => (Ret m, log (EvMagic p) w)
        | None => (Raise Exception, w)
        end
    | None => (Raise OSError, w)
    end.

(** [os.rename]; a [None] argument is a [TypeError]. The map is
    flat: renaming moves the one entry. *)
Definition rename (src dst : option string) : M world unit :=
  match src, dst with
  | Some s, Some d =>
      fun w =>
        match fs w !! s with
        | Some n =>
            (Ret tt, log (EvRename s d)
                       (with_fs (fun m => <[d := n]> (delete s m)) w))
        | None => (Raise OSError, w)
        end
  | _, _ => raise TypeError
  end.

(** [shutil.rmtree]: the entry and everything below it. *)
Definition below (dir p : string) : bool :=
  String.eqb p dir || String.prefix (dir ++ "/") p.

Definition rmtree (p : string) : M world unit :=
  fun w =>
    match fs w !! p with
    | Some _ =>
        (Ret tt, log (EvRmtree p)
                   (with_fs (filter (fun kv => below p (fst kv) = false)) w))
    | None => (Raise OSError, w)
    end.

(** [os.chmod]. *)
Definition chmod (p : option string) (mode : Z) : M world unit :=
  match p with
  | Some p =>
      fun w =>
        match fs w !! p with
        | Some n =>
            (Ret tt, log (EvChmod p mode)
                       (with_fs (<[p := set_mode mode n]>) w))
        | None => (Raise OSError, w)
        end
  | None => raise TypeError
  end.

(** [open(p, mode)] for the modes ['ab+'] and ['wb+']: the file is
    created when absent, and truncated by ['wb+']. *)
Definition truncates (mode : string) : bool := String.prefix "w" mode.

Definition new_node (w : world) : node :=
  {| n_dir := false; n_data := []; n_mode := creat_mode X;
     n_mtime := clock w; n_uid := creat_uid X |}.

Definition open_ (p : option string) (mode : string) : M world handle :=
  match p with
  | Some p =>
      fun w =>
        let h := {| fh_path := p; fh_mode := mode; fh_closed := false |} in
        match fs w !! p with
        | Some n =>
            if n_dir n then (Raise OSError, w)
            else
              let n' := if truncates mode then set_data [] (clock w) n else n in
              (Ret h, log (EvOpen p mode) (with_fs (<[p := n']>) w))
        | None =>
            (Ret h, log (EvOpen p mode) (with_fs (<[p := new_node w]>) w))
        end
  | None => raise TypeError
  end.

(** [f.write(data)]: both modes write at the end of the file. *)
Definition write (h : handle) (data : list Byte.byte) : M world unit :=
  fun w =>
    if fh_closed h then (Raise ValueError, w)
    else
      match fs w !! fh_path h with
      | Some n =>
          (Ret tt, log (EvWrite (fh_path h) (length data))
                     (with_fs (<[fh_path h := set_data (n_data n ++ data) (clock w) n]>) w))
      | None => (Raise OSError, w)
      end.

(** [f.close()]; closing twice is allowed. *)
Definition close (h : handle) : M world handle :=
  fun w =>
    (Ret {| fh_path := fh_path h; fh_mode := fh_mode h; fh_closed := true |},
     if fh_closed h then w else log (EvClose (fh_path h)) w).

(** [open(p, 'rb')] followed by reading: the bytes of the file. *)
Definition open_rb (p : string) : M world (list Byte.byte) :=
  fun w =>
    match fs w !! p with
    | Some n =>
        if n_dir n then (Raise OSError, w)
        else (Ret (n_data n), log (EvOpen p "rb") w)
    | None => (Raise OSError, w)
    end.

(** The effect of [chmod go+r f] on the file system: the read bits for
    group and others are added to the mode of [f]. *)
Definition grant_go_r (n : node) : node :=
  set_mode (Z.lor (n_mode n) go_r) n.

Definition chmod_go_r (f : string) (m : gmap string node) : gmap string node :=
  match m !! f with
  | Some n => <[f := grant_go_r n]> m
  | None => m
  end.

(** [subprocess.call(argv)]. The one command the module calls this way
    is [sudo chmod go+r f]. *)
Definition call (argv : list string) : M world unit :=
  fun w =>
    let w' := log (EvCall argv) w in
    match argv with
    | ["sudo"; "chmod"; "go+r"; f] => (Ret tt, with_fs (chmod_go_r f) w')
    | _ => (Ret tt, w')
    end.

(** [subprocess.Popen(argv, ...)]: the child is external. *)
Definition popen (argv : list string) : M world unit :=
  modify (log (EvPopen argv)).

(** [os.listdir]: the names directly below [dir]. *)
Fixpoint strip_prefix (pre s : string) : option string :=
  match pre, s with
  | EmptyString, _ => Some s
  | String a pre', String b s' =>
      if Ascii.eqb a b then strip_prefix pre' s' else None
  | String _ _, EmptyString => None
  end.

Definition child_of (dir p : string) : option string :=
  match strip_prefix (dir ++ "/") p with
  | Some name =>
      if Py.truthy name && negb (Py.contains "/" name) then Some name else None
  | None => None
  end.

Definition listdir (dir : string) : M world (list string) :=
  fun w =>
    match fs w !! dir with
    | Some n =>
        if n_dir n
        then (Ret (omap (fun kv => child_of dir (fst kv)) (map_to_list (fs w))),
              log (EvListdir dir) w)
        else (Raise OSError, w)
    | None => (Raise OSError, w)
    end.

(** [str(uuid4())]. *)
Definition fresh_uuid : M world string :=
  fun w => (Ret (uuid4 X (uuid_next w)), bump_uuid w).

(** [datetime.datetime.now().isoformat()]. *)
Definition now_isoformat : M world string :=
  gets (fun w => isoformat X (clock w)).

End WithExternals.
End OsCalls.

(** ** [AuthRequestHandler] *)

Module Auth.
Import Py.

(** The attributes every handler inherits: the Tornado request and
    response, the world the request runs in, and what
    [process_token_and_extract_claims] sets. [status] is the attribute
    [self.status] of the gate, which is not [_status_code]. *)
Record base : Type := {
  req : Http.request;
  resp : Http.response;
  w : Os.world;
  status : option Z;
  message : option string;
  jwt : option string;
  tenant : option string;
  claims : option (gmap string Os.claim);
  requestor : option Os.claim
}.

Definition start (r : Http.request) (w0 : Os.world) : base :=
  {| req := r; resp := Http.fresh; w := w0; status := None; message := None;
     jwt := None; tenant := None; claims := None; requestor := None |}.

Definition with_resp (f : Http.response -> Http.response) (b : base) : base :=
  {| req := req b; resp := f (resp b); w := w b; status := status b;
     message := message b; jwt := jwt b; tenant := tenant b;
     claims := claims b; requestor := requestor b |}.

Definition put_w (w' : Os.world) (b : base) : base :=
  {| req := req b; resp := resp b; w := w'; status := status b;
     message := message b; jwt := jwt b; tenant := tenant b;
     claims := claims b; requestor := requestor b |}.

Definition put_status (v : option Z) (b : base) : base :=
  {| req := req b; resp := resp b; w := w b; status := v;
     message := message b; jwt := jwt b; tenant := tenant b;
     claims := claims b; requestor := requestor b |}.

Definition put_message (v : option string) (b : base) : base :=
  {| req := req b; resp := resp b; w := w b; status := status b;
     message := v; jwt := jwt b; tenant := tenant b;
     claims := claims b; requestor := requestor b |}.

Definition put_jwt (v : string) (b : base) : base :=
  {| req := req b; resp := resp b; w := w b; status := status b;
     message := message b; jwt := Some v; tenant := tenant b;
     claims := claims b; requestor := requestor b |}.

Definition put_tenant (v : string) (b : base) : base :=
  {| req := req b; resp := resp b; w := w b; status := status b;
     message := message b; jwt := jwt b; tenant := Some v;
     claims := claims b; requestor := requestor b |}.

Definition put_claims (v : gmap string Os.claim) (b : base) : base :=
  {| req := req b; resp := resp b; w := w b; status := status b;
     message := message b; jwt := jwt b; tenant := tenant b;
     claims := Some v; requestor := requestor b |}.

Definition put_requestor (v : Os.claim) (b : base) : base :=
  {| req := req b; resp := resp b; w := w b; status := status b;
     message := message b; jwt := jwt b; tenant := tenant b;
     claims := claims b; requestor := Some v |}.

(** The [RequestHandler] methods. *)
Definition set_status (c : Z) : M base unit := modify (with_resp (Http.set_status c)).
Definition set_header (k : string) (v : Http.hval) : M base unit :=
  modify (with_resp (Http.set_header k v)).
Definition flush : M base unit := modify (with_resp Http.flush).

Definition write (o : Http.out) : M base unit :=
  fun b =>
    if Http.finished (resp b) then (Raise RuntimeError, b)
    else (Ret tt, with_resp (Http.push o) b).

Definition finish (o : option Http.out) : M base unit :=
  fun b =>
    if Http.finished (resp b) then (Raise RuntimeError, b)
    else
      (Ret tt,
       with_resp (fun r => Http.close (match o with
                                        | Some c => Http.push c r
                                        | None => r
                                        end)) b).

(** [self.request.headers[k]] and [k in self.request.headers]. *)
Definition header (k : string) : M base string :=
  fun b => of_option KeyError (Http.headers (req b) !! k) b.

Definition has_header (k : string) : M base bool :=
  gets (fun b => bool_decide (is_Some (Http.headers (req b) !! k))).

(** [self.get_query_argument(k)]. *)
Definition get_query_argument (k : string) : M base string :=
  fun b => of_option MissingArgumentError (Http.query (req b) !! k) b.

(** Operating system calls run on the world of the request. *)
Definition os {A} (c : M Os.world A) : M base A := zoom w put_w c.

(** [not self.status]. *)
Definition not_status (b : base) : bool :=
  match status b with
  | Some c => c =? 0
  | None => true
  end.

Section WithExternals.
Context (X : externals) (opts : options).

(** [process_token_and_extract_claims]. [logging] calls have no
    effect on the state and are left out. In the last [except], the
    name [authnz] is unbound when [process_access_token] itself
    raised. *)
Definition process_token_and_extract_claims : M base authnz :=
  do! modify (put_status None) in
  try_except
    (let! auth_header :=
       try_except (header "Authorization") [KeyError; UnboundLocalError]
         (fun _ =>
            do! modify (put_message (Some "Missing authorization header")) in
            do! set_status 400 in
            raise Exception) in
     do! try_except
           (let! j := of_option IndexError (Py.split " " auth_header !! 1%nat) in
            modify (put_jwt j))
           [IndexError]
           (fun _ =>
              do! modify (put_message (Some "Malformed authorization header")) in
              do! set_status 400 in
              raise Exception) in
     let! tenant :=
       try_except
         (let! u := gets (fun b => Http.uri (req b)) in
          let! t := of_option Exception (tenant_from_url X u) in
          do! assert (valid_tenant opts t) in
          do! modify (put_tenant t) in
          ret t)
         [AssertionError]
         (fun e =>
            do! set_status 400 in
            raise e) in
     match process_access_token X auth_header tenant (check_tenant opts)
             (check_exp opts) (tenant_claim_name opts) with
     | None => raise UnboundLocalError
     | Some authnz =>
         try_except
           (do! modify (put_claims (az_claims authnz)) in
            let! r := of_option KeyError
                        (az_claims authnz !! requestor_claim_name opts) in
            do! modify (put_requestor r) in
            if negb (az_status authnz)
            then do! set_status 401 in raise Exception
            else ret authnz)
           [Exception]
           (fun _ =>
              do! modify (put_message (az_reason authnz)) in
              do! set_status 401 in
              raise Exception)
     end)
    [Exception]
    (fun _ =>
       let! unset := gets not_status in
       do! (if unset then set_status 401 else ret tt) in
       raise Exception).

End WithExternals.
End Auth.

(** ** [FileStreamerHandler] *)

Module FileStreamer.
Import Py.

(** The handler after [initialize(backend)]. *)
Record handler : Type := {
  hb : Auth.base;
  backend : string;
  export_dir : string;
  export_policy : gmap string policy;
  CHUNK_SIZE : Z;
  path : option string;
  filepath : option string;
  authnz_ : option authnz
}.

Definition initialize (opts : options) (backend : string) (export_dir : string)
    (pol : gmap string policy) (r : Http.request) (w0 : Os.world) : handler :=
  {| hb := Auth.start r w0; backend := backend; export_dir := export_dir;
     export_policy := pol; CHUNK_SIZE := export_chunk_size opts;
     path := None; filepath := None; authnz_ := None |}.

Definition put_hb (b : Auth.base) (h : handler) : handler :=
  {| hb := b; backend := backend h; export_dir := export_dir h;
     export_policy := export_policy h; CHUNK_SIZE := CHUNK_SIZE h;
     path := path h; filepath := filepath h; authnz_ := authnz_ h |}.

Definition put_CHUNK_SIZE (c : Z) (h : handler) : handler :=
  {| hb := hb h; backend := backend h; export_dir := export_dir h;
     export_policy := export_policy h; CHUNK_SIZE := c;
     path := path h; filepath := filepath h; authnz_ := authnz_ h |}.

Definition put_path (p : string) (h : handler) : handler :=
  {| hb := hb h; backend := backend h; export_dir := export_dir h;
     export_policy := export_policy h; CHUNK_SIZE := CHUNK_SIZE h;
     path := Some p; filepath := filepath h; authnz_ := authnz_ h |}.

Definition put_filepath (p : string) (h : handler) : handler :=
  {| hb := hb h; backend := backend h; export_dir := export_dir h;
     export_policy := export_policy h; CHUNK_SIZE := CHUNK_SIZE h;
     path := path h; filepath := Some p; authnz_ := authnz_ h |}.

Definition put_authnz (a : authnz) (h : handler) : handler :=
  {| hb := hb h; backend := backend h; export_dir := export_dir h;
     export_policy := export_policy h; CHUNK_SIZE := CHUNK_SIZE h;
     path := path h; filepath := filepath h; authnz_ := Some a |}.

Definition base {A} (c : M Auth.base A) : M handler A := zoom hb put_hb c.
Definition os {A} (c : M Os.world A) : M handler A := base (Auth.os c).
Definition set_message (m : string) : M handler unit :=
  base (modify (Auth.put_message (Some m))).

(** [os.path.basename]. *)
Definition basename (p : string) : string :=
  default "" (Py.last_item (Py.split "/" p)).

(** [fd.read(n)] on the bytes that remain: a negative [n] reads up to
    the end of the file. *)
Definition fd_read (n : Z) (rest : list Byte.byte) : list Byte.byte * list Byte.byte :=
  if n <? 0 then (rest, [])
  else (take (Z.to_nat n) rest, drop (Z.to_nat n) rest).

Definition nonempty (d : list Byte.byte) : bool :=
  match d with
  | [] => false
  | _ :: _ => true
  end.

(** [policy['max_size'] and size > policy['max_size']]. *)
Definition exceeds (max_size : option Z) (size : Z) : bool :=
  match max_size with
  | Some m => negb (m =? 0) && (m <? size)
  | None => false
  end.

Definition jopt (o : option string) : Http.jval :=
  match o with
  | Some s => Http.JStr s
  | None => Http.JNull
  end.

Definition jbool (o : option bool) : Http.jval :=
  match o with
  | Some b => Http.JBool b
  | None => Http.JNull
  end.

Definition jint (o : option Z) : Http.jval :=
  match o with
  | Some z => Http.JInt z
  | None => Http.JNull
  end.

Section WithExternals.
Context (X : externals) (opts : options).

(** [enforce_export_policy]. *)
Definition enforce_export_policy (policy_config : gmap string policy)
    (filename tenant : string) (size : Z) (mime_type : string) : M handler bool :=
  let file := basename filename in
  match check_filename X file (start_chars opts) with
  | None =>
      do! set_message ("Illegal export filename: " ++ file) in
      ret false
  | Some _ =>
      let! policy :=
        match policy_config !! tenant with
        | Some p => ret p
        | None => of_option KeyError (policy_config !! "default")
        end in
      if negb (p_enabled policy) then ret true
      else
        let! status :=
          if Py.mem "*" (p_allowed_mime_types policy) then ret true
          else
            if Py.mem mime_type (p_allowed_mime_types policy) then ret true
            else
              do! set_message
                    ("not allowed to export file with MIME type: " ++ mime_type) in
              ret false in
        if exceeds (p_max_size policy) size
        then
          do! set_message ("File size exceeds maximum allowed for " ++ tenant) in
          ret false
        else ret status
  end.

(** [get_file_metadata]. *)
Definition get_file_metadata (filename : string) : M handler (Z * string) :=
  let! b := gets backend in
  do! (if String.eqb b "files"
       then os (OsCalls.call ["sudo"; "chmod"; "go+r"; filename])
       else ret tt) in
  let! mime_type := os (OsCalls.magic X filename) in
  let! st := os (OsCalls.stat filename) in
  ret (Z.of_nat (length (Os.n_data st)), mime_type).

(** One round of the loop of [list_files]: the values appended to
    [times], [exportable], [reasons], [sizes], [mimes] and [owners]. *)
Record row : Type := {
  r_time : string;
  r_exportable : option bool;
  r_reason : option string;
  r_size : option Z;
  r_mime : option string;
  r_owner : string
}.

Definition list_one (path tenant file : string) : M handler row :=
  let filepath := normpath X (path ++ "/" ++ file) in
  let! path_stat := os (OsCalls.stat filepath) in
  let latest := Os.n_mtime path_stat in
  let! owner := of_option KeyError (getpwuid X (Os.n_uid path_stat)) in
  let date_time := isoformat X latest in
  let! '(status, mime_type, size, reason) :=
    try_except
      (let! d := os (OsCalls.isdir filepath) in
       let! '(status, mime_type, size) :=
         if d
         then
           do! set_message "exporting from directories not supported yet" in
           ret (None, None, None)
         else
           let! '(size, mime_type) := get_file_metadata filepath in
           let! pol := gets export_policy in
           let! status := enforce_export_policy pol filepath tenant size mime_type in
           ret (Some status, Some mime_type, Some size) in
       let! reason :=
         if default false status then ret None
         else base (gets Auth.message) in
       ret (status, mime_type, size, reason))
      [Exception]
      (fun _ => raise Exception) in
  ret {| r_time := date_time; r_exportable := status; r_reason := reason;
         r_size := size; r_mime := mime_type; r_owner := owner |}.

Fixpoint list_loop (path tenant : string) (files : list string) : M handler (list row) :=
  match files with
  | [] => ret []
  | file :: rest =>
      let! r := list_one path tenant file in
      let! rs := list_loop path tenant rest in
      ret (r :: rs)
  end.

Definition file_info (uri : string) (fr : string * row) : Http.jobj :=
  let '(f, r) := fr in
  [("filename", Http.JStr f);
   ("size", jint (r_size r));
   ("modified_date", Http.JStr (r_time r));
   ("href", Http.JStr (uri ++ "/" ++ url_escape X f));
   ("exportable", jbool (r_exportable r));
   ("reason", jopt (r_reason r));
   ("mime-type", jopt (r_mime r));
   ("owner", Http.JStr (r_owner r))].

(** [list_files]. *)
Definition list_files (path tenant : string) : M handler unit :=
  let! files := os (OsCalls.listdir path) in
  if export_max_num_list opts <? Z.of_nat (length files)
  then
    do! base (Auth.set_status 400) in
    do! set_message "too many files, create a zip archive" in
    raise Exception
  else
    let! rows := list_loop path tenant files in
    let! uri := gets (fun h => Http.uri (Auth.req (hb h))) in
    base (Auth.write (Http.OutFiles (map (file_info uri) (zip files rows)))).

(** [compute_etag]. *)
Definition compute_etag : M handler (option string) :=
  try_except
    (let! fp := gets filepath in
     match fp with
     | None => raise AttributeError
     | Some p =>
         if Py.truthy p
         then
           let! st := os (OsCalls.stat p) in
           ret (Some (md5_hexdigest X (str_of_mtime X (Os.n_mtime st))))
         else ret None
     end)
    [Exception; AttributeError]
    (fun _ => ret None).

(** The loop that sends a whole file. [fuel] bounds the number of
    rounds; [S (length data + length rest)] rounds always suffice. *)
Fixpoint send_all (fuel : nat) (chunk : Z) (data rest : list Byte.byte) : M handler unit :=
  match fuel with
  | O => ret tt
  | S fuel' =>
      if nonempty data
      then
        do! base (Auth.write (Http.OutBytes data)) in
        do! base Auth.flush in
        let '(data', rest') := fd_read chunk rest in
        send_all fuel' chunk data' rest'
      else ret tt
  end.

(** The loop that sends a byte range:
    [while data and sent <= bytes_to_read]. *)
Fixpoint send_range (fuel : nat) (chunk bytes_to_read : Z)
    (data rest : list Byte.byte) (sent : Z) : M handler unit :=
  match fuel with
  | O => ret tt
  | S fuel' =>
      if nonempty data && (sent <=? bytes_to_read)
      then
        do! base (Auth.write (Http.OutBytes data)) in
        do! base Auth.flush in
        let '(data', rest') := fd_read chunk rest in
        send_range fuel' chunk bytes_to_read data' rest' (sent + chunk)
      else ret tt
  end.

(** The first steps shared by [get] and [head]: the token gate and
    the tenant check. *)
Definition authorize (tenant : string) : M handler unit :=
  do! try_except
        (let! a := base (Auth.process_token_and_extract_claims X opts) in
         modify (put_authnz a))
        [Exception]
        (fun _ =>
           let! m := base (gets Auth.message) in
           do! (if negb (Py.truthy (default "" m))
                then set_message "Not authorized to export data"
                else ret tt) in
           do! base (Auth.set_status 401) in
           raise Exception) in
  do! assert (valid_tenant opts tenant) in
  let! d := gets export_dir in
  modify (put_path d).

(** Filename check and existence check of [get] and [head]; sets
    [self.filepath]. *)
Definition locate (filename : string) : M handler string :=
  let! secured_filename :=
    match check_filename X (url_unescape X filename) (start_chars opts) with
    | Some n => ret n
    | None =>
        do! base (Auth.set_status 403) in
        do! set_message
              "Not allowed to access files in sub-directories, create a zip archive" in
        raise Exception
    end in
  let! p := gets path in
  let fp := default "" p ++ "/" ++ secured_filename in
  do! modify (put_filepath fp) in
  let! e := os (OsCalls.lexists fp) in
  if negb e
  then
    do! base (Auth.set_status 404) in
    do! set_message "File does not exist" in
    raise Exception
  else ret fp.

(** The policy check of [get]: metadata, policy, [assert status]. *)
Definition check_export (fp tenant : string) : M handler (Z * string) :=
  try_except
    (let! '(size, mime_type) := get_file_metadata fp in
     let! pol := gets export_policy in
     let! status := enforce_export_policy pol fp tenant size mime_type in
     do! assert status in
     ret (size, mime_type))
    [Exception; AssertionError]
    (fun _ =>
       do! base (Auth.set_status 400) in
       raise Exception).

(** The branch of [get] without a [Range] header. *)
Definition serve_whole (fp : string) (size : Z) : M handler unit :=
  do! base (Auth.set_header "Content-Length" (Http.HInt size)) in
  do! base Auth.flush in
  let! content := os (OsCalls.open_rb fp) in
  let! chunk := gets CHUNK_SIZE in
  let '(data, rest) := fd_read chunk content in
  do! send_all (S (length data + length rest)) chunk data rest in
  os (modify (Os.log (Os.EvClose fp))).

(** The branch of [get] with a [Range] header. *)
Definition serve_range (fp : string) : M handler unit :=
  let! has_if_range := base (Auth.has_header "If-Range") in
  do! (if has_if_range
       then
         let! provided_etag := base (Auth.header "If-Range") in
         let! computed_etag := compute_etag in
         if negb (bool_decide (Some provided_etag = computed_etag))
         then
           do! set_message
                 "The resource has changed, get everything from the start again" in
           do! base (Auth.set_status 400) in
           raise Exception
         else ret tt
       else ret tt) in
  let! client_byte_index_range := base (Auth.header "Range") in
  let! st := os (OsCalls.stat fp) in
  let full_file_size := Z.of_nat (length (Os.n_data st)) in
  let! spec := of_option IndexError
                 (Py.last_item (Py.split "=" client_byte_index_range)) in
  let start_and_end := Py.split "-" spec in
  if Py.mem "," start_and_end
  then
    do! base (Auth.set_status 405) in
    do! set_message "Multipart byte range requests not supported" in
    raise Exception
  else
    let! s0 := of_option IndexError (start_and_end !! 0%nat) in
    let! client_start := of_option ValueError (Py.int s0) in
    let cursor_start := client_start in
    let client_end :=
      match start_and_end !! 1%nat ≫= Py.int with
      | Some e => e
      | None => full_file_size - 1
      end in
    if full_file_size <? client_end
    then
      do! base (Auth.set_status 416) in
      raise Exception
    else
      let bytes_to_read := client_end - client_start + 1 in
      do! base (Auth.set_header "Content-Length" (Http.HInt bytes_to_read)) in
      do! base Auth.flush in
      let! content := os (OsCalls.open_rb fp) in
      let! rest0 := if cursor_start <? 0 then raise OSError
                    else ret (drop (Z.to_nat cursor_start) content) in
      let! c0 := gets CHUNK_SIZE in
      do! (if bytes_to_read <? c0 then modify (put_CHUNK_SIZE bytes_to_read)
           else ret tt) in
      let! chunk := gets CHUNK_SIZE in
      let '(data, rest) := fd_read chunk rest0 in
      do! send_range (S (length data + length rest)) chunk bytes_to_read
            data rest (0 + chunk) in
      os (modify (Os.log (Os.EvClose fp))).

Definition write_message : M handler unit :=
  let! m := base (gets Auth.message) in
  base (Auth.write (Http.OutJson [("message", jopt m)])).

(** [get(tenant, filename)]. In the [finally] clause [fd.close()]
    has nothing left to close: every path above either closed [fd]
    or never bound it. *)
Definition get (tenant : string) (filename : option string) : M handler unit :=
  do! set_message "Unknown error, please contact TSD" in
  try_finally
    (try_except
       (do! authorize tenant in
        let! p := gets path in
        match filename with
        | None => list_files (default "" p) tenant
        | Some filename =>
            if negb (Py.truthy filename) then list_files (default "" p) tenant
            else
              let! fp := locate filename in
              let! '(size, mime_type) := check_export fp tenant in
              do! base (Auth.set_header "Content-Type" (Http.HStr mime_type)) in
              let! ranged := base (Auth.has_header "Range") in
              if negb ranged then serve_whole fp size
              else serve_range fp
        end)
       [Exception]
       (fun _ => write_message))
    (base (Auth.finish None)).

(** [head(tenant, filename)]. *)
Definition head (tenant : string) (filename : option string) : M handler unit :=
  do! set_message "Unknown error, please contact TSD" in
  try_finally
    (try_except
       (do! authorize tenant in
        match filename with
        | None => raise Exception
        | Some filename =>
            if negb (Py.truthy filename) then raise Exception
            else
              let! fp := locate filename in
              let! '(size, mime_type) := get_file_metadata fp in
              let! pol := gets export_policy in
              let! status := enforce_export_policy pol fp tenant size mime_type in
              do! assert status in
              do! base (Auth.set_header "Content-Length" (Http.HInt size)) in
              do! base (Auth.set_header "Accept-Ranges" (Http.HStr "bytes")) in
              base (Auth.set_status 200)
        end)
       [Exception]
       (fun _ => write_message))
    (base (Auth.finish None)).

End WithExternals.
End FileStreamer.

(** ** The resumable engine *)

Module Resumable.
Import Py Os.

(** A chunk number of the query string: [N], or the literal [end]. *)
Inductive chunk : Type :=
| CNum (n : Z)
| CEnd.

#[global] Instance chunk_eq_dec : EqDecision chunk.
Proof. solve_decision. Defined.

Definition parse_chunk (s : string) : option chunk :=
  if String.eqb s "end" then Some CEnd else CNum <$> Py.int s.

Section WithExternals.
Context (X : externals).

(** Modelled from the spec: [resumables.SerialResumable.prepare],
    which is not part of [api.py]. The spec (4.5) gives the
    signature [prepare(tenant_dir, filename, chunk_num,
    upload_id_or_none, group, requestor) -> (chunk_num, upload_id,
    is_final, chunk_order_ok, staged_filename)] and says: the literal
    [end] asks for finalisation; the first chunk of a new upload
    mints a fresh id and creates the initial state; a chunk with
    [N <= last_merged] is rejected with no side effect; an upload is
    owned by its requestor and nobody else can resume it; chunk files
    live in a subdirectory keyed by the upload id and are named
    [<target>.chunk.<N>]. The spec does not say what happens to an id
    the engine has never seen: the model starts a new upload under
    it. *)
Definition prepare (tenant_dir filename url_chunk_num : string)
    (url_upload_id : option string) (url_group : string) (requestor : claim)
    : M world (chunk * string * bool * bool * string) :=
  let! c := of_option ValueError (parse_chunk url_chunk_num) in
  let staged id := id ++ "/" ++ filename ++ ".chunk." ++ url_chunk_num in
  let fresh id :=
    {| u_target := filename; u_owner := requestor; u_group := url_group;
       u_last := 0; u_merged := 0 |} in
  let! id :=
    match url_upload_id with
    | Some id => ret id
    | None => OsCalls.fresh_uuid X
    end in
  let! known := gets (fun w => uploads w !! id) in
  match known with
  | Some u =>
      if negb (bool_decide (u_owner u = requestor)) then raise Exception
      else
        match c with
        | CEnd => ret (c, id, true, true, staged id)
        | CNum n =>
            if n <=? u_last u then ret (c, id, false, false, staged id)
            else ret (c, id, false, true, staged id)
        end
  | None =>
      match c with
      | CEnd => raise Exception
      | CNum n =>
          do! modify (with_uploads (<[id := fresh id]>)) in
          ret (c, id, false, true, staged id)
      end
  end.

(** Modelled from the spec: [open(path, mode) -> writable handle],
    [add_chunk(handle, bytes)] and [close(handle)] of the engine. *)
Definition open_file (path : option string) (mode : string) : M world handle :=
  OsCalls.open_ X path mode.

Definition add_chunk (h : option handle) (data : list Byte.byte) : M world unit :=
  match h with
  | Some h => OsCalls.write h data
  | None => raise AttributeError
  end.

Definition close_file (h : option handle) : M world handle :=
  match h with
  | Some h => OsCalls.close h
  | None => raise AttributeError
  end.

End WithExternals.
End Resumable.

(** ** [StreamHandler] *)

Module Stream.
Import Py.

(** What [initialize(backend, request_hook_enabled)] reads from the
    configuration. *)
Record config : Type := {
  backend : string;
  tenant_dir : string;
  request_hook_enabled : bool;
  hook_path : string;
  hook_sudo : bool
}.

(** The attributes of the handler. [procs] lists the child process
    attributes ([proc], [openssl_proc], [tar_proc], [gunzip_proc]) that
    have been bound. *)
Record handler : Type := {
  hb : Auth.base;
  cfg : config;
  completed_resumable_file : bool;
  target_file : option Os.handle;
  custom_content_type : option string;
  path : option string;
  path_part : option string;
  chunk_order_correct : bool;
  authnz_ : option authnz;
  group_name : option string;
  res : bool;
  chunk_num : option Resumable.chunk;
  upload_id : option string;
  completed_resumable_filename : option string;
  procs : list string
}.

Definition initialize (c : config) (r : Http.request) (w0 : Os.world) : handler :=
  {| hb := Auth.start r w0; cfg := c; completed_resumable_file := false;
     target_file := None; custom_content_type := None; path := None;
     path_part := None; chunk_order_correct := true; authnz_ := None;
     group_name := None; res := false; chunk_num := None; upload_id := None;
     completed_resumable_filename := None; procs := [] |}.

Definition put_hb (v : Auth.base) (h : handler) : handler :=
  {| hb := v; cfg := cfg h;
     completed_resumable_file := completed_resumable_file h;
     target_file := target_file h;
     custom_content_type := custom_content_type h; path := path h;
     path_part := path_part h;
     chunk_order_correct := chunk_order_correct h; authnz_ := authnz_ h;
     group_name := group_name h; res := res h; chunk_num := chunk_num h;
     upload_id := upload_id h;
     completed_resumable_filename := completed_resumable_filename h;
     procs := procs h |}.

Definition put_completed_resumable_file (v : bool) (h : handler) : handler :=
  {| hb := hb h; cfg := cfg h; completed_resumable_file := v;
     target_file := target_file h;
     custom_content_type := custom_content_type h; path := path h;
     path_part := path_part h;
     chunk_order_correct := chunk_order_correct h; authnz_ := authnz_ h;
     group_name := group_name h; res := res h; chunk_num := chunk_num h;
     upload_id := upload_id h;
     completed_resumable_filename := completed_resumable_filename h;
     procs := procs h |}.

Definition put_target_file (v : option Os.handle) (h : handler) : handler :=
  {| hb := hb h; cfg := cfg h;
     completed_resumable_file := completed_resumable_file h;
     target_file := v; custom_content_type := custom_content_type h;
     path := path h; path_part := path_part h;
     chunk_order_correct := chunk_order_correct h; authnz_ := authnz_ h;
     group_name := group_name h; res := res h; chunk_num := chunk_num h;
     upload_id := upload_id h;
     completed_resumable_filename := completed_resumable_filename h;
     procs := procs h |}.

Definition put_custom_content_type (v : option string) (h : handler) : handler :=
  {| hb := hb h; cfg := cfg h;
     completed_resumable_file := completed_resumable_file h;
     target_file := target_file h; custom_content_type := v;
     path := path h; path_part := path_part h;
     chunk_order_correct := chunk_order_correct h; authnz_ := authnz_ h;
     group_name := group_name h; res := res h; chunk_num := chunk_num h;
     upload_id := upload_id h;
     completed_resumable_filename := completed_resumable_filename h;
     procs := procs h |}.

Definition put_path (v : option string) (h : handler) : handler :=
  {| hb := hb h; cfg := cfg h;
     completed_resumable_file := completed_resumable_file h;
     target_file := target_file h;
     custom_content_type := custom_content_type h; path := v;
     path_part := path_part h;
     chunk_order_correct := chunk_order_correct h; authnz_ := authnz_ h;
     group_name := group_name h; res := res h; chunk_num := chunk_num h;
     upload_id := upload_id h;
     completed_resumable_filename := completed_resumable_filename h;
     procs := procs h |}.

Definition put_path_part (v : option string) (h : handler) : handler :=
  {| hb := hb h; cfg := cfg h;
     completed_resumable_file := completed_resumable_file h;
     target_file := target_file h;
     custom_content_type := custom_content_type h; path := path h;
     path_part := v; chunk_order_correct := chunk_order_correct h;
     authnz_ := authnz_ h; group_name := group_name h; res := res h;
     chunk_num := chunk_num h; upload_id := upload_id h;
     completed_resumable_filename := completed_resumable_filename h;
     procs := procs h |}.

Definition put_chunk_order_correct (v : bool) (h : handler) : handler :=
  {| hb := hb h; cfg := cfg h;
     completed_resumable_file := completed_resumable_file h;
     target_file := target_file h;
     custom_content_type := custom_content_type h; path := path h;
     path_part := path_part h; chunk_order_correct := v;
     authnz_ := authnz_ h; group_name := group_name h; res := res h;
     chunk_num := chunk_num h; upload_id := upload_id h;
     completed_resumable_filename := completed_resumable_filename h;
     procs := procs h |}.

Definition put_authnz_ (v : option authnz) (h : handler) : handler :=
  {| hb := hb h; cfg := cfg h;
     completed_resumable_file := completed_resumable_file h;
     target_file := target_file h;
     custom_content_type := custom_content_type h; path := path h;
     path_part := path_part h;
     chunk_order_correct := chunk_order_correct h; authnz_ := v;
     group_name := group_name h; res := res h; chunk_num := chunk_num h;
     upload_id := upload_id h;
     completed_resumable_filename := completed_resumable_filename h;
     procs := procs h |}.

Definition put_group_name (v : option string) (h : handler) : handler :=
  {| hb := hb h; cfg := cfg h;
     completed_resumable_file := completed_resumable_file h;
     target_file := target_file h;
     custom_content_type := custom_content_type h; path := path h;
     path_part := path_part h;
     chunk_order_correct := chunk_order_correct h; authnz_ := authnz_ h;
     group_name := v; res := res h; chunk_num := chunk_num h;
     upload_id := upload_id h;
     completed_resumable_filename := completed_resumable_filename h;
     procs := procs h |}.

Definition put_res (v : bool) (h : handler) : handler :=
  {| hb := hb h; cfg := cfg h;
     completed_resumable_file := completed_resumable_file h;
     target_file := target_file h;
     custom_content_type := custom_content_type h; path := path h;
     path_part := path_part h;
     chunk_order_correct := chunk_order_correct h; authnz_ := authnz_ h;
     group_name := group_name h; res := v; chunk_num := chunk_num h;
     upload_id := upload_id h;
     completed_resumable_filename := completed_resumable_filename h;
     procs := procs h |}.

Definition put_chunk_num (v : option Resumable.chunk) (h : handler) : handler :=
  {| hb := hb h; cfg := cfg h;
     completed_resumable_file := completed_resumable_file h;
     target_file := target_file h;
     custom_content_type := custom_content_type h; path := path h;
     path_part := path_part h;
     chunk_order_correct := chunk_order_correct h; authnz_ := authnz_ h;
     group_name := group_name h; res := res h; chunk_num := v;
     upload_id := upload_id h;
     completed_resumable_filename := completed_resumable_filename h;
     procs := procs h |}.

Definition put_upload_id (v : option string) (h : handler) : handler :=
  {| hb := hb h; cfg := cfg h;
     completed_resumable_file := completed_resumable_file h;
     target_file := target_file h;
     custom_content_type := custom_content_type h; path := path h;
     path_part := path_part h;
     chunk_order_correct := chunk_order_correct h; authnz_ := authnz_ h;
     group_name := group_name h; res := res h; chunk_num := chunk_num h;
     upload_id := v;
     completed_resumable_filename := completed_resumable_filename h;
     procs := procs h |}.

Definition put_completed_resumable_filename (v : option string) (h : handler) : handler :=
  {| hb := hb h; cfg := cfg h;
     completed_resumable_file := completed_resumable_file h;
     target_file := target_file h;
     custom_content_type := custom_content_type h; path := path h;
     path_part := path_part h;
     chunk_order_correct := chunk_order_correct h; authnz_ := authnz_ h;
     group_name := group_name h; res := res h; chunk_num := chunk_num h;
     upload_id := upload_id h; completed_resumable_filename := v;
     procs := procs h |}.

Definition put_procs (v : list string) (h : handler) : handler :=
  {| hb := hb h; cfg := cfg h;
     completed_resumable_file := completed_resumable_file h;
     target_file := target_file h;
     custom_content_type := custom_content_type h; path := path h;
     path_part := path_part h;
     chunk_order_correct := chunk_order_correct h; authnz_ := authnz_ h;
     group_name := group_name h; res := res h; chunk_num := chunk_num h;
     upload_id := upload_id h;
     completed_resumable_filename := completed_resumable_filename h;
     procs := v |}.

Definition base {A} (c : M Auth.base A) : M handler A := zoom hb put_hb c.
Definition os {A} (c : M Os.world A) : M handler A := base (Auth.os c).

(** The content types [prepare] has a branch for. *)
Definition custom_types : list string :=
  ["application/aes"; "application/aes-octet-stream"; "application/tar";
   "application/tar.gz"; "application/tar.aes"; "application/tar.gz.aes";
   "application/gz"; "application/gz.aes"].

(** [filemodes = {'POST': 'ab+', 'PUT': 'wb+', 'PATCH': 'wb+'}]. *)
Definition filemodes : list (string * string) :=
  [("POST", "ab+"); ("PUT", "wb+"); ("PATCH", "wb+")].

Definition filemode_of (method : string) : option string :=
  snd <$> find (fun kv => String.eqb (fst kv) method) filemodes.

(** [uri.split('?')[0].split('/')[-1]]. *)
Definition uri_filename_of (uri : string) : option string :=
  Py.split "?" uri !! 0%nat ≫= fun q => Py.last_item (Py.split "/" q).

Definition claim_str (c : option Os.claim) : string :=
  match c with
  | Some (Os.CStr s) => s
  | _ => ""
  end.

Section WithExternals.
Context (X : externals) (opts : options).

(** [self.target_file.close()]. *)
Definition close_target : M handler unit :=
  let! t := gets target_file in
  match t with
  | Some f =>
      let! f' := os (OsCalls.close f) in
      modify (put_target_file (Some f'))
  | None => raise AttributeError
  end.

(** [os.rename(self.path, self.path_part)]. *)
Definition rename_path_to_path_part : M handler unit :=
  let! p := gets path in
  let! pp := gets path_part in
  os (OsCalls.rename p pp).

(** [aes_decryption_args_from_headers]. *)
Definition aes_decryption_args_from_headers : M handler (list string) :=
  let! decr_aes_key :=
    try_except
      (let! k := base (Auth.header "Aes-Key") in
       let! d := of_option Exception (decrypt_aes_key X k) in
       ret (Some d))
      [Exception]
      (fun _ => ret None) in
  let! has_iv := base (Auth.has_header "Aes-Iv") in
  if has_iv
  then
    let! iv := base (Auth.header "Aes-Iv") in
    let! k := of_option UnboundLocalError decr_aes_key in
    ret ["-iv"; iv; "-K"; k]
  else
    let! k := of_option UnboundLocalError decr_aes_key in
    ret ["-pass"; "pass:" ++ k].

(** [start_openssl_proc(output_file, base64)]. *)
Definition start_openssl_proc (output_file : option string) (base64 : bool)
    : M handler unit :=
  let! args := aes_decryption_args_from_headers in
  let cmd := (["openssl"; "enc"; "-aes-256-cbc"; "-d"] ++ args)%list in
  let cmd := match output_file with
             | Some o => (cmd ++ ["-out"; o])%list
             | None => cmd
             end in
  let cmd := if base64 then (cmd ++ ["-a"])%list else cmd in
  os (OsCalls.popen cmd).

Definition bind_proc (name : string) : M handler unit :=
  let! ps := gets procs in
  modify (put_procs (ps ++ [name])%list).

Definition tarflags (content_type : string) : string :=
  if Py.contains "gz" content_type then "-xzf" else "-xf".

Definition handle_aes (content_type : string) : M handler unit :=
  do! modify (put_custom_content_type (Some content_type)) in
  let! p := gets path in
  do! start_openssl_proc p true in
  bind_proc "proc".

Definition handle_aes_octet_stream (content_type : string) : M handler unit :=
  do! modify (put_custom_content_type (Some "application/aes")) in
  let! p := gets path in
  do! start_openssl_proc p false in
  bind_proc "proc".

Definition handle_tar (content_type tenant_dir : string) : M handler unit :=
  do! modify (put_custom_content_type (Some content_type)) in
  do! os (OsCalls.popen ["tar"; "-C"; tenant_dir; tarflags content_type; "-"]) in
  bind_proc "proc".

Definition handle_tar_aes (content_type tenant_dir : string) : M handler unit :=
  do! modify (put_custom_content_type (Some content_type)) in
  do! start_openssl_proc None true in
  do! bind_proc "openssl_proc" in
  do! os (OsCalls.popen ["tar"; "-C"; tenant_dir; tarflags content_type; "-"]) in
  bind_proc "tar_proc".

Definition open_target (filemode : string) : M handler unit :=
  let! p := gets path in
  let! f := os (OsCalls.open_ X p filemode) in
  modify (put_target_file (Some f)).

Definition handle_gz (content_type filemode : string) : M handler unit :=
  do! modify (put_custom_content_type (Some content_type)) in
  do! open_target filemode in
  do! os (OsCalls.popen ["gunzip"; "-c"; "-"]) in
  bind_proc "gunzip_proc".

Definition handle_gz_aes (content_type filemode : string) : M handler unit :=
  do! modify (put_custom_content_type (Some content_type)) in
  do! open_target filemode in
  do! start_openssl_proc None true in
  do! bind_proc "openssl_proc" in
  do! os (OsCalls.popen ["gunzip"; "-c"; "-"]) in
  bind_proc "gunzip_proc".

(** The [PATCH] branch of [prepare]: set up the resumable and return
    the file name to write. *)
Definition prepare_resumable (filename : string) : M handler string :=
  do! modify (put_res true) in
  let! url_chunk_num := url_unescape X <$$> base (Auth.get_query_argument "chunk") in
  let! url_upload_id := url_unescape X <$$> base (Auth.get_query_argument "id") in
  let! url_group := url_unescape X <$$> base (Auth.get_query_argument "group") in
  let! td := gets (fun h => tenant_dir (cfg h)) in
  let! requestor := base (fun b => of_option AttributeError (Auth.requestor b) b) in
  let! '(c, id, completed, order_ok, filename') :=
    os (Resumable.prepare X td filename url_chunk_num (Some url_upload_id)
          url_group requestor) in
  do! modify (put_chunk_num (Some c)) in
  do! modify (put_upload_id (Some id)) in
  do! modify (put_completed_resumable_file completed) in
  do! modify (put_chunk_order_correct order_ok) in
  if negb order_ok then raise Exception else ret filename'.

(** The part of [prepare] that stages the target: compute
    [self.path] and [self.path_part], move an existing file out of
    the way, and swap the two names. *)
Definition stage (filename : string) : M handler unit :=
  let! td := gets (fun h => tenant_dir (cfg h)) in
  let p := normpath X (td ++ "/" ++ filename) in
  do! modify (put_path (Some p)) in
  let! u := os (OsCalls.fresh_uuid X) in
  let pp := p ++ "." ++ u ++ ".part" in
  do! modify (put_path_part (Some pp)) in
  let! part_exists := os (OsCalls.lexists pp) in
  if part_exists then raise Exception
  else
    let! exists_ := os (OsCalls.lexists p) in
    do! (if exists_
         then
           let! d := os (OsCalls.isdir p) in
           if d then os (OsCalls.rmtree p)
           else
             do! os (OsCalls.rename (Some p) (Some pp)) in
             let! e1 := os (OsCalls.lexists pp) in
             do! assert e1 in
             let! e2 := os (OsCalls.lexists p) in
             assert (negb e2)
         else ret tt) in
    do! modify (put_path (Some pp)) in
    modify (put_path_part (Some p)).

(** The dispatch of [prepare] on the content type. *)
Definition dispatch (content_type filemode : string) : M handler unit :=
  let! td := gets (fun h => tenant_dir (cfg h)) in
  let! method := gets (fun h => Http.method (Auth.req (hb h))) in
  if String.eqb content_type "application/aes" then handle_aes content_type
  else if String.eqb content_type "application/aes-octet-stream"
  then handle_aes_octet_stream content_type
  else if Py.mem content_type ["application/tar"; "application/tar.gz"]
  then handle_tar content_type td
  else if Py.mem content_type ["application/tar.aes"; "application/tar.gz.aes"]
  then handle_tar_aes content_type td
  else if String.eqb content_type "application/gz" then handle_gz content_type filemode
  else if String.eqb content_type "application/gz.aes"
  then handle_gz_aes content_type filemode
  else
    if negb (String.eqb method "PATCH")
    then
      do! modify (put_custom_content_type None) in
      do! open_target filemode in
      let! p := gets path in
      os (OsCalls.chmod p Os._RW______)
    else
      do! modify (put_custom_content_type None) in
      let! completed := gets completed_resumable_file in
      if negb completed
      then
        let! p := gets path in
        let! f := os (Resumable.open_file X p filemode) in
        modify (put_target_file (Some f))
      else ret tt.

(** [prepare]. *)
Definition prepare : M handler unit :=
  try_except
    (do! modify (put_completed_resumable_file false) in
     do! modify (put_target_file None) in
     do! modify (put_custom_content_type None) in
     do! modify (fun h => put_path_part None (put_path None h)) in
     do! modify (put_chunk_order_correct true) in
     do! try_except
           (let! a := base (Auth.process_token_and_extract_claims X opts) in
            modify (put_authnz_ (Some a)))
           [Exception]
           (fun _ => raise Exception) in
     try_except
       (let! uri := gets (fun h => Http.uri (Auth.req (hb h))) in
        let! method := gets (fun h => Http.method (Auth.req (hb h))) in
        let! tenant :=
          try_except
            (let! t := of_option Exception (tenant_from_url X uri) in
             do! base (modify (Auth.put_tenant t)) in
             do! assert (valid_tenant opts t) in
             ret t)
            [AssertionError]
            (fun e => raise e) in
        do! try_except
              (let! g := base (Auth.get_query_argument "group") in
               modify (put_group_name (Some (url_unescape X g))))
              [Exception]
              (fun _ => modify (put_group_name (Some (tenant ++ "-member-group")))) in
        let! filemode := of_option KeyError (filemode_of method) in
        try_except
          (let! content_type := base (Auth.header "Content-Type") in
           let! uri_filename := of_option IndexError (uri_filename_of uri) in
           let! filename :=
             of_option Exception
               (check_filename X (url_unescape X uri_filename) (start_chars opts)) in
           let! filename :=
             if String.eqb method "PATCH" then prepare_resumable filename
             else ret filename in
           do! stage filename in
           dispatch content_type filemode)
          [KeyError]
          (fun _ => raise Exception))
       [Exception]
       (fun _ =>
          try_except
            (let! t := gets target_file in
             do! (match t with
                  | Some _ => close_target
                  | None => ret tt
                  end) in
             rename_path_to_path_part)
            [AttributeError]
            (fun _ => ret tt)))
    [Exception]
    (fun _ =>
       let! ok := gets chunk_order_correct in
       do! (if negb ok then base (Auth.set_status 200) else ret tt) in
       let info := if negb ok then "chunk_order_incorrect"
                   else "stream processing failed" in
       base (Auth.finish (Some (Http.message_body info)))).

(** [self.<proc>.stdin.write(chunk)]; the attribute must be bound. *)
Definition feed (proc : string) (chunk : list Byte.byte) : M handler unit :=
  let! ps := gets procs in
  if Py.mem proc ps then os (modify (Os.log (Os.EvStdin proc (length chunk))))
  else raise AttributeError.

(** [self.<proc>.communicate()]. *)
Definition communicate (proc : string) : M handler unit :=
  let! ps := gets procs in
  if Py.mem proc ps then os (modify (Os.log (Os.EvWait proc)))
  else raise AttributeError.

(** [self.send_error("something went wrong")]: Tornado ends the
    response; the status it reports is outside this model. *)
Definition send_error : M handler unit :=
  base (modify (Auth.with_resp Http.close)).

(** [data_received(chunk)]. *)
Definition data_received (chunk : list Byte.byte) : M handler unit :=
  try_except
    (let! custom := gets custom_content_type in
     let! method := gets (fun h => Http.method (Auth.req (hb h))) in
     match custom with
     | None =>
         let! t := gets target_file in
         if String.eqb method "PATCH" then os (Resumable.add_chunk t chunk)
         else
           match t with
           | Some f => os (OsCalls.write f chunk)
           | None => raise AttributeError
           end
     | Some ct =>
         if negb (Py.truthy ct)
         then
           let! t := gets target_file in
           if String.eqb method "PATCH" then os (Resumable.add_chunk t chunk)
           else
             match t with
             | Some f => os (OsCalls.write f chunk)
             | None => raise AttributeError
             end
         else if Py.mem ct ["application/tar"; "application/tar.gz"; "application/aes"]
         then feed "proc" chunk
         else if Py.mem ct ["application/tar.aes"; "application/tar.gz.aes"]
         then
           do! feed "openssl_proc" chunk in
           if FileStreamer.nonempty chunk then ret tt
           else
             (* [self.tar_proc.stdin] is [None]: the pipe was not requested *)
             raise AttributeError
         else if String.eqb ct "application/gz" then feed "gunzip_proc" chunk
         else if String.eqb ct "application/gz.aes"
         then
           do! feed "openssl_proc" chunk in
           if FileStreamer.nonempty chunk then ret tt
           else raise AttributeError
         else ret tt
     end)
    [Exception]
    (fun _ =>
       let! t := gets target_file in
       do! (match t with
            | Some _ => close_target
            | None => ret tt
            end) in
       do! rename_path_to_path_part in
       send_error).

(** The body arrives as a sequence of calls of [data_received]. *)
Fixpoint receive (chunks : list (list Byte.byte)) : M handler unit :=
  match chunks with
  | [] => ret tt
  | chunk :: rest =>
      do! data_received chunk in
      receive rest
  end.

(** [post] and [put] have the same body. *)
Definition finish_upload : M handler unit :=
  let! custom := gets custom_content_type in
  do! (let plain := do! close_target in rename_path_to_path_part in
       match custom with
       | None => plain
       | Some ct =>
           if negb (Py.truthy ct) then plain
           else if Py.mem ct ["application/tar"; "application/tar.gz"; "application/aes"]
           then
             do! communicate "proc" in
             if String.eqb ct "application/aes" then rename_path_to_path_part
             else ret tt
           else if Py.mem ct ["application/tar.aes"; "application/tar.gz.aes"]
           then
             do! communicate "openssl_proc" in
             communicate "tar_proc"
           else if String.eqb ct "application/gz"
           then
             do! communicate "gunzip_proc" in
             do! close_target in
             rename_path_to_path_part
           else if String.eqb ct "application/gz.aes"
           then
             do! communicate "openssl_proc" in
             do! communicate "gunzip_proc" in
             do! close_target in
             rename_path_to_path_part
           else ret tt
       end) in
  do! base (Auth.set_status 201) in
  base (Auth.write (Http.message_body "data streamed")).

Definition post : M handler unit := finish_upload.
Definition put : M handler unit := finish_upload.

(** [call_request_hook(self.hook_path, [path, self.requestor,
    options.api_user, self.group_name], as_sudo=self.hook_sudo)]. *)
Definition call_hook (path : option string) : M handler unit :=
  let! c := gets cfg in
  if request_hook_enabled c
  then
    let! requestor := base (gets Auth.requestor) in
    let! g := gets group_name in
    os (modify (Os.log (Os.EvHook (hook_path c)
                          [default "" path; claim_str requestor;
                           api_user opts; default "" g]
                          (hook_sudo c))))
  else ret tt.

(** [self.target_file.closed]. *)
Definition target_closed : M handler bool :=
  let! t := gets target_file in
  match t with
  | Some f => ret (Os.fh_closed f)
  | None => raise AttributeError
  end.

(** [on_finish]. *)
Definition on_finish : M handler unit :=
  do! try_except
        (let! closed := target_closed in
         if negb closed
         then
           do! close_target in
           rename_path_to_path_part
         else ret tt)
        [AttributeError]
        (fun _ => ret tt) in
  let! method := gets (fun h => Http.method (Auth.req (hb h))) in
  let! is_end :=
    if Py.mem method ["PUT"; "POST"] then ret true
    else if String.eqb method "PATCH"
    then
      let! c := gets chunk_num in
      match c with
      | Some c => ret (bool_decide (c = Resumable.CEnd))
      | None => raise AttributeError
      end
    else ret false in
  if is_end
  then
    try_except
      (let! completed := gets completed_resumable_file in
       let! path :=
         if negb completed then gets path_part
         else
           let! f := gets completed_resumable_filename in
           match f with
           | Some f => ret (Some f)
           | None => raise AttributeError
           end in
       let! c := gets cfg in
       let! tenant := base (fun b => of_option AttributeError (Auth.tenant b) b) in
       if String.eqb (backend c) "cluster" && negb (String.eqb tenant "p01")
       then ret tt
       else call_hook path)
      [Exception]
      (fun _ => ret tt)
  else ret tt.

(** [on_connection_close]. The name [tenant] in its condition is
    bound nowhere: evaluating it raises [NameError], which happens
    exactly when the left operand of [and] is true. *)
Definition on_connection_close : M handler unit :=
  try_except
    (let! closed := target_closed in
     if negb closed
     then
       do! close_target in
       let! path := gets path in
       let! c := gets cfg in
       if String.eqb (backend c) "cluster"
       then raise NameError
       else call_hook path
     else ret tt)
    [AttributeError]
    (fun _ => ret tt).

End WithExternals.
End Stream.

(** ** [ProxyHandler] *)

Module Proxy.
Import Py.

(** The arguments of [AsyncHTTPClient().fetch]. *)
Record fetch : Type := {
  f_url : string;
  f_method : string;
  f_headers : list (string * string);
  f_body_producer : bool
}.

Record handler : Type := {
  hb : Auth.base;
  storage_backend : string;
  filename : option string;
  fetch_future : option fetch
}.

Definition initialize (backend : string) (r : Http.request) (w0 : Os.world) : handler :=
  {| hb := Auth.start r w0; storage_backend := backend; filename := None;
     fetch_future := None |}.

Definition put_hb (b : Auth.base) (h : handler) : handler :=
  {| hb := b; storage_backend := storage_backend h; filename := filename h;
     fetch_future := fetch_future h |}.

Definition put_filename (f : string) (h : handler) : handler :=
  {| hb := hb h; storage_backend := storage_backend h; filename := Some f;
     fetch_future := fetch_future h |}.

Definition put_fetch_future (f : fetch) (h : handler) : handler :=
  {| hb := hb h; storage_backend := storage_backend h; filename := filename h;
     fetch_future := Some f |}.

Definition base {A} (c : M Auth.base A) : M handler A := zoom hb put_hb c.
Definition os {A} (c : M Os.world A) : M handler A := base (Auth.os c).

(** [group_name in group_memberships]. *)
Definition member (g : string) (c : Os.claim) : bool :=
  match c with
  | Os.CList l => Py.mem g l
  | Os.CStr s => Py.contains g s
  end.

(** ['%s' % v] for a value that may be [None]. *)
Definition fmt (o : option string) : string := default "None" o.

Section WithExternals.
Context (X : externals) (opts : options).

(** Step 4 of [prepare]: set the filename. *)
Definition set_the_filename : M handler unit :=
  try_except
    (let! uri := gets (fun h => Http.uri (Auth.req (hb h))) in
     let uri_parts := Py.split "/" uri in
     if (6 <=? length uri_parts)%nat
     then
       let! basename := of_option IndexError (Py.last_item uri_parts) in
       let! filename := of_option IndexError (Py.split "?" basename !! 0%nat) in
       let! f := of_option Exception
                   (check_filename X (url_unescape X filename) (start_chars opts)) in
       modify (put_filename f)
     else
       let! hf := base (Auth.header "Filename") in
       let! f := of_option Exception (check_filename X hf (start_chars opts)) in
       modify (put_filename f))
    [KeyError]
    (fun _ =>
       let! now := os (OsCalls.now_isoformat X) in
       modify (put_filename (now ++ ".txt"))).

(** Step 5 of [prepare]: choose the group and the memberships. *)
Definition choose_group (authnz_status : authnz) (tenant : string)
    : M handler (string * Os.claim) :=
  try_except
    (let! group_memberships :=
       of_option KeyError (az_claims authnz_status !! "groups") in
     let! group_name :=
       try_except
         (url_unescape X <$$> base (Auth.get_query_argument "group"))
         [Exception]
         (fun _ => ret (tenant ++ "-member-group")) in
     ret (group_name, group_memberships))
    [Exception]
    (fun _ =>
       let group_name := tenant ++ "-member-group" in
       ret (group_name, Os.CList [group_name])).

(** The group and the memberships [choose_group] settles on. *)
Definition chosen_group (authnz_status : authnz) (tenant : string)
    (q : gmap string string) : string * Os.claim :=
  match az_claims authnz_status !! "groups" with
  | Some group_memberships =>
      (match q !! "group" with
       | Some g => url_unescape X g
       | None => tenant ++ "-member-group"
       end, group_memberships)
  | None => (tenant ++ "-member-group", Os.CList [tenant ++ "-member-group"])
  end.

(** Step 6 of [prepare]: the headers of the internal request. *)
Definition internal_headers : M handler (list (string * string)) :=
  let! hs := gets (fun h => Http.headers (Auth.req (hb h))) in
  let content_type := default "application/octet-stream" (hs !! "Content-Type") in
  let! jwt := base (fun b => of_option AttributeError (Auth.jwt b) b) in
  let bearer := "Bearer " ++ jwt in
  let copy (k : string) : list (string * string) :=
    match hs !! k with
    | Some v => [(k, v)]
    | None => []
    end in
  ret ([("Authorization", bearer); ("Content-Type", content_type)]
         ++ copy "Aes-Key" ++ copy "Aes-Iv" ++ copy "Pragma")%list.

(** Step 7 of [prepare]: [chunk_num] and [upload_id] stay [None]
    from the first missing query argument on. *)
Definition chunk_and_id : M handler (option string * option string) :=
  let! q := gets (fun h => Http.query (Auth.req (hb h))) in
  match q !! "chunk" with
  | None => ret (None, None)
  | Some c =>
      match q !! "id" with
      | None => ret (Some (url_unescape X c), None)
      | Some i => ret (Some (url_unescape X c), Some (url_unescape X i))
      end
  end.

(** [prepare]. *)
Definition prepare : M handler unit :=
  try_except
    (let! method := gets (fun h => Http.method (Auth.req (hb h))) in
     let body := negb (String.eqb method "HEAD") in
     let! authnz_status := base (Auth.process_token_and_extract_claims X opts) in
     let! uri := gets (fun h => Http.uri (Auth.req (hb h))) in
     let! tenant := of_option Exception (tenant_from_url X uri) in
     do! assert (valid_tenant opts tenant) in
     do! set_the_filename in
     let! '(group_name, group_memberships) := choose_group authnz_status tenant in
     do! assert (IS_VALID_GROUPNAME X group_name) in
     let! g0 := of_option IndexError (Py.split "-" group_name !! 0%nat) in
     do! assert (String.eqb tenant g0) in
     do! assert (member group_name group_memberships) in
     let! headers := internal_headers in
     let! '(chunk_num, upload_id) := chunk_and_id in
     let params := "?group=" ++ group_name ++ "&chunk=" ++ fmt chunk_num
                   ++ "&id=" ++ fmt upload_id in
     let! f := gets filename in
     let! f := of_option AttributeError f in
     let filename := url_escape X f in
     let! backend := gets storage_backend in
     let internal_url :=
       "http://localhost:" ++ str_of_int X (port opts) ++ "/v1/" ++ tenant ++ "/"
       ++ backend ++ "/upload_stream/" ++ filename ++ params in
     modify (put_fetch_future
               {| f_url := internal_url; f_method := method;
                  f_headers := headers; f_body_producer := body |}))
    [Exception]
    (fun _ =>
       do! base (Auth.set_status 401) in
       base (Auth.finish (Some (Http.message_body "Request failed")))).

End WithExternals.
End Proxy.

(** ** The helpers of [utils] that the spec describes *)

Module Utils.

(** Modelled from the spec: [utils.tenant_from_url], which is not part
    of [api.py]. The spec (4.1) says it returns the tenant segment by
    its position in the path; every route is [/v1/<tenant>/...]. *)
Definition tenant_from_url (uri : string) : option string :=
  Py.split "/" uri !! 2%nat.

(** Modelled from the spec: [utils.check_filename], which is not part
    of [api.py]. The spec (4.3) rejects a name that contains [/] or
    [..], or that begins with a character of the disallowed set. *)
Definition check_filename (name disallowed : string) : option string :=
  if Py.contains "/" name || Py.contains ".." name
     || match name with
        | String c _ => Py.contains (String c EmptyString) disallowed
        | EmptyString => false
        end
  then None
  else Some name.

End Utils.

(** ** A concrete deployment

    Stand-ins for the imported functions, used to run the handlers on
    concrete requests. *)

Module Demo.
Import Py.

(** [auth.process_access_token] is a stand-in: the token [good] is
    accepted, every other token is refused. *)
Definition accept_good (auth_header tenant : string)
    (check_tenant check_exp : bool) (tenant_claim_name : string) : option authnz :=
  let claims : gmap string Os.claim :=
    {[ "user" := Os.CStr "p11-alice";
       "groups" := Os.CList [tenant ++ "-member-group"] ]} in
  if String.eqb auth_header "Bearer good"
  then Some {| az_status := true; az_claims := claims; az_reason := None |}
  else Some {| az_status := false; az_claims := claims;
               az_reason := Some "token not accepted" |}.

Definition show (z : Z) : string := pretty.pretty z.

Definition X : externals :=
  {| tenant_from_url := Utils.tenant_from_url;
     process_access_token := accept_good;
     check_filename := Utils.check_filename;
     IS_VALID_GROUPNAME := fun g => Py.contains "-" g;
     decrypt_aes_key := fun k => Some k;
     url_unescape := fun s => s;
     url_escape := fun s => s;
     md5_hexdigest := fun s => "md5:" ++ s;
     str_of_mtime := show;
     isoformat := fun t => "T" ++ show t;
     getpwuid := fun u => Some ("uid" ++ show u);
     normpath := fun p => p;
     magic_from_file := fun n => if Os.n_dir n then None else Some "text/plain";
     uuid4 := fun n => "uuid" ++ show (Z.of_nat n);
     str_of_int := show;
     creat_mode := 420;
     creat_uid := 1000 |}.

Definition opts (chunk : Z) : options :=
  {| port := 3003;
     api_user := "api";
     check_tenant := true;
     check_exp := true;
     start_chars := ".~";
     requestor_claim_name := "user";
     tenant_claim_name := "proj";
     export_chunk_size := chunk;
     export_max_num_list := 100;
     valid_tenant := fun t => String.prefix "p" t |}.

Definition policies : gmap string policy :=
  {[ "default" := {| p_enabled := false; p_allowed_mime_types := ["*"];
                     p_max_size := None |} ]}.

Definition file (data : string) (mode mtime : Z) : Os.node :=
  {| Os.n_dir := false; Os.n_data := Os.bytes data; Os.n_mode := mode;
     Os.n_mtime := mtime; Os.n_uid := 1000 |}.

Definition dir (mode mtime : Z) : Os.node :=
  {| Os.n_dir := true; Os.n_data := []; Os.n_mode := mode;
     Os.n_mtime := mtime; Os.n_uid := 1000 |}.

Definition world_of (files : gmap string Os.node) : Os.world :=
  {| Os.fs := files; Os.uploads := ∅; Os.trace := []; Os.clock := 1700000000;
     Os.uuid_next := 0 |}.

Definition request_of (method uri : string) (headers query : list (string * string))
    : Http.request :=
  {| Http.method := method; Http.uri := uri;
     Http.headers := list_to_map headers; Http.query := list_to_map query |}.

End Demo.

(** ** Frame judgments

    [preserves R c]: every run of [c], returning or raising, takes a
    state to an [R]-related state. [on_ret R c]: every run of [c] that
    returns does. [always_raises c]: no run of [c] returns. *)

Definition preserves {S A} (R : relation S) (c : Py.M S A) : Prop :=
  forall s, R s (snd (c s)).

Definition on_ret {S A} (R : relation S) (c : Py.M S A) : Prop :=
  forall s a s', c s = (Py.Ret a, s') -> R s s'.

Definition always_raises {S A} (c : Py.M S A) : Prop :=
  forall s, exists e s', c s = (Py.Raise e, s').

(** ** What an export request may do to the world *)

(** Events that neither read a MIME type nor run a command. *)
Definition benign (e : Os.event) : bool :=
  match e with
  | Os.EvMagic _ | Os.EvCall _ => false
  | _ => true
  end.

(** In a run of events, libmagic reads a file only right after
    [sudo chmod go+r] has been run on it. *)
Definition chmod_first (evs : list Os.event) : Prop :=
  forall i f, evs !! i = Some (Os.EvMagic f) ->
    exists j, i = S j /\ evs !! j = Some (Os.EvCall ["sudo"; "chmod"; "go+r"; f]).

(** The reads [get_file_metadata] may log, in order. *)
Definition metadata_events (f : string) (evs : list Os.event) : Prop :=
  evs = [] \/ evs = [Os.EvMagic f] \/ evs = [Os.EvMagic f; Os.EvStat f].

Definition same_fs : relation Os.world :=
  fun w w' => Os.fs w' = Os.fs w.

Definition chmod_precedes : relation Os.world :=
  fun w w' => exists evs, Os.trace w' = (Os.trace w ++ evs)%list /\ chmod_first evs.

(** The relation between the handler before and after: the backend is
    kept, and on the backends selected by [P] the worlds are related by
    [Rw]. *)
Definition framed (P : string -> Prop) (Rw : relation Os.world)
    : relation FileStreamer.handler :=
  fun h h' =>
    FileStreamer.backend h' = FileStreamer.backend h /\
    (P (FileStreamer.backend h) ->
     Rw (Auth.w (FileStreamer.hb h)) (Auth.w (FileStreamer.hb h'))).

(** The directories of two worlds are the same. *)
Definition same_dirs : relation Os.world :=
  fun w w' => forall p, Os.n_dir <$> (Os.fs w' !! p) = Os.n_dir <$> (Os.fs w !! p).

(** The handler has touched neither the response nor [self.filepath];
    the directories are the same. *)
Definition quiet : relation FileStreamer.handler :=
  fun h h' =>
    Auth.resp (FileStreamer.hb h') = Auth.resp (FileStreamer.hb h) /\
    Auth.req (FileStreamer.hb h') = Auth.req (FileStreamer.hb h) /\
    same_dirs (Auth.w (FileStreamer.hb h)) (Auth.w (FileStreamer.hb h')) /\
    FileStreamer.filepath h' = FileStreamer.filepath h.

(** The [filename] field of an entry of the listing. *)
Definition entry_filename (o : Http.jobj) : option string :=
  match o with
  | ("filename", Http.JStr f) :: _ => Some f
  | _ => None
  end.

(** The Etag of the file at [p]: [md5(str(mtime))]. *)
Definition current_etag (X : externals) (w : Os.world) (p : string) : option string :=
  (fun n => md5_hexdigest X (str_of_mtime X (Os.n_mtime n))) <$> (Os.fs w !! p).

(** A plain [PUT] or [POST] in progress: the open file is the staged
    name [self.path], which holds [data]; nothing is under the visible
    name [self.path_part]. *)
Definition uploading (h : Stream.handler) (staged visible mode : string)
    (data : list Byte.byte) : Prop :=
  Stream.target_file h
  = Some {| Os.fh_path := staged; Os.fh_mode := mode; Os.fh_closed := false |} /\
  Stream.custom_content_type h = None /\
  Http.method (Auth.req (Stream.hb h)) <> "PATCH" /\
  Stream.path h = Some staged /\
  Stream.path_part h = Some visible /\
  staged <> visible /\
  Os.fs (Auth.w (Stream.hb h)) !! visible = None /\
  Os.n_data <$> (Os.fs (Auth.w (Stream.hb h)) !! staged) = Some data.

(** No rename among the events. *)
Definition no_rename (evs : list Os.event) : Prop :=
  forall a b, ~ In (Os.EvRename a b) evs.

(** ** Concrete requests *)

Module Scenario.

(** The export directory of scenario S3: [report.txt] holds the ten
    bytes [0123456789]; [sub] is a directory. *)
Definition export_world : Os.world :=
  Demo.world_of
    {[ "/exp" := Demo.dir 493 1;
       "/exp/report.txt" := Demo.file "0123456789" 384 5;
       "/exp/sub" := Demo.dir 493 7 ]}.

Definition export_get (backend : string) (headers : list (string * string))
    : Http.request :=
  Demo.request_of "GET" ("/v1/p11/" ++ backend ++ "/export/report.txt") headers [].

(** [GET report.txt] with the given headers, on the backend
    [backend], with [export_chunk_size = chunk]. *)
Definition run_get (backend : string) (chunk : Z) (headers : list (string * string))
    : Py.outcome unit * FileStreamer.handler :=
  FileStreamer.get Demo.X (Demo.opts chunk) "p11" (Some "report.txt")
    (FileStreamer.initialize (Demo.opts chunk) backend "/exp" Demo.policies
       (export_get backend headers) export_world).

Definition response_of (r : Py.outcome unit * FileStreamer.handler) : Http.response :=
  Auth.resp (FileStreamer.hb (snd r)).

(** The listing of the export directory. *)
Definition run_list (backend : string) : Py.outcome unit * FileStreamer.handler :=
  FileStreamer.get Demo.X (Demo.opts 512) "p11" None
    (FileStreamer.initialize (Demo.opts 512) backend "/exp" Demo.policies
       (Demo.request_of "GET" ("/v1/p11/" ++ backend ++ "/export")
          [("Authorization", "Bearer good")] [])
       export_world).

(** A proxy upload without a file name: [PUT /v1/p11/files/stream]. *)
Definition proxy_put : Http.request :=
  Demo.request_of "PUT" "/v1/p11/files/stream" [("Authorization", "Bearer good")] [].

Definition good_authnz : authnz :=
  {| az_status := true;
     az_claims := {[ "user" := Os.CStr "p11-alice";
                     "groups" := Os.CList ["p11-member-group"] ]};
     az_reason := None |}.

(** The import directory of the [files] backend, with one file, and a
    resumable upload [u1] of [big.bin] whose chunks 1 and 2 are merged
    (scenario S2). *)
Definition stream_cfg : Stream.config :=
  {| Stream.backend := "files"; Stream.tenant_dir := "/imp";
     Stream.request_hook_enabled := true; Stream.hook_path := "/hook";
     Stream.hook_sudo := true |}.

Definition upload_u1 : Os.upload :=
  {| Os.u_target := "big.bin"; Os.u_owner := Os.CStr "p11-alice";
     Os.u_group := "p11-member-group"; Os.u_last := 2; Os.u_merged := 8 |}.

Definition import_world : Os.world :=
  Os.with_uploads (fun _ => {[ "u1" := upload_u1 ]})
    (Demo.world_of
       {[ "/imp" := Demo.dir 493 1; "/imp/old.txt" := Demo.file "old" 420 5 ]}).

Definition stream_headers : list (string * string) :=
  [("Authorization", "Bearer good"); ("Content-Type", "application/octet-stream")].

(** [PATCH big.bin?chunk=<chunk>&id=u1&group=p11-member-group]. *)
Definition patch_chunk (chunk : string) : Http.request :=
  Demo.request_of "PATCH"
    ("/v1/p11/files/upload_stream/big.bin?chunk=" ++ chunk
     ++ "&id=u1&group=p11-member-group")
    stream_headers
    [("chunk", chunk); ("id", "u1"); ("group", "p11-member-group")].

(** [PUT] or [POST] of [old.txt]. *)
Definition upload_old (method : string) : Http.request :=
  Demo.request_of method "/v1/p11/files/upload_stream/old.txt" stream_headers [].

Definition prepared (r : Http.request) : Py.outcome unit * Stream.handler :=
  Stream.prepare Demo.X (Demo.opts 512) (Stream.initialize stream_cfg r import_world).

End Scenario.

(** ** The export policy as a decision *)

(** The policy that [enforce_export_policy] applies to a tenant: the
    tenant's own entry of the configuration, else the entry [default]. *)
Definition policy_for (policy_config : gmap string policy) (tenant : string)
    : option policy :=
  match policy_config !! tenant with
  | Some p => Some p
  | None => policy_config !! "default"
  end.

(** [mime_type in policy['allowed_mime_types']], with the wildcard. *)
Definition mime_allowed (p : policy) (mime_type : string) : bool :=
  Py.mem "*" (p_allowed_mime_types p) || Py.mem mime_type (p_allowed_mime_types p).

(** The value [enforce_export_policy] returns for a file whose name is
    [legal], under the policy [p]. *)
Definition export_verdict (legal : bool) (p : policy) (size : Z) (mime_type : string)
    : bool :=
  legal &&
  (negb (p_enabled p)
   || (mime_allowed p mime_type && negb (FileStreamer.exceeds (p_max_size p) size))).

(** The message it leaves in [self.message] when it returns [False]. *)
Definition refusal_reason (legal : bool) (p : policy) (file tenant : string)
    (size : Z) (mime_type : string) : string :=
  if negb legal then "Illegal export filename: " ++ file
  else if FileStreamer.exceeds (p_max_size p) size
       then "File size exceeds maximum allowed for " ++ tenant
       else "not allowed to export file with MIME type: " ++ mime_type.

(** ** More concrete requests *)

Module Cases.

(** An export policy for the tenant [p11]: text files of at most five
    bytes; every other tenant is unrestricted. *)
Definition policies : gmap string policy :=
  {[ "p11" := {| p_enabled := true; p_allowed_mime_types := ["text/plain"];
                 p_max_size := Some 5 |};
     "default" := {| p_enabled := false; p_allowed_mime_types := [];
                     p_max_size := None |} ]}.

(** The export handler of the backend [store] on [Scenario.export_world],
    for a request of [report.txt] with the given headers. *)
Definition export_handler (pol : gmap string policy) (chunk : Z)
    (headers : list (string * string)) : FileStreamer.handler :=
  FileStreamer.initialize (Demo.opts chunk) "store" "/exp" pol
    (Scenario.export_get "store" headers) Scenario.export_world.

End Cases.

(** ** Relations between the states of an export request *)

(** The response is as finished as it was. *)
Definition same_finished : relation FileStreamer.handler :=
  fun h h' =>
    Http.finished (Auth.resp (FileStreamer.hb h'))
    = Http.finished (Auth.resp (FileStreamer.hb h)).


(** ** Staging an upload *)

(** The world after the staging step of [StreamHandler.prepare] has
    dealt with an existing entry at the visible name [p]: a directory
    is removed with everything below it, a file is moved to the staging
    name [pp]. *)
Definition staged_world (p pp : string) (w : Os.world) : Os.world :=
  match Os.fs w !! p with
  | None => w
  | Some n =>
      if Os.n_dir n
      then Os.log (Os.EvRmtree p)
             (Os.with_fs (filter (fun kv => OsCalls.below p (fst kv) = false)) w)
      else Os.log (Os.EvRename p pp)
             (Os.with_fs (fun m => <[pp := n]> (delete p m)) w)
  end.

(** The two names of an upload of [filename]: the visible name, and
    the staging name with the next UUID. *)
Definition visible_name (X : externals) (tenant_dir filename : string) : string :=
  normpath X (tenant_dir ++ "/" ++ filename).

Definition staging_name (X : externals) (p : string) (w : Os.world) : string :=
  p ++ "." ++ uuid4 X (Os.uuid_next w) ++ ".part".

(** ** Concrete uploads on the [cluster] backend *)

Module ClusterCase.

Definition cfg : Stream.config :=
  {| Stream.backend := "cluster"; Stream.tenant_dir := "/imp";
     Stream.request_hook_enabled := true; Stream.hook_path := "/hook";
     Stream.hook_sudo := true |}.

(** [PUT old.txt] on the [cluster] backend, after [prepare]. *)
Definition prepared : Stream.handler :=
  snd (Stream.prepare Demo.X (Demo.opts 512)
         (Stream.initialize cfg (Scenario.upload_old "PUT") Scenario.import_world)).

End ClusterCase.

(** ** Runs that raise *)

(** [on_raise R c]: every run of [c] that raises takes a state to an
    [R]-related state. *)
Definition on_raise {S A} (R : relation S) (c : Py.M S A) : Prop :=
  forall s e s', c s = (Py.Raise e, s') -> R s s'.

(** What [ProxyHandler.prepare] may do before it starts the internal
    request: the world and [self.fetch_future] are as they were, and
    the response is as it was but for a status 401. *)
Definition proxy_quiet : relation Proxy.handler :=
  fun h h' =>
    Auth.w (Proxy.hb h') = Auth.w (Proxy.hb h) /\
    Proxy.fetch_future h' = Proxy.fetch_future h /\
    (Auth.resp (Proxy.hb h') = Auth.resp (Proxy.hb h)
     \/ Auth.resp (Proxy.hb h') = Http.set_status 401 (Auth.resp (Proxy.hb h))).

(** The names of the headers the proxy hands to the internal request. *)
Definition forwarded_headers : list string :=
  ["Authorization"; "Content-Type"; "Aes-Key"; "Aes-Iv"; "Pragma"].

(** ** Python's [str.replace] *)

Module Str.

(** [replace_from old new skip s]: the scan of [s] from the left, for
    a non-empty [old]; [skip] counts the characters of a match that are
    still to be passed over. *)
Fixpoint replace_from (old new : string) (skip : nat) (s : string) : string :=
  match s with
  | EmptyString => EmptyString
  | String c s' =>
      match skip with
      | S k => replace_from old new k s'
      | O =>
          if String.prefix old s
          then new ++ replace_from old new (String.length old - 1) s'
          else String c (replace_from old new 0 s')
      end
  end.

(** An empty [old] matches before every character and at the end. *)
Fixpoint interleave (new s : string) : string :=
  match s with
  | EmptyString => new
  | String c s' => new ++ String c (interleave new s')
  end.

(** [s.replace(old, new)]. *)
Definition replace (old new s : string) : string :=
  if String.eqb old "" then interleave new s else replace_from old new 0 s.

End Str.

(** ** [GenericFormDataHandler], [FormDataHandler], [SnsFormDataHandler] *)

Module FormData.
Import Py.

(** One entry of [self.request.files['file']]. *)
Record form_file : Type := {
  ff_filename : string;
  ff_body : list Byte.byte
}.

(** What the handlers read from [options]:
    [options.config['backends']['disk'][backend]['import_path']] and
    [...[backend]['subfolder_path']], where [None] stands for the
    [KeyError] of a missing key, and [options.tenant_string_pattern]. *)
Record config : Type := {
  import_path : string -> option string;
  subfolder_path : string -> option string;
  tenant_string_pattern : string
}.

(** The two functions [write_file] calls that are defined outside
    [api.py]: [utils.sns_dir] and [shutil.copy]. They run on the world
    and may raise. *)
Record imports : Type := {
  sns_dir : string -> string -> string -> string -> M Os.world string;
  shutil_copy : string -> string -> M Os.world unit
}.

(** The attributes of the handler. [files] is the entry [file] of
    [self.request.files], [None] when the key is absent. An attribute
    that [initialize] has not reached is [None]. The attribute
    [tsd_hidden_folder] is set to [None] by [initialize] and never read;
    it is left out. *)
Record handler : Type := {
  hb : Auth.base;
  files : option (list form_file);
  tenant_dir_pattern : option string;
  backend : option string;
  tsd_hidden_folder_pattern : option string;
  authnz_ : option authnz;
  path : option string;
  path_part : option string
}.

Definition start (r : Http.request) (fs : option (list form_file)) (w0 : Os.world)
    : handler :=
  {| hb := Auth.start r w0; files := fs; tenant_dir_pattern := None;
     backend := None; tsd_hidden_folder_pattern := None; authnz_ := None;
     path := None; path_part := None |}.

Definition put_hb (v : Auth.base) (h : handler) : handler :=
  {| hb := v; files := files h; tenant_dir_pattern := tenant_dir_pattern h;
     backend := backend h;
     tsd_hidden_folder_pattern := tsd_hidden_folder_pattern h;
     authnz_ := authnz_ h; path := path h; path_part := path_part h |}.

Definition put_tenant_dir_pattern (v : option string) (h : handler) : handler :=
  {| hb := hb h; files := files h; tenant_dir_pattern := v;
     backend := backend h;
     tsd_hidden_folder_pattern := tsd_hidden_folder_pattern h;
     authnz_ := authnz_ h; path := path h; path_part := path_part h |}.

Definition put_backend (v : option string) (h : handler) : handler :=
  {| hb := hb h; files := files h; tenant_dir_pattern := tenant_dir_pattern h;
     backend := v;
     tsd_hidden_folder_pattern := tsd_hidden_folder_pattern h;
     authnz_ := authnz_ h; path := path h; path_part := path_part h |}.

Definition put_tsd_hidden_folder_pattern (v : option string) (h : handler) : handler :=
  {| hb := hb h; files := files h; tenant_dir_pattern := tenant_dir_pattern h;
     backend := backend h; tsd_hidden_folder_pattern := v;
     authnz_ := authnz_ h; path := path h; path_part := path_part h |}.

Definition put_authnz_ (v : option authnz) (h : handler) : handler :=
  {| hb := hb h; files := files h; tenant_dir_pattern := tenant_dir_pattern h;
     backend := backend h;
     tsd_hidden_folder_pattern := tsd_hidden_folder_pattern h;
     authnz_ := v; path := path h; path_part := path_part h |}.

Definition put_path (v : option string) (h : handler) : handler :=
  {| hb := hb h; files := files h; tenant_dir_pattern := tenant_dir_pattern h;
     backend := backend h;
     tsd_hidden_folder_pattern := tsd_hidden_folder_pattern h;
     authnz_ := authnz_ h; path := v; path_part := path_part h |}.

Definition put_path_part (v : option string) (h : handler) : handler :=
  {| hb := hb h; files := files h; tenant_dir_pattern := tenant_dir_pattern h;
     backend := backend h;
     tsd_hidden_folder_pattern := tsd_hidden_folder_pattern h;
     authnz_ := authnz_ h; path := path h; path_part := v |}.

Definition base {A} (c : M Auth.base A) : M handler A := zoom hb put_hb c.
Definition os {A} (c : M Os.world A) : M handler A := base (Auth.os c).

(** The truth value of a list. *)
Definition truthy_list {A} (l : list A) : bool :=
  match l with
  | [] => false
  | _ :: _ => true
  end.

(** [self.<name>] for an attribute that may not have been set. *)
Definition attr {A} (f : handler -> option A) : M handler A :=
  fun h => of_option AttributeError (f h) h.

Section WithExternals.
Context (X : externals) (opts : options) (cfg : config) (I : imports).

(** [initialize(backend)]. *)
Definition initialize (backend : string) : M handler unit :=
  try_except
    (let! uri := gets (fun h => Http.uri (Auth.req (hb h))) in
     let! tenant := of_option Exception (tenant_from_url X uri) in
     do! assert (valid_tenant opts tenant) in
     let! p := of_option KeyError (import_path cfg backend) in
     do! modify (put_tenant_dir_pattern (Some p)) in
     do! modify (put_backend (Some backend)) in
     if String.eqb backend "sns"
     then
       let! s := of_option KeyError (subfolder_path cfg backend) in
       modify (put_tsd_hidden_folder_pattern (Some s))
     else ret tt)
    [Exception; AssertionError]
    (fun _ => ret tt).

(** [prepare]. The dict that the token gate returns has its keys, so
    [not self.authnz] is false. *)
Definition prepare : M handler unit :=
  try_except
    (let! a := base (Auth.process_token_and_extract_claims X opts) in
     do! modify (put_authnz_ (Some a)) in
     let! fs := gets files in
     let! l := of_option KeyError fs in
     if negb (truthy_list l)
     then
       do! base (Auth.set_status 400) in
       raise Exception
     else ret tt)
    [Exception]
    (fun _ =>
       let! code := gets (fun h => Http.status_code (Auth.resp (hb h))) in
       do! (if negb (code =? 401) then base (Auth.set_status 400) else ret tt) in
       base (Auth.finish (Some (Http.message_body "request failed")))).

(** [write_file(filemode, filename, filebody, tenant)]. The [with]
    statement closes the file on the way out, also when its body
    raises. *)
Definition write_file (filemode filename : string) (filebody : list Byte.byte)
    (tenant : string) : M handler bool :=
  try_except
    (let! b := attr backend in
     let pattern := tenant_string_pattern cfg in
     let! uri := gets (fun h => Http.uri (Auth.req (hb h))) in
     let! '(tsd_hidden_folder, tenant_dir) :=
       if String.eqb b "sns"
       then
         let! hp := attr tsd_hidden_folder_pattern in
         let! hidden := os (sns_dir I hp tenant uri pattern) in
         let! tp := attr tenant_dir_pattern in
         let! td := os (sns_dir I tp tenant uri pattern) in
         ret (Some hidden, td)
       else
         let! tp := attr tenant_dir_pattern in
         ret (None, Str.replace pattern tenant tp) in
     let p := normpath X (tenant_dir ++ "/" ++ filename) in
     do! modify (put_path (Some p)) in
     let! u := os (OsCalls.fresh_uuid X) in
     let pp := p ++ "." ++ u ++ ".part" in
     do! modify (put_path_part (Some pp)) in
     let! part_exists := os (OsCalls.lexists pp) in
     do! (if part_exists then raise Exception else ret tt) in
     let! exists_ := os (OsCalls.lexists p) in
     do! (if exists_
          then
            do! os (OsCalls.rename (Some p) (Some pp)) in
            let! e1 := os (OsCalls.lexists pp) in
            do! assert e1 in
            let! e2 := os (OsCalls.lexists p) in
            assert (negb e2)
          else ret tt) in
     do! modify (put_path (Some pp)) in
     do! modify (put_path_part (Some p)) in
     let! f := os (OsCalls.open_ X (Some pp) filemode) in
     do! try_finally
           (do! os (OsCalls.write f filebody) in
            do! os (OsCalls.rename (Some pp) (Some p)) in
            os (OsCalls.chmod (Some p) Os._RW_RW___))
           (do! os (OsCalls.close f) in ret tt) in
     if String.eqb b "sns"
     then
       let! hidden := of_option UnboundLocalError tsd_hidden_folder in
       let subfolder := normpath X (hidden ++ "/" ++ filename) in
       try_except
         (do! os (shutil_copy I p subfolder) in
          do! os (OsCalls.chmod (Some subfolder) Os._RW_RW___) in
          ret true)
         [Exception]
         (fun _ => ret false)
     else ret true)
    [Exception; AssertionError]
    (fun _ => ret false).

(** The loop of [write_files] over [self.request.files['file']], which
    [write_file] does not change. *)
Fixpoint write_each (filemode tenant : string) (l : list form_file) : M handler unit :=
  match l with
  | [] => ret tt
  | f :: rest =>
      let! filename :=
        of_option Exception (check_filename X (ff_filename f) (start_chars opts)) in
      let filebody := ff_body f in
      do! (if (length filebody =? 0)%nat then raise Exception else ret tt) in
      let! written := write_file filemode filename filebody tenant in
      do! assert written in
      write_each filemode tenant rest
  end.

(** [write_files(filemode, tenant)]. *)
Definition write_files (filemode tenant : string) : M handler bool :=
  try_except
    (let! fs := gets files in
     let! l := of_option KeyError fs in
     do! write_each filemode tenant l in
     ret true)
    [Exception]
    (fun _ => ret false).

(** [handle_data(filemode, tenant)], the same in [FormDataHandler]
    and in [SnsFormDataHandler]. *)
Definition handle_data (filemode tenant : string) : M handler unit :=
  try_except
    (let! ok := write_files filemode tenant in
     do! assert ok in
     do! base (Auth.set_status 201) in
     base (Auth.write (Http.message_body "data uploaded")))
    [Exception]
    (fun _ =>
       do! base (Auth.set_status 400) in
       base (Auth.write (Http.message_body "could not upload data"))).

(** The methods; [SnsFormDataHandler] takes two more arguments of the
    route, [keyid] and [formid], and ignores them. *)
Definition post (tenant : string) : M handler unit := handle_data "ab+" tenant.
Definition patch (tenant : string) : M handler unit := handle_data "ab+" tenant.
Definition put (tenant : string) : M handler unit := handle_data "wb+" tenant.
Definition head (tenant : string) : M handler unit := base (Auth.set_status 201).

End WithExternals.
End FormData.

(** ** Runs that return *)

(** [never_raises c]: every run of [c] returns. *)
Definition never_raises {S A} (c : Py.M S A) : Prop :=
  forall s, exists a s', c s = (Py.Ret a, s').

(** ** The outcome of a form upload *)

(** The answer of [handle_data], given what [write_files] returns. *)
Definition form_answer (ok : bool) (r : Http.response) : Http.response :=
  if ok
  then Http.push (Http.message_body "data uploaded") (Http.set_status 201 r)
  else Http.push (Http.message_body "could not upload data") (Http.set_status 400 r).

(** What [write_file] has left under the visible name: the bytes and
    the permission bits. *)
Definition holds (w : Os.world) (p : string) (data : list Byte.byte) (mode : Z) : Prop :=
  Os.n_data <$> (Os.fs w !! p) = Some data /\
  Os.n_mode <$> (Os.fs w !! p) = Some mode.

(** What [write_files] may do to the handler: the response is as it
    was. *)
Definition same_answer : relation FormData.handler :=
  fun h h' => Auth.resp (FormData.hb h') = Auth.resp (FormData.hb h).

(** ** A concrete form upload *)

Module FormCase.

(** The import path of the backend [form_data], with the tenant
    pattern [pXX]; the backend [sns] has both of its paths. *)
Definition cfg : FormData.config :=
  {| FormData.import_path :=
       fun b => if String.eqb b "form_data" then Some "/tsd/pXX/imp"
                else if String.eqb b "sns" then Some "/tsd/pXX/sns"
                else None;
     FormData.subfolder_path :=
       fun b => if String.eqb b "sns" then Some "/tsd/pXX/.tsd" else None;
     FormData.tenant_string_pattern := "pXX" |}.

(** Stand-ins for [utils.sns_dir] and [shutil.copy]. *)
Definition imports : FormData.imports :=
  {| FormData.sns_dir :=
       fun pattern tenant uri tenant_string_pattern =>
         Py.ret (Str.replace tenant_string_pattern tenant pattern);
     FormData.shutil_copy :=
       fun src dst w =>
         match Os.fs w !! src with
         | Some n => (Py.Ret tt, Os.with_fs (<[dst := n]>) w)
         | None => (Py.Raise Py.OSError, w)
         end |}.

Definition world : Os.world :=
  Demo.world_of
    {[ "/tsd/p11/imp" := Demo.dir 493 1;
       "/tsd/p11/imp/old.txt" := Demo.file "old" 420 5 ]}.

Definition upload : Http.request :=
  Demo.request_of "POST" "/v1/p11/files/upload" [("Authorization", "Bearer good")] [].

Definition form (name body : string) : FormData.form_file :=
  {| FormData.ff_filename := name; FormData.ff_body := Os.bytes body |}.

(** The handler after [initialize] and [prepare], for a form with the
    given files. *)
Definition prepared (fs : list FormData.form_file) : FormData.handler :=
  snd (FormData.prepare Demo.X (Demo.opts 512)
         (snd (FormData.initialize Demo.X (Demo.opts 512) cfg "form_data"
                 (FormData.start upload (Some fs) world)))).

End FormCase.

(** ** [StreamHandler.patch] *)

Module StreamPatch.
Import Py Stream.

(** [s.split(sep)[0]]: what comes before the first [sep], or all of
    [s]. *)
Fixpoint before (sep s : string) : string :=
  match s with
  | EmptyString => EmptyString
  | String c s' =>
      if String.prefix sep s then EmptyString else String c (before sep s')
  end.

(** The two methods of the resumable engine that [patch] calls, and
    that [api.py] does not define. They run on the world and may
    raise. *)
Record engine : Type := {
  merge_chunk : string -> string -> string -> Os.claim -> M Os.world unit;
  finalise : string -> string -> string -> Os.claim -> M Os.world string
}.

(** [self.<name>] for an attribute that may not have been set. *)
Definition attr {A} (f : handler -> option A) : M handler A :=
  fun h => of_option AttributeError (f h) h.

(** A chunk number in a JSON object. *)
Definition chunk_json (c : Resumable.chunk) : Http.jval :=
  match c with
  | Resumable.CNum n => Http.JInt n
  | Resumable.CEnd => Http.JStr "end"
  end.

Section WithEngine.
Context (E : engine).

(** [patch]. The name [filename] is bound in two of the three
    branches; the third leaves it unbound, and the dict of the last
    line reads it first. [close_file] closes the file object that
    [self.target_file] refers to. *)
Definition patch : M handler unit :=
  let! completed := gets completed_resumable_file in
  let! filename :=
    if negb completed
    then
      let! r := gets res in
      do! (if r then ret tt else raise AttributeError) in
      let! t := gets target_file in
      let! f := os (Resumable.close_file t) in
      do! modify (put_target_file (Some f)) in
      let! pp := gets path_part in
      let! pp := of_option TypeError pp in
      let! taken := os (OsCalls.lexists pp) in
      if negb taken
      then
        do! rename_path_to_path_part in
        let filename := before ".chunk" (FileStreamer.basename pp) in
        let! td := gets (fun h => tenant_dir (cfg h)) in
        let! id := attr upload_id in
        let! rq := attr (fun h => Auth.requestor (hb h)) in
        do! os (merge_chunk E td (FileStreamer.basename pp) id rq) in
        ret (Some filename)
      else
        do! base (Auth.write (Http.message_body "chunk_order_incorrect")) in
        ret None
    else
      let! r := gets res in
      do! (if r then ret tt else raise AttributeError) in
      let! td := gets (fun h => tenant_dir (cfg h)) in
      let! pp := gets path_part in
      let! pp := of_option TypeError pp in
      let! id := attr upload_id in
      let! rq := attr (fun h => Auth.requestor (hb h)) in
      let! f := os (finalise E td (FileStreamer.basename pp) id rq) in
      do! modify (put_completed_resumable_filename (Some f)) in
      ret (Some (FileStreamer.basename f)) in
  do! base (Auth.set_status 201) in
  let! filename := of_option UnboundLocalError filename in
  let! id := attr upload_id in
  let! c := attr chunk_num in
  base (Auth.write (Http.OutJson [("filename", Http.JStr filename);
                                  ("id", Http.JStr id);
                                  ("max_chunk", chunk_json c)])).

(** [head]. *)
Definition head : M handler unit := base (Auth.set_status 201).

End WithEngine.
End StreamPatch.

(** ** A concrete chunk *)

Module PatchCase.

(** A stand-in for the engine: merging and finalising do nothing. *)
Definition engine : StreamPatch.engine :=
  {| StreamPatch.merge_chunk := fun _ _ _ _ => Py.ret tt;
     StreamPatch.finalise := fun _ _ _ name => Py.ret "/imp/big.bin" |}.

(** Chunk 3 of the upload [u1], after [prepare] and the body [abc]. *)
Definition received : Stream.handler :=
  snd (Stream.receive [Os.bytes "abc"]
         (snd (Scenario.prepared (Scenario.patch_chunk "3")))).

(** The same, when another request has taken the name of the chunk in
    the meantime. *)
Definition raced : Stream.handler :=
  Stream.put_hb
    (Auth.put_w
       (Os.with_fs (<["/imp/u1/big.bin.chunk.3" := Demo.file "abc" 384 7]>)
          (Auth.w (Stream.hb received)))
       (Stream.hb received))
    received.

End PatchCase.

(** ** [ResumablesHandler] *)

Module Resumables.
Import Py.

(** The methods of [SerialResumable] that the handler calls, and that
    [api.py] does not define. [list_all] and [info] return the object
    that the handler writes. *)
Record engine : Type := {
  list_all : string -> Os.claim -> M Os.world Http.out;
  info : string -> string -> option string -> Os.claim -> M Os.world Http.out;
  delete_ : string -> string -> string -> Os.claim -> M Os.world bool
}.

(** The attributes of the handler. Inside [get] and [delete] the
    attribute [message] is a dict; it is kept apart from the string
    that the token gate leaves in the attribute of the same name. *)
Record handler : Type := {
  hb : Auth.base;
  tenant_dir : option string;
  message : Http.jobj
}.

Definition put_hb (v : Auth.base) (h : handler) : handler :=
  {| hb := v; tenant_dir := tenant_dir h; message := message h |}.

Definition put_message (v : Http.jobj) (h : handler) : handler :=
  {| hb := hb h; tenant_dir := tenant_dir h; message := v |}.

Definition base {A} (c : M Auth.base A) : M handler A := zoom hb put_hb c.
Definition os {A} (c : M Os.world A) : M handler A := base (Auth.os c).

Definition attr {A} (f : handler -> option A) : M handler A :=
  fun h => of_option AttributeError (f h) h.

(** The truth value of an optional string, and its JSON value. *)
Definition given (o : option string) : bool :=
  match o with
  | Some s => Py.truthy s
  | None => false
  end.

Definition jstr (o : option string) : Http.jval :=
  match o with
  | Some s => Http.JStr s
  | None => Http.JNull
  end.

Section WithExternals.
Context (X : externals) (opts : options) (E : engine).

(** [prepare]: the exception of the token gate is raised again. *)
Definition prepare : M handler unit :=
  try_except
    (do! base (Auth.process_token_and_extract_claims X opts) in ret tt)
    [Exception]
    (fun e => raise e).

(** [get(tenant, filename=None)]. *)
Definition get (filename : option string) : M handler unit :=
  do! modify (put_message [("filename", jstr filename); ("id", Http.JNull);
                           ("chunk_size", Http.JNull); ("max_chunk", Http.JNull)]) in
  try_except
    (let! secured_filename :=
       try_except
         (if given filename
          then
            let! s := of_option Exception
                        (check_filename X (url_unescape X (default "" filename))
                           (start_chars opts)) in
            ret (Some s)
          else ret None)
         [Exception]
         (fun _ => raise Exception) in
     let! upload_id :=
       try_except
         (let! i := base (Auth.get_query_argument "id") in
          ret (Some (url_unescape X i)))
         [Exception]
         (fun _ => ret None) in
     let! td := attr tenant_dir in
     let! rq := attr (fun h => Auth.requestor (hb h)) in
     let! info :=
       if negb (given filename)
       then os (list_all E td rq)
       else
         let! s := of_option UnboundLocalError secured_filename in
         os (info E td s upload_id rq) in
     do! base (Auth.set_status 200) in
     base (Auth.write info))
    [Exception]
    (fun _ =>
       do! base (Auth.set_status 400) in
       let! m := gets message in
       base (Auth.write (Http.OutJson m))).

(** [delete(tenant, filename)]. The engine is given [filename] as it
    came, not the checked name. *)
Definition delete (filename : string) : M handler unit :=
  do! modify (put_message [("message", Http.JStr "cannot delete resumable")]) in
  try_except
    (do! try_except
           (do! of_option Exception
                  (check_filename X (url_unescape X filename) (start_chars opts)) in
            ret tt)
           [Exception]
           (fun _ => raise Exception) in
     let! upload_id :=
       try_except
         (url_unescape X <$$> base (Auth.get_query_argument "id"))
         [Exception]
         (fun _ => raise Exception) in
     let! td := attr tenant_dir in
     let! rq := attr (fun h => Auth.requestor (hb h)) in
     let! ok := os (delete_ E td filename upload_id rq) in
     do! assert ok in
     do! base (Auth.set_status 200) in
     base (Auth.write (Http.message_body "resumable deleted")))
    [Exception]
    (fun _ =>
       do! base (Auth.set_status 400) in
       let! m := gets message in
       base (Auth.write (Http.OutJson m))).

End WithExternals.
End Resumables.

(** ** [GenericTableHandler] and [HealthCheckHandler] *)

Module Tables.
Import Py.

(** What the handler calls and [api.py] does not define: the
    functions of [db.py], [json_decode], and the CSV rendering of
    [pandas]. [engine] is what [sqlite_init] returns and [data] what
    the queries return and [json_decode] produces; [tables_out] and
    [data_out] are the objects [{'tables': ...}] and [{'data': ...}] as
    the handler writes them. A pure function returns [None] where the
    Python function raises. *)
Record imports (engine data : Type) : Type := {
  sqlite_init : string -> string -> bool -> M Os.world engine;
  sqlite_list_tables : engine -> M Os.world data;
  sqlite_get_data : engine -> string -> string -> M Os.world data;
  sqlite_insert : engine -> string -> data -> M Os.world unit;
  sqlite_update_data : engine -> string -> string -> M Os.world data;
  sqlite_delete_data : engine -> string -> string -> M Os.world data;
  json_decode : string -> option data;
  to_csv : data -> option string;
  tables_out : data -> Http.out;
  data_out : data -> Http.out
}.
Arguments sqlite_init {engine data}.
Arguments sqlite_list_tables {engine data}.
Arguments sqlite_get_data {engine data}.
Arguments sqlite_insert {engine data}.
Arguments sqlite_update_data {engine data}.
Arguments sqlite_delete_data {engine data}.
Arguments json_decode {engine data}.
Arguments to_csv {engine data}.
Arguments tables_out {engine data}.
Arguments data_out {engine data}.

(** What [initialize] reads from [options]:
    [options.config['backends']['sqlite'][app]['db_path']], where
    [None] stands for the [KeyError] of a missing key, and
    [options.tenant_string_pattern]. *)
Record config : Type := {
  db_path : string -> option string;
  tenant_string_pattern : string
}.

(** The attributes of the handler; [body] is [self.request.body]. The
    attributes [app] and [datatype], which the handler sets and never
    reads, are left out. *)
Record handler : Type := {
  hb : Auth.base;
  body : string;
  db_name : option string;
  tenant_dir : option string;
  authnz_ : option authnz
}.

Definition put_hb (v : Auth.base) (h : handler) : handler :=
  {| hb := v; body := body h; db_name := db_name h; tenant_dir := tenant_dir h;
     authnz_ := authnz_ h |}.

Definition put_authnz_ (v : option authnz) (h : handler) : handler :=
  {| hb := hb h; body := body h; db_name := db_name h; tenant_dir := tenant_dir h;
     authnz_ := v |}.

Definition put_db_name (v : option string) (h : handler) : handler :=
  {| hb := hb h; body := body h; db_name := v; tenant_dir := tenant_dir h;
     authnz_ := authnz_ h |}.

Definition put_tenant_dir (v : option string) (h : handler) : handler :=
  {| hb := hb h; body := body h; db_name := db_name h; tenant_dir := v;
     authnz_ := authnz_ h |}.

Definition start (r : Http.request) (request_body : string) (w0 : Os.world) : handler :=
  {| hb := Auth.start r w0; body := request_body; db_name := None;
     tenant_dir := None; authnz_ := None |}.

Definition base {A} (c : M Auth.base A) : M handler A := zoom hb put_hb c.
Definition os {A} (c : M Os.world A) : M handler A := base (Auth.os c).

Definition attr {A} (f : handler -> option A) : M handler A :=
  fun h => of_option AttributeError (f h) h.

Section WithExternals.
Context (X : externals) (opts : options) {engine data : Type} (I : imports engine data).

(** [initialize(app)]: nothing is caught. *)
Definition initialize (cfg : config) (app : string) : M handler unit :=
  do! modify (put_db_name (Some ("." ++ app ++ ".db"))) in
  let! uri := gets (fun h => Http.uri (Auth.req (hb h))) in
  let! tenant := of_option Exception (tenant_from_url X uri) in
  do! assert (valid_tenant opts tenant) in
  let! import_dir := of_option KeyError (db_path cfg app) in
  modify (put_tenant_dir
            (Some (Str.replace (tenant_string_pattern cfg) tenant import_dir))).

(** [self.authnz = self.process_token_and_extract_claims()]. *)
Definition authorize : M handler unit :=
  let! a := base (Auth.process_token_and_extract_claims X opts) in
  modify (put_authnz_ (Some a)).

(** The [except] clause the four methods share. *)
Definition answer_error : M handler unit :=
  do! base (Auth.set_status 400) in
  base (Auth.write (Http.message_body "error")).

(** [get(tenant, table_name=None)]. *)
Definition get (table_name : option string) : M handler unit :=
  try_except
    (if negb (Resumables.given table_name)
     then
       do! authorize in
       let! td := attr tenant_dir in
       let! name := attr db_name in
       let! e := os (sqlite_init I td name false) in
       let! tables := os (sqlite_list_tables I e) in
       do! base (Auth.set_status 200) in
       base (Auth.write (tables_out I tables))
     else
       do! authorize in
       let! td := attr tenant_dir in
       let! name := attr db_name in
       let! e := os (sqlite_init I td name true) in
       let! uri := gets (fun h => Http.uri (Auth.req (hb h))) in
       let! d := os (sqlite_get_data I e (default "" table_name) uri) in
       let! has_accept := base (Auth.has_header "Accept") in
       if has_accept
       then
         let! accept := base (Auth.header "Accept") in
         if String.eqb accept "text/csv"
         then
           let! csv := of_option Exception (to_csv I d) in
           do! base (Auth.set_status 200) in
           base (Auth.write (Http.OutBytes (Os.bytes csv)))
         else
           do! base (Auth.set_status 200) in
           base (Auth.write (data_out I d))
       else
         do! base (Auth.set_status 200) in
         base (Auth.write (data_out I d)))
    [Exception]
    (fun _ => answer_error).

(** [put(tenant, table_name)]. *)
Definition put (table_name : string) : M handler unit :=
  try_except
    (do! authorize in
     let! b := gets body in
     let! d := of_option Exception (json_decode I b) in
     try_except
       (let! td := attr tenant_dir in
        let! name := attr db_name in
        let! e := os (sqlite_init I td name false) in
        do! os (sqlite_insert I e table_name d) in
        do! os (OsCalls.chmod (Some (td ++ "/" ++ name)) Os._RW______) in
        do! base (Auth.set_status 201) in
        base (Auth.write (Http.message_body "data stored")))
       [Exception]
       (fun _ => raise Exception))
    [Exception]
    (fun _ => answer_error).

(** [patch(tenant, table_name)] and [delete(tenant, table_name)]. *)
Definition query (run : engine -> string -> string -> M Os.world data)
    (table_name : string) : M handler unit :=
  try_except
    (do! authorize in
     let! td := attr tenant_dir in
     let! name := attr db_name in
     let! e := os (sqlite_init I td name true) in
     let! uri := gets (fun h => Http.uri (Auth.req (hb h))) in
     let! d := os (run e table_name uri) in
     do! base (Auth.set_status 200) in
     base (Auth.write (data_out I d)))
    [Exception]
    (fun _ => answer_error).

Definition patch (table_name : string) : M handler unit :=
  query (sqlite_update_data I) table_name.

Definition delete (table_name : string) : M handler unit :=
  query (sqlite_delete_data I) table_name.

End WithExternals.

(** [HealthCheckHandler.head], on the response of a plain
    [RequestHandler]. *)
Definition health_head : M Auth.base unit :=
  do! Auth.set_status 200 in
  Auth.write (Http.message_body "healthy").

End Tables.

(** ** Concrete tables *)

Module TablesCase.

(** A stand-in for the database: the engine is the path of the file,
    which [sqlite_init] creates when it is absent; an insert appends
    the data to the file; the queries return nothing. *)
Definition db : Tables.imports string string :=
  {| Tables.sqlite_init :=
       fun td name _ w =>
         let p := td ++ "/" ++ name in
         (Py.Ret p,
          match Os.fs w !! p with
          | Some _ => w
          | None => Os.with_fs (<[p := Demo.file "" 420 0]>) w
          end);
     Tables.sqlite_list_tables := fun _ => Py.ret "[]";
     Tables.sqlite_get_data := fun _ _ _ => Py.ret "[]";
     Tables.sqlite_insert :=
       fun e _ d w =>
         match Os.fs w !! e with
         | Some n =>
             (Py.Ret tt,
              Os.with_fs (<[e := Os.set_data (Os.n_data n ++ Os.bytes d) (Os.clock w) n]>) w)
         | None => (Py.Raise Py.OSError, w)
         end;
     Tables.sqlite_update_data := fun _ _ _ => Py.ret "[]";
     Tables.sqlite_delete_data := fun _ _ _ => Py.ret "[]";
     Tables.json_decode := fun s => if Py.truthy s then Some s else None;
     Tables.to_csv := Some;
     Tables.tables_out := fun d => Http.OutJson [("tables", Http.JStr d)];
     Tables.data_out := fun d => Http.OutJson [("data", Http.JStr d)] |}.

Definition cfg : Tables.config :=
  {| Tables.db_path := fun app => Some ("/tsd/pXX/db/" ++ app);
     Tables.tenant_string_pattern := "pXX" |}.

(** [PUT /v1/p11/tables/generic/t1] with the given [Authorization]
    header, after [initialize]. *)
Definition put_t1 (token body : string) : Tables.handler :=
  snd (Tables.initialize Demo.X (Demo.opts 512) cfg "generic"
         (Tables.start
            (Demo.request_of "PUT" "/v1/p11/tables/generic/t1"
               [("Authorization", token)] [])
            body (Demo.world_of ∅))).

End TablesCase.

(** ** What [StreamHandler.prepare] may do to the response *)

(** Two responses that differ at most in the status code. *)
Definition same_but_status (r r' : Http.response) : Prop :=
  Http.out_headers r' = Http.out_headers r /\
  Http.body r' = Http.body r /\
  Http.wire_status r' = Http.wire_status r /\
  Http.finished r' = Http.finished r.

Definition upload_quiet : relation Stream.handler :=
  fun h h' => same_but_status (Auth.resp (Stream.hb h)) (Auth.resp (Stream.hb h')).

(** * Properties *)

(** ** The builtins on examples *)

Section PyExamples.
Example split_range : Py.split "-" "0-5,10-15" = ["0"; "5,10"; "15"].
Proof. reflexivity. Qed.

Example split_empty : Py.split "/" "" = [""].
Proof. reflexivity. Qed.

Example split_header : Py.split " " "Bearer abc" !! 1%nat = Some "abc".
Proof. reflexivity. Qed.

Example int_spaces : Py.int " 42 " = Some 42.
Proof. reflexivity. Qed.

Example int_comma : Py.int "5,10" = None.
Proof. reflexivity. Qed.

Example int_empty : Py.int "" = None.
Proof. reflexivity. Qed.

Example mem_is_not_substring :
  Py.mem "," (Py.split "-" "0-5,10-15") = false /\ Py.contains "," "0-5,10-15" = true.
Proof. split; reflexivity. Qed.
End PyExamples.

(** ** Running blocks of the monad *)

Section MonadLaws.
Import Py.
Context {S A B : Type}.
Implicit Types (c : M S A) (k : A -> M S B) (s : S).

Lemma bind_ret c k s a s' :
  c s = (Ret a, s') -> bind c k s = k a s'.
Proof. intros H. unfold bind. now rewrite H. Qed.

Lemma bind_raise c k s e s' :
  c s = (Raise e, s') -> bind c k s = (Raise e, s').
Proof. intros H. unfold bind. now rewrite H. Qed.

Lemma try_ret c classes (h : exn -> M S A) s a s' :
  c s = (Ret a, s') -> try_except c classes h s = (Ret a, s').
Proof. intros H. unfold try_except. now rewrite H. Qed.

Lemma try_caught c classes (h : exn -> M S A) s e s' :
  c s = (Raise e, s') -> caught e classes = true ->
  try_except c classes h s = h e s'.
Proof. intros H Hc. unfold try_except. now rewrite H, Hc. Qed.

Lemma try_passed c classes (h : exn -> M S A) s e s' :
  c s = (Raise e, s') -> caught e classes = false ->
  try_except c classes h s = (Raise e, s').
Proof. intros H Hc. unfold try_except. now rewrite H, Hc. Qed.

(** [except Exception] catches everything. *)
Lemma caught_Exception e classes :
  In Exception classes -> caught e classes = true.
Proof.
  intros H. unfold caught. apply existsb_exists. exists Exception. split; auto.
Qed.
End MonadLaws.

(** ** The token gate *)

Section Gate.
Import Py.
Context (X : externals) (opts : options).

(** What a successful run of the gate has checked, and the attributes
    it has set: the response and the world are untouched. *)
Lemma gate_ret b a b' :
  Auth.process_token_and_extract_claims X opts b = (Ret a, b') ->
  exists hdr j t rq,
    Http.headers (Auth.req b) !! "Authorization" = Some hdr /\
    Py.split " " hdr !! 1%nat = Some j /\
    tenant_from_url X (Http.uri (Auth.req b)) = Some t /\
    valid_tenant opts t = true /\
    process_access_token X hdr t (check_tenant opts) (check_exp opts)
      (tenant_claim_name opts) = Some a /\
    az_status a = true /\
    az_claims a !! requestor_claim_name opts = Some rq /\
    b' = Auth.put_requestor rq
           (Auth.put_claims (az_claims a)
              (Auth.put_tenant t (Auth.put_jwt j (Auth.put_status None b)))).
Proof.
  unfold Auth.process_token_and_extract_claims, Auth.header, Auth.set_status.
  unfold try_except, bind, modify, gets, of_option, assert, ret, raise. cbn.
  destruct (Http.headers (Auth.req b) !! "Authorization") as [hdr|] eqn:Hh;
    cbn; [|discriminate].
  destruct (split " " hdr !! 1%nat) as [j|] eqn:Hj; cbn; [|discriminate].
  destruct (tenant_from_url X (Http.uri (Auth.req b))) as [t|] eqn:Ht;
    cbn; [|discriminate].
  destruct (valid_tenant opts t) eqn:Hv; cbn; [|discriminate].
  destruct (process_access_token X hdr t _ _ _) as [az|] eqn:Hp;
    cbn; [|discriminate].
  destruct (az_claims az !! requestor_claim_name opts) as [rq|] eqn:Hr;
    cbn; [|discriminate].
  destruct (az_status az) eqn:Hs; cbn; [|discriminate].
  intros [= <- <-]. exists hdr, j, t, rq. repeat split; auto.
Qed.

(** The gate never returns with another exception than [Exception],
    and whenever it raises, the status it leaves is 401: [self.status]
    is [None] from the first line on, so the last [except] always
    overwrites the status set before. *)
Lemma gate_raise b e b' :
  Auth.process_token_and_extract_claims X opts b = (Raise e, b') ->
  e = Exception /\ Http.status_code (Auth.resp b') = 401 /\
  Auth.w b' = Auth.w b /\ Auth.req b' = Auth.req b.
Proof.
  unfold Auth.process_token_and_extract_claims, Auth.header, Auth.set_status.
  unfold try_except, bind, modify, gets, of_option, assert, ret, raise. cbn.
  destruct (Http.headers (Auth.req b) !! "Authorization") as [hdr|];
    cbn; [|intros [= <- <-]; auto].
  destruct (split " " hdr !! 1%nat) as [j|]; cbn; [|intros [= <- <-]; auto].
  destruct (tenant_from_url X (Http.uri (Auth.req b))) as [t|];
    cbn; [|intros [= <- <-]; auto].
  destruct (valid_tenant opts t); cbn; [|intros [= <- <-]; auto].
  destruct (process_access_token X hdr t _ _ _) as [az|];
    cbn; [|intros [= <- <-]; auto].
  destruct (az_claims az !! requestor_claim_name opts) as [rq|];
    cbn; [|intros [= <- <-]; auto].
  destruct (az_status az); cbn; [discriminate|intros [= <- <-]; auto].
Qed.

End Gate.

(** C3. A request without an [Authorization] header: the gate first
    sets the status 400 and the message, and its outermost [except]
    then replaces the status by 401, because the attribute [self.status]
    it tests is never set. The gate ends by raising, with status 401
    and not 400. *)
Theorem gate_missing_header_gives_401 (X : externals) (opts : options) (b : Auth.base) :
  Http.headers (Auth.req b) !! "Authorization" = None ->
  exists b',
    Auth.process_token_and_extract_claims X opts b = (Py.Raise Py.Exception, b') /\
    Auth.message b' = Some "Missing authorization header" /\
    Http.status_code (Auth.resp b') = 401 /\
    Http.status_code (Auth.resp b') <> 400.
Proof.
  intros H.
  unfold Auth.process_token_and_extract_claims, Auth.header, Auth.set_status.
  unfold Py.try_except, Py.bind, Py.modify, Py.gets, Py.of_option, Py.raise. cbn.
  rewrite H. cbn. eexists. split; [reflexivity|]. cbn. repeat split; lia.
Qed.

Lemma gate_missing_header_gives_401_witness :
  exists b',
    Auth.process_token_and_extract_claims Demo.X (Demo.opts 512)
      (Auth.start (Demo.request_of "GET" "/v1/p11/files/export/report.txt" [] [])
         (Demo.world_of ∅))
    = (Py.Raise Py.Exception, b') /\
    Auth.message b' = Some "Missing authorization header" /\
    Http.status_code (Auth.resp b') = 401 /\
    Http.status_code (Auth.resp b') <> 400.
Proof.
  apply (gate_missing_header_gives_401 Demo.X (Demo.opts 512)).
  reflexivity.
Defined.

(** ** Byte ranges *)

(** C2. [GET report.txt] with [Range: bytes=2-5] and an export chunk
    size of 3: the handler announces [Content-Length: 4] and then sends
    the three bytes [234]. The loop counts a chunk as sent before it
    tests [sent <= bytes_to_read], so the last, partial chunk of a range
    whose length is not a multiple of the chunk size is never written. *)
Theorem range_2_5_with_chunk_3_is_cut_short :
  let r := Scenario.response_of
             (Scenario.run_get "store" 3
                [("Authorization", "Bearer good"); ("Range", "bytes=2-5")]) in
  Http.out_headers r !! "Content-Length" = Some (Http.HInt 4) /\
  Http.served_bytes r = Os.bytes "234" /\
  Http.served_bytes r <> Os.bytes "2345" /\
  Http.finished r = true.
Proof. vm_compute. repeat split; congruence. Qed.

(** The same request is served in full when the chunk size is at least
    the length of the range (scenario S3). *)
Example range_2_5_with_chunk_512 :
  let r := Scenario.response_of
             (Scenario.run_get "store" 512
                [("Authorization", "Bearer good"); ("Range", "bytes=2-5")]) in
  Http.out_headers r !! "Content-Length" = Some (Http.HInt 4) /\
  Http.served_bytes r = Os.bytes "2345".
Proof. vm_compute. split; reflexivity. Qed.

(** C5. [GET report.txt] with the multipart range
    [Range: bytes=0-1,3-4]: the test [',' in start_and_end] looks for a
    list element equal to [","] in [['0', '1,3', '4']] and finds none;
    [int('1,3')] fails, the end defaults to the last byte, and the
    handler answers 200 with the whole file instead of 405. *)
Theorem multipart_range_is_served :
  let r := Scenario.response_of
             (Scenario.run_get "store" 512
                [("Authorization", "Bearer good"); ("Range", "bytes=0-1,3-4")]) in
  Http.client_status r = 200 /\
  Http.client_status r <> 405 /\
  Http.out_headers r !! "Content-Length" = Some (Http.HInt 10) /\
  Http.served_bytes r = Os.bytes "0123456789".
Proof. vm_compute. repeat split; congruence. Qed.

(** The 405 branch is reached only when a piece between two dashes is
    exactly a comma. *)
Example comma_between_dashes_is_refused :
  let r := Scenario.response_of
             (Scenario.run_get "store" 512
                [("Authorization", "Bearer good"); ("Range", "bytes=0-,-4")]) in
  Http.client_status r = 405 /\ Http.served_bytes r = [].
Proof. vm_compute. split; reflexivity. Qed.

(** ** Frame rules

    [R] is a preorder, so the judgments compose along the structure of
    a handler. *)

Section Frame.
Import Py.
Context {S : Type} (R : relation S) `{!PreOrder R}.

Lemma preserves_on_ret {A} (c : M S A) : preserves R c -> on_ret R c.
Proof. intros H s a s' E. specialize (H s). now rewrite E in H. Qed.

Lemma preserves_ret {A} (a : A) : preserves R (ret a).
Proof. intros s. reflexivity. Qed.

Lemma preserves_raise {A} e : preserves R (@raise S A e).
Proof. intros s. reflexivity. Qed.

Lemma preserves_gets {A} (f : S -> A) : preserves R (gets f).
Proof. intros s. reflexivity. Qed.

Lemma preserves_of_option {A} e (o : option A) : preserves R (of_option e o).
Proof. intros s. destruct o; reflexivity. Qed.

Lemma preserves_assert b : preserves R (assert b).
Proof. intros s. destruct b; reflexivity. Qed.

Lemma preserves_modify f : (forall s, R s (f s)) -> preserves R (modify f).
Proof. intros H s. apply H. Qed.

Lemma preserves_bind {A B} (c : M S A) (k : A -> M S B) :
  preserves R c -> (forall a, preserves R (k a)) -> preserves R (bind c k).
Proof.
  intros Hc Hk s. unfold bind. specialize (Hc s).
  destruct (c s) as [[a|e] s1]; cbn in *; [|exact Hc].
  etransitivity; [exact Hc|apply Hk].
Qed.

Lemma preserves_lift {A B} (f : A -> B) (c : M S A) :
  preserves R c -> preserves R (lift f c).
Proof. intros Hc. apply preserves_bind; [exact Hc|intros; apply preserves_ret]. Qed.

Lemma preserves_try {A} (c : M S A) classes (h : exn -> M S A) :
  preserves R c -> (forall e, preserves R (h e)) -> preserves R (try_except c classes h).
Proof.
  intros Hc Hh s. unfold try_except. specialize (Hc s).
  destruct (c s) as [[a|e] s1]; cbn in *; [exact Hc|].
  destruct (caught e classes); cbn; [|exact Hc].
  etransitivity; [exact Hc|apply Hh].
Qed.

Lemma preserves_finally {A} (c : M S A) (f : M S unit) :
  preserves R c -> preserves R f -> preserves R (try_finally c f).
Proof.
  intros Hc Hf s. unfold try_finally. specialize (Hc s).
  destruct (c s) as [r s1]. specialize (Hf s1). cbn in *.
  destruct (f s1) as [[u|e] s2]; cbn in *; etransitivity; eauto.
Qed.

Lemma on_ret_bind {A B} (c : M S A) (k : A -> M S B) :
  on_ret R c -> (forall a, on_ret R (k a)) -> on_ret R (bind c k).
Proof.
  intros Hc Hk s b s'. unfold bind.
  destruct (c s) as [[a|e] s1] eqn:E; [|discriminate].
  intros E'. etransitivity; [eapply Hc, E|eapply Hk, E'].
Qed.

Lemma on_ret_raise {A} e : on_ret R (@raise S A e).
Proof. intros s a s'. discriminate. Qed.

Lemma on_ret_always_raises {A} (c : M S A) : always_raises c -> on_ret R c.
Proof. intros H s a s' E. destruct (H s) as (e & s1 & E1). congruence. Qed.

(** A handler that raises again keeps what the block has established:
    nothing is claimed about a run that raises. *)
Lemma on_ret_try_reraise {A} (c : M S A) classes (h : exn -> M S A) :
  on_ret R c -> (forall e, always_raises (S := S) (h e)) -> on_ret R (try_except c classes h).
Proof.
  intros Hc Hh s a s'. unfold try_except.
  destruct (c s) as [[a1|e] s1] eqn:E.
  - intros [= <- <-]. eapply Hc, E.
  - destruct (caught e classes); [|discriminate].
    destruct (Hh e s1) as (e' & s2 & E2). congruence.
Qed.

Lemma always_raises_raise {A} e : always_raises (@raise S A e).
Proof. intros s. now exists e, s. Qed.

Lemma always_raises_bind {A B} (c : M S A) (k : A -> M S B) :
  (forall a, always_raises (S := S) (k a)) -> always_raises (bind c k).
Proof.
  intros Hk s. unfold bind. destruct (c s) as [[a|e] s1].
  - apply Hk.
  - now exists e, s1.
Qed.

End Frame.

(** Running a block on a component: the relation on the component must
    imply the relation on the whole. *)
Lemma preserves_zoom {S T A} (R : relation S) (R' : relation T)
    (proj : S -> T) (inj : T -> S -> S) (c : Py.M T A) :
  (forall s t, R' (proj s) t -> R s (inj t s)) ->
  preserves R' c -> preserves R (Py.zoom proj inj c).
Proof.
  intros H Hc s. unfold Py.zoom. specialize (Hc (proj s)).
  destruct (c (proj s)) as [r t]. cbn in *. now apply H.
Qed.

(** ** The export handler and the world *)

Ltac frame_step :=
  match goal with
  | |- preserves ?R (Py.bind _ _) =>
      apply (@preserves_bind _ R ltac:(typeclasses eauto)); [|intros ?]
  | |- preserves ?R (Py.try_except _ _ _) =>
      apply (@preserves_try _ R ltac:(typeclasses eauto)); [|intros ?]
  | |- preserves ?R (Py.try_finally _ _) =>
      apply (@preserves_finally _ R ltac:(typeclasses eauto))
  | |- preserves ?R (Py.ret _) =>
      apply (@preserves_ret _ R ltac:(typeclasses eauto))
  | |- preserves ?R (Py.raise _) =>
      apply (@preserves_raise _ R ltac:(typeclasses eauto))
  | |- preserves ?R (Py.gets _) =>
      apply (@preserves_gets _ R ltac:(typeclasses eauto))
  | |- preserves ?R (Py.of_option _ _) =>
      apply (@preserves_of_option _ R ltac:(typeclasses eauto))
  | |- preserves ?R (Py.assert _) =>
      apply (@preserves_assert _ R ltac:(typeclasses eauto))
  | |- preserves ?R (Py.lift _ _) =>
      apply (@preserves_lift _ R ltac:(typeclasses eauto))
  | |- preserves _ (match ?x with _ => _ end) => destruct x
  end.

Create HintDb frame.

Ltac frame := repeat frame_step; eauto with frame.

Section ExportFrame.
Import Py FileStreamer.
Context (X : externals) (opts : options).
Context (P : string -> Prop) (Rw : relation Os.world) `{!PreOrder Rw}.
Hypothesis Rw_log : forall w e, benign e = true -> Rw w (Os.log e w).

#[local] Instance framed_preorder : PreOrder (framed P Rw).
Proof.
  split.
  - intros h. split; [reflexivity|]. intros _. reflexivity.
  - intros h1 h2 h3 [B1 W1] [B2 W2]. split; [congruence|].
    intros HP. etransitivity; [apply W1, HP|]. apply W2. now rewrite B1.
Qed.

Hypothesis metadata_framed :
  forall f, preserves (framed P Rw) (get_file_metadata X f).

(** Blocks of [Auth.base] that leave the world alone. *)
Lemma framed_base {A} (c : M Auth.base A) :
  (forall b, Auth.w (snd (c b)) = Auth.w b) -> preserves (framed P Rw) (base c).
Proof.
  intros H h. unfold base, zoom. specialize (H (hb h)).
  destruct (c (hb h)) as [r b]. cbn in *. split; [reflexivity|].
  intros _. cbn. rewrite H. reflexivity.
Qed.

Lemma framed_os {A} (c : M Os.world A) :
  preserves Rw c -> preserves (framed P Rw) (os c).
Proof.
  intros H h. unfold os, base, Auth.os, zoom. specialize (H (Auth.w (hb h))).
  destruct (c (Auth.w (hb h))) as [r w']. cbn in *. split; [reflexivity|].
  intros _. cbn. exact H.
Qed.

Lemma framed_modify (f : handler -> handler) :
  (forall h, backend (f h) = backend h /\ Auth.w (hb (f h)) = Auth.w (hb h)) ->
  preserves (framed P Rw) (modify f).
Proof.
  intros H h. destruct (H h) as [B W]. cbn. split; [exact B|].
  intros _. rewrite W. reflexivity.
Qed.

Lemma gate_keeps_world b :
  Auth.w (snd (Auth.process_token_and_extract_claims X opts b)) = Auth.w b.
Proof.
  destruct (Auth.process_token_and_extract_claims X opts b) as [[a|e] b'] eqn:E.
  - apply gate_ret in E as (hdr & j & t & rq & _ & _ & _ & _ & _ & _ & _ & ->).
    reflexivity.
  - apply gate_raise in E as (_ & _ & W & _). exact W.
Qed.

Lemma framed_gate :
  preserves (framed P Rw) (base (Auth.process_token_and_extract_claims X opts)).
Proof. apply framed_base, gate_keeps_world. Qed.

Lemma framed_set_message m : preserves (framed P Rw) (set_message m).
Proof. apply framed_base. reflexivity. Qed.

Lemma framed_set_status c : preserves (framed P Rw) (base (Auth.set_status c)).
Proof. apply framed_base. reflexivity. Qed.

Lemma framed_set_header k v : preserves (framed P Rw) (base (Auth.set_header k v)).
Proof. apply framed_base. reflexivity. Qed.

Lemma framed_flush : preserves (framed P Rw) (base Auth.flush).
Proof. apply framed_base. reflexivity. Qed.

Lemma framed_write o : preserves (framed P Rw) (base (Auth.write o)).
Proof.
  apply framed_base. intros b. unfold Auth.write.
  destruct (Http.finished (Auth.resp b)); reflexivity.
Qed.

Lemma framed_finish o : preserves (framed P Rw) (base (Auth.finish o)).
Proof.
  apply framed_base. intros b. unfold Auth.finish.
  destruct (Http.finished (Auth.resp b)); reflexivity.
Qed.

Lemma framed_header k : preserves (framed P Rw) (base (Auth.header k)).
Proof.
  apply framed_base. intros b. unfold Auth.header, of_option.
  destruct (Http.headers (Auth.req b) !! k); reflexivity.
Qed.

Lemma framed_has_header k : preserves (framed P Rw) (base (Auth.has_header k)).
Proof. apply framed_base. reflexivity. Qed.

Lemma framed_base_gets {A} (f : Auth.base -> A) : preserves (framed P Rw) (base (gets f)).
Proof. apply framed_base. reflexivity. Qed.

Lemma framed_lexists p : preserves (framed P Rw) (os (OsCalls.lexists p)).
Proof. apply framed_os. intros w. reflexivity. Qed.

Lemma framed_isdir p : preserves (framed P Rw) (os (OsCalls.isdir p)).
Proof. apply framed_os. intros w. reflexivity. Qed.

Lemma framed_stat p : preserves (framed P Rw) (os (OsCalls.stat p)).
Proof.
  apply framed_os. intros w. unfold OsCalls.stat.
  destruct (Os.fs w !! p); cbn; [now apply Rw_log|reflexivity].
Qed.

Lemma framed_listdir p : preserves (framed P Rw) (os (OsCalls.listdir p)).
Proof.
  apply framed_os. intros w. unfold OsCalls.listdir.
  destruct (Os.fs w !! p) as [n|]; cbn; [|reflexivity].
  destruct (Os.n_dir n); cbn; [now apply Rw_log|reflexivity].
Qed.

Lemma framed_open_rb p : preserves (framed P Rw) (os (OsCalls.open_rb p)).
Proof.
  apply framed_os. intros w. unfold OsCalls.open_rb.
  destruct (Os.fs w !! p) as [n|]; cbn; [|reflexivity].
  destruct (Os.n_dir n); cbn; [reflexivity|now apply Rw_log].
Qed.

Lemma framed_close p : preserves (framed P Rw) (os (modify (Os.log (Os.EvClose p)))).
Proof. apply framed_os. intros w. now apply Rw_log. Qed.

Lemma framed_put_authnz a : preserves (framed P Rw) (modify (put_authnz a)).
Proof. apply framed_modify. intros h. split; reflexivity. Qed.

Lemma framed_put_path p : preserves (framed P Rw) (modify (put_path p)).
Proof. apply framed_modify. intros h. split; reflexivity. Qed.

Lemma framed_put_filepath p : preserves (framed P Rw) (modify (put_filepath p)).
Proof. apply framed_modify. intros h. split; reflexivity. Qed.

Lemma framed_put_CHUNK_SIZE c : preserves (framed P Rw) (modify (put_CHUNK_SIZE c)).
Proof. apply framed_modify. intros h. split; reflexivity. Qed.

Hint Resolve framed_gate framed_set_message framed_set_status framed_set_header
  framed_flush framed_write framed_finish framed_header framed_has_header
  framed_base_gets framed_lexists framed_isdir framed_stat framed_listdir
  framed_open_rb framed_close framed_put_authnz framed_put_path
  framed_put_filepath framed_put_CHUNK_SIZE metadata_framed : frame.

Lemma framed_enforce pol f t size mime :
  preserves (framed P Rw) (enforce_export_policy X opts pol f t size mime).
Proof. unfold enforce_export_policy. frame. Qed.

Hint Resolve framed_enforce : frame.

Lemma framed_list_one path tenant file :
  preserves (framed P Rw) (list_one X opts path tenant file).
Proof. unfold list_one. frame. Qed.

Hint Resolve framed_list_one : frame.

Lemma framed_list_loop path tenant files :
  preserves (framed P Rw) (list_loop X opts path tenant files).
Proof. induction files as [|f fs IH]; cbn; frame. Qed.

Hint Resolve framed_list_loop : frame.

Lemma framed_list_files path tenant :
  preserves (framed P Rw) (list_files X opts path tenant).
Proof. unfold list_files. frame. Qed.

Lemma framed_compute_etag : preserves (framed P Rw) (compute_etag X).
Proof. unfold compute_etag. frame. Qed.

Lemma framed_send_all fuel chunk data rest :
  preserves (framed P Rw) (send_all fuel chunk data rest).
Proof.
  revert data rest. induction fuel as [|fuel IH]; intros data rest; cbn; frame.
Qed.

Lemma framed_send_range fuel chunk n data rest sent :
  preserves (framed P Rw) (send_range fuel chunk n data rest sent).
Proof.
  revert data rest sent.
  induction fuel as [|fuel IH]; intros data rest sent; cbn; frame.
Qed.

Hint Resolve framed_list_files framed_compute_etag framed_send_all
  framed_send_range : frame.

Lemma framed_authorize tenant : preserves (framed P Rw) (authorize X opts tenant).
Proof. unfold authorize. frame. Qed.

Lemma framed_locate filename : preserves (framed P Rw) (locate X opts filename).
Proof. unfold locate. frame. Qed.

Lemma framed_check_export fp tenant :
  preserves (framed P Rw) (check_export X opts fp tenant).
Proof. unfold check_export. frame. Qed.

Lemma framed_serve_whole fp size : preserves (framed P Rw) (serve_whole fp size).
Proof. unfold serve_whole. frame. Qed.

Lemma framed_serve_range fp : preserves (framed P Rw) (serve_range X fp).
Proof. unfold serve_range. frame. Qed.

Lemma framed_write_message : preserves (framed P Rw) write_message.
Proof. unfold write_message. frame. Qed.

Hint Resolve framed_authorize framed_locate framed_check_export
  framed_serve_whole framed_serve_range framed_write_message : frame.

Lemma framed_get tenant filename :
  preserves (framed P Rw) (get X opts tenant filename).
Proof. unfold get. frame. Qed.

Lemma framed_head tenant filename :
  preserves (framed P Rw) (head X opts tenant filename).
Proof. unfold head. frame. Qed.

End ExportFrame.

(** ** C9: [chmod go+r] on the [files] backend only *)

Section ChmodOnFiles.
Import Py FileStreamer.
Context (X : externals) (opts : options).

(** What [get_file_metadata] does to the world, whatever its outcome:
    on the [files] backend the command runs first and changes the mode
    of the file; on the other backends the file system is left as it
    is. *)
Lemma metadata_world f h :
  let h' := snd (get_file_metadata X f h) in
  let w0 := Auth.w (hb h) in
  let w1 := Auth.w (hb h') in
  backend h' = backend h /\
  exists evs, metadata_events f evs /\
    if String.eqb (backend h) "files"
    then Os.fs w1 = OsCalls.chmod_go_r f (Os.fs w0) /\
         Os.trace w1
         = (Os.trace w0 ++ Os.EvCall ["sudo"; "chmod"; "go+r"; f] :: evs)%list
    else Os.fs w1 = Os.fs w0 /\ Os.trace w1 = (Os.trace w0 ++ evs)%list.
Proof.
  unfold get_file_metadata, os, base, Auth.os, zoom, bind, gets, ret.
  unfold OsCalls.call, OsCalls.magic, OsCalls.stat, metadata_events. cbn.
  destruct (String.eqb (backend h) "files"); cbn.
  - destruct (OsCalls.chmod_go_r f (Os.fs (Auth.w (hb h))) !! f) as [n|] eqn:L; cbn.
    + destruct (magic_from_file X n); cbn.
      * rewrite L. cbn. split; [reflexivity|]. exists [Os.EvMagic f; Os.EvStat f].
        rewrite <- !app_assoc. cbn. auto.
      * split; [reflexivity|]. exists []. auto.
    + split; [reflexivity|]. exists []. auto.
  - destruct (Os.fs (Auth.w (hb h)) !! f) as [n|] eqn:L; cbn.
    + destruct (magic_from_file X n); cbn.
      * rewrite L. cbn. split; [reflexivity|]. exists [Os.EvMagic f; Os.EvStat f].
        rewrite <- !app_assoc. cbn. auto.
      * split; [reflexivity|]. exists []. rewrite app_nil_r. auto.
    + split; [reflexivity|]. exists []. rewrite app_nil_r. auto.
Qed.

#[global] Instance same_fs_preorder : PreOrder same_fs.
Proof.
  split; [intros w; reflexivity|].
  intros w1 w2 w3 H1 H2. unfold same_fs in *. congruence.
Qed.

Lemma chmod_first_nil : chmod_first [].
Proof. intros i f H. destruct i; discriminate. Qed.

Lemma chmod_first_benign e : benign e = true -> chmod_first [e].
Proof.
  intros B i f H. destruct i as [|i]; cbn in H.
  - injection H as ->. discriminate.
  - destruct i; discriminate.
Qed.

Lemma chmod_first_app evs1 evs2 :
  chmod_first evs1 -> chmod_first evs2 -> chmod_first (evs1 ++ evs2).
Proof.
  intros H1 H2 i f H.
  destruct (decide (i < length evs1)%nat) as [Hlt|Hge].
  - rewrite lookup_app_l in H by exact Hlt.
    destruct (H1 i f H) as (j & -> & Hj). exists j. split; [reflexivity|].
    rewrite lookup_app_l by lia. exact Hj.
  - rewrite lookup_app_r in H by lia.
    destruct (H2 _ f H) as (j & Hi & Hj).
    exists (length evs1 + j)%nat. split; [lia|].
    rewrite lookup_app_r by lia.
    replace (length evs1 + j - length evs1)%nat with j by lia. exact Hj.
Qed.

Lemma chmod_first_call f evs :
  metadata_events f evs ->
  chmod_first (Os.EvCall ["sudo"; "chmod"; "go+r"; f] :: evs).
Proof.
  intros [->|[->| ->]] i g H;
    repeat (destruct i as [|i]; cbn in H; try discriminate).
  all: injection H as <-; exists 0%nat; split; reflexivity.
Qed.

#[global] Instance chmod_precedes_preorder : PreOrder chmod_precedes.
Proof.
  split.
  - intros w. exists []. split; [now rewrite app_nil_r|apply chmod_first_nil].
  - intros w1 w2 w3 (e1 & T1 & C1) (e2 & T2 & C2). exists (e1 ++ e2)%list.
    split; [rewrite T2, T1; now rewrite app_assoc|now apply chmod_first_app].
Qed.

Lemma metadata_keeps_fs f :
  preserves (framed (fun b => b <> "files") same_fs) (get_file_metadata X f).
Proof.
  intros h. destruct (metadata_world f h) as (B & evs & _ & H).
  split; [exact B|]. intros HP.
  destruct (String.eqb (backend h) "files") eqn:E.
  - apply String.eqb_eq in E. contradiction.
  - apply H.
Qed.

Lemma metadata_chmod_first f :
  preserves (framed (fun b => b = "files") chmod_precedes) (get_file_metadata X f).
Proof.
  intros h. destruct (metadata_world f h) as (B & evs & M & H).
  split; [exact B|]. intros HP.
  apply String.eqb_eq in HP. rewrite HP in H. destruct H as [_ H].
  eexists. split; [exact H|]. now apply chmod_first_call.
Qed.

Lemma log_keeps_fs w e : benign e = true -> same_fs w (Os.log e w).
Proof. reflexivity. Qed.

Lemma log_chmod_precedes w e : benign e = true -> chmod_precedes w (Os.log e w).
Proof. intros B. exists [e]. split; [reflexivity|now apply chmod_first_benign]. Qed.

End ChmodOnFiles.

(** C9. On the [files] backend [get_file_metadata] runs
    [sudo chmod go+r] on the file before anything is read from it, which
    adds the read bits for group and others to its mode; in every run of
    [get] (serving a file or listing the directory) and of [head],
    libmagic reads a file only right after that command has run on it.
    On every other backend [get_file_metadata], [get] and [head] leave
    the file system, and so every mode, as it was. *)
Theorem chmod_go_r_on_files_backend_only (X : externals) (opts : options)
    (h : FileStreamer.handler) (tenant : string) (filename : option string)
    (f : string) :
  let world_of := fun x : FileStreamer.handler => Auth.w (FileStreamer.hb x) in
  let meta := snd (FileStreamer.get_file_metadata X f h) in
  let served := snd (FileStreamer.get X opts tenant filename h) in
  let headed := snd (FileStreamer.head X opts tenant filename h) in
  if String.eqb (FileStreamer.backend h) "files"
  then
    (exists evs,
        Os.trace (world_of meta)
        = (Os.trace (world_of h)
             ++ Os.EvCall ["sudo"; "chmod"; "go+r"; f] :: evs)%list) /\
    Os.fs (world_of meta) = OsCalls.chmod_go_r f (Os.fs (world_of h)) /\
    Os.n_mode <$> (Os.fs (world_of meta) !! f)
    = (fun n => Z.lor (Os.n_mode n) 36) <$> (Os.fs (world_of h) !! f) /\
    chmod_precedes (world_of h) (world_of served) /\
    chmod_precedes (world_of h) (world_of headed)
  else
    Os.fs (world_of meta) = Os.fs (world_of h) /\
    Os.fs (world_of served) = Os.fs (world_of h) /\
    Os.fs (world_of headed) = Os.fs (world_of h).
Proof.
  cbn zeta.
  destruct (metadata_world X f h) as (B & evs & M & H).
  destruct (String.eqb (FileStreamer.backend h) "files") eqn:E.
  - apply String.eqb_eq in E. destruct H as [Hfs Htr].
    split; [eauto|]. split; [exact Hfs|]. split.
    + rewrite Hfs. unfold OsCalls.chmod_go_r.
      destruct (Os.fs (Auth.w (FileStreamer.hb h)) !! f) as [n|] eqn:L.
      * rewrite lookup_insert_eq. reflexivity.
      * rewrite L. reflexivity.
    + split.
      * apply (framed_get X opts (fun b => b = "files") chmod_precedes
                 (log_chmod_precedes) (metadata_chmod_first X) tenant filename h), E.
      * apply (framed_head X opts (fun b => b = "files") chmod_precedes
                 (metadata_chmod_first X) tenant filename h), E.
  - assert (N : FileStreamer.backend h <> "files").
    { intros C. apply String.eqb_eq in C. congruence. }
    destruct H as [Hfs _]. split; [exact Hfs|]. split.
    + apply (framed_get X opts (fun b => b <> "files") same_fs
               (log_keeps_fs) (metadata_keeps_fs X) tenant filename h), N.
    + apply (framed_head X opts (fun b => b <> "files") same_fs
               (metadata_keeps_fs X) tenant filename h), N.
Qed.

(** The modes on the two kinds of backend: [report.txt] starts with mode
    0600; a [GET] on the [files] backend leaves it with 0644, a [GET] on
    the [store] backend with 0600. *)
Example get_on_files_changes_the_mode :
  let mode_after backend :=
    Os.n_mode <$>
      (Os.fs (Auth.w (FileStreamer.hb
                        (snd (Scenario.run_get backend 512
                                [("Authorization", "Bearer good")]))))
         !! "/exp/report.txt") in
  mode_after "files" = Some 420 /\ mode_after "store" = Some 384.
Proof. vm_compute. split; reflexivity. Qed.

(** ** C8: directories in the listing *)

Section Listing.
Import Py FileStreamer.
Context (X : externals) (opts : options).

#[global] Instance same_dirs_preorder : PreOrder same_dirs.
Proof.
  split; [intros w p; reflexivity|].
  intros w1 w2 w3 H1 H2 p. now rewrite H2, H1.
Qed.

#[global] Instance quiet_preorder : PreOrder quiet.
Proof.
  split.
  - intros h. split; [reflexivity|]. split; [reflexivity|]. split; reflexivity.
  - intros h1 h2 h3 (A1 & B1 & C1 & D1) (A2 & B2 & C2 & D2).
    split; [congruence|]. split; [congruence|].
    split; [etransitivity; eauto|congruence].
Qed.

Lemma quiet_os {A} (c : M Os.world A) :
  preserves same_dirs c -> preserves quiet (os c).
Proof.
  intros H h. unfold os, base, Auth.os, zoom. specialize (H (Auth.w (hb h))).
  destruct (c (Auth.w (hb h))) as [r w']. cbn in *.
  split; [reflexivity|]. split; [reflexivity|]. split; [exact H|reflexivity].
Qed.

Lemma same_dirs_log w e : same_dirs w (Os.log e w).
Proof. intros p. reflexivity. Qed.

Lemma same_dirs_chmod_go_r f w :
  same_dirs w (Os.with_fs (OsCalls.chmod_go_r f) w).
Proof.
  intros p. cbn. unfold OsCalls.chmod_go_r.
  destruct (Os.fs w !! f) as [n|] eqn:L; [|reflexivity].
  destruct (decide (f = p)) as [->|N].
  - rewrite lookup_insert_eq, L. reflexivity.
  - rewrite lookup_insert_ne by exact N. reflexivity.
Qed.

Lemma quiet_stat p : preserves quiet (os (OsCalls.stat p)).
Proof.
  apply quiet_os. intros w. unfold OsCalls.stat.
  destruct (Os.fs w !! p); cbn; [apply same_dirs_log|reflexivity].
Qed.

Lemma quiet_isdir p : preserves quiet (os (OsCalls.isdir p)).
Proof. apply quiet_os. intros w. reflexivity. Qed.

Lemma quiet_magic p : preserves quiet (os (OsCalls.magic X p)).
Proof.
  apply quiet_os. intros w. unfold OsCalls.magic.
  destruct (Os.fs w !! p) as [n|]; cbn; [|reflexivity].
  destruct (magic_from_file X n); cbn; [apply same_dirs_log|reflexivity].
Qed.

Lemma quiet_call_chmod f :
  preserves quiet (os (OsCalls.call ["sudo"; "chmod"; "go+r"; f])).
Proof.
  apply quiet_os. intros w. cbn.
  etransitivity; [apply (same_dirs_log w)|apply same_dirs_chmod_go_r].
Qed.

Lemma quiet_set_message m : preserves quiet (set_message m).
Proof.
  intros h. split; [reflexivity|]. split; [reflexivity|]. split; reflexivity.
Qed.

Lemma quiet_base_gets {A} (f : Auth.base -> A) : preserves quiet (base (gets f)).
Proof.
  intros h. split; [reflexivity|]. split; [reflexivity|]. split; reflexivity.
Qed.

Hint Resolve quiet_stat quiet_isdir quiet_magic quiet_call_chmod
  quiet_set_message quiet_base_gets : frame.

Lemma quiet_metadata f : preserves quiet (get_file_metadata X f).
Proof. unfold get_file_metadata. frame. Qed.

Lemma quiet_enforce pol f t size mime :
  preserves quiet (enforce_export_policy X opts pol f t size mime).
Proof. unfold enforce_export_policy. frame. Qed.

Hint Resolve quiet_metadata quiet_enforce : frame.

Lemma quiet_list_one path tenant file :
  preserves quiet (list_one X opts path tenant file).
Proof. unfold list_one. frame. Qed.

(** The row of a directory. *)
Lemma list_one_directory path tenant file h row h' :
  list_one X opts path tenant file h = (Ret row, h') ->
  Os.n_dir <$> (Os.fs (Auth.w (hb h)) !! normpath X (path ++ "/" ++ file)) = Some true ->
  r_exportable row = None /\ r_size row = None /\ r_mime row = None /\
  r_reason row = Some "exporting from directories not supported yet".
Proof.
  intros E D.
  destruct (Os.fs (Auth.w (hb h)) !! normpath X (path ++ "/" ++ file))
    as [n|] eqn:L; [|discriminate].
  injection D as D.
  revert E. unfold list_one, os, base, Auth.os, zoom, bind, try_except.
  unfold OsCalls.stat, OsCalls.isdir, set_message, gets, modify, of_option, ret.
  cbn. rewrite L. cbn.
  destruct (getpwuid X (Os.n_uid n)) as [owner|]; cbn; [|discriminate].
  rewrite L. cbn. rewrite D. cbn.
  intros [= <- <-]. cbn. auto.
Qed.

Lemma list_loop_rows path tenant names : forall h rows h',
  list_loop X opts path tenant names h = (Ret rows, h') ->
  length rows = length names /\
  quiet h h' /\
  forall i name row,
    names !! i = Some name -> rows !! i = Some row ->
    Os.n_dir <$> (Os.fs (Auth.w (hb h)) !! normpath X (path ++ "/" ++ name))
    = Some true ->
    r_exportable row = None /\ r_size row = None /\ r_mime row = None /\
    r_reason row = Some "exporting from directories not supported yet".
Proof.
  induction names as [|name names IH]; intros h rows h'; cbn.
  - intros [= <- <-]. split; [reflexivity|]. split; [reflexivity|].
    intros i n r H. destruct i; discriminate.
  - unfold bind at 1.
    destruct (list_one X opts path tenant name h) as [[r|e] h1] eqn:E1;
      [|discriminate].
    unfold bind at 1.
    destruct (list_loop X opts path tenant names h1) as [[rs|e] h2] eqn:E2;
      [|discriminate].
    intros [= <- <-].
    destruct (IH _ _ _ E2) as (Len & Q2 & Rows).
    pose proof (quiet_list_one path tenant name h) as Q1.
    rewrite E1 in Q1. cbn in Q1.
    split; [cbn; now rewrite Len|]. split; [etransitivity; eauto|].
    intros [|i] n row Hn Hr D; cbn in Hn, Hr.
    + injection Hn as <-. injection Hr as <-.
      eapply list_one_directory; eauto.
    + eapply Rows; eauto.
      destruct Q1 as (_ & _ & Dirs & _). rewrite Dirs. exact D.
Qed.

Lemma entry_filename_file_info uri name row :
  entry_filename (file_info X uri (name, row)) = Some name.
Proof. reflexivity. Qed.

Lemma listed_names uri names : forall rows,
  length rows = length names ->
  map entry_filename (map (file_info X uri) (zip names rows)) = map Some names.
Proof.
  induction names as [|n names IH]; intros [|r rows] Len; try discriminate.
  - reflexivity.
  - cbn. f_equal. apply IH. now injection Len.
Qed.

End Listing.

#[global] Hint Resolve quiet_stat quiet_isdir quiet_magic quiet_call_chmod
  quiet_set_message quiet_base_gets quiet_metadata quiet_enforce : frame.

(** C8, as the code has it. When [list_files] returns, it has written
    one listing with exactly one entry per name that [os.listdir]
    returned, in that order, directories included; the entry of a
    directory has [exportable], [size] and [mime-type] null and the
    reason [exporting from directories not supported yet]. *)
Theorem listing_has_an_entry_for_every_name (X : externals) (opts : options)
    (path tenant : string) (h h' : FileStreamer.handler) :
  FileStreamer.list_files X opts path tenant h = (Py.Ret tt, h') ->
  exists names rows files,
    fst (OsCalls.listdir path (Auth.w (FileStreamer.hb h))) = Py.Ret names /\
    Http.body (Auth.resp (FileStreamer.hb h'))
    = (Http.body (Auth.resp (FileStreamer.hb h)) ++ [Http.OutFiles files])%list /\
    files = map (FileStreamer.file_info X (Http.uri (Auth.req (FileStreamer.hb h))))
              (zip names rows) /\
    map entry_filename files = map Some names /\
    forall i name row,
      names !! i = Some name -> rows !! i = Some row ->
      Os.n_dir <$> (Os.fs (Auth.w (FileStreamer.hb h))
                      !! normpath X (path ++ "/" ++ name)) = Some true ->
      FileStreamer.r_exportable row = None /\
      FileStreamer.r_size row = None /\
      FileStreamer.r_mime row = None /\
      FileStreamer.r_reason row = Some "exporting from directories not supported yet".
Proof.
  unfold FileStreamer.list_files. unfold Py.bind at 1.
  destruct (FileStreamer.os (OsCalls.listdir path) h) as [[names|e] h1] eqn:E1;
    [|discriminate].
  assert (L : fst (OsCalls.listdir path (Auth.w (FileStreamer.hb h))) = Py.Ret names
              /\ Auth.resp (FileStreamer.hb h1) = Auth.resp (FileStreamer.hb h)
              /\ Auth.req (FileStreamer.hb h1) = Auth.req (FileStreamer.hb h)
              /\ Os.fs (Auth.w (FileStreamer.hb h1)) = Os.fs (Auth.w (FileStreamer.hb h))).
  { revert E1. unfold FileStreamer.os, FileStreamer.base, Auth.os, Py.zoom.
    unfold OsCalls.listdir.
    destruct (Os.fs (Auth.w (FileStreamer.hb h)) !! path) as [n|]; cbn;
      [|discriminate].
    destruct (Os.n_dir n); cbn; [|discriminate].
    intros [= <- <-]. cbn. auto. }
  destruct L as (L & R1 & Q1 & F1).
  destruct (export_max_num_list opts <? Z.of_nat (length names)).
  { unfold Py.bind, FileStreamer.base, FileStreamer.set_message, Py.zoom. cbn.
    discriminate. }
  unfold Py.bind at 1.
  destruct (FileStreamer.list_loop X opts path tenant names h1) as [[rows|e] h2] eqn:E2;
    [|discriminate].
  destruct (list_loop_rows X opts _ _ _ _ _ _ E2) as (Len & (R2 & Q2 & _) & Rows).
  unfold Py.bind, Py.gets, FileStreamer.base, Py.zoom, Auth.write. cbn.
  destruct (Http.finished (Auth.resp (FileStreamer.hb h2))); [discriminate|].
  intros [= <-]. cbn.
  exists names, rows. eexists. split; [exact L|].
  split; [rewrite R2, R1; reflexivity|].
  split; [rewrite Q2, Q1; reflexivity|].
  split; [now apply listed_names|].
  intros i name row Hn Hr D. eapply Rows; eauto. rewrite F1. exact D.
Qed.

Lemma listing_has_an_entry_for_every_name_witness :
  exists names rows files,
    fst (OsCalls.listdir "/exp" Scenario.export_world) = Py.Ret names /\
    Http.body (Scenario.response_of (Scenario.run_list "store"))
    = ([] ++ [Http.OutFiles files])%list /\
    files = map (FileStreamer.file_info Demo.X "/v1/p11/store/export") (zip names rows) /\
    map entry_filename files = map Some names /\
    forall i name row,
      names !! i = Some name -> rows !! i = Some row ->
      Os.n_dir <$> (Os.fs Scenario.export_world !! ("/exp" ++ "/" ++ name)) = Some true ->
      FileStreamer.r_exportable row = None /\
      FileStreamer.r_size row = None /\
      FileStreamer.r_mime row = None /\
      FileStreamer.r_reason row = Some "exporting from directories not supported yet".
Proof.
  pose (h0 := FileStreamer.initialize (Demo.opts 512) "store" "/exp" Demo.policies
         (Demo.request_of "GET" "/v1/p11/store/export"
            [("Authorization", "Bearer good")] [])
         Scenario.export_world).
  pose (h1 := snd (Py.bind (FileStreamer.set_message "Unknown error, please contact TSD")
                     (fun _ => FileStreamer.authorize Demo.X (Demo.opts 512) "p11") h0)).
  pose (h2 := snd (FileStreamer.list_files Demo.X (Demo.opts 512) "/exp" "p11" h1)).
  assert (E : FileStreamer.list_files Demo.X (Demo.opts 512) "/exp" "p11" h1
              = (Py.Ret tt, h2)) by (vm_compute; reflexivity).
  destruct (listing_has_an_entry_for_every_name Demo.X (Demo.opts 512) "/exp" "p11"
              h1 h2 E) as (names & rows & files & L & B & F & N & D).
  exists names, rows, files.
  split; [exact L|]. split; [|split; [exact F|split; [exact N|exact D]]].
  etransitivity; [|exact B]. vm_compute. reflexivity.
Defined.

(** C8, as it is stated, fails: the export directory of the scenario
    holds the directory [sub], and the listing has an entry for it. *)
Lemma listing_shows_a_directory :
  Os.n_dir <$> (Os.fs Scenario.export_world !! "/exp/sub") = Some true /\
  exists files,
    Http.body (Scenario.response_of (Scenario.run_list "store")) = [Http.OutFiles files] /\
    In [("filename", Http.JStr "sub"); ("size", Http.JNull);
        ("modified_date", Http.JStr "T7");
        ("href", Http.JStr "/v1/p11/store/export/sub");
        ("exportable", Http.JNull);
        ("reason", Http.JStr "exporting from directories not supported yet");
        ("mime-type", Http.JNull); ("owner", Http.JStr "uid1000")] files.
Proof.
  split; [vm_compute; reflexivity|].
  eexists. split; [vm_compute; reflexivity|]. left. reflexivity.
Qed.

(** ** C4: [If-Range] *)

Section IfRange.
Import Py FileStreamer.
Context (X : externals) (opts : options).

(** A successful [authorize] has touched neither the response nor the
    world. *)
Lemma authorize_ret tenant h h1 :
  authorize X opts tenant h = (Ret tt, h1) ->
  Auth.resp (hb h1) = Auth.resp (hb h) /\
  Auth.req (hb h1) = Auth.req (hb h) /\
  Auth.w (hb h1) = Auth.w (hb h) /\
  path h1 = Some (export_dir h).
Proof.
  unfold authorize, try_except, bind at 1 2 3, base, zoom.
  destruct (Auth.process_token_and_extract_claims X opts (hb h)) as [[a|e] b'] eqn:G.
  - apply gate_ret in G as (hdr & j & t & rq & _ & _ & _ & _ & _ & _ & _ & ->).
    cbn. destruct (valid_tenant opts tenant); cbn; [|discriminate].
    intros [= <-]. cbn. auto.
  - cbn. destruct (negb _); cbn; discriminate.
Qed.

Lemma truthy_slash a b : Py.truthy (a ++ "/" ++ b) = true.
Proof. induction a as [|c a IH]; reflexivity. Qed.

(** A successful [locate] has set [self.filepath] to an existing
    entry. *)
Lemma locate_ret filename h fp h2 :
  locate X opts filename h = (Ret fp, h2) ->
  Auth.resp (hb h2) = Auth.resp (hb h) /\
  Auth.req (hb h2) = Auth.req (hb h) /\
  Auth.w (hb h2) = Auth.w (hb h) /\
  filepath h2 = Some fp /\
  Py.truthy fp = true /\
  is_Some (Os.fs (Auth.w (hb h)) !! fp).
Proof.
  unfold locate, bind, base, os, Auth.os, zoom, gets, modify, ret, raise.
  unfold OsCalls.lexists, gets. cbn.
  destruct (check_filename X (url_unescape X filename) (start_chars opts)) as [n|];
    cbn; [|discriminate].
  destruct (bool_decide _) eqn:E; cbn; [|discriminate].
  intros [= <- <-]. cbn. repeat split; auto.
  - apply truthy_slash.
  - apply bool_decide_eq_true_1 in E. exact E.
Qed.

(** A successful [check_export] has touched neither the response nor
    [self.filepath]. *)
Lemma check_export_ret fp tenant h r h3 :
  check_export X opts fp tenant h = (Ret r, h3) -> quiet h h3.
Proof.
  apply (on_ret_try_reraise quiet).
  - apply (preserves_on_ret quiet). frame.
  - intros e. apply always_raises_bind. intros _. apply always_raises_raise.
Qed.

(** [compute_etag] returns the Etag of [self.filepath]. *)
Lemma compute_etag_run h fp :
  filepath h = Some fp -> Py.truthy fp = true ->
  exists w',
    compute_etag X h
    = (Ret (current_etag X (Auth.w (hb h)) fp), put_hb (Auth.put_w w' (hb h)) h).
Proof.
  intros F T. unfold compute_etag, try_except, bind, gets, os, base, Auth.os, zoom.
  rewrite F, T. unfold OsCalls.stat, current_etag.
  destruct (Os.fs (Auth.w (hb h)) !! fp) as [n|]; cbn; eexists; reflexivity.
Qed.

End IfRange.

(** C4. A ranged [GET] that has passed the token gate, the file name
    check and the export policy, and carries an [If-Range] header whose
    value is not the Etag [md5(str(mtime))] of the file: the handler
    answers 400 with a JSON message and writes no byte of the file. *)
Theorem if_range_mismatch_is_refused (X : externals) (opts : options)
    (tenant filename fp mime provided : string) (size : Z)
    (h0 h1 h2 h3 : FileStreamer.handler) :
  Auth.resp (FileStreamer.hb h0) = Http.fresh ->
  Py.truthy filename = true ->
  FileStreamer.authorize X opts tenant
    (snd (FileStreamer.set_message "Unknown error, please contact TSD" h0))
  = (Py.Ret tt, h1) ->
  FileStreamer.locate X opts filename h1 = (Py.Ret fp, h2) ->
  FileStreamer.check_export X opts fp tenant h2 = (Py.Ret (size, mime), h3) ->
  is_Some (Http.headers (Auth.req (FileStreamer.hb h0)) !! "Range") ->
  Http.headers (Auth.req (FileStreamer.hb h0)) !! "If-Range" = Some provided ->
  Some provided <> current_etag X (Auth.w (FileStreamer.hb h3)) fp ->
  exists h',
    FileStreamer.get X opts tenant (Some filename) h0 = (Py.Ret tt, h') /\
    Http.client_status (Auth.resp (FileStreamer.hb h')) = 400 /\
    Http.finished (Auth.resp (FileStreamer.hb h')) = true /\
    Http.body (Auth.resp (FileStreamer.hb h'))
    = [Http.message_body
         "The resource has changed, get everything from the start again"] /\
    Http.served_bytes (Auth.resp (FileStreamer.hb h')) = [].
Proof.
  intros Fresh T Ha Hl Hc Hr Hi Hne.
  destruct (authorize_ret X opts _ _ _ Ha) as (R1 & Q1 & W1 & _).
  destruct (locate_ret X opts _ _ _ _ Hl) as (R2 & Q2 & W2 & F2 & T2 & _).
  destruct (check_export_ret X opts _ _ _ _ _ Hc) as (R3 & Q3 & _ & F3).
  cbn in R1, Q1.
  assert (R : Auth.resp (FileStreamer.hb h3) = Http.fresh) by congruence.
  assert (Q : Auth.req (FileStreamer.hb h3) = Auth.req (FileStreamer.hb h0)) by congruence.
  assert (F : FileStreamer.filepath h3 = Some fp) by congruence.
  unfold FileStreamer.get.
  erewrite bind_ret by reflexivity.
  unfold Py.try_finally, Py.try_except.
  erewrite bind_ret by exact Ha.
  erewrite bind_ret by reflexivity.
  rewrite T. cbn [negb].
  erewrite bind_ret by exact Hl.
  erewrite bind_ret by exact Hc.
  cbn beta iota.
  erewrite bind_ret by reflexivity.
  erewrite bind_ret by reflexivity.
  cbn [FileStreamer.base Py.zoom Auth.has_header Py.gets fst snd
         FileStreamer.hb FileStreamer.put_hb Auth.req Auth.with_resp].
  rewrite Q. rewrite (bool_decide_eq_true_2 _ Hr). cbn [negb].
  unfold FileStreamer.serve_range.
  erewrite bind_ret by reflexivity.
  cbn [FileStreamer.base Py.zoom Auth.has_header Py.gets fst snd
         FileStreamer.hb FileStreamer.put_hb Auth.req Auth.with_resp].
  rewrite Q, Hi. rewrite bool_decide_eq_true_2 by eauto.
  set (h4 := FileStreamer.put_hb _ h3).
  assert (F4 : FileStreamer.filepath h4 = Some fp) by exact F.
  destruct (compute_etag_run X h4 fp F4 T2) as (w' & E).
  assert (Hne4 : Some provided <> current_etag X (Auth.w (FileStreamer.hb h4)) fp)
    by exact Hne.
  erewrite bind_raise with (e := Py.Exception).
  2:{ erewrite bind_ret.
      2:{ unfold FileStreamer.base, Py.zoom, Auth.header. cbn.
          rewrite Q, Hi. cbn. reflexivity. }
      erewrite bind_ret by exact E.
      rewrite bool_decide_eq_false_2 by exact Hne4. cbn [negb].
      reflexivity. }
  unfold FileStreamer.write_message, Py.bind, Py.gets, FileStreamer.base, Py.zoom,
    Auth.write, Auth.finish.
  repeat (cbn; rewrite R). cbn.
  eexists. split; [reflexivity|]. repeat (cbn; rewrite R). cbn. auto.
Qed.

Lemma if_range_mismatch_is_refused_witness :
  exists h',
    Scenario.run_get "store" 512
      [("Authorization", "Bearer good"); ("Range", "bytes=0-3");
       ("If-Range", "deadbeef")]
    = (Py.Ret tt, h') /\
    Http.client_status (Auth.resp (FileStreamer.hb h')) = 400 /\
    Http.finished (Auth.resp (FileStreamer.hb h')) = true /\
    Http.body (Auth.resp (FileStreamer.hb h'))
    = [Http.message_body
         "The resource has changed, get everything from the start again"] /\
    Http.served_bytes (Auth.resp (FileStreamer.hb h')) = [].
Proof.
  unfold Scenario.run_get.
  set (h0 := FileStreamer.initialize _ _ _ _ _ _).
  pose (h1 := snd (FileStreamer.authorize Demo.X (Demo.opts 512) "p11"
                     (snd (FileStreamer.set_message
                             "Unknown error, please contact TSD" h0)))).
  pose (h2 := snd (FileStreamer.locate Demo.X (Demo.opts 512) "report.txt" h1)).
  pose (h3 := snd (FileStreamer.check_export Demo.X (Demo.opts 512)
                     "/exp/report.txt" "p11" h2)).
  apply (if_range_mismatch_is_refused Demo.X (Demo.opts 512) "p11" "report.txt"
           "/exp/report.txt" "text/plain" "deadbeef" 10 h0 h1 h2 h3).
  - reflexivity.
  - reflexivity.
  - vm_compute. reflexivity.
  - vm_compute. reflexivity.
  - vm_compute. reflexivity.
  - exists "bytes=0-3". vm_compute. reflexivity.
  - vm_compute. reflexivity.
  - vm_compute. discriminate.
Defined.

(** The Etag of [report.txt] in the scenario is accepted. *)
Example if_range_match_is_served :
  let r := Scenario.response_of
             (Scenario.run_get "store" 512
                [("Authorization", "Bearer good"); ("Range", "bytes=0-3");
                 ("If-Range", "md5:5")]) in
  Http.client_status r = 200 /\ Http.served_bytes r = Os.bytes "0123".
Proof. vm_compute. split; reflexivity. Qed.

(** ** C10: the proxy and a missing file name *)

Section ProxySteps.
Import Py Proxy.
Context (X : externals) (opts : options).

Lemma proxy_base_run {A} (c : M Auth.base A) h r b :
  c (hb h) = (r, b) -> base c h = (r, put_hb b h).
Proof. intros E. unfold base, zoom. now rewrite E. Qed.

(** Step 4 without a name in the URI and without a [Filename] header. *)
Lemma set_the_filename_run h :
  (length (Py.split "/" (Http.uri (Auth.req (hb h)))) < 6)%nat ->
  Http.headers (Auth.req (hb h)) !! "Filename" = None ->
  set_the_filename X opts h
  = (Ret tt, put_filename (isoformat X (Os.clock (Auth.w (hb h))) ++ ".txt") h).
Proof.
  intros Hlen Hf. apply Nat.leb_gt in Hlen.
  unfold set_the_filename, try_except.
  erewrite bind_ret by reflexivity. cbn beta. rewrite Hlen.
  erewrite bind_raise with (e := KeyError).
  2:{ unfold base, zoom, Auth.header. rewrite Hf. reflexivity. }
  destruct h as [[] ? ? ?]. reflexivity.
Qed.

(** Step 5 never raises and leaves the handler as it is. *)
Lemma choose_group_run a t h :
  choose_group X a t h
  = (Ret (chosen_group X a t (Http.query (Auth.req (hb h)))), h).
Proof.
  destruct h as [[] ? ? ?].
  unfold choose_group, chosen_group, lift, try_except, bind, of_option, base, zoom,
    Auth.get_query_argument, of_option, ret, raise.
  destruct (az_claims a !! "groups"); cbn; [|reflexivity].
  destruct (Http.query req !! "group"); reflexivity.
Qed.

Lemma internal_headers_run h j :
  Auth.jwt (hb h) = Some j ->
  exists hs, internal_headers h = (Ret hs, h).
Proof.
  intros J. destruct h as [[] ? ? ?]. cbn in J. subst.
  unfold internal_headers, bind, gets, base, zoom, of_option, ret. cbn.
  eexists. reflexivity.
Qed.

Lemma chunk_and_id_run h :
  exists chunk_num upload_id, chunk_and_id X h = (Ret (chunk_num, upload_id), h).
Proof.
  unfold chunk_and_id, bind, gets.
  destruct (Http.query (Auth.req (hb h)) !! "chunk"); [|eexists _, _; reflexivity].
  destruct (Http.query (Auth.req (hb h)) !! "id"); eexists _, _; reflexivity.
Qed.

End ProxySteps.

(** C10. A proxy request that passes the token gate and the group
    checks, whose URI has fewer than six pieces between slashes and
    which has no [Filename] header: [prepare] does not end the request;
    the file name is the ISO timestamp of the clock followed by [.txt],
    and the internal request goes to [upload_stream/<that name>]. *)
Theorem proxy_names_the_upload_by_timestamp (X : externals) (opts : options)
    (backend : string) (r : Http.request) (w0 : Os.world)
    (a : authnz) (b1 : Auth.base) (t g : string) (ms : Os.claim) :
  Auth.process_token_and_extract_claims X opts (Auth.start r w0) = (Py.Ret a, b1) ->
  tenant_from_url X (Http.uri r) = Some t ->
  (length (Py.split "/" (Http.uri r)) < 6)%nat ->
  Http.headers r !! "Filename" = None ->
  Proxy.chosen_group X a t (Http.query r) = (g, ms) ->
  IS_VALID_GROUPNAME X g = true ->
  Py.split "-" g !! 0%nat = Some t ->
  Proxy.member g ms = true ->
  let name := isoformat X (Os.clock w0) ++ ".txt" in
  exists h' chunk_num upload_id hs,
    Proxy.prepare X opts (Proxy.initialize backend r w0) = (Py.Ret tt, h') /\
    Http.finished (Auth.resp (Proxy.hb h')) = false /\
    Http.status_code (Auth.resp (Proxy.hb h')) = 200 /\
    Proxy.filename h' = Some name /\
    Proxy.fetch_future h'
    = Some {| Proxy.f_url :=
                "http://localhost:" ++ str_of_int X (port opts) ++ "/v1/" ++ t ++ "/"
                ++ backend ++ "/upload_stream/" ++ url_escape X name
                ++ "?group=" ++ g ++ "&chunk=" ++ Proxy.fmt chunk_num
                ++ "&id=" ++ Proxy.fmt upload_id;
              Proxy.f_method := Http.method r;
              Proxy.f_headers := hs;
              Proxy.f_body_producer := negb (String.eqb (Http.method r) "HEAD") |}.
Proof.
  intros G Ht Hlen Hf Hg Hv Hs Hm name.
  pose proof G as G'.
  apply gate_ret in G' as (hdr & j & t' & rq & _ & _ & Ht' & Hvt & _ & _ & _ & Eb).
  cbn in Ht'. rewrite Ht in Ht'. injection Ht' as <-.
  set (h0 := Proxy.initialize backend r w0).
  set (h1 := Proxy.put_hb b1 h0).
  assert (Q1 : Auth.req (Proxy.hb h1) = r) by (subst b1; reflexivity).
  assert (W1 : Auth.w (Proxy.hb h1) = w0) by (subst b1; reflexivity).
  assert (J1 : Auth.jwt (Proxy.hb h1) = Some j) by (subst b1; reflexivity).
  assert (R1 : Auth.resp (Proxy.hb h1) = Http.fresh) by (subst b1; reflexivity).
  set (h2 := Proxy.put_filename name h1).
  destruct (internal_headers_run h2 j J1) as (hs & Eh).
  destruct (chunk_and_id_run X h2) as (chunk_num & upload_id & Ec).
  exists (Proxy.put_fetch_future
            {| Proxy.f_url :=
                 "http://localhost:" ++ str_of_int X (port opts) ++ "/v1/" ++ t ++ "/"
                 ++ backend ++ "/upload_stream/" ++ url_escape X name
                 ++ "?group=" ++ g ++ "&chunk=" ++ Proxy.fmt chunk_num
                 ++ "&id=" ++ Proxy.fmt upload_id;
               Proxy.f_method := Http.method r;
               Proxy.f_headers := hs;
               Proxy.f_body_producer := negb (String.eqb (Http.method r) "HEAD") |}
            h2), chunk_num, upload_id, hs.
  split; [|subst h2 h1 h0 b1; repeat split; reflexivity].
  unfold Proxy.prepare. apply try_ret.
  erewrite bind_ret by reflexivity.
  erewrite bind_ret by (apply proxy_base_run; exact G).
  fold h1.
  erewrite bind_ret by reflexivity.
  change (Http.uri (Auth.req (Proxy.hb h1))) with (Http.uri (Auth.req (Proxy.hb h1))).
  rewrite Q1, Ht.
  erewrite bind_ret by reflexivity.
  rewrite Hvt.
  erewrite bind_ret by reflexivity.
  erewrite bind_ret.
  2:{ apply set_the_filename_run; rewrite Q1; assumption. }
  rewrite W1. fold name. fold h2.
  erewrite bind_ret by apply choose_group_run.
  change (Auth.req (Proxy.hb h2)) with (Auth.req (Proxy.hb h1)).
  rewrite Q1, Hg.
  cbn beta iota. rewrite Hv.
  erewrite bind_ret by reflexivity.
  rewrite Hs.
  erewrite bind_ret by reflexivity.
  rewrite String.eqb_refl.
  erewrite bind_ret by reflexivity.
  rewrite Hm.
  erewrite bind_ret by reflexivity.
  erewrite bind_ret by exact Eh.
  erewrite bind_ret by exact Ec.
  cbn beta iota.
  erewrite bind_ret by reflexivity.
  erewrite bind_ret by reflexivity.
  erewrite bind_ret by reflexivity.
  reflexivity.
Qed.

Lemma proxy_names_the_upload_by_timestamp_witness :
  let name := isoformat Demo.X (Os.clock (Demo.world_of ∅)) ++ ".txt" in
  exists h' chunk_num upload_id hs,
    Proxy.prepare Demo.X (Demo.opts 512)
      (Proxy.initialize "files" Scenario.proxy_put (Demo.world_of ∅))
    = (Py.Ret tt, h') /\
    Http.finished (Auth.resp (Proxy.hb h')) = false /\
    Http.status_code (Auth.resp (Proxy.hb h')) = 200 /\
    Proxy.filename h' = Some name /\
    Proxy.fetch_future h'
    = Some {| Proxy.f_url :=
                "http://localhost:" ++ str_of_int Demo.X (port (Demo.opts 512))
                ++ "/v1/" ++ "p11" ++ "/" ++ "files" ++ "/upload_stream/"
                ++ url_escape Demo.X name
                ++ "?group=" ++ "p11-member-group" ++ "&chunk=" ++ Proxy.fmt chunk_num
                ++ "&id=" ++ Proxy.fmt upload_id;
              Proxy.f_method := Http.method Scenario.proxy_put;
              Proxy.f_headers := hs;
              Proxy.f_body_producer :=
                negb (String.eqb (Http.method Scenario.proxy_put) "HEAD") |}.
Proof.
  pose (b1 := snd (Auth.process_token_and_extract_claims Demo.X (Demo.opts 512)
                     (Auth.start Scenario.proxy_put (Demo.world_of ∅)))).
  apply (proxy_names_the_upload_by_timestamp Demo.X (Demo.opts 512) "files"
           Scenario.proxy_put (Demo.world_of ∅) Scenario.good_authnz b1
           "p11" "p11-member-group" (Os.CList ["p11-member-group"])).
  - vm_compute. reflexivity.
  - vm_compute. reflexivity.
  - vm_compute. lia.
  - vm_compute. reflexivity.
  - vm_compute. reflexivity.
  - vm_compute. reflexivity.
  - vm_compute. reflexivity.
  - vm_compute. reflexivity.
Defined.

(** The internal URL of the scenario. *)
Example proxy_put_internal_url :
  Proxy.f_url <$>
    Proxy.fetch_future
      (snd (Proxy.prepare Demo.X (Demo.opts 512)
              (Proxy.initialize "files" Scenario.proxy_put (Demo.world_of ∅))))
  = Some ("http://localhost:3003/v1/p11/files/upload_stream/T1700000000.txt"
          ++ "?group=p11-member-group&chunk=None&id=None").
Proof. vm_compute. reflexivity. Qed.

(** ** The stream handler, step by step *)

Ltac stream_proj :=
  cbn [Stream.hb Stream.cfg Stream.completed_resumable_file Stream.target_file
       Stream.custom_content_type Stream.path Stream.path_part
       Stream.chunk_order_correct Stream.authnz_ Stream.group_name Stream.res
       Stream.chunk_num Stream.upload_id Stream.completed_resumable_filename
       Stream.procs Stream.initialize
       Stream.put_hb Stream.put_completed_resumable_file Stream.put_target_file
       Stream.put_custom_content_type Stream.put_path Stream.put_path_part
       Stream.put_chunk_order_correct Stream.put_authnz_ Stream.put_group_name
       Stream.put_res Stream.put_chunk_num Stream.put_upload_id
       Stream.put_completed_resumable_filename Stream.put_procs
       Auth.req Auth.resp Auth.w Auth.status Auth.message Auth.jwt Auth.tenant
       Auth.claims Auth.requestor Auth.start Auth.with_resp Auth.put_w
       Auth.put_status Auth.put_message Auth.put_jwt Auth.put_tenant
       Auth.put_claims Auth.put_requestor
       Stream.backend Stream.tenant_dir Stream.request_hook_enabled
       Stream.hook_path Stream.hook_sudo
       fst snd].

Section StreamSteps.
Import Py Stream.
Context (X : externals) (opts : options).

Lemma stream_base_run {A} (c : M Auth.base A) h r b :
  c (hb h) = (r, b) -> base c h = (r, put_hb b h).
Proof. intros E. unfold base, zoom. now rewrite E. Qed.

Lemma stream_os_run {A} (c : M Os.world A) h r w' :
  c (Auth.w (hb h)) = (r, w') -> os c h = (r, put_hb (Auth.put_w w' (hb h)) h).
Proof. intros E. unfold os, base, Auth.os, zoom. now rewrite E. Qed.

(** The resumable engine on a chunk that is not beyond the last merged
    one: the answer is [chunk_order_ok = False], and the world is
    untouched. *)
Lemma resumable_prepare_stale td filename c id g rq n u w :
  Resumable.parse_chunk c = Some (Resumable.CNum n) ->
  Os.uploads w !! id = Some u ->
  Os.u_owner u = rq ->
  n <= Os.u_last u ->
  Resumable.prepare X td filename c (Some id) g rq w
  = (Ret (Resumable.CNum n, id, false, false, id ++ "/" ++ filename ++ ".chunk." ++ c), w).
Proof.
  intros Hp Hu Ho Hn. unfold Resumable.prepare.
  rewrite Hp. unfold bind, of_option, ret, gets. rewrite Hu.
  rewrite bool_decide_eq_true_2 by exact Ho. cbn [negb].
  apply Z.leb_le in Hn. rewrite Hn. reflexivity.
Qed.

(** The [PATCH] branch of [prepare] on such a chunk raises, having set
    [self.chunk_order_correct] to [False]. *)
Lemma prepare_resumable_stale filename h c id g rq n u :
  Http.query (Auth.req (hb h)) !! "chunk" = Some c ->
  Http.query (Auth.req (hb h)) !! "id" = Some id ->
  Http.query (Auth.req (hb h)) !! "group" = Some g ->
  Auth.requestor (hb h) = Some rq ->
  Resumable.parse_chunk (url_unescape X c) = Some (Resumable.CNum n) ->
  Os.uploads (Auth.w (hb h)) !! url_unescape X id = Some u ->
  Os.u_owner u = rq ->
  n <= Os.u_last u ->
  prepare_resumable X filename h
  = (Raise Exception,
     put_chunk_order_correct false
       (put_completed_resumable_file false
          (put_upload_id (Some (url_unescape X id))
             (put_chunk_num (Some (Resumable.CNum n)) (put_res true h))))).
Proof.
  intros Hc Hi Hg Hr Hp Hu Ho Hn.
  destruct h as [[] ? ? ? ? ? ? ? ? ? ? ? ? ? ?]. cbn in Hc, Hi, Hg, Hr, Hu.
  unfold prepare_resumable, lift, bind, modify, gets, os, base, Auth.os, zoom,
    Auth.get_query_argument, of_option, ret.
  cbn -[Resumable.prepare]. rewrite Hc. cbn -[Resumable.prepare].
  rewrite Hi. cbn -[Resumable.prepare]. rewrite Hg. cbn -[Resumable.prepare].
  rewrite Hr. cbn -[Resumable.prepare].
  rewrite (resumable_prepare_stale _ _ _ _ _ _ _ _ _ Hp Hu Ho Hn). reflexivity.
Qed.

(** [on_finish] when no file is open and the request is a [PATCH] of a
    numbered chunk: nothing happens. *)
Lemma on_finish_idle h n :
  target_file h = None ->
  Http.method (Auth.req (hb h)) = "PATCH" ->
  chunk_num h = Some (Resumable.CNum n) ->
  on_finish opts h = (Ret tt, h).
Proof.
  intros T Hm Hc. unfold on_finish, target_closed, try_except, bind, gets.
  cbv beta. rewrite T. cbn.
  rewrite bool_decide_eq_true_2 by reflexivity. cbn.
  rewrite Hm. cbn. rewrite Hc. reflexivity.
Qed.

End StreamSteps.

(** ** C1: a chunk that is not beyond the last merged one *)

(** C1. A [PATCH] request that passes the token gate, has a content
    type, a legal file name and the query arguments [chunk], [id] and
    [group], and whose chunk number is at most the last merged chunk of
    its upload: [prepare] ends the request with status 200 and the body
    [{"message": "chunk_order_incorrect"}]; no file is opened, and after
    [prepare] and [on_finish] the world (file system, resumable records,
    trace of calls) is the one the request started in. *)
Theorem stale_chunk_is_refused_without_effect (X : externals) (opts : options)
    (cfg : Stream.config) (r : Http.request) (w0 : Os.world)
    (a : authnz) (b1 : Auth.base) (ct uf fname c id g : string) (n : Z)
    (u : Os.upload) :
  Http.method r = "PATCH" ->
  Auth.process_token_and_extract_claims X opts (Auth.start r w0) = (Py.Ret a, b1) ->
  Http.headers r !! "Content-Type" = Some ct ->
  Stream.uri_filename_of (Http.uri r) = Some uf ->
  check_filename X (url_unescape X uf) (start_chars opts) = Some fname ->
  Http.query r !! "chunk" = Some c ->
  Http.query r !! "id" = Some id ->
  Http.query r !! "group" = Some g ->
  Resumable.parse_chunk (url_unescape X c) = Some (Resumable.CNum n) ->
  Os.uploads w0 !! url_unescape X id = Some u ->
  Auth.requestor b1 = Some (Os.u_owner u) ->
  n <= Os.u_last u ->
  exists h1 h2,
    Stream.prepare X opts (Stream.initialize cfg r w0) = (Py.Ret tt, h1) /\
    Stream.on_finish opts h1 = (Py.Ret tt, h2) /\
    Auth.w (Stream.hb h1) = w0 /\
    Auth.w (Stream.hb h2) = w0 /\
    Stream.target_file h2 = None /\
    Http.client_status (Auth.resp (Stream.hb h2)) = 200 /\
    Http.body (Auth.resp (Stream.hb h2)) = [Http.message_body "chunk_order_incorrect"] /\
    Http.finished (Auth.resp (Stream.hb h2)) = true.
Proof.
  intros Hm G Hct Huf Hcf Hc Hi Hg Hp Hu Hr Hn.
  pose proof G as G'.
  apply gate_ret in G' as (hdr & j & t & rq & _ & _ & Ht & Hvt & _ & _ & _ & Eb).
  cbn in Ht.
  assert (Q1 : Auth.req b1 = r) by (subst b1; reflexivity).
  assert (W1 : Auth.w b1 = w0) by (subst b1; reflexivity).
  assert (R1 : Auth.resp b1 = Http.fresh) by (subst b1; reflexivity).
  unfold Stream.prepare.
  erewrite try_caught with (e := Py.TypeError); [| |reflexivity].
  2:{ do 5 (erewrite bind_ret by reflexivity).
      erewrite bind_ret.
      2:{ apply try_ret. erewrite bind_ret by (apply stream_base_run; exact G).
          reflexivity. }
      erewrite try_caught with (e := Py.Exception); [| |reflexivity].
      2:{ erewrite bind_ret by reflexivity.
          erewrite bind_ret by reflexivity.
          stream_proj. rewrite Q1, Hm, Ht.
          erewrite bind_ret.
          2:{ apply try_ret. erewrite bind_ret by reflexivity.
              erewrite bind_ret by reflexivity. rewrite Hvt.
              erewrite bind_ret by reflexivity. reflexivity. }
          erewrite bind_ret.
          2:{ apply try_ret. erewrite bind_ret.
              2:{ apply stream_base_run. unfold Auth.get_query_argument.
                  stream_proj. rewrite Q1, Hg. reflexivity. }
              reflexivity. }
          erewrite bind_ret by reflexivity.
          erewrite try_passed with (e := Py.Exception); [reflexivity| |reflexivity].
          erewrite bind_ret.
          2:{ apply stream_base_run. unfold Auth.header. stream_proj.
              rewrite Q1, Hct. reflexivity. }
          rewrite Huf. erewrite bind_ret by reflexivity.
          rewrite Hcf. erewrite bind_ret by reflexivity.
          cbn [String.eqb Ascii.eqb Bool.eqb].
          erewrite bind_raise; [reflexivity|].
          eapply prepare_resumable_stale; stream_proj; rewrite ?Q1, ?W1; eauto. }
      unfold Stream.rename_path_to_path_part.
      erewrite try_passed with (e := Py.TypeError); [reflexivity| |reflexivity].
      erewrite bind_ret by reflexivity. stream_proj.
      erewrite bind_ret by reflexivity.
      erewrite bind_ret by reflexivity.
      erewrite bind_ret by reflexivity.
      reflexivity. }
  subst b1.
  erewrite bind_ret by reflexivity. stream_proj. cbn [negb].
  erewrite bind_ret by reflexivity.
  unfold Stream.base at 1, Py.zoom, Auth.finish. stream_proj.
  cbn [Http.finished Http.fresh Http.set_status].
  match goal with
  | |- exists h1 h2, (_, ?s) = _ /\ _ => set (h1 := s)
  end.
  exists h1, h1.
  split; [reflexivity|].
  split; [apply (on_finish_idle opts h1 n); [reflexivity|exact Hm|reflexivity]|].
  repeat split; reflexivity.
Qed.

Lemma stale_chunk_is_refused_without_effect_witness :
  exists h1 h2,
    Scenario.prepared (Scenario.patch_chunk "2") = (Py.Ret tt, h1) /\
    Stream.on_finish (Demo.opts 512) h1 = (Py.Ret tt, h2) /\
    Auth.w (Stream.hb h1) = Scenario.import_world /\
    Auth.w (Stream.hb h2) = Scenario.import_world /\
    Stream.target_file h2 = None /\
    Http.client_status (Auth.resp (Stream.hb h2)) = 200 /\
    Http.body (Auth.resp (Stream.hb h2)) = [Http.message_body "chunk_order_incorrect"] /\
    Http.finished (Auth.resp (Stream.hb h2)) = true.
Proof.
  pose (b1 := snd (Auth.process_token_and_extract_claims Demo.X (Demo.opts 512)
                     (Auth.start (Scenario.patch_chunk "2") Scenario.import_world))).
  apply (stale_chunk_is_refused_without_effect Demo.X (Demo.opts 512)
           Scenario.stream_cfg (Scenario.patch_chunk "2") Scenario.import_world
           Scenario.good_authnz b1 "application/octet-stream" "big.bin" "big.bin"
           "2" "u1" "p11-member-group" 2 Scenario.upload_u1).
  - reflexivity.
  - vm_compute. reflexivity.
  - vm_compute. reflexivity.
  - vm_compute. reflexivity.
  - vm_compute. reflexivity.
  - vm_compute. reflexivity.
  - vm_compute. reflexivity.
  - vm_compute. reflexivity.
  - vm_compute. reflexivity.
  - vm_compute. reflexivity.
  - vm_compute. reflexivity.
  - cbn. lia.
Defined.

(** Scenario S2 also for an earlier chunk, and the next chunk for
    comparison: chunk 1 is refused like chunk 2, chunk 3 is accepted and
    its staging file is opened. *)
Example chunk_1_is_refused_chunk_3_is_accepted :
  Http.body (Auth.resp (Stream.hb (snd (Scenario.prepared (Scenario.patch_chunk "1")))))
  = [Http.message_body "chunk_order_incorrect"] /\
  Http.finished
    (Auth.resp (Stream.hb (snd (Scenario.prepared (Scenario.patch_chunk "3")))))
  = false /\
  Os.fh_path <$> Stream.target_file (snd (Scenario.prepared (Scenario.patch_chunk "3")))
  = Some "/imp/u1/big.bin.chunk.3.uuid0.part".
Proof. vm_compute. repeat split; reflexivity. Qed.

(** ** C6: the mode of the target file *)

Section OpenModes.
Import Py Stream.
Context (X : externals).

(** [open] on a path that is not a directory succeeds, with the entry
    present afterwards. *)
Lemma open_run p mode w :
  (forall n, Os.fs w !! p = Some n -> Os.n_dir n = false) ->
  exists n',
    OsCalls.open_ X (Some p) mode w
    = (Ret {| Os.fh_path := p; Os.fh_mode := mode; Os.fh_closed := false |},
       Os.log (Os.EvOpen p mode) (Os.with_fs (<[p := n']>) w)).
Proof.
  intros D. unfold OsCalls.open_.
  destruct (Os.fs w !! p) as [n|] eqn:L.
  - rewrite (D n eq_refl). eexists. reflexivity.
  - eexists. reflexivity.
Qed.

Lemma chmod_run p mode n w :
  Os.fs w !! p = Some n ->
  OsCalls.chmod (Some p) mode w
  = (Ret tt, Os.log (Os.EvChmod p mode) (Os.with_fs (<[p := Os.set_mode mode n]>) w)).
Proof. intros L. unfold OsCalls.chmod. now rewrite L. Qed.

Lemma not_custom ct :
  Py.mem ct custom_types = false ->
  String.eqb ct "application/aes" = false /\
  String.eqb ct "application/aes-octet-stream" = false /\
  Py.mem ct ["application/tar"; "application/tar.gz"] = false /\
  Py.mem ct ["application/tar.aes"; "application/tar.gz.aes"] = false /\
  String.eqb ct "application/gz" = false /\
  String.eqb ct "application/gz.aes" = false.
Proof.
  unfold Py.mem, custom_types. cbn [existsb].
  intros H. repeat (apply orb_false_elim in H as [? H]).
  repeat split; cbn [existsb]; rewrite ?orb_false_r;
    try (apply orb_false_intro); assumption.
Qed.

Lemma filemode_of_cases method filemode :
  filemode_of method = Some filemode ->
  (method = "POST" /\ filemode = "ab+") \/
  (method = "PUT" /\ filemode = "wb+") \/
  (method = "PATCH" /\ filemode = "wb+").
Proof.
  unfold filemode_of, filemodes. cbn [find fst snd].
  destruct (String.eqb_spec "POST" method) as [<-|_];
    [intros [= <-]; auto|].
  destruct (String.eqb_spec "PUT" method) as [<-|_];
    [intros [= <-]; auto|].
  destruct (String.eqb_spec "PATCH" method) as [<-|_];
    [intros [= <-]; auto|].
  discriminate.
Qed.

End OpenModes.

(** C6, as the code has it. With a content type that selects no
    transform, the file [self.path] is opened with the mode that
    [filemodes] gives for the method: [ab+] for [POST], [wb+] for [PUT]
    and for [PATCH]. For [POST] and [PUT] the handler opens the file
    itself and then sets its mode to [S_IREAD | S_IWRITE], which is 0600.
    For [PATCH] (when the chunk is not [end]) the file is opened through
    the resumable engine, and the handler makes no [chmod] call. *)
Theorem plain_upload_file_mode (X : externals) (h : Stream.handler)
    (ct method filemode p : string) :
  Http.method (Auth.req (Stream.hb h)) = method ->
  Stream.filemode_of method = Some filemode ->
  Py.mem ct Stream.custom_types = false ->
  Stream.path h = Some p ->
  (forall n, Os.fs (Auth.w (Stream.hb h)) !! p = Some n -> Os.n_dir n = false) ->
  Stream.completed_resumable_file h = false ->
  filemode = (if String.eqb method "POST" then "ab+" else "wb+") /\
  exists h',
    Stream.dispatch X ct filemode h = (Py.Ret tt, h') /\
    Stream.custom_content_type h' = None /\
    Stream.target_file h'
    = Some {| Os.fh_path := p; Os.fh_mode := filemode; Os.fh_closed := false |} /\
    if String.eqb method "PATCH"
    then
      Os.trace (Auth.w (Stream.hb h'))
      = (Os.trace (Auth.w (Stream.hb h)) ++ [Os.EvOpen p filemode])%list
    else
      Os.trace (Auth.w (Stream.hb h'))
      = (Os.trace (Auth.w (Stream.hb h))
           ++ [Os.EvOpen p filemode; Os.EvChmod p Os._RW______])%list /\
      Os.n_mode <$> (Os.fs (Auth.w (Stream.hb h')) !! p) = Some 384.
Proof.
  intros Hm Hf Hct Hp Hd Hcomp.
  destruct (not_custom ct Hct) as (C1 & C2 & C3 & C4 & C5 & C6).
  destruct (open_run X p filemode (Auth.w (Stream.hb h)) Hd) as (n' & Ho).
  assert (Hopen :
    Stream.os (OsCalls.open_ X (Some p) filemode) (Stream.put_custom_content_type None h)
    = (Py.Ret {| Os.fh_path := p; Os.fh_mode := filemode; Os.fh_closed := false |},
       Stream.put_hb
         (Auth.put_w (Os.log (Os.EvOpen p filemode)
                        (Os.with_fs (<[p := n']>) (Auth.w (Stream.hb h))))
            (Stream.hb h))
         (Stream.put_custom_content_type None h))).
  { apply (stream_os_run _ (Stream.put_custom_content_type None h)). exact Ho. }
  assert (Hmode : filemode = (if String.eqb method "POST" then "ab+" else "wb+")).
  { destruct (filemode_of_cases _ _ Hf) as [[-> ->]|[[-> ->]|[-> ->]]]; reflexivity. }
  split; [exact Hmode|].
  unfold Stream.dispatch.
  erewrite bind_ret by reflexivity.
  erewrite bind_ret by reflexivity.
  rewrite C1, C2, C3, C4, C5, C6, Hm.
  destruct (filemode_of_cases _ _ Hf) as [[-> ->]|[[-> ->]|[-> ->]]];
    cbn [String.eqb Ascii.eqb Bool.eqb negb andb].
  - erewrite bind_ret by reflexivity. unfold Stream.open_target.
    erewrite bind_ret.
    2:{ erewrite bind_ret by reflexivity. stream_proj. rewrite Hp.
        erewrite bind_ret by exact Hopen. reflexivity. }
    erewrite bind_ret by reflexivity. stream_proj. rewrite Hp.
    eexists. split.
    { apply stream_os_run. stream_proj. apply chmod_run.
      cbn. apply lookup_insert_eq. }
    split; [reflexivity|]. split; [reflexivity|]. split.
    + cbn. rewrite <- app_assoc. reflexivity.
    + cbn. rewrite lookup_insert_eq. reflexivity.
  - erewrite bind_ret by reflexivity. unfold Stream.open_target.
    erewrite bind_ret.
    2:{ erewrite bind_ret by reflexivity. stream_proj. rewrite Hp.
        erewrite bind_ret by exact Hopen. reflexivity. }
    erewrite bind_ret by reflexivity. stream_proj. rewrite Hp.
    eexists. split.
    { apply stream_os_run. stream_proj. apply chmod_run.
      cbn. apply lookup_insert_eq. }
    split; [reflexivity|]. split; [reflexivity|]. split.
    + cbn. rewrite <- app_assoc. reflexivity.
    + cbn. rewrite lookup_insert_eq. reflexivity.
  - erewrite bind_ret by reflexivity.
    erewrite bind_ret by reflexivity. stream_proj. rewrite Hcomp. cbn [negb].
    erewrite bind_ret by reflexivity. stream_proj. rewrite Hp.
    unfold Resumable.open_file.
    erewrite bind_ret by exact Hopen.
    eexists. split; [reflexivity|].
    split; [reflexivity|]. split; reflexivity.
Qed.

Lemma plain_upload_file_mode_witness :
  let h := Stream.put_path (Some "/imp/new.txt.uuid0.part")
             (Stream.initialize Scenario.stream_cfg (Scenario.upload_old "POST")
                Scenario.import_world) in
  let p := "/imp/new.txt.uuid0.part" in
  "ab+" = (if String.eqb "POST" "POST" then "ab+" else "wb+") /\
  exists h',
    Stream.dispatch Demo.X "application/octet-stream" "ab+" h = (Py.Ret tt, h') /\
    Stream.custom_content_type h' = None /\
    Stream.target_file h'
    = Some {| Os.fh_path := p; Os.fh_mode := "ab+"; Os.fh_closed := false |} /\
    if String.eqb "POST" "PATCH"
    then
      Os.trace (Auth.w (Stream.hb h'))
      = (Os.trace (Auth.w (Stream.hb h)) ++ [Os.EvOpen p "ab+"])%list
    else
      Os.trace (Auth.w (Stream.hb h'))
      = (Os.trace (Auth.w (Stream.hb h))
           ++ [Os.EvOpen p "ab+"; Os.EvChmod p Os._RW______])%list /\
      Os.n_mode <$> (Os.fs (Auth.w (Stream.hb h')) !! p) = Some 384.
Proof.
  apply (plain_upload_file_mode Demo.X
           (Stream.put_path (Some "/imp/new.txt.uuid0.part")
              (Stream.initialize Scenario.stream_cfg (Scenario.upload_old "POST")
                 Scenario.import_world))
           "application/octet-stream" "POST" "ab+" "/imp/new.txt.uuid0.part").
  - reflexivity.
  - reflexivity.
  - reflexivity.
  - reflexivity.
  - intros n. vm_compute. discriminate.
  - reflexivity.
Defined.

(** C6, as it is stated, fails for [PATCH]: the table maps [PATCH] to
    [wb+], and [prepare] opens the chunk file of chunk 3 with that
    mode, without a [chmod] call. *)
Lemma patch_opens_with_wb :
  let h := snd (Scenario.prepared (Scenario.patch_chunk "3")) in
  Stream.filemode_of "PATCH" = Some "wb+" /\
  Http.finished (Auth.resp (Stream.hb h)) = false /\
  Os.fh_mode <$> Stream.target_file h = Some "wb+" /\
  Os.fh_mode <$> Stream.target_file h <> Some "ab+" /\
  Os.trace (Auth.w (Stream.hb h)) = [Os.EvOpen "/imp/u1/big.bin.chunk.3.uuid0.part" "wb+"].
Proof. vm_compute. repeat split; congruence. Qed.

(** [prepare] as a whole on [POST] and [PUT] of an existing file: the
    file is moved to its staging name, opened there with [ab+]
    respectively [wb+], and given the mode 0600. *)
Example post_and_put_modes :
  let after method := snd (Scenario.prepared (Scenario.upload_old method)) in
  let staged := "/imp/old.txt.uuid0.part" in
  Stream.target_file (after "POST")
  = Some {| Os.fh_path := staged; Os.fh_mode := "ab+"; Os.fh_closed := false |} /\
  Stream.target_file (after "PUT")
  = Some {| Os.fh_path := staged; Os.fh_mode := "wb+"; Os.fh_closed := false |} /\
  Os.n_mode <$> (Os.fs (Auth.w (Stream.hb (after "POST"))) !! staged) = Some 384 /\
  Os.n_mode <$> (Os.fs (Auth.w (Stream.hb (after "PUT"))) !! staged) = Some 384 /\
  Os._RW______ = 384 /\
  Os.trace (Auth.w (Stream.hb (after "POST")))
  = [Os.EvRename "/imp/old.txt" staged; Os.EvOpen staged "ab+"; Os.EvChmod staged 384].
Proof. vm_compute. repeat split; reflexivity. Qed.

(** ** C7: a client that disconnects *)

Section Disconnect.
Import Py Stream.
Context (opts : options).

(** One call of [data_received] during a plain upload appends the chunk
    to the staged file and touches nothing else. *)
Lemma data_received_uploading h staged visible mode data chunk :
  uploading h staged visible mode data ->
  exists h',
    data_received chunk h = (Ret tt, h') /\
    uploading h' staged visible mode (data ++ chunk) /\
    cfg h' = cfg h /\
    Os.trace (Auth.w (hb h'))
    = (Os.trace (Auth.w (hb h)) ++ [Os.EvWrite staged (length chunk)])%list.
Proof.
  intros (T & C & M & P & PP & N & V & D).
  destruct h as [[] ? ? ? ? ? ? ? ? ? ? ? ? ? ?]. cbn in T, C, M, P, PP, V, D.
  subst.
  destruct (Os.fs w !! staged) as [n|] eqn:L; [|discriminate].
  injection D as <-.
  destruct (String.eqb_spec (Http.method req) "PATCH") as [E|_]; [contradiction|].
  apply String.eqb_neq in M.
  unfold data_received, try_except, bind, gets, os, base, Auth.os, zoom, OsCalls.write.
  cbn. rewrite M. cbn. rewrite L. cbn.
  eexists. split; [reflexivity|].
  split; [|split; reflexivity].
  unfold uploading. cbn.
  split; [reflexivity|]. split; [reflexivity|].
  split; [now apply String.eqb_neq|].
  split; [reflexivity|]. split; [reflexivity|]. split; [exact N|].
  split.
  - rewrite lookup_insert_ne by exact N. exact V.
  - rewrite lookup_insert_eq. reflexivity.
Qed.

Lemma receive_uploading chunks : forall h staged visible mode data,
  uploading h staged visible mode data ->
  exists h' evs,
    receive chunks h = (Ret tt, h') /\
    uploading h' staged visible mode (data ++ concat chunks) /\
    cfg h' = cfg h /\
    Os.trace (Auth.w (hb h')) = (Os.trace (Auth.w (hb h)) ++ evs)%list /\
    no_rename evs.
Proof.
  induction chunks as [|c cs IH]; intros h staged visible mode data U.
  - exists h, []. cbn. rewrite !app_nil_r.
    split; [reflexivity|]. split; [exact U|]. split; [reflexivity|].
    split; [reflexivity|]. intros a b F. destruct F.
  - destruct (data_received_uploading h _ _ _ _ c U) as (h1 & E1 & U1 & C1 & T1).
    destruct (IH h1 _ _ _ _ U1) as (h2 & evs & E2 & U2 & C2 & T2 & NR).
    exists h2, (Os.EvWrite staged (length c) :: evs). cbn [receive concat].
    split; [erewrite bind_ret by exact E1; exact E2|].
    split; [now rewrite app_assoc|].
    split; [congruence|].
    split; [rewrite T2, T1, <- app_assoc; reflexivity|].
    intros a b [F|F]; [discriminate|]. exact (NR a b F).
Qed.

(** [on_connection_close] with an open file: the file is closed, the
    request hook may be called, and the names and the files stay as they
    are. On the [cluster] backend the unbound name [tenant] makes the
    method raise [NameError] after the file is closed. *)
Lemma on_connection_close_open h f :
  target_file h = Some f -> Os.fh_closed f = false ->
  exists res h' evs,
    on_connection_close opts h = (res, h') /\
    target_file h'
    = Some {| Os.fh_path := Os.fh_path f; Os.fh_mode := Os.fh_mode f;
              Os.fh_closed := true |} /\
    Os.fs (Auth.w (hb h')) = Os.fs (Auth.w (hb h)) /\
    path h' = path h /\ path_part h' = path_part h /\
    Os.trace (Auth.w (hb h'))
    = (Os.trace (Auth.w (hb h)) ++ Os.EvClose (Os.fh_path f) :: evs)%list /\
    no_rename (Os.EvClose (Os.fh_path f) :: evs) /\
    (res = Ret tt \/ (res = Raise NameError /\ backend (cfg h) = "cluster")).
Proof.
  intros T C.
  destruct h as [[] [] ? ? ? ? ? ? ? ? ? ? ? ? ?]. cbn in T. subst.
  destruct f as [fp fm fc]. cbn in C. subst.
  unfold on_connection_close, try_except, target_closed, close_target, call_hook,
    bind, gets, modify, os, base, Auth.os, zoom, OsCalls.close.
  cbn.
  destruct (String.eqb_spec backend0 "cluster") as [->|NE]; cbn.
  - eexists _, _, []. split; [reflexivity|]. cbn.
    split; [reflexivity|]. split; [reflexivity|]. split; [reflexivity|].
    split; [reflexivity|]. split; [reflexivity|].
    split; [|auto]. intros a b [F|[]]. discriminate.
  - destruct request_hook_enabled0; cbn.
    + eexists _, _, [_]. split; [reflexivity|]. cbn.
      split; [reflexivity|]. split; [reflexivity|]. split; [reflexivity|].
      split; [reflexivity|]. split; [now rewrite <- app_assoc|].
      split; [|auto]. intros a b [F|[F|[]]]; discriminate.
    + eexists _, _, []. split; [reflexivity|]. cbn.
      split; [reflexivity|]. split; [reflexivity|]. split; [reflexivity|].
      split; [reflexivity|]. split; [reflexivity|].
      split; [|auto]. intros a b [F|[]]. discriminate.
Qed.

End Disconnect.

(** C7, as the code has it. During a plain [PUT] or [POST] the bytes go
    to the staged name [self.path]; when the client disconnects,
    [on_connection_close] closes the file and renames nothing: the bytes
    received so far stay under the staged name, and the visible name
    [self.path_part] stays free. *)
Theorem disconnect_leaves_the_upload_staged (opts : options) (h : Stream.handler)
    (staged visible mode : string) (data : list Byte.byte)
    (chunks : list (list Byte.byte)) :
  uploading h staged visible mode data ->
  exists h2 res h3 evs,
    Stream.receive chunks h = (Py.Ret tt, h2) /\
    Stream.on_connection_close opts h2 = (res, h3) /\
    Stream.target_file h3
    = Some {| Os.fh_path := staged; Os.fh_mode := mode; Os.fh_closed := true |} /\
    Os.fs (Auth.w (Stream.hb h3)) = Os.fs (Auth.w (Stream.hb h2)) /\
    Os.fs (Auth.w (Stream.hb h3)) !! visible = None /\
    Os.n_data <$> (Os.fs (Auth.w (Stream.hb h3)) !! staged)
    = Some (data ++ concat chunks)%list /\
    Stream.path h3 = Some staged /\
    Stream.path_part h3 = Some visible /\
    Os.trace (Auth.w (Stream.hb h3)) = (Os.trace (Auth.w (Stream.hb h)) ++ evs)%list /\
    In (Os.EvClose staged) evs /\
    no_rename evs.
Proof.
  intros U.
  destruct (receive_uploading chunks h _ _ _ _ U) as (h2 & evs & E2 & U2 & _ & T2 & NR).
  destruct U2 as (T & C & M & P & PP & N & V & D).
  destruct (on_connection_close_open opts h2 _ T eq_refl)
    as (res & h3 & evs' & E3 & T3 & F3 & P3 & PP3 & Tr3 & NR3 & _).
  cbn [Os.fh_path Os.fh_mode] in *.
  exists h2, res, h3, (evs ++ Os.EvClose staged :: evs')%list.
  split; [exact E2|]. split; [exact E3|]. split; [exact T3|].
  split; [exact F3|]. split; [now rewrite F3|]. split; [now rewrite F3|].
  split; [congruence|]. split; [congruence|].
  split; [rewrite Tr3, T2, <- app_assoc; reflexivity|].
  split; [apply in_or_app; right; left; reflexivity|].
  intros a b F. apply in_app_or in F as [F|F]; [exact (NR a b F)|exact (NR3 a b F)].
Qed.

Lemma disconnect_leaves_the_upload_staged_witness :
  let h := snd (Scenario.prepared (Scenario.upload_old "POST")) in
  exists h2 res h3 evs,
    Stream.receive [Os.bytes "ab"; Os.bytes "c"] h = (Py.Ret tt, h2) /\
    Stream.on_connection_close (Demo.opts 512) h2 = (res, h3) /\
    Stream.target_file h3
    = Some {| Os.fh_path := "/imp/old.txt.uuid0.part"; Os.fh_mode := "ab+";
              Os.fh_closed := true |} /\
    Os.fs (Auth.w (Stream.hb h3)) = Os.fs (Auth.w (Stream.hb h2)) /\
    Os.fs (Auth.w (Stream.hb h3)) !! "/imp/old.txt" = None /\
    Os.n_data <$> (Os.fs (Auth.w (Stream.hb h3)) !! "/imp/old.txt.uuid0.part")
    = Some (Os.bytes "old" ++ concat [Os.bytes "ab"; Os.bytes "c"])%list /\
    Stream.path h3 = Some "/imp/old.txt.uuid0.part" /\
    Stream.path_part h3 = Some "/imp/old.txt" /\
    Os.trace (Auth.w (Stream.hb h3)) = (Os.trace (Auth.w (Stream.hb h)) ++ evs)%list /\
    In (Os.EvClose "/imp/old.txt.uuid0.part") evs /\
    no_rename evs.
Proof.
  apply (disconnect_leaves_the_upload_staged (Demo.opts 512)
           (snd (Scenario.prepared (Scenario.upload_old "POST")))
           "/imp/old.txt.uuid0.part" "/imp/old.txt" "ab+" (Os.bytes "old")
           [Os.bytes "ab"; Os.bytes "c"]).
  unfold uploading.
  split; [vm_compute; reflexivity|]. split; [vm_compute; reflexivity|].
  split; [vm_compute; discriminate|]. split; [vm_compute; reflexivity|].
  split; [vm_compute; reflexivity|]. split; [discriminate|].
  split; vm_compute; reflexivity.
Defined.

(** C7, as it is stated, fails: after [PUT old.txt], three bytes of
    body and a disconnect, [on_connection_close] has closed the file and
    called the request hook, and has renamed nothing. *)
Lemma disconnect_renames_nothing :
  let h1 := snd (Scenario.prepared (Scenario.upload_old "PUT")) in
  let h2 := snd (Stream.data_received (Os.bytes "abc") h1) in
  let h3 := snd (Stream.on_connection_close (Demo.opts 512) h2) in
  Os.trace (Auth.w (Stream.hb h3))
  = (Os.trace (Auth.w (Stream.hb h2))
       ++ [Os.EvClose "/imp/old.txt.uuid0.part";
           Os.EvHook "/hook"
             ["/imp/old.txt.uuid0.part"; "p11-alice"; "api"; "p11-member-group"]
             true])%list /\
  (forall a b, ~ In (Os.EvRename a b)
                    [Os.EvClose "/imp/old.txt.uuid0.part";
                     Os.EvHook "/hook"
                       ["/imp/old.txt.uuid0.part"; "p11-alice"; "api";
                        "p11-member-group"] true]) /\
  Os.fs (Auth.w (Stream.hb h3)) = Os.fs (Auth.w (Stream.hb h2)) /\
  Os.n_data <$> (Os.fs (Auth.w (Stream.hb h3)) !! "/imp/old.txt.uuid0.part")
  = Some (Os.bytes "abc").
Proof.
  split; [vm_compute; reflexivity|].
  split; [intros a b [F|[F|[]]]; discriminate|].
  split; vm_compute; reflexivity.
Qed.

(** * Further properties of the handlers *)

(** ** The token gate, in general *)

Section GateOutcomes.
Import Py.
Context (X : externals) (opts : options).

(** Whatever made the gate raise, the response it leaves is the one it
    found with the status 401. *)
Lemma gate_raise_resp b e b' :
  Auth.process_token_and_extract_claims X opts b = (Raise e, b') ->
  Auth.resp b' = Http.set_status 401 (Auth.resp b).
Proof.
  unfold Auth.process_token_and_extract_claims, Auth.header, Auth.set_status.
  unfold try_except, bind, modify, gets, of_option, assert, ret, raise. cbn.
  destruct (Http.headers (Auth.req b) !! "Authorization") as [hdr|];
    cbn; [|intros [= <- <-]; auto].
  destruct (split " " hdr !! 1%nat) as [j|]; cbn; [|intros [= <- <-]; auto].
  destruct (tenant_from_url X (Http.uri (Auth.req b))) as [t|];
    cbn; [|intros [= <- <-]; auto].
  destruct (valid_tenant opts t); cbn; [|intros [= <- <-]; auto].
  destruct (process_access_token X hdr t _ _ _) as [az|];
    cbn; [|intros [= <- <-]; auto].
  destruct (az_claims az !! requestor_claim_name opts) as [rq|];
    cbn; [|intros [= <- <-]; auto].
  destruct (az_status az); cbn; [discriminate|intros [= <- <-]; auto].
Qed.

(** The conditions of [gate_ret] are sufficient. *)
Lemma gate_accepts b a hdr j t rq :
  Http.headers (Auth.req b) !! "Authorization" = Some hdr ->
  split " " hdr !! 1%nat = Some j ->
  tenant_from_url X (Http.uri (Auth.req b)) = Some t ->
  valid_tenant opts t = true ->
  process_access_token X hdr t (check_tenant opts) (check_exp opts)
    (tenant_claim_name opts) = Some a ->
  az_status a = true ->
  az_claims a !! requestor_claim_name opts = Some rq ->
  Auth.process_token_and_extract_claims X opts b
  = (Ret a, Auth.put_requestor rq
              (Auth.put_claims (az_claims a)
                 (Auth.put_tenant t (Auth.put_jwt j (Auth.put_status None b))))).
Proof.
  intros H1 H2 H3 H4 H5 H6 H7.
  unfold Auth.process_token_and_extract_claims, Auth.header, Auth.set_status.
  unfold try_except, bind, modify, gets, of_option, assert, ret, raise. cbn.
  rewrite H1. cbn. rewrite H2. cbn. rewrite H3. cbn. rewrite H4. cbn.
  rewrite H5. cbn. rewrite H7. cbn. rewrite H6. reflexivity.
Qed.

End GateOutcomes.

(** X1. The token gate lets a request through exactly when the request
    has an [Authorization] header with a second word after a space, the
    tenant of the URI is valid, [process_access_token] answers with a
    true status, and the claims hold the requestor claim. The first
    word of the header is not looked at. *)
Theorem gate_accepts_iff (X : externals) (opts : options) (b : Auth.base) (a : authnz) :
  (exists b', Auth.process_token_and_extract_claims X opts b = (Py.Ret a, b')) <->
  (exists hdr j t rq,
      Http.headers (Auth.req b) !! "Authorization" = Some hdr /\
      Py.split " " hdr !! 1%nat = Some j /\
      tenant_from_url X (Http.uri (Auth.req b)) = Some t /\
      valid_tenant opts t = true /\
      process_access_token X hdr t (check_tenant opts) (check_exp opts)
        (tenant_claim_name opts) = Some a /\
      az_status a = true /\
      az_claims a !! requestor_claim_name opts = Some rq).
Proof.
  split.
  - intros (b' & E).
    apply gate_ret in E as (hdr & j & t & rq & H1 & H2 & H3 & H4 & H5 & H6 & H7 & _).
    exists hdr, j, t, rq. auto 10.
  - intros (hdr & j & t & rq & H1 & H2 & H3 & H4 & H5 & H6 & H7).
    eexists. eapply gate_accepts; eauto.
Qed.

(** X2. The two outcomes of the token gate. When it returns, the token
    was accepted, and the response, the world and the request are
    untouched. When it raises, whatever the reason, the exception is of
    class [Exception], the status of the response is 401 and nothing
    else of the response has changed; the world is untouched. *)
Theorem gate_outcomes (X : externals) (opts : options) (b : Auth.base) :
  match Auth.process_token_and_extract_claims X opts b with
  | (Py.Ret a, b') =>
      (az_status a = true /\
       Auth.resp b' = Auth.resp b /\ Auth.w b' = Auth.w b /\
       Auth.req b' = Auth.req b /\
       Auth.claims b' = Some (az_claims a) /\
       Auth.requestor b' = (az_claims a !! requestor_claim_name opts) /\
       Auth.tenant b' = tenant_from_url X (Http.uri (Auth.req b)))
  | (Py.Raise e, b') =>
      (e = Py.Exception /\
       Auth.resp b' = Http.set_status 401 (Auth.resp b) /\
       Auth.w b' = Auth.w b /\ Auth.req b' = Auth.req b)
  end.
Proof.
  destruct (Auth.process_token_and_extract_claims X opts b) as [[a|e] b'] eqn:E.
  - apply gate_ret in E as (hdr & j & t & rq & _ & _ & Ht & _ & _ & Hs & Hr & ->).
    cbn. rewrite Hr, Ht. auto 10.
  - pose proof (gate_raise_resp X opts _ _ _ E) as R.
    apply gate_raise in E as (-> & _ & W & Q). auto.
Qed.

(** ** The export policy *)

(** X3. [enforce_export_policy] under the policy of the tenant (its
    own, else the default one): the call never raises; it returns
    [True] exactly when the file name is legal and either the policy is
    disabled, or the MIME type is allowed (by name or by the wildcard)
    and the size does not exceed a non-zero [max_size]. A [True] answer
    leaves the handler as it was; a [False] answer has set
    [self.message] to the reason, the size limit taking precedence over
    the MIME type. *)
Theorem export_policy_verdict (X : externals) (opts : options)
    (policy_config : gmap string policy) (filename tenant : string) (size : Z)
    (mime_type : string) (h : FileStreamer.handler) (p : policy) :
  policy_for policy_config tenant = Some p ->
  let file := FileStreamer.basename filename in
  let legal := bool_decide (is_Some (check_filename X file (start_chars opts))) in
  let v := export_verdict legal p size mime_type in
  FileStreamer.enforce_export_policy X opts policy_config filename tenant size mime_type h
  = (Py.Ret v,
     if v then h
     else snd (FileStreamer.set_message
                 (refusal_reason legal p file tenant size mime_type) h)).
Proof.
  intros Hp. cbn zeta.
  unfold FileStreamer.enforce_export_policy, export_verdict, refusal_reason, mime_allowed.
  destruct (check_filename X (FileStreamer.basename filename) (start_chars opts))
    as [s|] eqn:Hc.
  - rewrite bool_decide_eq_true_2 by eauto. cbn [andb negb].
    assert (E : (match policy_config !! tenant with
                 | Some p0 => Py.ret p0
                 | None => Py.of_option Py.KeyError (policy_config !! "default")
                 end : Py.M FileStreamer.handler policy) = Py.ret p).
    { unfold policy_for in Hp. destruct (policy_config !! tenant).
      - now injection Hp as ->.
      - rewrite Hp. reflexivity. }
    rewrite E. clear E.
    unfold Py.bind at 1. unfold Py.ret at 1.
    destruct (p_enabled p); cbn [negb orb]; [|reflexivity].
    destruct (Py.mem "*" (p_allowed_mime_types p)); cbn [orb andb].
    + unfold Py.bind, Py.ret.
      destruct (FileStreamer.exceeds (p_max_size p) size); reflexivity.
    + destruct (Py.mem mime_type (p_allowed_mime_types p)); cbn [orb andb].
      * unfold Py.bind, Py.ret.
        destruct (FileStreamer.exceeds (p_max_size p) size); reflexivity.
      * unfold Py.bind, Py.ret.
        destruct (FileStreamer.exceeds (p_max_size p) size); reflexivity.
  - rewrite bool_decide_eq_false_2 by (intros [? ?]; discriminate).
    reflexivity.
Qed.

Lemma export_policy_verdict_witness :
  FileStreamer.enforce_export_policy Demo.X (Demo.opts 512) Cases.policies
    "/exp/report.txt" "p11" 10 "text/plain" (Cases.export_handler Cases.policies 512 [])
  = (Py.Ret false,
     snd (FileStreamer.set_message "File size exceeds maximum allowed for p11"
            (Cases.export_handler Cases.policies 512 []))).
Proof.
  apply (export_policy_verdict Demo.X (Demo.opts 512) Cases.policies
           "/exp/report.txt" "p11" 10 "text/plain"
           (Cases.export_handler Cases.policies 512 [])
           {| p_enabled := true; p_allowed_mime_types := ["text/plain"];
              p_max_size := Some 5 |}).
  vm_compute. reflexivity.
Defined.

(** A [max_size] of zero is no limit, and the wildcard admits every
    MIME type. *)
Example max_size_zero_is_no_limit :
  export_verdict true
    {| p_enabled := true; p_allowed_mime_types := ["*"]; p_max_size := Some 0 |}
    1000000 "application/zip" = true.
Proof. reflexivity. Qed.

Section CheckExport.
Import Py FileStreamer.
Context (X : externals) (opts : options).

(** A successful [get_file_metadata] has found the file: the size is
    the number of its bytes, the MIME type is what libmagic reports. *)
Lemma metadata_ret f h size mime h1 :
  get_file_metadata X f h = (Ret (size, mime), h1) ->
  exists n,
    Os.fs (Auth.w (hb h1)) !! f = Some n /\
    size = Z.of_nat (length (Os.n_data n)) /\
    magic_from_file X n = Some mime.
Proof.
  unfold get_file_metadata, os, base, Auth.os, zoom, bind, gets, ret.
  unfold OsCalls.call, OsCalls.magic, OsCalls.stat. cbn.
  destruct (String.eqb (backend h) "files"); cbn.
  - destruct (OsCalls.chmod_go_r f (Os.fs (Auth.w (hb h))) !! f) as [n|] eqn:L;
      cbn; [|discriminate].
    destruct (magic_from_file X n) eqn:M; cbn; [|discriminate].
    rewrite L. cbn. intros [= <- <- <-]. cbn. eauto.
  - destruct (Os.fs (Auth.w (hb h)) !! f) as [n|] eqn:L; cbn; [|discriminate].
    destruct (magic_from_file X n) eqn:M; cbn; [|discriminate].
    rewrite L. cbn. intros [= <- <- <-]. cbn. eauto.
Qed.

(** [enforce_export_policy] leaves the world alone, and says [True]
    only for a legal name. *)
Lemma enforce_ret pol f t size mime h v h' :
  enforce_export_policy X opts pol f t size mime h = (Ret v, h') ->
  Auth.w (hb h') = Auth.w (hb h) /\
  (v = true -> is_Some (check_filename X (basename f) (start_chars opts))).
Proof.
  unfold enforce_export_policy.
  destruct (check_filename X (basename f) (start_chars opts)) as [s|].
  - unfold bind at 1.
    destruct (pol !! t) as [p|].
    + unfold ret at 1.
      destruct (p_enabled p); cbn [negb]; [|intros [= <- <-]; eauto].
      destruct (Py.mem "*" (p_allowed_mime_types p)).
      * unfold bind, ret.
        destruct (exceeds (p_max_size p) size); intros [= <- <-]; eauto.
      * destruct (Py.mem mime (p_allowed_mime_types p)); unfold bind, ret;
          destruct (exceeds (p_max_size p) size); intros [= <- <-]; eauto.
    + destruct (pol !! "default") as [p|]; [|discriminate].
      unfold of_option, ret at 1.
      destruct (p_enabled p); cbn [negb]; [|intros [= <- <-]; eauto].
      destruct (Py.mem "*" (p_allowed_mime_types p)).
      * unfold bind, ret.
        destruct (exceeds (p_max_size p) size); intros [= <- <-]; eauto.
      * destruct (Py.mem mime (p_allowed_mime_types p)); unfold bind, ret;
          destruct (exceeds (p_max_size p) size); intros [= <- <-]; eauto.
  - intros [= <- <-]. split; [reflexivity|discriminate].
Qed.

End CheckExport.

(** X4. The policy check of [get]. When it passes, the file exists, its
    name is legal, the size is the number of its bytes and the MIME type
    is the one libmagic reports; the response is untouched. When it does
    not pass, whatever went wrong (the file vanished, libmagic failed,
    the policy is missing from the configuration, or the policy refuses
    the file), the exception is of class [Exception] and the status is
    400. *)
Theorem check_export_outcomes (X : externals) (opts : options) (fp tenant : string)
    (h : FileStreamer.handler) :
  match FileStreamer.check_export X opts fp tenant h with
  | (Py.Ret (size, mime), h') =>
      (Auth.resp (FileStreamer.hb h') = Auth.resp (FileStreamer.hb h) /\
       is_Some (check_filename X (FileStreamer.basename fp) (start_chars opts)) /\
       exists n,
         Os.fs (Auth.w (FileStreamer.hb h')) !! fp = Some n /\
         size = Z.of_nat (length (Os.n_data n)) /\
         magic_from_file X n = Some mime)
  | (Py.Raise e, h') =>
      (e = Py.Exception /\
       Http.status_code (Auth.resp (FileStreamer.hb h')) = 400)
  end.
Proof.
  destruct (FileStreamer.check_export X opts fp tenant h) as [[[size mime]|e] h'] eqn:E.
  - destruct (check_export_ret X opts _ _ _ _ _ E) as (R & _).
    split; [exact R|].
    revert E. unfold FileStreamer.check_export, Py.try_except.
    unfold Py.bind at 1.
    destruct (FileStreamer.get_file_metadata X fp h) as [[[s m]|e1] h1] eqn:E1.
    2:{ rewrite caught_Exception by (left; reflexivity).
        unfold Py.bind, Py.raise.
        destruct (FileStreamer.base (Auth.set_status 400) h1) as [[]]; discriminate. }
    unfold Py.bind at 1, Py.gets at 1. unfold Py.bind at 1.
    destruct (FileStreamer.enforce_export_policy X opts _ fp tenant s m h1)
      as [[v|e2] h2] eqn:E2.
    2:{ rewrite caught_Exception by (left; reflexivity).
        unfold Py.bind, Py.raise.
        destruct (FileStreamer.base (Auth.set_status 400) h2) as [[]]; discriminate. }
    destruct (metadata_ret X _ _ _ _ _ E1) as (n & L & -> & M).
    destruct (enforce_ret X opts _ _ _ _ _ _ _ _ E2) as (W & V).
    destruct v; cbn.
    + intros [= <- <- <-]. split; [auto|]. exists n. rewrite W. auto.
    + discriminate.
  - revert E. unfold FileStreamer.check_export, Py.try_except.
    match goal with
    | |- context [match ?c h with _ => _ end] => destruct (c h) as [[[s m]|e1] h1]
    end; [discriminate|].
    rewrite caught_Exception by (left; reflexivity).
    unfold Py.bind, Py.raise, FileStreamer.base, Py.zoom, Auth.set_status, Py.modify.
    intros [= <- <-]. cbn. auto.
Qed.

(** ** Serving the bytes of a file *)

Section ServedBytes.

Lemma served_bytes_push_bytes d r :
  Http.served_bytes (Http.push (Http.OutBytes d) r) = (Http.served_bytes r ++ d)%list.
Proof.
  unfold Http.served_bytes, Http.push. cbn.
  rewrite omap_app, concat_app. cbn. now rewrite app_nil_r.
Qed.

Lemma served_bytes_push_json o r :
  Http.served_bytes (Http.push (Http.OutJson o) r) = Http.served_bytes r.
Proof.
  unfold Http.served_bytes, Http.push. cbn.
  rewrite omap_app, concat_app. cbn. now rewrite app_nil_r.
Qed.

End ServedBytes.

Section Serving.
Import Py FileStreamer.

Lemma export_base_run {A} (c : M Auth.base A) h r b :
  c (hb h) = (r, b) -> base c h = (r, put_hb b h).
Proof. intros E. unfold base, zoom. now rewrite E. Qed.

Lemma export_os_run {A} (c : M Os.world A) h r w' :
  c (Auth.w (hb h)) = (r, w') -> os c h = (r, put_hb (Auth.put_w w' (hb h)) h).
Proof. intros E. unfold os, base, Auth.os, zoom. now rewrite E. Qed.

(** One round of either loop: [self.write(data)] and [self.flush()]. *)
Lemma write_flush_run data h :
  Http.finished (Auth.resp (hb h)) = false ->
  exists h1,
    (do! base (Auth.write (Http.OutBytes data)) in base Auth.flush) h = (Ret tt, h1) /\
    Http.served_bytes (Auth.resp (hb h1))
    = (Http.served_bytes (Auth.resp (hb h)) ++ data)%list /\
    Http.finished (Auth.resp (hb h1)) = false /\
    Http.out_headers (Auth.resp (hb h1)) = Http.out_headers (Auth.resp (hb h)) /\
    Http.status_code (Auth.resp (hb h1)) = Http.status_code (Auth.resp (hb h)) /\
    Auth.w (hb h1) = Auth.w (hb h) /\
    CHUNK_SIZE h1 = CHUNK_SIZE h /\
    Http.client_status (Auth.resp (hb h1)) = Http.client_status (Auth.resp (hb h)).
Proof.
  intros F. unfold bind, base, zoom, Auth.write, Auth.flush, modify.
  rewrite F. cbn. eexists. split; [reflexivity|]. cbn.
  split; [apply (served_bytes_push_bytes data (Auth.resp (hb h)))|].
  split; [exact F|]. do 4 (split; [reflexivity|]).
  unfold Http.client_status. cbn.
  destruct (Http.wire_status (Auth.resp (hb h))); reflexivity.
Qed.

(** [fd.read(c)] for a positive [c]. *)
Lemma fd_read_pos c rest :
  0 < c -> fd_read c rest = (take (Z.to_nat c) rest, drop (Z.to_nat c) rest).
Proof.
  intros Hc. unfold fd_read.
  destruct (c <? 0) eqn:E; [apply Z.ltb_lt in E; lia|reflexivity].
Qed.

Lemma take_nil_inv {A} (k : nat) (l : list A) :
  (0 < k)%nat -> take k l = [] -> l = [].
Proof. destruct k, l; cbn; intros; try lia; congruence. Qed.

(** The loop of the branch without [Range] sends everything that is
    left of the file. *)
Lemma send_all_run c : 0 < c -> forall fuel data rest h,
  (length data + length rest < fuel)%nat ->
  (data = [] -> rest = []) ->
  Http.finished (Auth.resp (hb h)) = false ->
  exists h',
    send_all fuel c data rest h = (Ret tt, h') /\
    Http.served_bytes (Auth.resp (hb h'))
    = (Http.served_bytes (Auth.resp (hb h)) ++ data ++ rest)%list /\
    Http.finished (Auth.resp (hb h')) = false /\
    Http.out_headers (Auth.resp (hb h')) = Http.out_headers (Auth.resp (hb h)) /\
    Http.status_code (Auth.resp (hb h')) = Http.status_code (Auth.resp (hb h)) /\
    Auth.w (hb h') = Auth.w (hb h) /\
    CHUNK_SIZE h' = CHUNK_SIZE h /\
    Http.client_status (Auth.resp (hb h')) = Http.client_status (Auth.resp (hb h)).
Proof.
  intros Hc. induction fuel as [|fuel IH]; intros data rest h Hf He F; [lia|].
  destruct data as [|d ds].
  - rewrite (He eq_refl). cbn. exists h. rewrite app_nil_r. auto 10.
  - cbn [send_all nonempty].
    destruct (write_flush_run (d :: ds) h F) as (h1 & E1 & S1 & F1 & O1 & C1 & W1 & K1 & V1).
    rewrite (fd_read_pos c rest Hc).
    destruct (IH (take (Z.to_nat c) rest) (drop (Z.to_nat c) rest) h1)
      as (h2 & E2 & S2 & F2 & O2 & C2 & W2 & K2 & V2).
    + rewrite length_take, length_drop. cbn in Hf. lia.
    + intros T. apply take_nil_inv in T; [|lia]. subst. apply drop_nil.
    + exact F1.
    + exists h2. split.
      * change (send_all fuel c (take (Z.to_nat c) rest) (drop (Z.to_nat c) rest))
          with ((fun _ : unit => send_all fuel c (take (Z.to_nat c) rest)
                                   (drop (Z.to_nat c) rest)) tt) in E2.
        unfold bind at 1.
        unfold bind in E1.
        destruct (base (Auth.write (Http.OutBytes (d :: ds))) h) as [[[]|e] hx];
          [|discriminate].
        unfold bind at 1. rewrite E1. exact E2.
      * rewrite S2, S1, take_drop, <- app_assoc.
        split; [reflexivity|]. repeat split; congruence.
Qed.

(** The number of rounds the counter [sent] still allows. *)
Lemma rounds_step c n sent :
  0 < c -> sent <= n ->
  (if sent + c <=? n then (n - (sent + c)) / c + 1 else 0) = (n - sent) / c.
Proof.
  intros Hc Hs. destruct (sent + c <=? n) eqn:E.
  - apply Z.leb_le in E.
    replace (n - (sent + c)) with (n - sent + (-1) * c) by lia.
    rewrite Z.div_add by lia. lia.
  - apply Z.leb_gt in E. symmetry. apply Z.div_small. lia.
Qed.

(** The loop of the branch with [Range]: it writes whole chunks of [c]
    bytes for as long as the counter allows. *)
Lemma send_range_run c n : 0 < c -> forall fuel data rest sent h,
  (length data + length rest < fuel)%nat ->
  (length data <= Z.to_nat c)%nat ->
  (length data = Z.to_nat c \/ rest = []) ->
  Http.finished (Auth.resp (hb h)) = false ->
  let q := if sent <=? n then (n - sent) / c + 1 else 0 in
  exists h',
    send_range fuel c n data rest sent h = (Ret tt, h') /\
    Http.served_bytes (Auth.resp (hb h'))
    = (Http.served_bytes (Auth.resp (hb h))
         ++ take (Z.to_nat (q * c)) (data ++ rest))%list /\
    Http.finished (Auth.resp (hb h')) = false /\
    Http.out_headers (Auth.resp (hb h')) = Http.out_headers (Auth.resp (hb h)) /\
    Http.status_code (Auth.resp (hb h')) = Http.status_code (Auth.resp (hb h)) /\
    Auth.w (hb h') = Auth.w (hb h) /\
    CHUNK_SIZE h' = CHUNK_SIZE h /\
    Http.client_status (Auth.resp (hb h')) = Http.client_status (Auth.resp (hb h)).
Proof.
  intros Hc. induction fuel as [|fuel IH]; intros data rest sent h Hf Hl Hd F q; [lia|].
  destruct data as [|d ds].
  - assert (rest = []) as ->.
    { destruct Hd as [Hd|Hd]; [cbn in Hd; lia|exact Hd]. }
    cbn. exists h. rewrite take_nil, app_nil_r. auto 10.
  - cbn [send_range nonempty andb]. subst q.
    destruct (sent <=? n) eqn:Es.
    2:{ exists h. cbn. rewrite app_nil_r. auto 10. }
    apply Z.leb_le in Es.
    destruct (write_flush_run (d :: ds) h F) as (h1 & E1 & S1 & F1 & O1 & C1 & W1 & K1 & V1).
    rewrite (fd_read_pos c rest Hc).
    destruct (IH (take (Z.to_nat c) rest) (drop (Z.to_nat c) rest) (sent + c) h1)
      as (h2 & E2 & S2 & F2 & O2 & C2 & W2 & K2 & V2).
    + rewrite length_take, length_drop. cbn in Hf. lia.
    + rewrite length_take. lia.
    + rewrite length_take, <- length_zero_iff_nil, length_drop. lia.
    + exact F1.
    + exists h2. split.
      * unfold bind at 1. unfold bind in E1.
        destruct (base (Auth.write (Http.OutBytes (d :: ds))) h) as [[[]|e] hx];
          [|discriminate].
        unfold bind at 1. rewrite E1. exact E2.
      * rewrite S2, S1, take_drop, <- app_assoc.
        rewrite (rounds_step c n sent Hc Es).
        split; [|repeat split; congruence].
        f_equal.
        assert (Hq : 0 <= (n - sent) / c) by (apply Z.div_pos; lia).
        assert (Hm : ((n - sent) / c + 1) * c = (n - sent) / c * c + c) by ring.
        assert (Hp : 0 <= (n - sent) / c * c) by nia.
        rewrite Hm.
        destruct Hd as [Hd| ->].
        -- rewrite take_app_ge by lia.
           f_equal. f_equal. lia.
        -- rewrite take_nil, !app_nil_r.
           rewrite take_ge; [reflexivity|]. lia.
Qed.

End Serving.

(** X5. The branch of [get] without a [Range] header, for a positive
    chunk size: the handler announces the given size in
    [Content-Length], flushes the headers, and then sends every byte of
    the file, in order; the file system is untouched, and the only calls
    are the opening and the closing of the file. *)
Theorem whole_file_is_served (fp : string) (size : Z) (h : FileStreamer.handler)
    (n : Os.node) :
  Os.fs (Auth.w (FileStreamer.hb h)) !! fp = Some n ->
  Os.n_dir n = false ->
  Http.finished (Auth.resp (FileStreamer.hb h)) = false ->
  0 < FileStreamer.CHUNK_SIZE h ->
  exists h',
    FileStreamer.serve_whole fp size h = (Py.Ret tt, h') /\
    Http.served_bytes (Auth.resp (FileStreamer.hb h'))
    = (Http.served_bytes (Auth.resp (FileStreamer.hb h)) ++ Os.n_data n)%list /\
    Http.out_headers (Auth.resp (FileStreamer.hb h')) !! "Content-Length"
    = Some (Http.HInt size) /\
    Http.client_status (Auth.resp (FileStreamer.hb h'))
    = Http.client_status (Auth.resp (FileStreamer.hb h)) /\
    Os.fs (Auth.w (FileStreamer.hb h')) = Os.fs (Auth.w (FileStreamer.hb h)) /\
    Os.trace (Auth.w (FileStreamer.hb h'))
    = (Os.trace (Auth.w (FileStreamer.hb h)) ++ [Os.EvOpen fp "rb"; Os.EvClose fp])%list.
Proof.
  intros L D F Hc.
  unfold FileStreamer.serve_whole.
  erewrite bind_ret by (apply export_base_run; reflexivity).
  erewrite bind_ret by (apply export_base_run; reflexivity).
  erewrite bind_ret.
  2:{ apply export_os_run. unfold OsCalls.open_rb. cbn. rewrite L, D. reflexivity. }
  erewrite bind_ret by reflexivity.
  cbn [FileStreamer.CHUNK_SIZE FileStreamer.put_hb].
  rewrite (fd_read_pos _ _ Hc).
  match goal with
  | |- context [Py.bind (FileStreamer.send_all ?fuel ?c ?d ?r) _ ?s] =>
      destruct (send_all_run c Hc fuel d r s) as (h4 & E4 & S4 & F4 & O4 & C4 & W4 & K4 & V4)
  end.
  - lia.
  - intros T. apply take_nil_inv in T; [|lia]. rewrite T. apply drop_nil.
  - cbn. exact F.
  - erewrite bind_ret by exact E4.
    eexists. split; [apply export_os_run; reflexivity|].
    cbn [FileStreamer.hb FileStreamer.put_hb Auth.resp Auth.w Auth.put_w].
    rewrite take_drop in S4. cbn in S4, O4, C4, W4.
    split; [exact S4|]. split; [rewrite O4; apply lookup_insert_eq|].
    split.
    + rewrite V4. unfold Http.client_status. cbn.
      destruct (Http.wire_status (Auth.resp (FileStreamer.hb h))); reflexivity.
    + rewrite W4. cbn. split; [reflexivity|]. now rewrite <- app_assoc.
Qed.

(** X6. The branch of [get] with a [Range] header and no [If-Range],
    for a range [a-b] inside the file (an end equal to the file size is
    accepted, a missing or unreadable end stands for the last byte) and
    a positive chunk size. With [n = b - a + 1] bytes requested and
    [c = min(CHUNK_SIZE, n)], the handler announces [Content-Length: n]
    and then sends the first [(n / c) * c] bytes of the file from the
    offset [a] on: the loop counts a chunk before it tests the counter,
    so only whole chunks are sent. The range is served in full when it
    is no longer than the chunk size or a multiple of it; otherwise the
    last [n mod c] bytes are missing. *)
Theorem range_is_served_in_whole_chunks (X : externals) (fp rg spec s0 : string)
    (a : Z) (h : FileStreamer.handler) (node : Os.node) :
  Http.headers (Auth.req (FileStreamer.hb h)) !! "If-Range" = None ->
  Http.headers (Auth.req (FileStreamer.hb h)) !! "Range" = Some rg ->
  Py.last_item (Py.split "=" rg) = Some spec ->
  Py.mem "," (Py.split "-" spec) = false ->
  Py.split "-" spec !! 0%nat = Some s0 ->
  Py.int s0 = Some a ->
  Os.fs (Auth.w (FileStreamer.hb h)) !! fp = Some node ->
  Os.n_dir node = false ->
  Http.finished (Auth.resp (FileStreamer.hb h)) = false ->
  0 < FileStreamer.CHUNK_SIZE h ->
  let size := Z.of_nat (length (Os.n_data node)) in
  let b := match Py.split "-" spec !! 1%nat ≫= Py.int with
           | Some e => e
           | None => size - 1
           end in
  let n := b - a + 1 in
  let c := Z.min (FileStreamer.CHUNK_SIZE h) n in
  0 <= a -> a <= b -> b <= size ->
  exists h' sent,
    FileStreamer.serve_range X fp h = (Py.Ret tt, h') /\
    Http.out_headers (Auth.resp (FileStreamer.hb h')) !! "Content-Length"
    = Some (Http.HInt n) /\
    Http.served_bytes (Auth.resp (FileStreamer.hb h'))
    = (Http.served_bytes (Auth.resp (FileStreamer.hb h)) ++ sent)%list /\
    sent = take (Z.to_nat (n / c * c)) (drop (Z.to_nat a) (Os.n_data node)) /\
    (n <= FileStreamer.CHUNK_SIZE h \/ n mod FileStreamer.CHUNK_SIZE h = 0 ->
     sent = take (Z.to_nat n) (drop (Z.to_nat a) (Os.n_data node))) /\
    (b < size -> Z.of_nat (length sent) = n - n mod c) /\
    FileStreamer.CHUNK_SIZE h' = c /\
    Os.fs (Auth.w (FileStreamer.hb h')) = Os.fs (Auth.w (FileStreamer.hb h)).
Proof.
  intros Hi Hr Hs Hm H0 Ha L D F Hc size b n c A0 Ab Bs.
  assert (Hn : 0 < n) by (subst n; lia).
  assert (Hcp : 0 < c) by (subst c; lia).
  set (sent := take (Z.to_nat (n / c * c)) (drop (Z.to_nat a) (Os.n_data node))).
  assert (Hq : 0 <= n / c) by (apply Z.div_pos; lia).
  assert (Hdm : n = c * (n / c) + n mod c) by (apply Z.div_mod; lia).
  assert (Hmod : 0 <= n mod c < c) by (apply Z.mod_pos_bound; lia).
  assert (Hfull : n <= FileStreamer.CHUNK_SIZE h \/ n mod FileStreamer.CHUNK_SIZE h = 0 ->
                  n / c * c = n).
  { intros [Hle|Hz].
    - replace c with n by (subst c; lia). rewrite Z.div_same by lia. lia.
    - destruct (Z.le_gt_cases n (FileStreamer.CHUNK_SIZE h)) as [Hle|Hgt].
      + replace c with n by (subst c; lia). rewrite Z.div_same by lia. lia.
      + replace c with (FileStreamer.CHUNK_SIZE h) in * by (subst c; lia). lia. }
  unfold FileStreamer.serve_range.
  erewrite bind_ret.
  2:{ apply export_base_run. unfold Auth.has_header, Py.gets. rewrite Hi. reflexivity. }
  rewrite bool_decide_eq_false_2 by (intros [? ?]; discriminate).
  erewrite bind_ret by reflexivity.
  erewrite bind_ret.
  2:{ apply export_base_run. unfold Auth.header. cbn. rewrite Hr. reflexivity. }
  erewrite bind_ret.
  2:{ apply export_os_run. unfold OsCalls.stat. cbn. rewrite L. reflexivity. }
  rewrite Hs. erewrite bind_ret by reflexivity.
  rewrite Hm, H0. erewrite bind_ret by reflexivity.
  rewrite Ha. erewrite bind_ret by reflexivity.
  fold size. fold b.
  replace (size <? b) with false by (symmetry; apply Z.ltb_ge; lia).
  fold n.
  erewrite bind_ret by (apply export_base_run; reflexivity).
  erewrite bind_ret by (apply export_base_run; reflexivity).
  erewrite bind_ret.
  2:{ apply export_os_run. unfold OsCalls.open_rb. cbn. rewrite L, D. reflexivity. }
  replace (a <? 0) with false by (symmetry; apply Z.ltb_ge; lia).
  erewrite bind_ret by reflexivity.
  erewrite bind_ret by reflexivity.
  cbn [FileStreamer.CHUNK_SIZE FileStreamer.put_hb].
  assert (Hlen : forall k (l : list Byte.byte),
             (length (take k l) = k \/ drop k l = [])).
  { intros k l. destruct (decide (k <= length l)%nat).
    - left. rewrite length_take. lia.
    - right. apply drop_ge. lia. }
  destruct (n <? FileStreamer.CHUNK_SIZE h) eqn:El.
  - apply Z.ltb_lt in El.
    assert (Ec : c = n) by (subst c; lia).
    erewrite bind_ret by reflexivity.
    erewrite bind_ret by reflexivity.
    cbn [FileStreamer.CHUNK_SIZE FileStreamer.put_CHUNK_SIZE FileStreamer.put_hb].
    rewrite (fd_read_pos _ _ Hn).
    match goal with
    | |- context [Py.bind (FileStreamer.send_range ?fuel ?c ?n ?d ?r ?s) _ ?st] =>
        destruct (send_range_run c n Hn fuel d r s st)
          as (h4 & E4 & S4 & F4 & O4 & C4 & W4 & K4 & V4)
    end.
    + lia.
    + rewrite length_take. lia.
    + apply Hlen.
    + exact F.
    + erewrite bind_ret by exact E4.
      exists (FileStreamer.put_hb
                (Auth.put_w (Os.log (Os.EvClose fp) (Auth.w (FileStreamer.hb h4)))
                   (FileStreamer.hb h4)) h4), sent.
      split; [apply export_os_run; reflexivity|].
      cbn [FileStreamer.hb FileStreamer.put_hb Auth.resp Auth.w Auth.put_w
             FileStreamer.CHUNK_SIZE].
      rewrite take_drop in S4. cbn in S4, O4, C4, W4, K4.
      replace (if 0 + n <=? n then (n - (0 + n)) / n + 1 else 0) with (n / c)
        in S4.
      2:{ rewrite Z.leb_refl. rewrite Ec, Z.div_same by lia.
          replace (n - (0 + n)) with 0 by lia. rewrite Z.div_0_l by lia. lia. }
      rewrite <- Ec in S4 at 2.
      split; [rewrite O4; apply lookup_insert_eq|].
      split; [exact S4|]. split; [reflexivity|].
      split; [intros Hf; subst sent; now rewrite (Hfull Hf)|].
      split.
      { intros Hb. subst sent. rewrite length_take, length_drop.
        assert (Hsz : size = Z.of_nat (length (Os.n_data node))) by reflexivity.
        nia. }
      split; [congruence|]. rewrite W4. reflexivity.
  - apply Z.ltb_ge in El.
    assert (Ec : c = FileStreamer.CHUNK_SIZE h) by (subst c; lia).
    erewrite bind_ret by reflexivity.
    erewrite bind_ret by reflexivity.
    cbn [FileStreamer.CHUNK_SIZE FileStreamer.put_CHUNK_SIZE FileStreamer.put_hb].
    rewrite (fd_read_pos _ _ Hc).
    match goal with
    | |- context [Py.bind (FileStreamer.send_range ?fuel ?c ?n ?d ?r ?s) _ ?st] =>
        destruct (send_range_run c n Hc fuel d r s st)
          as (h4 & E4 & S4 & F4 & O4 & C4 & W4 & K4 & V4)
    end.
    + lia.
    + rewrite length_take. lia.
    + apply Hlen.
    + exact F.
    + erewrite bind_ret by exact E4.
      exists (FileStreamer.put_hb
                (Auth.put_w (Os.log (Os.EvClose fp) (Auth.w (FileStreamer.hb h4)))
                   (FileStreamer.hb h4)) h4), sent.
      split; [apply export_os_run; reflexivity|].
      cbn [FileStreamer.hb FileStreamer.put_hb Auth.resp Auth.w Auth.put_w
             FileStreamer.CHUNK_SIZE].
      rewrite take_drop in S4. cbn in S4, O4, C4, W4, K4.
      rewrite <- Ec in S4.
      replace (if 0 + c <=? n then (n - (0 + c)) / c + 1 else 0) with (n / c)
        in S4.
      2:{ replace (0 + c <=? n) with true by (symmetry; apply Z.leb_le; lia).
          replace (n - (0 + c)) with (n + (-1) * c) by lia.
          rewrite Z.div_add by lia. lia. }
      split; [rewrite O4; apply lookup_insert_eq|].
      split; [exact S4|]. split; [reflexivity|].
      split; [intros Hf; subst sent; now rewrite (Hfull Hf)|].
      split.
      { intros Hb. subst sent. rewrite length_take, length_drop.
        assert (Hsz : size = Z.of_nat (length (Os.n_data node))) by reflexivity.
        nia. }
      split; [congruence|]. rewrite W4. reflexivity.
Qed.

(** X7. The branch of [get] with a [Range] header and no [If-Range],
    for a range whose end lies beyond the size of the file: the handler
    sets the status 416 and raises; it announces no length, sends no
    byte, does not open the file, and leaves [self.message] as it was. *)
Theorem range_beyond_the_file_is_416 (X : externals) (fp rg spec s0 : string)
    (a b : Z) (h : FileStreamer.handler) (node : Os.node) :
  Http.headers (Auth.req (FileStreamer.hb h)) !! "If-Range" = None ->
  Http.headers (Auth.req (FileStreamer.hb h)) !! "Range" = Some rg ->
  Py.last_item (Py.split "=" rg) = Some spec ->
  Py.mem "," (Py.split "-" spec) = false ->
  Py.split "-" spec !! 0%nat = Some s0 ->
  Py.int s0 = Some a ->
  Py.split "-" spec !! 1%nat ≫= Py.int = Some b ->
  Os.fs (Auth.w (FileStreamer.hb h)) !! fp = Some node ->
  Z.of_nat (length (Os.n_data node)) < b ->
  exists h',
    FileStreamer.serve_range X fp h = (Py.Raise Py.Exception, h') /\
    Auth.resp (FileStreamer.hb h') = Http.set_status 416 (Auth.resp (FileStreamer.hb h)) /\
    Auth.message (FileStreamer.hb h') = Auth.message (FileStreamer.hb h) /\
    Os.fs (Auth.w (FileStreamer.hb h')) = Os.fs (Auth.w (FileStreamer.hb h)) /\
    Os.trace (Auth.w (FileStreamer.hb h'))
    = (Os.trace (Auth.w (FileStreamer.hb h)) ++ [Os.EvStat fp])%list.
Proof.
  intros Hi Hr Hs Hm H0 Ha Hb L Bs.
  unfold FileStreamer.serve_range.
  erewrite bind_ret.
  2:{ apply export_base_run. unfold Auth.has_header, Py.gets. rewrite Hi. reflexivity. }
  rewrite bool_decide_eq_false_2 by (intros [? ?]; discriminate).
  erewrite bind_ret by reflexivity.
  erewrite bind_ret.
  2:{ apply export_base_run. unfold Auth.header. cbn. rewrite Hr. reflexivity. }
  erewrite bind_ret.
  2:{ apply export_os_run. unfold OsCalls.stat. cbn. rewrite L. reflexivity. }
  rewrite Hs. erewrite bind_ret by reflexivity.
  rewrite Hm, H0. erewrite bind_ret by reflexivity.
  rewrite Ha. erewrite bind_ret by reflexivity.
  rewrite Hb.
  replace (Z.of_nat (length (Os.n_data node)) <? b) with true
    by (symmetry; apply Z.ltb_lt; lia).
  erewrite bind_ret by (apply export_base_run; reflexivity).
  eexists. split; [reflexivity|]. cbn. auto.
Qed.

Lemma whole_file_is_served_witness :
  let h := Cases.export_handler Demo.policies 4 [] in
  exists h',
    FileStreamer.serve_whole "/exp/report.txt" 10 h = (Py.Ret tt, h') /\
    Http.served_bytes (Auth.resp (FileStreamer.hb h'))
    = (Http.served_bytes (Auth.resp (FileStreamer.hb h)) ++ Os.bytes "0123456789")%list /\
    Http.out_headers (Auth.resp (FileStreamer.hb h')) !! "Content-Length"
    = Some (Http.HInt 10) /\
    Http.client_status (Auth.resp (FileStreamer.hb h'))
    = Http.client_status (Auth.resp (FileStreamer.hb h)) /\
    Os.fs (Auth.w (FileStreamer.hb h')) = Os.fs (Auth.w (FileStreamer.hb h)) /\
    Os.trace (Auth.w (FileStreamer.hb h'))
    = (Os.trace (Auth.w (FileStreamer.hb h))
         ++ [Os.EvOpen "/exp/report.txt" "rb"; Os.EvClose "/exp/report.txt"])%list.
Proof.
  apply (whole_file_is_served "/exp/report.txt" 10
           (Cases.export_handler Demo.policies 4 [])
           (Demo.file "0123456789" 384 5)).
  - vm_compute. reflexivity.
  - reflexivity.
  - reflexivity.
  - reflexivity.
Defined.

Lemma range_is_served_in_whole_chunks_witness :
  let h := Cases.export_handler Demo.policies 3 [("Range", "bytes=2-8")] in
  exists h' sent,
    FileStreamer.serve_range Demo.X "/exp/report.txt" h = (Py.Ret tt, h') /\
    Http.out_headers (Auth.resp (FileStreamer.hb h')) !! "Content-Length"
    = Some (Http.HInt 7) /\
    Http.served_bytes (Auth.resp (FileStreamer.hb h'))
    = (Http.served_bytes (Auth.resp (FileStreamer.hb h)) ++ sent)%list /\
    sent = take (Z.to_nat (7 / 3 * 3)) (drop (Z.to_nat 2) (Os.bytes "0123456789")) /\
    (7 <= 3 \/ 7 mod 3 = 0 ->
     sent = take (Z.to_nat 7) (drop (Z.to_nat 2) (Os.bytes "0123456789"))) /\
    (8 < 10 -> Z.of_nat (length sent) = 7 - 7 mod 3) /\
    FileStreamer.CHUNK_SIZE h' = 3 /\
    Os.fs (Auth.w (FileStreamer.hb h')) = Os.fs (Auth.w (FileStreamer.hb h)).
Proof.
  apply (range_is_served_in_whole_chunks Demo.X "/exp/report.txt" "bytes=2-8" "2-8" "2" 2
           (Cases.export_handler Demo.policies 3 [("Range", "bytes=2-8")])
           (Demo.file "0123456789" 384 5)).
  - vm_compute. reflexivity.
  - vm_compute. reflexivity.
  - vm_compute. reflexivity.
  - vm_compute. reflexivity.
  - vm_compute. reflexivity.
  - vm_compute. reflexivity.
  - vm_compute. reflexivity.
  - reflexivity.
  - reflexivity.
  - reflexivity.
  - lia.
  - vm_compute. discriminate.
  - vm_compute. discriminate.
Defined.

(** The seven bytes [2345678] are announced and the six bytes [234567]
    are sent. *)
Example range_2_8_with_chunk_3 :
  take (Z.to_nat (7 / 3 * 3)) (drop (Z.to_nat 2) (Os.bytes "0123456789"))
  = Os.bytes "234567".
Proof. reflexivity. Qed.

Lemma range_beyond_the_file_is_416_witness :
  let h := Cases.export_handler Demo.policies 512 [("Range", "bytes=0-11")] in
  exists h',
    FileStreamer.serve_range Demo.X "/exp/report.txt" h = (Py.Raise Py.Exception, h') /\
    Auth.resp (FileStreamer.hb h') = Http.set_status 416 (Auth.resp (FileStreamer.hb h)) /\
    Auth.message (FileStreamer.hb h') = Auth.message (FileStreamer.hb h) /\
    Os.fs (Auth.w (FileStreamer.hb h')) = Os.fs (Auth.w (FileStreamer.hb h)) /\
    Os.trace (Auth.w (FileStreamer.hb h'))
    = (Os.trace (Auth.w (FileStreamer.hb h)) ++ [Os.EvStat "/exp/report.txt"])%list.
Proof.
  apply (range_beyond_the_file_is_416 Demo.X "/exp/report.txt" "bytes=0-11" "0-11" "0"
           0 11 (Cases.export_handler Demo.policies 512 [("Range", "bytes=0-11")])
           (Demo.file "0123456789" 384 5)).
  - vm_compute. reflexivity.
  - vm_compute. reflexivity.
  - vm_compute. reflexivity.
  - vm_compute. reflexivity.
  - vm_compute. reflexivity.
  - vm_compute. reflexivity.
  - vm_compute. reflexivity.
  - vm_compute. reflexivity.
  - vm_compute. reflexivity.
Defined.

(** ** Every export request is answered *)

Section AlwaysAnswered.
Import Py FileStreamer.
Context (X : externals) (opts : options).

#[local] Instance same_finished_preorder : PreOrder same_finished.
Proof.
  split; [intros h; reflexivity|].
  intros h1 h2 h3 H1 H2. unfold same_finished in *. congruence.
Qed.

Lemma open_base {A} (c : M Auth.base A) :
  (forall b, Http.finished (Auth.resp (snd (c b))) = Http.finished (Auth.resp b)) ->
  preserves same_finished (base c).
Proof.
  intros H h. unfold base, zoom, same_finished. specialize (H (hb h)).
  destruct (c (hb h)) as [r b]. exact H.
Qed.

Lemma open_os {A} (c : M Os.world A) : preserves same_finished (os c).
Proof.
  intros h. unfold os, base, Auth.os, zoom, same_finished.
  destruct (c (Auth.w (hb h))) as [r w']. reflexivity.
Qed.

Lemma open_gate :
  preserves same_finished (base (Auth.process_token_and_extract_claims X opts)).
Proof.
  apply open_base. intros b.
  destruct (Auth.process_token_and_extract_claims X opts b) as [[a|e] b'] eqn:E.
  - apply gate_ret in E as (hdr & j & t & rq & _ & _ & _ & _ & _ & _ & _ & ->).
    reflexivity.
  - apply gate_raise_resp in E. cbn. now rewrite E.
Qed.

Lemma open_set_message m : preserves same_finished (set_message m).
Proof. apply open_base. reflexivity. Qed.

Lemma open_set_status c : preserves same_finished (base (Auth.set_status c)).
Proof. apply open_base. reflexivity. Qed.

Lemma open_set_header k v : preserves same_finished (base (Auth.set_header k v)).
Proof. apply open_base. reflexivity. Qed.

Lemma open_flush : preserves same_finished (base Auth.flush).
Proof. apply open_base. reflexivity. Qed.

Lemma open_write o : preserves same_finished (base (Auth.write o)).
Proof.
  apply open_base. intros b. unfold Auth.write.
  destruct (Http.finished (Auth.resp b)) eqn:E; cbn; now rewrite ?E.
Qed.

Lemma open_header k : preserves same_finished (base (Auth.header k)).
Proof.
  apply open_base. intros b. unfold Auth.header, of_option.
  destruct (Http.headers (Auth.req b) !! k); reflexivity.
Qed.

Lemma open_has_header k : preserves same_finished (base (Auth.has_header k)).
Proof. apply open_base. reflexivity. Qed.

Lemma open_base_gets {A} (f : Auth.base -> A) : preserves same_finished (base (gets f)).
Proof. apply open_base. reflexivity. Qed.

Lemma open_put_authnz a : preserves same_finished (modify (put_authnz a)).
Proof. intros h. reflexivity. Qed.

Lemma open_put_path p : preserves same_finished (modify (put_path p)).
Proof. intros h. reflexivity. Qed.

Lemma open_put_filepath p : preserves same_finished (modify (put_filepath p)).
Proof. intros h. reflexivity. Qed.

Lemma open_put_CHUNK_SIZE c : preserves same_finished (modify (put_CHUNK_SIZE c)).
Proof. intros h. reflexivity. Qed.

Hint Resolve open_os open_gate open_set_message open_set_status open_set_header
  open_flush open_write open_header open_has_header open_base_gets
  open_put_authnz open_put_path open_put_filepath open_put_CHUNK_SIZE : frame.

Lemma open_metadata f : preserves same_finished (get_file_metadata X f).
Proof. unfold get_file_metadata. frame. Qed.

Lemma open_enforce pol f t size mime :
  preserves same_finished (enforce_export_policy X opts pol f t size mime).
Proof. unfold enforce_export_policy. frame. Qed.

Hint Resolve open_metadata open_enforce : frame.

Lemma open_list_one path tenant file :
  preserves same_finished (list_one X opts path tenant file).
Proof. unfold list_one. frame. Qed.

Hint Resolve open_list_one : frame.

Lemma open_list_loop path tenant files :
  preserves same_finished (list_loop X opts path tenant files).
Proof. induction files as [|f fs IH]; cbn; frame. Qed.

Hint Resolve open_list_loop : frame.

Lemma open_list_files path tenant :
  preserves same_finished (list_files X opts path tenant).
Proof. unfold list_files. frame. Qed.

Lemma open_compute_etag : preserves same_finished (compute_etag X).
Proof. unfold compute_etag. frame. Qed.

Lemma open_send_all fuel chunk data rest :
  preserves same_finished (send_all fuel chunk data rest).
Proof.
  revert data rest. induction fuel as [|fuel IH]; intros data rest; cbn; frame.
Qed.

Lemma open_send_range fuel chunk n data rest sent :
  preserves same_finished (send_range fuel chunk n data rest sent).
Proof.
  revert data rest sent.
  induction fuel as [|fuel IH]; intros data rest sent; cbn; frame.
Qed.

Hint Resolve open_list_files open_compute_etag open_send_all open_send_range : frame.

Lemma open_authorize tenant : preserves same_finished (authorize X opts tenant).
Proof. unfold authorize. frame. Qed.

Lemma open_locate filename : preserves same_finished (locate X opts filename).
Proof. unfold locate. frame. Qed.

Lemma open_check_export fp tenant :
  preserves same_finished (check_export X opts fp tenant).
Proof. unfold check_export. frame. Qed.

Lemma open_serve_whole fp size : preserves same_finished (serve_whole fp size).
Proof. unfold serve_whole. frame. Qed.

Lemma open_serve_range fp : preserves same_finished (serve_range X fp).
Proof. unfold serve_range. frame. Qed.

Hint Resolve open_authorize open_locate open_check_export open_serve_whole
  open_serve_range : frame.




End AlwaysAnswered.



(** ** Requests that do not pass the token gate *)

Section Refused.
Import Py FileStreamer.
Context (X : externals) (opts : options).

(** [authorize] when the gate raises: the status is 401, the message
    is the one the gate left, or a default when there is none, and the
    exception is raised again. *)
Lemma authorize_refused tenant h e b' :
  Auth.process_token_and_extract_claims X opts (hb h) = (Raise e, b') ->
  let m := if Py.truthy (default "" (Auth.message b')) then Auth.message b'
           else Some "Not authorized to export data" in
  authorize X opts tenant h
  = (Raise Exception,
     put_hb (Auth.with_resp (Http.set_status 401) (Auth.put_message m b')) h).
Proof.
  intros G m. unfold authorize.
  erewrite bind_raise; [reflexivity|].
  erewrite try_caught; [| |reflexivity].
  2:{ erewrite bind_raise; [reflexivity|]. apply export_base_run. exact G. }
  unfold bind, base, zoom, gets, set_message, modify, Auth.set_status, raise. cbn.
  subst m. destruct b'. cbn.
  destruct (Py.truthy (default "" message)); reflexivity.
Qed.

End Refused.

(** X9. An export request that does not pass the token gate, whatever
    the reason: [get] and [head] answer 401 with a JSON message (the
    one the gate left, or [Not authorized to export data]) and finish
    the response; the world is the one the request started in: no file
    is listed, stat'ed, chmod'ed, inspected or opened. *)
Theorem export_without_token_touches_nothing (X : externals) (opts : options)
    (tenant : string) (filename : option string) (h : FileStreamer.handler)
    (e : Py.exn) (b' : Auth.base) :
  Http.finished (Auth.resp (FileStreamer.hb h)) = false ->
  Auth.process_token_and_extract_claims X opts
    (Auth.put_message (Some "Unknown error, please contact TSD") (FileStreamer.hb h))
  = (Py.Raise e, b') ->
  let m := if Py.truthy (default "" (Auth.message b')) then Auth.message b'
           else Some "Not authorized to export data" in
  let answer :=
    Http.close
      (Http.push (Http.OutJson [("message", FileStreamer.jopt m)])
         (Http.set_status 401 (Auth.resp (FileStreamer.hb h)))) in
  exists h1 h2,
    FileStreamer.get X opts tenant filename h = (Py.Ret tt, h1) /\
    FileStreamer.head X opts tenant filename h = (Py.Ret tt, h2) /\
    Auth.resp (FileStreamer.hb h1) = answer /\
    Auth.resp (FileStreamer.hb h2) = answer /\
    Auth.w (FileStreamer.hb h1) = Auth.w (FileStreamer.hb h) /\
    Auth.w (FileStreamer.hb h2) = Auth.w (FileStreamer.hb h).
Proof.
  intros F G m answer.
  pose proof (gate_raise_resp X opts _ _ _ G) as R.
  pose proof (gate_raise X opts _ _ _ G) as (_ & _ & W & _).
  cbn in R, W.
  set (h0 := snd (FileStreamer.set_message "Unknown error, please contact TSD" h)).
  pose proof (authorize_refused X opts tenant h0 e b' G) as A. cbn zeta in A.
  fold m in A.
  assert (Hget : forall (k : unit -> Py.M FileStreamer.handler unit),
    exists h',
      (do! FileStreamer.set_message "Unknown error, please contact TSD" in
       Py.try_finally
         (Py.try_except (Py.bind (FileStreamer.authorize X opts tenant) k)
            [Py.Exception] (fun _ => FileStreamer.write_message))
         (FileStreamer.base (Auth.finish None))) h = (Py.Ret tt, h') /\
      Auth.resp (FileStreamer.hb h') = answer /\
      Auth.w (FileStreamer.hb h') = Auth.w (FileStreamer.hb h)).
  { intros k.
    erewrite bind_ret by reflexivity. fold h0.
    unfold Py.try_finally.
    erewrite try_caught; [| |reflexivity].
    2:{ erewrite bind_raise; [reflexivity|]. exact A. }
    unfold FileStreamer.write_message, Py.bind, Py.gets, FileStreamer.base, Py.zoom,
      Auth.write, Auth.finish.
    cbn. rewrite R. cbn. rewrite F. cbn. rewrite R. cbn. rewrite F.
    eexists. split; [reflexivity|]. cbn. rewrite R, W. split; reflexivity. }
  destruct (Hget (fun _ =>
              let! p := Py.gets FileStreamer.path in
              match filename with
              | None => FileStreamer.list_files X opts (default "" p) tenant
              | Some filename =>
                  if negb (Py.truthy filename)
                  then FileStreamer.list_files X opts (default "" p) tenant
                  else
                    let! fp := FileStreamer.locate X opts filename in
                    let! '(size, mime_type) := FileStreamer.check_export X opts fp tenant in
                    do! FileStreamer.base
                          (Auth.set_header "Content-Type" (Http.HStr mime_type)) in
                    let! ranged := FileStreamer.base (Auth.has_header "Range") in
                    if negb ranged then FileStreamer.serve_whole fp size
                    else FileStreamer.serve_range X fp
              end)) as (h1 & E1 & R1 & W1).
  destruct (Hget (fun _ =>
              match filename with
              | None => Py.raise Py.Exception
              | Some filename =>
                  if negb (Py.truthy filename) then Py.raise Py.Exception
                  else
                    let! fp := FileStreamer.locate X opts filename in
                    let! '(size, mime_type) := FileStreamer.get_file_metadata X fp in
                    let! pol := Py.gets FileStreamer.export_policy in
                    let! status :=
                      FileStreamer.enforce_export_policy X opts pol fp tenant size
                        mime_type in
                    do! Py.assert status in
                    do! FileStreamer.base
                          (Auth.set_header "Content-Length" (Http.HInt size)) in
                    do! FileStreamer.base
                          (Auth.set_header "Accept-Ranges" (Http.HStr "bytes")) in
                    FileStreamer.base (Auth.set_status 200)
              end)) as (h2 & E2 & R2 & W2).
  exists h1, h2. auto 10.
Qed.

Lemma export_without_token_touches_nothing_witness :
  let h := Cases.export_handler Demo.policies 512 [("Authorization", "Bearer bad")] in
  let answer :=
    Http.close
      (Http.push (Http.OutJson [("message", Http.JStr "token not accepted")])
         (Http.set_status 401 (Auth.resp (FileStreamer.hb h)))) in
  exists h1 h2,
    FileStreamer.get Demo.X (Demo.opts 512) "p11" (Some "report.txt") h = (Py.Ret tt, h1) /\
    FileStreamer.head Demo.X (Demo.opts 512) "p11" (Some "report.txt") h = (Py.Ret tt, h2) /\
    Auth.resp (FileStreamer.hb h1) = answer /\
    Auth.resp (FileStreamer.hb h2) = answer /\
    Auth.w (FileStreamer.hb h1) = Auth.w (FileStreamer.hb h) /\
    Auth.w (FileStreamer.hb h2) = Auth.w (FileStreamer.hb h).
Proof.
  pose (b0 := Auth.put_message (Some "Unknown error, please contact TSD")
                (FileStreamer.hb (Cases.export_handler Demo.policies 512
                                    [("Authorization", "Bearer bad")]))).
  pose (b' := snd (Auth.process_token_and_extract_claims Demo.X (Demo.opts 512) b0)).
  apply (export_without_token_touches_nothing Demo.X (Demo.opts 512) "p11"
           (Some "report.txt")
           (Cases.export_handler Demo.policies 512 [("Authorization", "Bearer bad")])
           Py.Exception b').
  - reflexivity.
  - vm_compute. reflexivity.
Defined.

(** ** Limits of the listing and of the file lookup *)

(** X10. A directory with more entries than [export_max_num_list]:
    [list_files] sets the status 400 and the message
    [too many files, create a zip archive] and raises; nothing is
    written to the response, and the only call is [os.listdir]: no entry
    is stat'ed or inspected. *)
Theorem listing_refuses_too_many_files (X : externals) (opts : options)
    (path tenant : string) (h : FileStreamer.handler) (names : list string) :
  fst (OsCalls.listdir path (Auth.w (FileStreamer.hb h))) = Py.Ret names ->
  export_max_num_list opts < Z.of_nat (length names) ->
  exists h',
    FileStreamer.list_files X opts path tenant h = (Py.Raise Py.Exception, h') /\
    Auth.resp (FileStreamer.hb h') = Http.set_status 400 (Auth.resp (FileStreamer.hb h)) /\
    Auth.message (FileStreamer.hb h') = Some "too many files, create a zip archive" /\
    Os.fs (Auth.w (FileStreamer.hb h')) = Os.fs (Auth.w (FileStreamer.hb h)) /\
    Os.trace (Auth.w (FileStreamer.hb h'))
    = (Os.trace (Auth.w (FileStreamer.hb h)) ++ [Os.EvListdir path])%list.
Proof.
  intros L Hn.
  assert (E : OsCalls.listdir path (Auth.w (FileStreamer.hb h))
              = (Py.Ret names, Os.log (Os.EvListdir path) (Auth.w (FileStreamer.hb h)))).
  { revert L. unfold OsCalls.listdir.
    destruct (Os.fs (Auth.w (FileStreamer.hb h)) !! path) as [n|]; [|discriminate].
    destruct (Os.n_dir n); [|discriminate].
    cbn. now intros [= ->]. }
  unfold FileStreamer.list_files.
  erewrite bind_ret by (apply export_os_run; exact E).
  replace (export_max_num_list opts <? Z.of_nat (length names)) with true
    by (symmetry; apply Z.ltb_lt; exact Hn).
  erewrite bind_ret by (apply export_base_run; reflexivity).
  erewrite bind_ret by reflexivity.
  eexists. split; [reflexivity|]. cbn. auto.
Qed.

Lemma listing_refuses_too_many_files_witness :
  let opts := {| port := 3003; api_user := "api"; check_tenant := true;
                 check_exp := true; start_chars := ".~";
                 requestor_claim_name := "user"; tenant_claim_name := "proj";
                 export_chunk_size := 512; export_max_num_list := 1;
                 valid_tenant := fun t => String.prefix "p" t |} in
  let h := Cases.export_handler Demo.policies 512 [] in
  exists h',
    FileStreamer.list_files Demo.X opts "/exp" "p11" h = (Py.Raise Py.Exception, h') /\
    Auth.resp (FileStreamer.hb h') = Http.set_status 400 (Auth.resp (FileStreamer.hb h)) /\
    Auth.message (FileStreamer.hb h') = Some "too many files, create a zip archive" /\
    Os.fs (Auth.w (FileStreamer.hb h')) = Os.fs (Auth.w (FileStreamer.hb h)) /\
    Os.trace (Auth.w (FileStreamer.hb h'))
    = (Os.trace (Auth.w (FileStreamer.hb h)) ++ [Os.EvListdir "/exp"])%list.
Proof.
  intros opts h.
  apply (listing_refuses_too_many_files Demo.X opts "/exp" "p11" h
           (omap (fun kv => OsCalls.child_of "/exp" (fst kv))
              (map_to_list (Os.fs Scenario.export_world)))).
  - vm_compute. reflexivity.
  - vm_compute. reflexivity.
Defined.

(** X11. The file lookup of [get] and [head]. It returns only for a
    legal name of an existing entry of the export directory, with
    [self.filepath] set to it. A name that [check_filename] rejects
    gives 403, a name that does not exist gives 404, each with its
    message; the only use of the file system is the existence test. *)
Theorem locate_outcomes (X : externals) (opts : options) (filename : string)
    (h : FileStreamer.handler) :
  let dir := default "" (FileStreamer.path h) in
  match FileStreamer.locate X opts filename h with
  | (Py.Ret fp, h') =>
      (exists name,
          check_filename X (url_unescape X filename) (start_chars opts) = Some name /\
          fp = dir ++ "/" ++ name /\
          is_Some (Os.fs (Auth.w (FileStreamer.hb h)) !! fp) /\
          FileStreamer.filepath h' = Some fp /\
          Auth.resp (FileStreamer.hb h') = Auth.resp (FileStreamer.hb h) /\
          Auth.w (FileStreamer.hb h') = Auth.w (FileStreamer.hb h))
  | (Py.Raise e, h') =>
      (e = Py.Exception /\
       Auth.w (FileStreamer.hb h') = Auth.w (FileStreamer.hb h) /\
       match check_filename X (url_unescape X filename) (start_chars opts) with
       | None =>
           Auth.resp (FileStreamer.hb h')
           = Http.set_status 403 (Auth.resp (FileStreamer.hb h)) /\
           Auth.message (FileStreamer.hb h')
           = Some "Not allowed to access files in sub-directories, create a zip archive"
       | Some name =>
           Os.fs (Auth.w (FileStreamer.hb h)) !! (dir ++ "/" ++ name) = None /\
           Auth.resp (FileStreamer.hb h')
           = Http.set_status 404 (Auth.resp (FileStreamer.hb h)) /\
           Auth.message (FileStreamer.hb h') = Some "File does not exist"
       end)
  end.
Proof.
  cbn zeta.
  unfold FileStreamer.locate, Py.bind, FileStreamer.base, FileStreamer.os, Auth.os,
    Py.zoom, Py.gets, Py.modify, Py.ret, Py.raise, FileStreamer.set_message.
  unfold OsCalls.lexists, Py.gets, Auth.set_status, Py.modify. cbn.
  destruct (check_filename X (url_unescape X filename) (start_chars opts)) as [name|];
    cbn; [|auto].
  destruct (bool_decide _) eqn:E; cbn.
  - apply bool_decide_eq_true_1 in E. exists name. auto 10.
  - apply bool_decide_eq_false_1 in E.
    split; [reflexivity|]. split; [reflexivity|].
    split; [|auto].
    destruct (Os.fs (Auth.w (FileStreamer.hb h)) !! _) eqn:L; [|reflexivity].
    exfalso. apply E. eauto.
Qed.

(** ** Uploads: staging, writing, completing *)

Section Staging.
Import Py Stream.
Context (X : externals).

Lemma append_neq (p s : string) : s <> "" -> p ++ s <> p.
Proof.
  intros Hs. induction p as [|c p IH]; cbn.
  - exact Hs.
  - intros [= E]. now apply IH.
Qed.

Lemma staging_name_neq p w : staging_name X p w <> p.
Proof. unfold staging_name. apply append_neq. discriminate. Qed.

Lemma below_self p : OsCalls.below p p = true.
Proof. unfold OsCalls.below. now rewrite String.eqb_refl. Qed.

(** After [staged_world] nothing is under the visible name. *)
Lemma staged_world_frees p pp w :
  pp <> p -> Os.fs (staged_world p pp w) !! p = None.
Proof.
  intros N. unfold staged_world.
  destruct (Os.fs w !! p) as [n|] eqn:L; [|exact L].
  destruct (Os.n_dir n); cbn.
  - apply map_lookup_filter_None. right. intros x _. cbn.
    rewrite below_self. discriminate.
  - rewrite lookup_insert_ne by exact N. apply lookup_delete_eq.
Qed.

(** [stage], when the staging name is free. *)
Lemma stage_run filename h :
  let w := Auth.w (hb h) in
  let p := visible_name X (tenant_dir (cfg h)) filename in
  let pp := staging_name X p w in
  Os.fs w !! pp = None ->
  stage X filename h
  = (Ret tt,
     put_path_part (Some p)
       (put_path (Some pp)
          (put_hb (Auth.put_w (staged_world p pp (Os.bump_uuid w)) (hb h)) h))).
Proof.
  intros w p pp Hpp.
  assert (N : pp <> p) by apply staging_name_neq.
  unfold stage.
  erewrite bind_ret by reflexivity.
  change (normpath X (tenant_dir (cfg h) ++ "/" ++ filename)) with p.
  erewrite bind_ret by reflexivity.
  erewrite bind_ret by (apply stream_os_run; reflexivity).
  cbn [hb put_hb put_path Auth.w Auth.put_w].
  change (Auth.w (hb h)) with w.
  change (p ++ "." ++ uuid4 X (Os.uuid_next w) ++ ".part") with pp.
  erewrite bind_ret by reflexivity.
  erewrite bind_ret by (apply stream_os_run; reflexivity).
  cbn [hb put_hb put_path put_path_part Auth.w Auth.put_w OsCalls.lexists gets
         Os.fs Os.bump_uuid].
  rewrite Hpp.
  rewrite bool_decide_eq_false_2 by (intros [? ?]; discriminate).
  erewrite bind_ret by (apply stream_os_run; reflexivity).
  cbn [hb put_hb put_path put_path_part Auth.w Auth.put_w Os.fs Os.bump_uuid].
  unfold staged_world. cbn [Os.fs Os.bump_uuid].
  destruct (Os.fs w !! p) as [n|] eqn:L.
  - rewrite bool_decide_eq_true_2 by eauto.
    destruct (Os.n_dir n) eqn:D.
    + erewrite bind_ret.
      2:{ erewrite bind_ret.
          2:{ apply stream_os_run. unfold OsCalls.isdir, gets. cbn. rewrite L, D.
              reflexivity. }
          apply stream_os_run. unfold OsCalls.rmtree. cbn. rewrite L. reflexivity. }
      erewrite bind_ret by reflexivity. reflexivity.
    + erewrite bind_ret.
      2:{ erewrite bind_ret.
          2:{ apply stream_os_run. unfold OsCalls.isdir, gets. cbn. rewrite L, D.
              reflexivity. }
          cbv beta iota.
          erewrite bind_ret.
          2:{ apply stream_os_run. unfold OsCalls.rename. cbn. rewrite L. reflexivity. }
          erewrite bind_ret.
          2:{ apply stream_os_run. unfold OsCalls.lexists, gets. cbn.
              rewrite lookup_insert_eq. reflexivity. }
          rewrite bool_decide_eq_true_2 by eauto.
          erewrite bind_ret by reflexivity.
          erewrite bind_ret.
          2:{ apply stream_os_run. unfold OsCalls.lexists, gets. cbn.
              rewrite lookup_insert_ne by exact N. rewrite lookup_delete_eq.
              reflexivity. }
          rewrite bool_decide_eq_false_2 by (intros [? ?]; discriminate).
          reflexivity. }
      erewrite bind_ret by reflexivity. reflexivity.
  - rewrite bool_decide_eq_false_2 by (intros [? ?]; discriminate).
    erewrite bind_ret by reflexivity.
    erewrite bind_ret by reflexivity. reflexivity.
Qed.

(** [stage], when the staging name is taken. *)
Lemma stage_refused filename h :
  let w := Auth.w (hb h) in
  let p := visible_name X (tenant_dir (cfg h)) filename in
  let pp := staging_name X p w in
  is_Some (Os.fs w !! pp) ->
  stage X filename h
  = (Raise Exception,
     put_path_part (Some pp)
       (put_path (Some p) (put_hb (Auth.put_w (Os.bump_uuid w) (hb h)) h))).
Proof.
  intros w p pp Hpp.
  unfold stage.
  erewrite bind_ret by reflexivity.
  change (normpath X (tenant_dir (cfg h) ++ "/" ++ filename)) with p.
  erewrite bind_ret by reflexivity.
  erewrite bind_ret by (apply stream_os_run; reflexivity).
  cbn [hb put_hb put_path Auth.w Auth.put_w].
  change (Auth.w (hb h)) with w.
  change (p ++ "." ++ uuid4 X (Os.uuid_next w) ++ ".part") with pp.
  erewrite bind_ret by reflexivity.
  erewrite bind_ret by (apply stream_os_run; reflexivity).
  cbn [hb put_hb put_path put_path_part Auth.w Auth.put_w OsCalls.lexists gets
         Os.fs Os.bump_uuid].
  rewrite bool_decide_eq_true_2 by exact Hpp.
  reflexivity.
Qed.

End Staging.

(** X12. The staging step of [StreamHandler.prepare], for the visible
    name [p] and the staging name [pp = p.<uuid>.part]. When the
    staging name is taken the step raises and touches no file. When it
    is free the step returns with [self.path = pp] and
    [self.path_part = p], and nothing is left under the visible name: a
    file that was there is now under the staging name, unchanged; a
    directory that was there has been removed with everything below
    it. Every other entry is as it was. *)
Theorem staging_frees_the_visible_name (X : externals) (filename : string)
    (h : Stream.handler) :
  let w := Auth.w (Stream.hb h) in
  let p := visible_name X (Stream.tenant_dir (Stream.cfg h)) filename in
  let pp := staging_name X p w in
  match Stream.stage X filename h with
  | (Py.Ret _, h') =>
      (let fs' := Os.fs (Auth.w (Stream.hb h')) in
       Os.fs w !! pp = None /\
       Stream.path h' = Some pp /\ Stream.path_part h' = Some p /\
       fs' !! p = None /\
       match Os.fs w !! p with
       | None => fs' = Os.fs w
       | Some n =>
           if Os.n_dir n
           then forall q, fs' !! q = (if OsCalls.below p q then None else Os.fs w !! q)
           else fs' !! pp = Some n /\
                forall q, q <> p -> q <> pp -> fs' !! q = Os.fs w !! q
       end)
  | (Py.Raise e, h') =>
      (e = Py.Exception /\ is_Some (Os.fs w !! pp) /\
       Os.fs (Auth.w (Stream.hb h')) = Os.fs w)
  end.
Proof.
  intros w p pp.
  destruct (Os.fs w !! pp) as [x|] eqn:Hpp.
  - rewrite (stage_refused X filename h) by (fold w p pp; rewrite Hpp; eauto).
    split; [reflexivity|]. split; [eauto|reflexivity].
  - rewrite (stage_run X filename h Hpp). fold w p pp.
    cbn [Stream.hb Stream.put_hb Stream.put_path Stream.put_path_part Stream.path
           Stream.path_part Auth.w Auth.put_w].
    cbn zeta.
    assert (N : pp <> p) by apply staging_name_neq.
    split; [reflexivity|]. split; [reflexivity|]. split; [reflexivity|].
    split; [apply staged_world_frees; exact N|].
    unfold staged_world. cbn [Os.fs Os.bump_uuid].
    destruct (Os.fs w !! p) as [n|] eqn:L; [|reflexivity].
    destruct (Os.n_dir n); cbn.
    + intros q. destruct (OsCalls.below p q) eqn:B.
      * apply map_lookup_filter_None. right. intros y _. cbn. rewrite B. discriminate.
      * destruct (Os.fs w !! q) as [y|] eqn:Lq.
        -- apply map_lookup_filter_Some. split; [exact Lq|]. exact B.
        -- apply map_lookup_filter_None. now left.
    + split; [apply lookup_insert_eq|].
      intros q Np Npp.
      rewrite lookup_insert_ne by congruence.
      rewrite lookup_delete_ne by congruence. reflexivity.
Qed.

Section PlainUpload.
Import Py Stream.
Context (X : externals) (opts : options).

(** The dispatch of [prepare] for a content type without a transform
    and a method other than [PATCH]: the file [self.path] is opened and
    its mode is set to 0600. *)
Lemma dispatch_plain_run ct filemode h pp :
  Py.mem ct custom_types = false ->
  Http.method (Auth.req (hb h)) <> "PATCH" ->
  path h = Some pp ->
  (forall n, Os.fs (Auth.w (hb h)) !! pp = Some n -> Os.n_dir n = false) ->
  let w := Auth.w (hb h) in
  let n' := match Os.fs w !! pp with
            | Some n => if OsCalls.truncates filemode then Os.set_data [] (Os.clock w) n
                        else n
            | None => OsCalls.new_node X w
            end in
  dispatch X ct filemode h
  = (Ret tt,
     put_hb
       (Auth.put_w
          (Os.log (Os.EvChmod pp Os._RW______)
             (Os.with_fs (<[pp := Os.set_mode Os._RW______ n']>)
                (Os.log (Os.EvOpen pp filemode) (Os.with_fs (<[pp := n']>) w))))
          (hb h))
       (put_target_file
          (Some {| Os.fh_path := pp; Os.fh_mode := filemode; Os.fh_closed := false |})
          (put_custom_content_type None h))).
Proof.
  intros Hct Hm Hp Hd w n'.
  destruct (not_custom ct Hct) as (C1 & C2 & C3 & C4 & C5 & C6).
  apply String.eqb_neq in Hm.
  assert (Ho : OsCalls.open_ X (Some pp) filemode w
               = (Ret {| Os.fh_path := pp; Os.fh_mode := filemode; Os.fh_closed := false |},
                  Os.log (Os.EvOpen pp filemode) (Os.with_fs (<[pp := n']>) w))).
  { unfold OsCalls.open_. subst n'.
    destruct (Os.fs w !! pp) as [n|] eqn:L; [rewrite (Hd n L)|]; reflexivity. }
  clearbody n'.
  unfold dispatch.
  erewrite bind_ret by reflexivity.
  erewrite bind_ret by reflexivity.
  rewrite C1, C2, C3, C4, C5, C6, Hm. cbn [negb].
  erewrite bind_ret by reflexivity.
  unfold open_target.
  erewrite bind_ret.
  2:{ erewrite bind_ret by reflexivity. stream_proj. rewrite Hp.
      erewrite bind_ret by (apply stream_os_run; exact Ho).
      reflexivity. }
  erewrite bind_ret by reflexivity. stream_proj. rewrite Hp.
  erewrite stream_os_run.
  2:{ stream_proj. apply chmod_run. cbn. apply lookup_insert_eq. }
  reflexivity.
Qed.

(** The choice of the group in [prepare]. *)
Lemma group_step t h :
  try_except
    (let! g := base (Auth.get_query_argument "group") in
     modify (put_group_name (Some (url_unescape X g))))
    [Exception]
    (fun _ => modify (put_group_name (Some (t ++ "-member-group")))) h
  = (Ret tt,
     put_group_name
       (Some (match Http.query (Auth.req (hb h)) !! "group" with
              | Some g => url_unescape X g
              | None => t ++ "-member-group"
              end))
       (put_hb (hb h) h)).
Proof.
  unfold try_except, bind, base, zoom, Auth.get_query_argument, of_option.
  destruct (Http.query (Auth.req (hb h)) !! "group"); reflexivity.
Qed.

(** What is under the staging name after [staged_world]. *)
Lemma staged_world_at_staging p pp w :
  Os.fs w !! pp = None -> pp <> p ->
  Os.fs (staged_world p pp w) !! pp
  = match Os.fs w !! p with
    | Some n => if Os.n_dir n then None else Some n
    | None => None
    end.
Proof.
  intros Hpp N. unfold staged_world.
  destruct (Os.fs w !! p) as [n|] eqn:L; [|exact Hpp].
  destruct (Os.n_dir n); cbn.
  - apply map_lookup_filter_None. now left.
  - apply lookup_insert_eq.
Qed.

End PlainUpload.

(** X13. [prepare] for a [PUT] or a [POST] that passes the token gate,
    has a content type without a transform and a legal file name, when
    the staging name is free. [prepare] returns without touching the
    response and leaves an upload in progress: the open file is the
    staging name, with mode 0600; nothing is under the visible name. For
    [POST] (mode [ab+]) the staged file holds the bytes of the file that
    was under the visible name, so that the body is appended to them;
    for [PUT] (mode [wb+]) it is empty: the former content is already
    gone when [prepare] returns. *)
Theorem prepare_stages_a_plain_upload (X : externals) (opts : options)
    (cfg : Stream.config) (r : Http.request) (w0 : Os.world)
    (a : authnz) (b1 : Auth.base) (ct uf fname : string) :
  Http.method r = "PUT" \/ Http.method r = "POST" ->
  Auth.process_token_and_extract_claims X opts (Auth.start r w0) = (Py.Ret a, b1) ->
  Http.headers r !! "Content-Type" = Some ct ->
  Py.mem ct Stream.custom_types = false ->
  Stream.uri_filename_of (Http.uri r) = Some uf ->
  check_filename X (url_unescape X uf) (start_chars opts) = Some fname ->
  let p := visible_name X (Stream.tenant_dir cfg) fname in
  let pp := staging_name X p w0 in
  let old := match Os.fs w0 !! p with
             | Some n => if Os.n_dir n then [] else Os.n_data n
             | None => []
             end in
  let mode := if String.eqb (Http.method r) "POST" then "ab+" else "wb+" in
  let data := if String.eqb (Http.method r) "POST" then old else [] in
  Os.fs w0 !! pp = None ->
  exists h1,
    Stream.prepare X opts (Stream.initialize cfg r w0) = (Py.Ret tt, h1) /\
    uploading h1 pp p mode data /\
    Os.n_mode <$> (Os.fs (Auth.w (Stream.hb h1)) !! pp) = Some 384 /\
    Auth.resp (Stream.hb h1) = Http.fresh /\
    Stream.cfg h1 = cfg /\
    Auth.requestor (Stream.hb h1) = (az_claims a !! requestor_claim_name opts) /\
    is_Some (Stream.group_name h1) /\
    is_Some (Auth.tenant (Stream.hb h1)).
Proof.
  intros Hmeth G Hct Hcust Huf Hcf p pp old mode data Hpp.
  pose proof G as G'.
  apply gate_ret in G' as (hdr & j & t & rq & _ & _ & Ht & Hvt & _ & _ & Hrq & Eb).
  cbn in Ht.
  assert (N : pp <> p) by apply staging_name_neq.
  assert (Hnp : Http.method r <> "PATCH")
    by (destruct Hmeth as [E|E]; rewrite E; discriminate).
  assert (Hfm : Stream.filemode_of (Http.method r) = Some mode).
  { subst mode. destruct Hmeth as [E|E]; rewrite E; reflexivity. }
  set (w1 := staged_world p pp (Os.bump_uuid w0)).
  assert (Hat : Os.fs w1 !! pp
                = match Os.fs w0 !! p with
                  | Some n => if Os.n_dir n then None else Some n
                  | None => None
                  end).
  { apply (staged_world_at_staging p pp (Os.bump_uuid w0)); assumption. }
  assert (Hfree : Os.fs w1 !! p = None) by (apply staged_world_frees; exact N).
  assert (Hnd : forall n, Os.fs w1 !! pp = Some n -> Os.n_dir n = false).
  { intros n. rewrite Hat. destruct (Os.fs w0 !! p) as [n0|]; [|discriminate].
    destruct (Os.n_dir n0) eqn:D; [discriminate|]. now intros [= <-]. }
  subst b1.
  unfold Stream.prepare.
  eexists. split.
  { apply try_ret.
    do 5 (erewrite bind_ret by reflexivity).
    erewrite bind_ret.
    2:{ apply try_ret. erewrite bind_ret by (apply stream_base_run; exact G).
        reflexivity. }
    apply try_ret.
    erewrite bind_ret by reflexivity.
    erewrite bind_ret by reflexivity.
    stream_proj. rewrite Ht.
    erewrite bind_ret.
    2:{ apply try_ret. erewrite bind_ret by reflexivity.
        erewrite bind_ret by reflexivity. rewrite Hvt.
        erewrite bind_ret by reflexivity. reflexivity. }
    erewrite bind_ret by apply group_step.
    rewrite Hfm. erewrite bind_ret by reflexivity.
    apply try_ret.
    erewrite bind_ret.
    2:{ apply stream_base_run. unfold Auth.header. stream_proj.
        rewrite Hct. reflexivity. }
    rewrite Huf. erewrite bind_ret by reflexivity.
    rewrite Hcf. erewrite bind_ret by reflexivity.
    replace (String.eqb (Http.method r) "PATCH") with false
      by (symmetry; now apply String.eqb_neq).
    erewrite bind_ret by reflexivity.
    erewrite bind_ret by (apply stage_run; exact Hpp).
    stream_proj.
    eapply dispatch_plain_run; [exact Hcust|exact Hnp|reflexivity|exact Hnd]. }
  stream_proj.
  fold p pp w1.
  set (n' := match Os.fs w1 !! pp with
             | Some n => if OsCalls.truncates mode then Os.set_data [] (Os.clock w1) n
                         else n
             | None => OsCalls.new_node X w1
             end).
  assert (Hdata : Os.n_data n' = data).
  { subst n' data old mode. rewrite Hat.
    destruct Hmeth as [E|E]; rewrite E; cbn [String.eqb Ascii.eqb Bool.eqb];
      destruct (Os.fs w0 !! p) as [n0|]; try reflexivity;
      destruct (Os.n_dir n0); reflexivity. }
  clearbody n'.
  split.
  { unfold uploading. stream_proj.
    split; [reflexivity|]. split; [reflexivity|]. split; [exact Hnp|].
    split; [reflexivity|]. split; [reflexivity|]. split; [exact N|].
    cbn [Os.fs Os.log Os.with_fs].
    split.
    - rewrite !lookup_insert_ne by exact N. exact Hfree.
    - rewrite lookup_insert_eq. cbn. now rewrite Hdata. }
  split.
  { cbn [Os.fs Os.log Os.with_fs]. rewrite lookup_insert_eq. reflexivity. }
  split; [reflexivity|]. split; [reflexivity|].
  split; [now rewrite Hrq|]. split; eauto.
Qed.

Section Completing.
Import Py Stream.
Context (opts : options).

(** One call of [data_received] during a plain upload, with the state
    it leaves. *)
Lemma data_received_plain chunk h staged mode n :
  target_file h
  = Some {| Os.fh_path := staged; Os.fh_mode := mode; Os.fh_closed := false |} ->
  custom_content_type h = None ->
  Http.method (Auth.req (hb h)) <> "PATCH" ->
  Os.fs (Auth.w (hb h)) !! staged = Some n ->
  let w := Auth.w (hb h) in
  data_received chunk h
  = (Ret tt,
     put_hb
       (Auth.put_w
          (Os.log (Os.EvWrite staged (length chunk))
             (Os.with_fs (<[staged := Os.set_data (Os.n_data n ++ chunk) (Os.clock w) n]>) w))
          (hb h)) h).
Proof.
  intros T C M L w. subst w.
  destruct h as [[] ? ? ? ? ? ? ? ? ? ? ? ? ? ?]. cbn in T, C, M, L. subst.
  apply String.eqb_neq in M.
  unfold data_received, try_except, bind, gets, os, base, Auth.os, zoom, OsCalls.write.
  cbn. rewrite M. cbn. rewrite L. reflexivity.
Qed.

(** The whole body of a plain upload. *)
Lemma receive_plain chunks : forall h staged mode n,
  target_file h
  = Some {| Os.fh_path := staged; Os.fh_mode := mode; Os.fh_closed := false |} ->
  custom_content_type h = None ->
  Http.method (Auth.req (hb h)) <> "PATCH" ->
  Os.fs (Auth.w (hb h)) !! staged = Some n ->
  exists w' n',
    receive chunks h = (Ret tt, put_hb (Auth.put_w w' (hb h)) h) /\
    Os.fs w' = <[staged := n']> (Os.fs (Auth.w (hb h))) /\
    Os.n_data n' = (Os.n_data n ++ concat chunks)%list /\
    Os.n_mode n' = Os.n_mode n /\
    Os.trace w'
    = (Os.trace (Auth.w (hb h)) ++ map (fun c => Os.EvWrite staged (length c)) chunks)%list.
Proof.
  induction chunks as [|c cs IH]; intros h staged mode n T C M L.
  - exists (Auth.w (hb h)), n. cbn. rewrite !app_nil_r.
    split; [destruct h as [[] ? ? ? ? ? ? ? ? ? ? ? ? ? ?]; reflexivity|].
    split; [now rewrite insert_id|]. auto.
  - pose proof (data_received_plain c h staged mode n T C M L) as E1. cbn zeta in E1.
    set (w1 := Os.log _ _) in E1. set (h1 := put_hb (Auth.put_w w1 (hb h)) h) in E1.
    destruct (IH h1 staged mode
                (Os.set_data (Os.n_data n ++ c) (Os.clock (Auth.w (hb h))) n))
      as (w' & n' & E2 & F2 & D2 & M2 & T2).
    + exact T.
    + exact C.
    + exact M.
    + subst h1 w1. cbn. apply lookup_insert_eq.
    + exists w', n'. cbn [receive concat map].
      split; [erewrite bind_ret by exact E1; exact E2|].
      split.
      { rewrite F2. subst h1 w1. cbn. apply insert_insert_eq. }
      split; [rewrite D2; cbn; now rewrite app_assoc|].
      split; [rewrite M2; reflexivity|].
      rewrite T2. subst h1 w1. cbn. now rewrite <- app_assoc.
Qed.

(** [post] and [put] at the end of a plain upload. *)
Lemma finish_plain h staged visible mode n :
  target_file h
  = Some {| Os.fh_path := staged; Os.fh_mode := mode; Os.fh_closed := false |} ->
  custom_content_type h = None ->
  path h = Some staged -> path_part h = Some visible ->
  Os.fs (Auth.w (hb h)) !! staged = Some n ->
  Http.finished (Auth.resp (hb h)) = false ->
  let w := Auth.w (hb h) in
  finish_upload h
  = (Ret tt,
     put_hb
       (Auth.with_resp
          (fun r => Http.push (Http.message_body "data streamed") (Http.set_status 201 r))
          (Auth.put_w
             (Os.log (Os.EvRename staged visible)
                (Os.with_fs (fun m => <[visible := n]> (delete staged m))
                   (Os.log (Os.EvClose staged) w)))
             (hb h)))
       (put_target_file
          (Some {| Os.fh_path := staged; Os.fh_mode := mode; Os.fh_closed := true |})
          h)).
Proof.
  intros T C P PP L F w. subst w.
  destruct h as [[] ? ? ? ? ? ? ? ? ? ? ? ? ? ?]. cbn in T, C, P, PP, L, F. subst.
  unfold finish_upload, close_target, rename_path_to_path_part, bind, gets, modify,
    os, base, Auth.os, zoom, OsCalls.close, OsCalls.rename, Auth.set_status, Auth.write.
  cbn. rewrite L. cbn. rewrite F. reflexivity.
Qed.

(** [on_finish] after [post] or [put] has closed the file. *)
Lemma on_finish_done h f visible t rq g :
  target_file h = Some f -> Os.fh_closed f = true ->
  Http.method (Auth.req (hb h)) = "PUT" \/ Http.method (Auth.req (hb h)) = "POST" ->
  completed_resumable_file h = false ->
  path_part h = Some visible ->
  Auth.tenant (hb h) = Some t ->
  Auth.requestor (hb h) = Some (Os.CStr rq) ->
  group_name h = Some g ->
  let hook :=
    if request_hook_enabled (cfg h)
       && negb (String.eqb (backend (cfg h)) "cluster" && negb (String.eqb t "p01"))
    then [Os.EvHook (hook_path (cfg h)) [visible; rq; api_user opts; g] (hook_sudo (cfg h))]
    else [] in
  exists w',
    on_finish opts h = (Ret tt, put_hb (Auth.put_w w' (hb h)) h) /\
    Os.fs w' = Os.fs (Auth.w (hb h)) /\
    Os.trace w' = (Os.trace (Auth.w (hb h)) ++ hook)%list.
Proof.
  intros T Cl M Comp PP Ht Hr Hg hook. subst hook.
  destruct h as [[] [] ? ? ? ? ? ? ? ? ? ? ? ? ?].
  cbn in T, Cl, M, Comp, PP, Ht, Hr, Hg. subst.
  destruct f as [fp fm fc]. cbn in Cl. subst.
  unfold on_finish, target_closed, try_except, call_hook, bind, gets, modify, os, base,
    Auth.os, zoom, of_option, ret.
  cbn.
  destruct M as [-> | ->]; cbn.
  - destruct (String.eqb backend0 "cluster" && negb (String.eqb t "p01")); cbn.
    + rewrite andb_false_r. eexists. split; [reflexivity|].
      split; [reflexivity|]. now rewrite app_nil_r.
    + rewrite andb_true_r. destruct request_hook_enabled0; cbn.
      * eexists. split; [reflexivity|]. split; reflexivity.
      * eexists. split; [reflexivity|]. split; [reflexivity|]. now rewrite app_nil_r.
  - destruct (String.eqb backend0 "cluster" && negb (String.eqb t "p01")); cbn.
    + rewrite andb_false_r. eexists. split; [reflexivity|].
      split; [reflexivity|]. now rewrite app_nil_r.
    + rewrite andb_true_r. destruct request_hook_enabled0; cbn.
      * eexists. split; [reflexivity|]. split; reflexivity.
      * eexists. split; [reflexivity|]. split; [reflexivity|]. now rewrite app_nil_r.
Qed.

End Completing.

(** X14. A plain [PUT] or [POST] from the staged state to the end:
    the calls of [data_received], then [put] or [post], then
    [on_finish]. All of them return. The visible name then holds the
    bytes the staged file held before the body, followed by the chunks
    of the body in the order they arrived, with the mode of the staged
    file; nothing is left under the staging name, and every other entry
    is as it was. The response has the status 201 and the message
    [data streamed]. The request hook runs once, on the visible name,
    when it is enabled and the request is not one of the [cluster]
    backend for a tenant other than [p01]; otherwise it does not run. *)
Theorem plain_upload_lands_under_the_visible_name (opts : options)
    (h : Stream.handler) (staged visible mode : string) (data : list Byte.byte)
    (chunks : list (list Byte.byte)) (t rq g : string) :
  uploading h staged visible mode data ->
  Http.method (Auth.req (Stream.hb h)) = "PUT"
  \/ Http.method (Auth.req (Stream.hb h)) = "POST" ->
  Http.finished (Auth.resp (Stream.hb h)) = false ->
  Stream.completed_resumable_file h = false ->
  Auth.tenant (Stream.hb h) = Some t ->
  Auth.requestor (Stream.hb h) = Some (Os.CStr rq) ->
  Stream.group_name h = Some g ->
  let c := Stream.cfg h in
  let hook :=
    if Stream.request_hook_enabled c
       && negb (String.eqb (Stream.backend c) "cluster" && negb (String.eqb t "p01"))
    then [Os.EvHook (Stream.hook_path c) [visible; rq; api_user opts; g]
            (Stream.hook_sudo c)]
    else [] in
  exists h2 h3 h4,
    Stream.receive chunks h = (Py.Ret tt, h2) /\
    Stream.put h2 = (Py.Ret tt, h3) /\
    Stream.post h2 = (Py.Ret tt, h3) /\
    Stream.on_finish opts h3 = (Py.Ret tt, h4) /\
    let fs0 := Os.fs (Auth.w (Stream.hb h)) in
    let fs4 := Os.fs (Auth.w (Stream.hb h4)) in
    Os.n_data <$> (fs4 !! visible) = Some (data ++ concat chunks)%list /\
    Os.n_mode <$> (fs4 !! visible) = Os.n_mode <$> (fs0 !! staged) /\
    fs4 !! staged = None /\
    (forall q, q <> staged -> q <> visible -> fs4 !! q = fs0 !! q) /\
    Auth.resp (Stream.hb h4)
    = Http.push (Http.message_body "data streamed")
        (Http.set_status 201 (Auth.resp (Stream.hb h))) /\
    Os.trace (Auth.w (Stream.hb h4))
    = (Os.trace (Auth.w (Stream.hb h))
         ++ map (fun c => Os.EvWrite staged (length c)) chunks
         ++ [Os.EvClose staged; Os.EvRename staged visible] ++ hook)%list.
Proof.
  intros (T & C & M & P & PP & N & V & D) Hm F Comp Ht Hr Hg c hook.
  destruct (Os.fs (Auth.w (Stream.hb h)) !! staged) as [n|] eqn:L; [|discriminate].
  injection D as D.
  destruct (receive_plain chunks h staged mode n T C M L)
    as (w2 & n2 & E2 & F2 & D2 & M2 & T2).
  set (h2 := Stream.put_hb (Auth.put_w w2 (Stream.hb h)) h) in *.
  assert (L2 : Os.fs (Auth.w (Stream.hb h2)) !! staged = Some n2).
  { subst h2. cbn. rewrite F2. apply lookup_insert_eq. }
  pose proof (finish_plain h2 staged visible mode n2 T C P PP L2 F) as E3.
  cbn zeta in E3.
  match type of E3 with _ = (_, ?s) => set (h3 := s) in * end.
  destruct (on_finish_done opts h3
              {| Os.fh_path := staged; Os.fh_mode := mode; Os.fh_closed := true |}
              visible t rq g eq_refl eq_refl Hm Comp PP Ht Hr Hg)
    as (w4 & E4 & F4 & T4).
  exists h2, h3, (Stream.put_hb (Auth.put_w w4 (Stream.hb h3)) h3).
  split; [exact E2|]. split; [exact E3|]. split; [exact E3|]. split; [exact E4|].
  cbn zeta.
  cbn [Stream.hb Stream.put_hb Auth.w Auth.put_w Auth.resp Auth.with_resp].
  rewrite F4, T4. subst h3 h2.
  cbn [Stream.hb Stream.put_hb Stream.put_target_file Stream.cfg Auth.w Auth.put_w
         Auth.resp Auth.with_resp Os.fs Os.trace Os.log Os.with_fs].
  rewrite F2.
  split; [rewrite lookup_insert_eq; cbn; now rewrite D2, D|].
  split; [rewrite lookup_insert_eq, L; cbn; now rewrite M2|].
  split.
  { rewrite lookup_insert_ne by congruence. apply lookup_delete_eq. }
  split.
  { intros q Ns Nv. rewrite lookup_insert_ne by congruence.
    rewrite lookup_delete_ne by congruence.
    rewrite lookup_insert_ne by congruence. reflexivity. }
  split; [reflexivity|].
  rewrite T2. subst hook c. rewrite <- !app_assoc. reflexivity.
Qed.

Lemma prepare_stages_a_plain_upload_witness :
  exists h1,
    Scenario.prepared (Scenario.upload_old "POST") = (Py.Ret tt, h1) /\
    uploading h1 "/imp/old.txt.uuid0.part" "/imp/old.txt" "ab+" (Os.bytes "old") /\
    Os.n_mode <$> (Os.fs (Auth.w (Stream.hb h1)) !! "/imp/old.txt.uuid0.part") = Some 384 /\
    Auth.resp (Stream.hb h1) = Http.fresh /\
    Stream.cfg h1 = Scenario.stream_cfg /\
    Auth.requestor (Stream.hb h1) = Some (Os.CStr "p11-alice") /\
    is_Some (Stream.group_name h1) /\
    is_Some (Auth.tenant (Stream.hb h1)).
Proof.
  pose (b1 := snd (Auth.process_token_and_extract_claims Demo.X (Demo.opts 512)
                     (Auth.start (Scenario.upload_old "POST") Scenario.import_world))).
  apply (prepare_stages_a_plain_upload Demo.X (Demo.opts 512) Scenario.stream_cfg
           (Scenario.upload_old "POST") Scenario.import_world Scenario.good_authnz b1
           "application/octet-stream" "old.txt" "old.txt").
  - right. reflexivity.
  - vm_compute. reflexivity.
  - vm_compute. reflexivity.
  - reflexivity.
  - vm_compute. reflexivity.
  - vm_compute. reflexivity.
  - vm_compute. reflexivity.
Defined.

Lemma plain_upload_lands_under_the_visible_name_witness :
  let h := snd (Scenario.prepared (Scenario.upload_old "POST")) in
  let staged := "/imp/old.txt.uuid0.part" in
  let visible := "/imp/old.txt" in
  let chunks := [Os.bytes "ab"; Os.bytes "c"] in
  exists h2 h3 h4,
    Stream.receive chunks h = (Py.Ret tt, h2) /\
    Stream.put h2 = (Py.Ret tt, h3) /\
    Stream.post h2 = (Py.Ret tt, h3) /\
    Stream.on_finish (Demo.opts 512) h3 = (Py.Ret tt, h4) /\
    let fs0 := Os.fs (Auth.w (Stream.hb h)) in
    let fs4 := Os.fs (Auth.w (Stream.hb h4)) in
    Os.n_data <$> (fs4 !! visible) = Some (Os.bytes "old" ++ concat chunks)%list /\
    Os.n_mode <$> (fs4 !! visible) = Os.n_mode <$> (fs0 !! staged) /\
    fs4 !! staged = None /\
    (forall q, q <> staged -> q <> visible -> fs4 !! q = fs0 !! q) /\
    Auth.resp (Stream.hb h4)
    = Http.push (Http.message_body "data streamed")
        (Http.set_status 201 (Auth.resp (Stream.hb h))) /\
    Os.trace (Auth.w (Stream.hb h4))
    = (Os.trace (Auth.w (Stream.hb h))
         ++ map (fun c => Os.EvWrite staged (length c)) chunks
         ++ [Os.EvClose staged; Os.EvRename staged visible]
         ++ [Os.EvHook "/hook" [visible; "p11-alice"; "api"; "p11-member-group"] true])%list.
Proof.
  apply (plain_upload_lands_under_the_visible_name (Demo.opts 512)
           (snd (Scenario.prepared (Scenario.upload_old "POST")))
           "/imp/old.txt.uuid0.part" "/imp/old.txt" "ab+" (Os.bytes "old")
           [Os.bytes "ab"; Os.bytes "c"] "p11" "p11-alice" "p11-member-group").
  - unfold uploading.
    split; [vm_compute; reflexivity|]. split; [vm_compute; reflexivity|].
    split; [vm_compute; discriminate|]. split; [vm_compute; reflexivity|].
    split; [vm_compute; reflexivity|]. split; [discriminate|].
    split; vm_compute; reflexivity.
  - right. vm_compute. reflexivity.
  - vm_compute. reflexivity.
  - vm_compute. reflexivity.
  - vm_compute. reflexivity.
  - vm_compute. reflexivity.
  - vm_compute. reflexivity.
Defined.

(** The whole life cycle on the import directory of the scenario:
    [POST] appends the body to [old.txt], [PUT] replaces its content. *)
Example post_appends_put_replaces :
  let stored method :=
    let h1 := snd (Scenario.prepared (Scenario.upload_old method)) in
    let h2 := snd (Stream.receive [Os.bytes "ab"; Os.bytes "c"] h1) in
    let h3 := snd (Stream.finish_upload h2) in
    let h4 := snd (Stream.on_finish (Demo.opts 512) h3) in
    Os.n_data <$> (Os.fs (Auth.w (Stream.hb h4)) !! "/imp/old.txt") in
  stored "POST" = Some (Os.bytes "oldabc") /\ stored "PUT" = Some (Os.bytes "abc").
Proof. vm_compute. split; reflexivity. Qed.

Section RefusedUpload.
Import Py Stream.


End RefusedUpload.



(** X16. A client that disconnects from an upload on the [cluster]
    backend while the file is open: [on_connection_close] closes the
    file and then raises [NameError], because the name [tenant] in its
    condition is bound nowhere and [except AttributeError] does not
    catch that class; the request hook is not called, whatever the
    tenant, and nothing is renamed. *)
Theorem disconnect_on_cluster_raises_name_error (opts : options) (h : Stream.handler)
    (f : Os.handle) :
  Stream.target_file h = Some f ->
  Os.fh_closed f = false ->
  Stream.backend (Stream.cfg h) = "cluster" ->
  exists h',
    Stream.on_connection_close opts h = (Py.Raise Py.NameError, h') /\
    Stream.target_file h'
    = Some {| Os.fh_path := Os.fh_path f; Os.fh_mode := Os.fh_mode f;
              Os.fh_closed := true |} /\
    Os.fs (Auth.w (Stream.hb h')) = Os.fs (Auth.w (Stream.hb h)) /\
    Os.trace (Auth.w (Stream.hb h'))
    = (Os.trace (Auth.w (Stream.hb h)) ++ [Os.EvClose (Os.fh_path f)])%list.
Proof.
  intros T C B.
  destruct h as [[] [] ? ? ? ? ? ? ? ? ? ? ? ? ?]. cbn in T, B. subst.
  destruct f as [fp fm fc]. cbn in C. subst.
  unfold Stream.on_connection_close, Py.try_except, Stream.target_closed,
    Stream.close_target, Py.bind, Py.gets, Py.modify, Stream.os, Stream.base,
    Auth.os, Py.zoom, OsCalls.close.
  cbn. eexists. split; [reflexivity|]. cbn. auto.
Qed.

Lemma disconnect_on_cluster_raises_name_error_witness :
  let h := ClusterCase.prepared in
  let staged := "/imp/old.txt.uuid0.part" in
  exists h',
    Stream.on_connection_close (Demo.opts 512) h = (Py.Raise Py.NameError, h') /\
    Stream.target_file h'
    = Some {| Os.fh_path := staged; Os.fh_mode := "wb+"; Os.fh_closed := true |} /\
    Os.fs (Auth.w (Stream.hb h')) = Os.fs (Auth.w (Stream.hb h)) /\
    Os.trace (Auth.w (Stream.hb h'))
    = (Os.trace (Auth.w (Stream.hb h)) ++ [Os.EvClose staged])%list.
Proof.
  apply (disconnect_on_cluster_raises_name_error (Demo.opts 512) ClusterCase.prepared
           {| Os.fh_path := "/imp/old.txt.uuid0.part"; Os.fh_mode := "wb+";
              Os.fh_closed := false |}).
  - vm_compute. reflexivity.
  - reflexivity.
  - vm_compute. reflexivity.
Defined.

(** ** The proxy: what is forwarded, and when *)

Section OnRaise.
Import Py.
Context {S : Type} (R : relation S) `{!PreOrder R}.

Lemma on_raise_bind {A B} (c : M S A) (k : A -> M S B) :
  preserves R c -> (forall a, on_raise R (k a)) -> on_raise R (bind c k).
Proof.
  intros Hc Hk s e s'. unfold bind. specialize (Hc s).
  destruct (c s) as [[a|e1] s1] eqn:E; cbn in Hc.
  - intros E'. etransitivity; [exact Hc|eapply Hk, E'].
  - intros [= <- <-]. exact Hc.
Qed.

Lemma on_raise_modify f : on_raise R (modify f).
Proof. intros s e s'. discriminate. Qed.

Lemma on_raise_preserves {A} (c : M S A) : preserves R c -> on_raise R c.
Proof. intros H s e s' E. specialize (H s). now rewrite E in H. Qed.

End OnRaise.

Section ProxyFrame.
Import Py Proxy.
Context (X : externals) (opts : options).

#[global] Instance proxy_quiet_preorder : PreOrder proxy_quiet.
Proof.
  split.
  - intros h. split; [reflexivity|]. split; [reflexivity|]. now left.
  - intros h1 h2 h3 (W1 & F1 & R1) (W2 & F2 & R2).
    split; [congruence|]. split; [congruence|].
    destruct R1 as [R1|R1], R2 as [R2|R2]; rewrite R2, R1; auto.
Qed.

Lemma pq_base {A} (c : M Auth.base A) :
  (forall b, Auth.w (snd (c b)) = Auth.w b /\
             (Auth.resp (snd (c b)) = Auth.resp b
              \/ Auth.resp (snd (c b)) = Http.set_status 401 (Auth.resp b))) ->
  preserves proxy_quiet (base c).
Proof.
  intros H h. unfold base, zoom, proxy_quiet. specialize (H (hb h)).
  destruct (c (hb h)) as [r b]. cbn in *. destruct H as [W Rr]. auto.
Qed.

Lemma pq_os {A} (c : M Os.world A) :
  (forall w, snd (c w) = w) -> preserves proxy_quiet (os c).
Proof.
  intros H h. unfold os, base, Auth.os, zoom, proxy_quiet. specialize (H (Auth.w (hb h))).
  destruct (c (Auth.w (hb h))) as [r w']. cbn in *. subst. auto.
Qed.

Lemma pq_gate :
  preserves proxy_quiet (base (Auth.process_token_and_extract_claims X opts)).
Proof.
  apply pq_base. intros b.
  destruct (Auth.process_token_and_extract_claims X opts b) as [[a|e] b'] eqn:E.
  - apply gate_ret in E as (hdr & j & t & rq & _ & _ & _ & _ & _ & _ & _ & ->).
    cbn. auto.
  - pose proof (gate_raise_resp X opts _ _ _ E) as Rr.
    apply gate_raise in E as (_ & _ & W & _). cbn. auto.
Qed.

Lemma pq_header k : preserves proxy_quiet (base (Auth.header k)).
Proof.
  apply pq_base. intros b. unfold Auth.header, of_option.
  destruct (Http.headers (Auth.req b) !! k); cbn; auto.
Qed.

Lemma pq_query k : preserves proxy_quiet (base (Auth.get_query_argument k)).
Proof.
  apply pq_base. intros b. unfold Auth.get_query_argument, of_option.
  destruct (Http.query (Auth.req b) !! k); cbn; auto.
Qed.

Lemma pq_read {A} e (f : Auth.base -> option A) :
  preserves proxy_quiet (base (fun b => of_option e (f b) b)).
Proof.
  apply pq_base. intros b. unfold of_option. destruct (f b); cbn; auto.
Qed.

Lemma pq_now : preserves proxy_quiet (os (OsCalls.now_isoformat X)).
Proof. apply pq_os. reflexivity. Qed.

Lemma pq_put_filename f : preserves proxy_quiet (modify (put_filename f)).
Proof. intros h. split; [reflexivity|]. split; [reflexivity|]. now left. Qed.

Hint Resolve pq_gate pq_header pq_query pq_read pq_now pq_put_filename : frame.

Lemma pq_set_the_filename : preserves proxy_quiet (set_the_filename X opts).
Proof. unfold set_the_filename. frame. Qed.

Lemma pq_choose_group a t : preserves proxy_quiet (choose_group X a t).
Proof. unfold choose_group. frame. Qed.

Lemma pq_internal_headers : preserves proxy_quiet internal_headers.
Proof. unfold internal_headers. frame. Qed.

Lemma pq_chunk_and_id : preserves proxy_quiet (chunk_and_id X).
Proof. unfold chunk_and_id. frame. Qed.

(** The headers of the internal request, and their names. *)
Lemma internal_headers_spec h j :
  Auth.jwt (hb h) = Some j ->
  let hs := Http.headers (Auth.req (hb h)) in
  let copy (k : string) : list (string * string) :=
    match hs !! k with
    | Some v => [(k, v)]
    | None => []
    end in
  internal_headers h
  = (Ret ([("Authorization", ("Bearer " ++ j)%string);
           ("Content-Type", default "application/octet-stream" (hs !! "Content-Type"))]
            ++ copy "Aes-Key" ++ copy "Aes-Iv" ++ copy "Pragma")%list,
     put_hb (hb h) h).
Proof.
  intros J. unfold internal_headers, bind, gets, base, zoom, of_option, ret.
  rewrite J. reflexivity.
Qed.

Lemma internal_headers_names (hs : gmap string string) j k v :
  let copy (k : string) : list (string * string) :=
    match hs !! k with
    | Some v => [(k, v)]
    | None => []
    end in
  In (k, v) ([("Authorization", ("Bearer " ++ j)%string);
              ("Content-Type", default "application/octet-stream" (hs !! "Content-Type"))]
               ++ copy "Aes-Key" ++ copy "Aes-Iv" ++ copy "Pragma")%list ->
  In k forwarded_headers /\
  (k <> "Authorization" -> k <> "Content-Type" -> hs !! k = Some v).
Proof.
  cbn zeta. unfold forwarded_headers. cbn [app In].
  intros [[= <- <-]|[[= <- <-]|H]]; [cbn; tauto|cbn; tauto|].
  destruct (hs !! "Aes-Key") as [x|] eqn:E1; cbn [app In] in H.
  - destruct H as [[= <- <-]|H]; [cbn; tauto|].
    destruct (hs !! "Aes-Iv") as [y|] eqn:E2; cbn [app In] in H.
    + destruct H as [[= <- <-]|H]; [cbn; tauto|].
      destruct (hs !! "Pragma") as [z|] eqn:E3; cbn [app In] in H; [|tauto].
      destruct H as [[= <- <-]|[]]; cbn; tauto.
    + destruct (hs !! "Pragma") as [z|] eqn:E3; cbn [app In] in H; [|tauto].
      destruct H as [[= <- <-]|[]]; cbn; tauto.
  - destruct (hs !! "Aes-Iv") as [y|] eqn:E2; cbn [app In] in H.
    + destruct H as [[= <- <-]|H]; [cbn; tauto|].
      destruct (hs !! "Pragma") as [z|] eqn:E3; cbn [app In] in H; [|tauto].
      destruct H as [[= <- <-]|[]]; cbn; tauto.
    + destruct (hs !! "Pragma") as [z|] eqn:E3; cbn [app In] in H; [|tauto].
      destruct H as [[= <- <-]|[]]; cbn; tauto.
Qed.

(** A successful step 4 has set [self.filename]. *)
Lemma set_the_filename_ret h h' :
  set_the_filename X opts h = (Ret tt, h') ->
  is_Some (filename h') /\ Auth.jwt (hb h') = Auth.jwt (hb h) /\
  Auth.req (hb h') = Auth.req (hb h) /\ storage_backend h' = storage_backend h /\
  Auth.resp (hb h') = Auth.resp (hb h).
Proof.
  unfold set_the_filename, try_except.
  unfold bind at 1, gets at 1.
  destruct (6 <=? length (split "/" (Http.uri (Auth.req (hb h)))))%nat.
  - unfold bind at 1.
    destruct (last_item _) as [bn|]; cbn [of_option].
    2:{ cbn. discriminate. }
    unfold ret at 1. unfold bind at 1.
    destruct (split "?" bn !! 0%nat) as [fnm|]; cbn [of_option].
    2:{ cbn. discriminate. }
    unfold ret at 1. unfold bind at 1.
    destruct (check_filename X (url_unescape X fnm) (start_chars opts)) as [f|];
      cbn [of_option].
    2:{ cbn. discriminate. }
    cbn. intros [= <-]. cbn. eauto 10.
  - unfold bind at 1, base at 1, zoom at 1, Auth.header.
    destruct (Http.headers (Auth.req (hb h)) !! "Filename") as [hf|]; cbn [of_option].
    + unfold ret at 1. unfold bind at 1.
      destruct (check_filename X hf (start_chars opts)) as [f|]; cbn [of_option].
      2:{ cbn. discriminate. }
      cbn. intros [= <-]. cbn. eauto 10.
    + cbn. intros [= <-]. cbn. eauto 10.
Qed.

Lemma proxy_base_inv {A} (c : M Auth.base A) h r s :
  base c h = (r, s) -> exists b, c (hb h) = (r, b) /\ s = put_hb b h.
Proof.
  unfold base, zoom. destruct (c (hb h)) as [r' b]. intros [= <- <-]. eauto.
Qed.

End ProxyFrame.

(** X17. [ProxyHandler.prepare] on a fresh request never raises and
    never touches the world, and it has two outcomes. Either it starts
    the internal request: then the token gate has accepted the token,
    the group (from the query, else [<tenant>-member-group]) is a valid
    group name whose part before the first dash is the tenant of the
    URI, and the group is one of the group memberships; the internal
    request has the method of the request, carries the token and no
    header other than [Authorization], [Content-Type], [Aes-Key],
    [Aes-Iv] and [Pragma], and goes to [upload_stream] of the tenant and
    the backend with that group; the response is untouched. Or it
    starts no request and ends the response with the status 401 and
    the message [Request failed]. *)
Theorem proxy_forwards_only_for_group_members (X : externals) (opts : options)
    (backend : string) (r : Http.request) (w0 : Os.world) :
  exists h',
    Proxy.prepare X opts (Proxy.initialize backend r w0) = (Py.Ret tt, h') /\
    Auth.w (Proxy.hb h') = w0 /\
    match Proxy.fetch_future h' with
    | None =>
        Auth.resp (Proxy.hb h')
        = Http.close (Http.push (Http.message_body "Request failed")
                        (Http.set_status 401 Http.fresh))
    | Some f =>
        Auth.resp (Proxy.hb h') = Http.fresh /\
        exists a b1 t j g ms,
          Auth.process_token_and_extract_claims X opts (Auth.start r w0) = (Py.Ret a, b1) /\
          tenant_from_url X (Http.uri r) = Some t /\
          Auth.jwt b1 = Some j /\
          Proxy.chosen_group X a t (Http.query r) = (g, ms) /\
          IS_VALID_GROUPNAME X g = true /\
          Py.split "-" g !! 0%nat = Some t /\
          Proxy.member g ms = true /\
          Proxy.f_method f = Http.method r /\
          In ("Authorization", "Bearer " ++ j) (Proxy.f_headers f) /\
          (forall k v, In (k, v) (Proxy.f_headers f) -> In k forwarded_headers) /\
          exists name c i,
            Proxy.f_url f
            = "http://localhost:" ++ str_of_int X (port opts) ++ "/v1/" ++ t ++ "/"
              ++ backend ++ "/upload_stream/" ++ url_escape X name
              ++ "?group=" ++ g ++ "&chunk=" ++ Proxy.fmt c ++ "&id=" ++ Proxy.fmt i
    end.
Proof.
  set (h0 := Proxy.initialize backend r w0).
  unfold Proxy.prepare, Py.try_except.
  match goal with
  | |- context [match ?c h0 with _ => _ end] => set (body := c)
  end.
  assert (Hraise : on_raise proxy_quiet body).
  { subst body.
    apply (on_raise_bind proxy_quiet); [frame|intros method].
    apply (on_raise_bind proxy_quiet); [apply pq_gate|intros a].
    apply (on_raise_bind proxy_quiet); [frame|intros uri].
    apply (on_raise_bind proxy_quiet); [frame|intros t].
    apply (on_raise_bind proxy_quiet); [frame|intros _].
    apply (on_raise_bind proxy_quiet); [apply pq_set_the_filename|intros _].
    apply (on_raise_bind proxy_quiet); [apply pq_choose_group|intros [g ms]].
    apply (on_raise_bind proxy_quiet); [frame|intros _].
    apply (on_raise_bind proxy_quiet); [frame|intros g0].
    apply (on_raise_bind proxy_quiet); [frame|intros _].
    apply (on_raise_bind proxy_quiet); [frame|intros _].
    apply (on_raise_bind proxy_quiet); [apply pq_internal_headers|intros hs].
    apply (on_raise_bind proxy_quiet); [apply pq_chunk_and_id|intros [c i]].
    apply (on_raise_bind proxy_quiet); [frame|intros f].
    apply (on_raise_bind proxy_quiet); [frame|intros f'].
    apply (on_raise_bind proxy_quiet); [frame|intros b].
    apply on_raise_modify. }
  destruct (body h0) as [[[]|e] s] eqn:B.
  - exists s. split; [reflexivity|].
    revert B. subst body.
    unfold Py.bind at 1, Py.gets at 1.
    unfold Py.bind at 1.
    destruct (Proxy.base (Auth.process_token_and_extract_claims X opts) h0)
      as [[a|e] s1] eqn:E1; [|discriminate].
    apply proxy_base_inv in E1 as (b1 & G & ->).
    pose proof G as G'.
    apply gate_ret in G' as (hdr & j & t & rq & _ & _ & Ht & Hvt & _ & _ & _ & Eb).
    cbn in Ht.
    assert (J1 : Auth.jwt b1 = Some j) by (subst b1; reflexivity).
    assert (Q1 : Auth.req b1 = r) by (subst b1; reflexivity).
    assert (W1 : Auth.w b1 = w0) by (subst b1; reflexivity).
    assert (R1 : Auth.resp b1 = Http.fresh) by (subst b1; reflexivity).
    clear Eb.
    unfold Py.bind at 1, Py.gets at 1.
    cbn [Proxy.hb Proxy.put_hb]. rewrite Q1, Ht.
    unfold Py.bind at 1, Py.of_option at 1, Py.ret at 1.
    rewrite Hvt.
    unfold Py.bind at 1, Py.assert at 1, Py.ret at 1.
    unfold Py.bind at 1.
    destruct (Proxy.set_the_filename X opts (Proxy.put_hb b1 h0)) as [[[]|e] s2] eqn:E2;
      [|discriminate].
    pose proof (pq_set_the_filename X opts (Proxy.put_hb b1 h0)) as P2.
    rewrite E2 in P2. destruct P2 as (W2 & F2 & R2). cbn in W2, F2, R2.
    apply set_the_filename_ret in E2 as ((name & Hname) & J2 & Q2 & B2 & R2').
    cbn in J2, Q2, B2, R2'.
    unfold Py.bind at 1. rewrite (choose_group_run X a t s2). rewrite Q2, Q1.
    destruct (Proxy.chosen_group X a t (Http.query r)) as [g ms] eqn:Hg.
    unfold Py.bind at 1, Py.assert at 1.
    destruct (IS_VALID_GROUPNAME X g) eqn:Hv; [|discriminate].
    unfold Py.ret at 1. unfold Py.bind at 1, Py.of_option at 1.
    destruct (Py.split "-" g !! 0%nat) as [g0|] eqn:Hs; [|discriminate].
    unfold Py.ret at 1. unfold Py.bind at 1, Py.assert at 1.
    destruct (String.eqb_spec t g0) as [<-|]; [|discriminate].
    unfold Py.ret at 1. unfold Py.bind at 1, Py.assert at 1.
    destruct (Proxy.member g ms) eqn:Hm; [|discriminate].
    unfold Py.ret at 1. unfold Py.bind at 1.
    rewrite (internal_headers_spec s2 j) by congruence. cbn zeta.
    unfold Py.bind at 1.
    destruct (chunk_and_id_run X (Proxy.put_hb (Proxy.hb s2) s2)) as (c & i & Ec).
    rewrite Ec.
    unfold Py.bind at 1, Py.gets at 1. cbn [Proxy.filename Proxy.put_hb].
    rewrite Hname.
    unfold Py.bind at 1, Py.of_option at 1, Py.ret at 1.
    unfold Py.bind at 1, Py.gets at 1.
    unfold Py.modify. intros [= <-].
    cbn [Proxy.fetch_future Proxy.put_fetch_future Proxy.hb Proxy.put_hb
           Proxy.f_method Proxy.f_headers Proxy.f_url Proxy.storage_backend].
    split; [congruence|].
    split.
    { congruence. }
    exists a, b1, t, j, g, ms.
    split; [exact G|]. split; [reflexivity|]. split; [exact J1|]. split; [exact Hg|].
    split; [exact Hv|]. split; [exact Hs|]. split; [exact Hm|].
    split; [reflexivity|].
    split; [left; reflexivity|].
    split.
    { intros k v Hin. rewrite Q2, Q1 in Hin.
      eapply internal_headers_names. exact Hin. }
    exists name, c, i. rewrite B2. reflexivity.
  - pose proof (Hraise _ _ _ B) as (W & F & Rr). cbn in W, F, Rr.
    rewrite caught_Exception by (left; reflexivity).
    assert (Rs : Http.set_status 401 (Auth.resp (Proxy.hb s)) = Http.set_status 401 Http.fresh).
    { destruct Rr as [Rr|Rr]; rewrite Rr; reflexivity. }
    unfold Py.bind, Proxy.base, Py.zoom, Auth.set_status, Py.modify, Auth.finish.
    cbn.
    replace (Http.finished (Auth.resp (Proxy.hb s))) with false
      by (destruct Rr as [Rr|Rr]; rewrite Rr; reflexivity).
    eexists. split; [reflexivity|]. cbn.
    split; [exact W|]. rewrite F. cbn.
    change (Http.close (Http.push (Http.message_body "Request failed")
                          (Http.set_status 401 (Auth.resp (Proxy.hb s))))
            = Http.close (Http.push (Http.message_body "Request failed")
                            (Http.set_status 401 Http.fresh))).
    now rewrite Rs.
Qed.

(** ** The file name taken from the URI *)

Section SplitFacts.

Lemma contains_char_cons (c x : ascii) (w : string) :
  Py.contains (String c "") (String x w)
  = Ascii.eqb c x || Py.contains (String c "") w.
Proof.
  cbn [Py.contains String.prefix].
  destruct (Ascii.ascii_dec c x) as [->|N].
  - rewrite Ascii.eqb_refl. destruct w; reflexivity.
  - apply Ascii.eqb_neq in N. rewrite N. reflexivity.
Qed.

Lemma split_nonempty sep s : Py.split sep s <> [].
Proof.
  destruct s as [|c s]; cbn; [discriminate|].
  destruct (Ascii.eqb c sep); [discriminate|].
  destruct (Py.split sep s); discriminate.
Qed.

(** No piece of [s.split(sep)] contains the separator. *)
Lemma split_no_sep sep s w :
  In w (Py.split sep s) -> Py.contains (String sep "") w = false.
Proof.
  revert w. induction s as [|c s IH]; intros w; cbn [Py.split].
  - intros [<-|[]]. reflexivity.
  - destruct (Ascii.eqb c sep) eqn:E.
    + intros [<-|H]; [reflexivity|]. now apply IH.
    + destruct (Py.split sep s) as [|w0 ws] eqn:Es.
      * intros [<-|[]]. rewrite contains_char_cons.
        rewrite Ascii.eqb_sym, E. reflexivity.
      * intros [<-|H].
        -- rewrite contains_char_cons. rewrite Ascii.eqb_sym, E. cbn [orb].
           apply IH. now left.
        -- apply IH. now right.
Qed.

(** A character that does not occur in [s] occurs in no piece. *)
Lemma split_keeps_absent sep d s w :
  Py.contains (String d "") s = false ->
  In w (Py.split sep s) -> Py.contains (String d "") w = false.
Proof.
  revert w. induction s as [|c s IH]; intros w; cbn [Py.split].
  - intros _ [<-|[]]. reflexivity.
  - rewrite contains_char_cons. intros H. apply orb_false_elim in H as [Hc Hs].
    destruct (Ascii.eqb c sep).
    + intros [<-|H]; [reflexivity|]. now apply IH.
    + destruct (Py.split sep s) as [|w0 ws] eqn:Es.
      * intros [<-|[]]. rewrite contains_char_cons, Hc. reflexivity.
      * intros [<-|H].
        -- rewrite contains_char_cons, Hc. cbn [orb]. apply IH; [exact Hs|now left].
        -- apply IH; [exact Hs|now right].
Qed.

Lemma last_item_in {A} (l : list A) x : Py.last_item l = Some x -> In x l.
Proof.
  unfold Py.last_item. intros H. apply last_Some in H as (l' & ->).
  apply in_or_app. right. now left.
Qed.

End SplitFacts.

(** X18. The file name that [StreamHandler.prepare] takes from the
    URI, [uri.split('?')[0].split('/')[-1]]: the expression never fails
    with [IndexError], and its value contains neither a slash nor a
    question mark, whatever the URI. *)
Theorem uri_filename_has_no_separator (uri : string) :
  exists f,
    Stream.uri_filename_of uri = Some f /\
    Py.contains "/" f = false /\
    Py.contains "?" f = false.
Proof.
  unfold Stream.uri_filename_of.
  destruct (Py.split "?" uri) as [|q qs] eqn:Eq.
  { now apply split_nonempty in Eq. }
  cbn.
  assert (Hq : Py.contains "?" q = false).
  { apply (split_no_sep "?" uri). rewrite Eq. now left. }
  destruct (Py.last_item (Py.split "/" q)) as [f|] eqn:Ef.
  - exists f. split; [reflexivity|].
    apply last_item_in in Ef. split.
    + now apply (split_no_sep "/" q).
    + now apply (split_keeps_absent "/" "?" q).
  - unfold Py.last_item in Ef. apply last_None in Ef.
    now apply split_nonempty in Ef.
Qed.

(** ** Form uploads *)

Section FormSteps.
Import Py FormData.

Lemma form_base_run {A} (c : M Auth.base A) h r b :
  c (hb h) = (r, b) -> base c h = (r, put_hb b h).
Proof. intros E. unfold base, zoom. now rewrite E. Qed.

Lemma form_os_run {A} (c : M Os.world A) h r w' :
  c (Auth.w (hb h)) = (r, w') -> os c h = (r, put_hb (Auth.put_w w' (hb h)) h).
Proof. intros E. unfold os, base, Auth.os, zoom. now rewrite E. Qed.

(** [initialize] never raises, and it touches neither the request, the
    response nor the world. When the tenant of the URI is valid it
    leaves the configured import path, and the backend if there is
    one. *)
Lemma form_initialize_run (X : externals) (opts : options) (cfg : config)
    (b : string) (h : handler) :
  exists h1,
    initialize X opts cfg b h = (Ret tt, h1) /\
    hb h1 = hb h /\ files h1 = files h /\
    forall t, tenant_from_url X (Http.uri (Auth.req (hb h))) = Some t ->
              valid_tenant opts t = true ->
              tenant_dir_pattern h1
              = match import_path cfg b with
                | Some p => Some p
                | None => tenant_dir_pattern h
                end /\
              backend h1
              = match import_path cfg b with
                | Some _ => Some b
                | None => backend h
                end.
Proof.
  unfold initialize, try_except, bind, gets, of_option, assert, modify, ret, raise.
  destruct (tenant_from_url X (Http.uri (Auth.req (hb h)))) as [t|]; cbn.
  2:{ eexists. split; [reflexivity|]. repeat split; discriminate. }
  destruct (valid_tenant opts t) eqn:V; cbn.
  2:{ eexists. split; [reflexivity|]. split; [reflexivity|]. split; [reflexivity|].
      intros ? [= <-]. congruence. }
  destruct (import_path cfg b) as [p|]; cbn.
  2:{ eexists. split; [reflexivity|]. repeat split; reflexivity. }
  destruct (String.eqb b "sns"); cbn.
  - destruct (subfolder_path cfg b); cbn;
      (eexists; split; [reflexivity|]); repeat split; reflexivity.
  - eexists. split; [reflexivity|]. repeat split; reflexivity.
Qed.

End FormSteps.

(** X19. A form upload from the start: [initialize], then [prepare].
    Neither raises, and neither touches the world. When the token gate
    refuses the request, [prepare] ends it with the status 401, and
    when the gate accepts it but the form has no entry [file], or an
    empty one, with the status 400; the body is [request failed] in
    both cases. Otherwise the response is untouched, and the handler
    holds the import path of the configuration, with its backend set
    exactly when there is such a path. *)
Theorem form_prepare_outcomes (X : externals) (opts : options)
    (cfg : FormData.config) (backend : string) (r : Http.request)
    (fs : option (list FormData.form_file)) (w0 : Os.world) :
  let refused code :=
    Http.close (Http.push (Http.message_body "request failed")
                  (Http.set_status code Http.fresh)) in
  exists h1 h2,
    FormData.initialize X opts cfg backend (FormData.start r fs w0) = (Py.Ret tt, h1) /\
    FormData.prepare X opts h1 = (Py.Ret tt, h2) /\
    Auth.w (FormData.hb h2) = w0 /\
    FormData.files h2 = fs /\
    match Auth.process_token_and_extract_claims X opts (Auth.start r w0) with
    | (Py.Raise _, _) => Auth.resp (FormData.hb h2) = refused 401
    | (Py.Ret a, _) =>
        match fs with
        | Some (_ :: _) =>
            Auth.resp (FormData.hb h2) = Http.fresh /\
            FormData.authnz_ h2 = Some a /\
            FormData.tenant_dir_pattern h2 = FormData.import_path cfg backend /\
            FormData.backend h2
            = (FormData.import_path cfg backend ≫= fun _ => Some backend)
        | _ => Auth.resp (FormData.hb h2) = refused 400
        end
    end.
Proof.
  intros refused.
  destruct (form_initialize_run X opts cfg backend (FormData.start r fs w0))
    as (h1 & E1 & B1 & F1 & A1).
  exists h1. cbn in B1, F1, A1.
  unfold FormData.prepare, Py.try_except.
  unfold Py.bind at 1.
  destruct (Auth.process_token_and_extract_claims X opts (Auth.start r w0))
    as [[a|e] b'] eqn:G.
  - destruct (gate_ret X opts _ _ _ G)
      as (hdr & j & t & rq & _ & _ & T & V & _ & _ & _ & ->).
    destruct (A1 t T V) as [P1 K1].
    erewrite form_base_run by (rewrite B1; exact G).
    cbn. unfold Py.bind, Py.gets, Py.modify, Py.of_option. cbn. rewrite F1.
    destruct fs as [[|f l]|]; cbn.
    + eexists. split; [exact E1|]. split; [reflexivity|]. cbn. auto.
    + eexists. split; [exact E1|]. split; [reflexivity|]. cbn.
      rewrite P1, K1.
      destruct (FormData.import_path cfg backend); cbn; repeat split;
        first [reflexivity | exact F1].
    + eexists. split; [exact E1|]. split; [reflexivity|]. cbn. auto.
  - pose proof (gate_raise_resp X opts _ _ _ G) as R.
    destruct (gate_raise X opts _ _ _ G) as (-> & _ & W & _).
    erewrite form_base_run by (rewrite B1; exact G).
    cbn. unfold Py.bind, Py.gets. cbn. rewrite R. cbn.
    unfold FormData.base, Py.zoom, Auth.finish. cbn. rewrite R. cbn.
    eexists. split; [exact E1|]. split; [reflexivity|]. cbn.
    split; [exact W|]. split; [exact F1|]. rewrite R. reflexivity.
Qed.

Section FormWrite.
Import Py FormData.
Context (X : externals) (opts : options) (cfg : config) (I : imports).

Lemma finally_ret {S A} (c : M S A) (f : M S unit) s a s1 s2 :
  c s = (Ret a, s1) -> f s1 = (Ret tt, s2) -> try_finally c f s = (Ret a, s2).
Proof. intros E1 E2. unfold try_finally. rewrite E1, E2. reflexivity. Qed.

(** [write_file] on a backend other than [sns], when the staging name
    is free and the visible name is not a directory. *)
Lemma write_file_run filemode filename filebody tenant h b tp :
  backend h = Some b -> String.eqb b "sns" = false ->
  tenant_dir_pattern h = Some tp ->
  let w := Auth.w (hb h) in
  let p := visible_name X (Str.replace (tenant_string_pattern cfg) tenant tp) filename in
  let pp := staging_name X p w in
  Os.fs w !! pp = None ->
  (forall n, Os.fs w !! p = Some n -> Os.n_dir n = false) ->
  let n0 := match Os.fs w !! p with
            | Some n => if OsCalls.truncates filemode
                        then Os.set_data [] (Os.clock w) n else n
            | None => OsCalls.new_node X w
            end in
  exists w',
    write_file X cfg I filemode filename filebody tenant h
    = (Ret true,
       put_path_part (Some p)
         (put_path (Some pp) (put_hb (Auth.put_w w' (hb h)) h))) /\
    Os.fs w' !! p
    = Some (Os.set_mode Os._RW_RW___
              (Os.set_data (Os.n_data n0 ++ filebody) (Os.clock w) n0)) /\
    Os.fs w' !! pp = None /\
    (forall q, q <> p -> q <> pp -> Os.fs w' !! q = Os.fs w !! q) /\
    Os.trace w'
    = (Os.trace w
         ++ match Os.fs w !! p with
            | Some _ => [Os.EvRename p pp]
            | None => []
            end
         ++ [Os.EvOpen pp filemode; Os.EvWrite pp (length filebody);
             Os.EvRename pp p; Os.EvChmod p Os._RW_RW___; Os.EvClose pp])%list /\
    Os.uuid_next w' = S (Os.uuid_next w) /\
    Os.clock w' = Os.clock w /\
    Os.uploads w' = Os.uploads w.
Proof.
  intros Hb Hsns Htp w p pp Hpp Hdir n0.
  assert (N : pp <> p) by apply staging_name_neq.
  unfold write_file.
  destruct (Os.fs w !! p) as [n|] eqn:L.
  - pose proof (Hdir n eq_refl) as D.
    eexists. split.
    { erewrite try_ret; [reflexivity|].
      erewrite bind_ret by (unfold attr; rewrite Hb; reflexivity).
      erewrite bind_ret by reflexivity.
      rewrite Hsns. cbv beta iota.
      erewrite bind_ret.
      2:{ erewrite bind_ret by (unfold attr; rewrite Htp; reflexivity). reflexivity. }
      cbv beta iota.
      change (normpath X (Str.replace (tenant_string_pattern cfg) tenant tp
                            ++ "/" ++ filename)) with p.
      erewrite bind_ret by reflexivity.
      erewrite bind_ret by (apply form_os_run; reflexivity).
      cbn [hb put_hb put_path Auth.w Auth.put_w].
      change (Auth.w (hb h)) with w.
      change (p ++ "." ++ uuid4 X (Os.uuid_next w) ++ ".part") with pp.
      erewrite bind_ret by reflexivity.
      erewrite bind_ret by (apply form_os_run; reflexivity).
      cbn [hb put_hb put_path put_path_part Auth.w Auth.put_w OsCalls.lexists gets
             Os.fs Os.bump_uuid].
      rewrite Hpp.
      rewrite bool_decide_eq_false_2 by (intros [? ?]; discriminate).
      erewrite bind_ret by reflexivity.
      erewrite bind_ret by (apply form_os_run; reflexivity).
      cbn [hb put_hb put_path put_path_part Auth.w Auth.put_w Os.fs Os.bump_uuid].
      change (Auth.w (hb h)) with w. rewrite L.
      rewrite bool_decide_eq_true_2 by eauto.
      erewrite bind_ret.
      2:{ erewrite bind_ret.
          2:{ apply form_os_run. unfold OsCalls.rename. cbn.
              change (Auth.w (hb h)) with w. rewrite L. reflexivity. }
          erewrite bind_ret.
          2:{ apply form_os_run. unfold OsCalls.lexists, gets. cbn.
              rewrite lookup_insert_eq. reflexivity. }
          rewrite bool_decide_eq_true_2 by eauto.
          erewrite bind_ret by reflexivity.
          erewrite bind_ret.
          2:{ apply form_os_run. unfold OsCalls.lexists, gets. cbn.
              rewrite lookup_insert_ne by exact N. rewrite lookup_delete_eq.
              reflexivity. }
          rewrite bool_decide_eq_false_2 by (intros [? ?]; discriminate).
          reflexivity. }
      erewrite bind_ret by reflexivity.
      erewrite bind_ret by reflexivity.
      erewrite bind_ret.
      2:{ apply form_os_run. unfold OsCalls.open_. cbn.
          rewrite lookup_insert_eq, D. reflexivity. }
      cbn [hb put_hb put_path put_path_part Auth.w Auth.put_w].
      erewrite bind_ret.
      2:{ eapply finally_ret.
          - erewrite bind_ret.
            2:{ apply form_os_run. unfold OsCalls.write. cbn.
                rewrite lookup_insert_eq. reflexivity. }
            erewrite bind_ret.
            2:{ apply form_os_run. unfold OsCalls.rename. cbn.
                rewrite lookup_insert_eq. reflexivity. }
            apply form_os_run. unfold OsCalls.chmod. cbn.
            rewrite lookup_insert_eq. reflexivity.
          - erewrite bind_ret by (apply form_os_run; reflexivity).
            reflexivity. }
      reflexivity. }
    cbn [Os.fs Os.trace Os.uuid_next Os.clock Os.uploads Os.log Os.with_fs
           Os.bump_uuid Os.fh_closed Os.fh_path hb put_hb put_path put_path_part
           Auth.w Auth.put_w].
    change (Auth.w (hb h)) with w.
    split.
    { rewrite lookup_insert_eq. subst n0.
      destruct (OsCalls.truncates filemode); reflexivity. }
    split.
    { rewrite !lookup_insert_ne by congruence. apply lookup_delete_eq. }
    split.
    { intros q Np Npp.
      rewrite !lookup_insert_ne by congruence.
      rewrite lookup_delete_ne by congruence.
      rewrite !lookup_insert_ne by congruence.
      rewrite lookup_delete_ne by congruence. reflexivity. }
    rewrite <- !app_assoc. cbn. auto.
  - eexists. split.
    { erewrite try_ret; [reflexivity|].
      erewrite bind_ret by (unfold attr; rewrite Hb; reflexivity).
      erewrite bind_ret by reflexivity.
      rewrite Hsns. cbv beta iota.
      erewrite bind_ret.
      2:{ erewrite bind_ret by (unfold attr; rewrite Htp; reflexivity). reflexivity. }
      cbv beta iota.
      change (normpath X (Str.replace (tenant_string_pattern cfg) tenant tp
                            ++ "/" ++ filename)) with p.
      erewrite bind_ret by reflexivity.
      erewrite bind_ret by (apply form_os_run; reflexivity).
      cbn [hb put_hb put_path Auth.w Auth.put_w].
      change (Auth.w (hb h)) with w.
      change (p ++ "." ++ uuid4 X (Os.uuid_next w) ++ ".part") with pp.
      erewrite bind_ret by reflexivity.
      erewrite bind_ret by (apply form_os_run; reflexivity).
      cbn [hb put_hb put_path put_path_part Auth.w Auth.put_w OsCalls.lexists gets
             Os.fs Os.bump_uuid].
      rewrite Hpp.
      rewrite bool_decide_eq_false_2 by (intros [? ?]; discriminate).
      erewrite bind_ret by reflexivity.
      erewrite bind_ret by (apply form_os_run; reflexivity).
      cbn [hb put_hb put_path put_path_part Auth.w Auth.put_w Os.fs Os.bump_uuid].
      change (Auth.w (hb h)) with w. rewrite L.
      rewrite bool_decide_eq_false_2 by (intros [? ?]; discriminate).
      erewrite bind_ret by reflexivity.
      erewrite bind_ret by reflexivity.
      erewrite bind_ret by reflexivity.
      erewrite bind_ret.
      2:{ apply form_os_run. unfold OsCalls.open_. cbn.
          change (Auth.w (hb h)) with w. rewrite Hpp. reflexivity. }
      cbn [hb put_hb put_path put_path_part Auth.w Auth.put_w].
      erewrite bind_ret.
      2:{ eapply finally_ret.
          - erewrite bind_ret.
            2:{ apply form_os_run. unfold OsCalls.write. cbn.
                rewrite lookup_insert_eq. reflexivity. }
            erewrite bind_ret.
            2:{ apply form_os_run. unfold OsCalls.rename. cbn.
                rewrite lookup_insert_eq. reflexivity. }
            apply form_os_run. unfold OsCalls.chmod. cbn.
            rewrite lookup_insert_eq. reflexivity.
          - erewrite bind_ret by (apply form_os_run; reflexivity).
            reflexivity. }
      reflexivity. }
    cbn [Os.fs Os.trace Os.uuid_next Os.clock Os.uploads Os.log Os.with_fs
           Os.bump_uuid Os.fh_closed Os.fh_path hb put_hb put_path put_path_part
           Auth.w Auth.put_w].
    change (Auth.w (hb h)) with w.
    split.
    { rewrite lookup_insert_eq. reflexivity. }
    split.
    { rewrite !lookup_insert_ne by congruence. apply lookup_delete_eq. }
    split.
    { intros q Np Npp.
      rewrite !lookup_insert_ne by congruence.
      rewrite lookup_delete_ne by congruence.
      rewrite !lookup_insert_ne by congruence. reflexivity. }
    rewrite <- !app_assoc. cbn. auto.
Qed.

End FormWrite.

Section FormUpload.
Import Py FormData.
Context (X : externals) (opts : options) (cfg : config) (I : imports).

(** A block under [except Exception] whose handler returns never
    raises. *)
Lemma try_all_returns {S A} (c : M S A) classes (k : exn -> M S A) :
  In Exception classes -> (forall e, never_raises (k e)) ->
  never_raises (try_except c classes k).
Proof.
  intros Hin Hk s. unfold try_except.
  destruct (c s) as [[a|e] s1]; [eauto|].
  rewrite caught_Exception by exact Hin. apply Hk.
Qed.

Lemma handle_data_run filemode tenant h ok h1 :
  write_files X opts cfg I filemode tenant h = (Ret ok, h1) ->
  Http.finished (Auth.resp (hb h1)) = false ->
  handle_data X opts cfg I filemode tenant h
  = (Ret tt, put_hb (Auth.with_resp (form_answer ok) (hb h1)) h1).
Proof.
  intros E F. unfold handle_data, try_except.
  unfold bind at 1. rewrite E.
  destruct ok; cbn.
  - unfold bind, base, zoom, Auth.set_status, Auth.write, modify. cbn.
    rewrite F. reflexivity.
  - unfold bind, base, zoom, Auth.set_status, Auth.write, modify. cbn.
    rewrite F. reflexivity.
Qed.

Lemma write_files_never_raises filemode tenant :
  never_raises (write_files X opts cfg I filemode tenant).
Proof.
  apply try_all_returns; [now left|].
  intros e s. now exists false, s.
Qed.

(** [write_files] on a list whose first file has an illegal name or an
    empty body. *)
Lemma write_files_bad_first filemode tenant h f rest :
  files h = Some (f :: rest) ->
  check_filename X (ff_filename f) (start_chars opts) = None \/ ff_body f = [] ->
  write_files X opts cfg I filemode tenant h = (Ret false, h).
Proof.
  intros Hf Hbad. unfold write_files, try_except, bind, gets, of_option, ret, raise.
  rewrite Hf. cbn.
  destruct (check_filename X (ff_filename f) (start_chars opts)) as [name|]; cbn.
  - destruct Hbad as [Hbad|Hbad]; [discriminate|]. rewrite Hbad. reflexivity.
  - reflexivity.
Qed.

(** One round of the loop of [write_files] that goes well. *)
Lemma write_each_step filemode tenant f rest name h h1 :
  check_filename X (ff_filename f) (start_chars opts) = Some name ->
  ff_body f <> [] ->
  write_file X cfg I filemode name (ff_body f) tenant h = (Ret true, h1) ->
  write_each X opts cfg I filemode tenant (f :: rest) h
  = write_each X opts cfg I filemode tenant rest h1.
Proof.
  intros Hn Hb E. cbn [write_each]. rewrite Hn.
  erewrite bind_ret by reflexivity.
  destruct (ff_body f) as [|c l] eqn:B; [congruence|]. cbn [length Nat.eqb].
  erewrite bind_ret by reflexivity.
  erewrite bind_ret by exact E.
  erewrite bind_ret by reflexivity.
  reflexivity.
Qed.

End FormUpload.

(** X20. A form upload of one file with a legal name and a non-empty
    body, on a backend other than [sns], when the staging name is free
    and the visible name is not a directory. [post], [patch] and [put]
    return with the status 201 and the message [data uploaded]. The
    visible name then holds, with the permission bits 0660, the body:
    after the former content of the file for [post] and [patch], alone
    for [put]. Nothing is left under the staging name, and every other
    entry is as it was. *)
Theorem form_upload_writes_the_file (X : externals) (opts : options)
    (cfg : FormData.config) (I : FormData.imports) (tenant : string)
    (h : FormData.handler) (b tp name : string) (f : FormData.form_file) :
  FormData.backend h = Some b -> String.eqb b "sns" = false ->
  FormData.tenant_dir_pattern h = Some tp ->
  FormData.files h = Some [f] ->
  check_filename X (FormData.ff_filename f) (start_chars opts) = Some name ->
  FormData.ff_body f <> [] ->
  Http.finished (Auth.resp (FormData.hb h)) = false ->
  let w := Auth.w (FormData.hb h) in
  let p := visible_name X
             (Str.replace (FormData.tenant_string_pattern cfg) tenant tp) name in
  let pp := staging_name X p w in
  Os.fs w !! pp = None ->
  (forall n, Os.fs w !! p = Some n -> Os.n_dir n = false) ->
  let old := match Os.fs w !! p with
             | Some n => Os.n_data n
             | None => []
             end in
  let done (data : list Byte.byte) (h' : FormData.handler) :=
    Auth.resp (FormData.hb h')
    = Http.push (Http.message_body "data uploaded")
        (Http.set_status 201 (Auth.resp (FormData.hb h))) /\
    holds (Auth.w (FormData.hb h')) p data 432 /\
    Os.fs (Auth.w (FormData.hb h')) !! pp = None /\
    (forall q, q <> p -> q <> pp ->
               Os.fs (Auth.w (FormData.hb h')) !! q = Os.fs w !! q) in
  exists h1 h2,
    FormData.post X opts cfg I tenant h = (Py.Ret tt, h1) /\
    FormData.patch X opts cfg I tenant h = (Py.Ret tt, h1) /\
    FormData.put X opts cfg I tenant h = (Py.Ret tt, h2) /\
    done (old ++ FormData.ff_body f)%list h1 /\
    done (FormData.ff_body f) h2.
Proof.
  intros Hb Hsns Htp Hf Hn Hbody Fin w p pp Hpp Hdir old done.
  assert (Hrun : forall filemode,
             exists h',
               FormData.handle_data X opts cfg I filemode tenant h = (Py.Ret tt, h') /\
               done ((if OsCalls.truncates filemode then [] else old)
                       ++ FormData.ff_body f)%list h').
  { intros filemode.
    destruct (write_file_run X cfg I filemode name (FormData.ff_body f) tenant h b tp
                Hb Hsns Htp Hpp Hdir)
      as (w' & E & Lp & Lpp & Lq & _).
    fold w p in Lp, Lpp, Lq. fold pp in Lpp, Lq.
    eexists. split.
    - eapply handle_data_run.
      + unfold FormData.write_files.
        erewrite try_ret; [reflexivity|].
        erewrite bind_ret by reflexivity. rewrite Hf.
        erewrite bind_ret by reflexivity.
        erewrite bind_ret; [reflexivity|].
        erewrite write_each_step by eassumption. reflexivity.
      + exact Fin.
    - unfold done, holds.
      cbn [FormData.hb FormData.put_hb FormData.put_path FormData.put_path_part
             Auth.w Auth.put_w Auth.resp Auth.with_resp form_answer].
      split; [reflexivity|].
      rewrite Lp. cbn.
      split.
      + split; [|reflexivity]. f_equal. f_equal. subst old.
        destruct (Os.fs w !! p) as [n|];
          destruct (OsCalls.truncates filemode); reflexivity.
      + split; [exact Lpp|exact Lq]. }
  destruct (Hrun "ab+") as (h1 & E1 & D1).
  destruct (Hrun "wb+") as (h2 & E2 & D2).
  exists h1, h2. cbn in D1, D2. auto.
Qed.

Lemma form_upload_writes_the_file_witness :
  exists h1 h2,
    FormData.post Demo.X (Demo.opts 512) FormCase.cfg FormCase.imports "p11"
      (FormCase.prepared [FormCase.form "old.txt" "new"]) = (Py.Ret tt, h1) /\
    FormData.put Demo.X (Demo.opts 512) FormCase.cfg FormCase.imports "p11"
      (FormCase.prepared [FormCase.form "old.txt" "new"]) = (Py.Ret tt, h2) /\
    holds (Auth.w (FormData.hb h1)) "/tsd/p11/imp/old.txt" (Os.bytes "oldnew") 432 /\
    holds (Auth.w (FormData.hb h2)) "/tsd/p11/imp/old.txt" (Os.bytes "new") 432.
Proof.
  destruct (form_upload_writes_the_file Demo.X (Demo.opts 512) FormCase.cfg
              FormCase.imports "p11"
              (FormCase.prepared [FormCase.form "old.txt" "new"])
              "form_data" "/tsd/pXX/imp" "old.txt" (FormCase.form "old.txt" "new"))
    as (h1 & h2 & E1 & _ & E2 & (_ & H1 & _) & (_ & H2 & _)).
  - vm_compute. reflexivity.
  - vm_compute. reflexivity.
  - vm_compute. reflexivity.
  - vm_compute. reflexivity.
  - vm_compute. reflexivity.
  - discriminate.
  - vm_compute. reflexivity.
  - vm_compute. reflexivity.
  - intros n. vm_compute. intros [= <-]. reflexivity.
  - exists h1, h2. split; [exact E1|]. split; [exact E2|]. split; [exact H1|exact H2].
Defined.

Section FormFrame.
Import Py FormData.
Context (X : externals) (opts : options) (cfg : config) (I : imports).

#[global] Instance same_answer_preorder : PreOrder same_answer.
Proof.
  split.
  - intros h. reflexivity.
  - intros h1 h2 h3 H1 H2. unfold same_answer in *. congruence.
Qed.

Lemma same_answer_os {A} (c : M Os.world A) : preserves same_answer (os c).
Proof.
  intros h. unfold os, base, Auth.os, zoom.
  destruct (c (Auth.w (hb h))) as [r w']. reflexivity.
Qed.

Lemma same_answer_attr {A} (f : handler -> option A) : preserves same_answer (attr f).
Proof. intros h. unfold attr. destruct (f h); reflexivity. Qed.

Lemma same_answer_modify (f : handler -> handler) :
  (forall h, hb (f h) = hb h) -> preserves same_answer (modify f).
Proof. intros H h. unfold same_answer. cbn. now rewrite H. Qed.

Hint Resolve same_answer_os same_answer_attr : frame.

Lemma same_answer_write_file filemode filename filebody tenant :
  preserves same_answer (write_file X cfg I filemode filename filebody tenant).
Proof.
  unfold write_file. frame; apply same_answer_modify; reflexivity.
Qed.

Hint Resolve same_answer_write_file : frame.

Lemma same_answer_write_each filemode tenant l :
  preserves same_answer (write_each X opts cfg I filemode tenant l).
Proof. induction l as [|f l IH]; cbn [write_each]; frame. Qed.

Hint Resolve same_answer_write_each : frame.

Lemma same_answer_write_files filemode tenant :
  preserves same_answer (write_files X opts cfg I filemode tenant).
Proof. unfold write_files. frame. Qed.

(** [handle_data] on an open response: it returns, with one of its
    two answers. *)
Lemma handle_data_answers filemode tenant h :
  Http.finished (Auth.resp (hb h)) = false ->
  exists ok h',
    handle_data X opts cfg I filemode tenant h = (Ret tt, h') /\
    Auth.resp (hb h') = form_answer ok (Auth.resp (hb h)).
Proof.
  intros F.
  destruct (write_files_never_raises X opts cfg I filemode tenant h) as (ok & h1 & E).
  pose proof (same_answer_write_files filemode tenant h) as R.
  rewrite E in R. unfold same_answer in R. cbn in R.
  exists ok. eexists. split.
  - eapply handle_data_run; [exact E|]. now rewrite R.
  - cbn. now rewrite R.
Qed.

(** The loop on a first file with an illegal name or an empty body. *)
Lemma write_each_bad_first filemode tenant h f rest :
  check_filename X (ff_filename f) (start_chars opts) = None \/ ff_body f = [] ->
  write_each X opts cfg I filemode tenant (f :: rest) h = (Raise Exception, h).
Proof.
  intros Hbad. cbn [write_each]. unfold bind, of_option, ret, raise.
  destruct (check_filename X (ff_filename f) (start_chars opts)) as [name|].
  - destruct Hbad as [Hbad|Hbad]; [discriminate|]. rewrite Hbad. reflexivity.
  - reflexivity.
Qed.

End FormFrame.

(** X21. [post], [patch] and [put] of a form upload on a response
    that is not finished, whatever the form, the configuration, the
    state of the handler and of the file system, and whatever
    [utils.sns_dir] and [shutil.copy] do: the method returns, and the
    answer is either 201 with [data uploaded] or 400 with
    [could not upload data]. *)
Theorem form_upload_is_always_answered (X : externals) (opts : options)
    (cfg : FormData.config) (I : FormData.imports) (tenant : string)
    (h : FormData.handler) :
  Http.finished (Auth.resp (FormData.hb h)) = false ->
  let answered (c : Py.M FormData.handler unit) :=
    exists h',
      c h = (Py.Ret tt, h') /\
      (Auth.resp (FormData.hb h')
       = Http.push (Http.message_body "data uploaded")
           (Http.set_status 201 (Auth.resp (FormData.hb h)))
       \/ Auth.resp (FormData.hb h')
          = Http.push (Http.message_body "could not upload data")
              (Http.set_status 400 (Auth.resp (FormData.hb h)))) in
  answered (FormData.post X opts cfg I tenant) /\
  answered (FormData.patch X opts cfg I tenant) /\
  answered (FormData.put X opts cfg I tenant).
Proof.
  intros F answered.
  assert (H : forall filemode,
             answered (FormData.handle_data X opts cfg I filemode tenant)).
  { intros filemode.
    destruct (handle_data_answers X opts cfg I filemode tenant h F)
      as (ok & h' & E & R).
    exists h'. split; [exact E|]. rewrite R. destruct ok; [left|right]; reflexivity. }
  split; [apply H|]. split; apply H.
Qed.

Lemma form_upload_is_always_answered_witness :
  exists h',
    FormData.put Demo.X (Demo.opts 512) FormCase.cfg FormCase.imports "p11"
      (FormCase.prepared [FormCase.form "a/b.txt" "new"]) = (Py.Ret tt, h') /\
    Http.status_code (Auth.resp (FormData.hb h')) = 400.
Proof.
  destruct (form_upload_is_always_answered Demo.X (Demo.opts 512) FormCase.cfg
              FormCase.imports "p11"
              (FormCase.prepared [FormCase.form "a/b.txt" "new"]))
    as (_ & _ & (h' & E & _)).
  - vm_compute. reflexivity.
  - exists h'. split; [exact E|].
    vm_compute in E. injection E as <-. reflexivity.
Defined.

(** X22. A form whose first file has a name that [check_filename]
    rejects, or an empty body: [post], [patch] and [put] answer 400
    with [could not upload data], and the world is the one the method
    started in: no file of the form is written, not even a later one
    that is in order. *)
Theorem form_upload_stops_at_a_bad_first_file (X : externals) (opts : options)
    (cfg : FormData.config) (I : FormData.imports) (tenant : string)
    (h : FormData.handler) (f : FormData.form_file)
    (rest : list FormData.form_file) :
  FormData.files h = Some (f :: rest) ->
  check_filename X (FormData.ff_filename f) (start_chars opts) = None
  \/ FormData.ff_body f = [] ->
  Http.finished (Auth.resp (FormData.hb h)) = false ->
  exists h',
    FormData.post X opts cfg I tenant h = (Py.Ret tt, h') /\
    FormData.patch X opts cfg I tenant h = (Py.Ret tt, h') /\
    FormData.put X opts cfg I tenant h = (Py.Ret tt, h') /\
    Auth.resp (FormData.hb h')
    = Http.push (Http.message_body "could not upload data")
        (Http.set_status 400 (Auth.resp (FormData.hb h))) /\
    Auth.w (FormData.hb h') = Auth.w (FormData.hb h).
Proof.
  intros Hf Hbad F.
  assert (E : forall filemode,
             FormData.handle_data X opts cfg I filemode tenant h
             = (Py.Ret tt,
                FormData.put_hb (Auth.with_resp (form_answer false) (FormData.hb h)) h)).
  { intros filemode. apply handle_data_run; [|exact F].
    eapply write_files_bad_first; eassumption. }
  eexists. split; [apply E|]. split; [apply E|]. split; [apply E|].
  split; reflexivity.
Qed.

Lemma form_upload_stops_at_a_bad_first_file_witness :
  exists h',
    FormData.post Demo.X (Demo.opts 512) FormCase.cfg FormCase.imports "p11"
      (FormCase.prepared [FormCase.form "empty.txt" ""; FormCase.form "fine.txt" "x"])
    = (Py.Ret tt, h') /\
    Http.status_code (Auth.resp (FormData.hb h')) = 400 /\
    Auth.w (FormData.hb h') = FormCase.world.
Proof.
  destruct (form_upload_stops_at_a_bad_first_file Demo.X (Demo.opts 512) FormCase.cfg
              FormCase.imports "p11"
              (FormCase.prepared [FormCase.form "empty.txt" ""; FormCase.form "fine.txt" "x"])
              (FormCase.form "empty.txt" "") [FormCase.form "fine.txt" "x"])
    as (h' & E & _ & _ & R & W).
  - vm_compute. reflexivity.
  - right. reflexivity.
  - vm_compute. reflexivity.
  - exists h'. split; [exact E|]. split.
    + rewrite R. reflexivity.
    + rewrite W. vm_compute. reflexivity.
Defined.

(** X23. A form of two or more files whose first file is in order (as
    in the upload of one file) and whose second file has an illegal
    name or an empty body: the answer is 400 with
    [could not upload data], and yet the first file has been written
    and stays: nothing is rolled back. *)
Theorem form_upload_does_not_roll_back (X : externals) (opts : options)
    (cfg : FormData.config) (I : FormData.imports) (filemode tenant : string)
    (h : FormData.handler) (b tp name : string) (f1 f2 : FormData.form_file)
    (rest : list FormData.form_file) :
  FormData.backend h = Some b -> String.eqb b "sns" = false ->
  FormData.tenant_dir_pattern h = Some tp ->
  FormData.files h = Some (f1 :: f2 :: rest) ->
  check_filename X (FormData.ff_filename f1) (start_chars opts) = Some name ->
  FormData.ff_body f1 <> [] ->
  check_filename X (FormData.ff_filename f2) (start_chars opts) = None
  \/ FormData.ff_body f2 = [] ->
  Http.finished (Auth.resp (FormData.hb h)) = false ->
  let w := Auth.w (FormData.hb h) in
  let p := visible_name X
             (Str.replace (FormData.tenant_string_pattern cfg) tenant tp) name in
  Os.fs w !! staging_name X p w = None ->
  (forall n, Os.fs w !! p = Some n -> Os.n_dir n = false) ->
  let old := match Os.fs w !! p with
             | Some n => if OsCalls.truncates filemode then [] else Os.n_data n
             | None => []
             end in
  exists h',
    FormData.handle_data X opts cfg I filemode tenant h = (Py.Ret tt, h') /\
    Auth.resp (FormData.hb h')
    = Http.push (Http.message_body "could not upload data")
        (Http.set_status 400 (Auth.resp (FormData.hb h))) /\
    holds (Auth.w (FormData.hb h')) p (old ++ FormData.ff_body f1)%list 432.
Proof.
  intros Hb Hsns Htp Hf Hn Hbody Hbad Fin w p Hpp Hdir old.
  destruct (write_file_run X cfg I filemode name (FormData.ff_body f1) tenant h b tp
              Hb Hsns Htp Hpp Hdir)
    as (w' & E & Lp & _).
  fold w p in Lp.
  eexists. split.
  - eapply handle_data_run.
    + unfold FormData.write_files.
      erewrite try_caught; [reflexivity| |reflexivity].
      erewrite bind_ret by reflexivity. rewrite Hf.
      erewrite bind_ret by reflexivity.
      erewrite bind_raise; [reflexivity|].
      erewrite write_each_step by eassumption.
      apply write_each_bad_first. exact Hbad.
    + exact Fin.
  - cbn [FormData.hb FormData.put_hb FormData.put_path FormData.put_path_part
           Auth.w Auth.put_w Auth.resp Auth.with_resp form_answer].
    split; [reflexivity|].
    unfold holds. rewrite Lp. cbn. split; [|reflexivity].
    f_equal. f_equal. subst old.
    destruct (Os.fs w !! p) as [n|];
      destruct (OsCalls.truncates filemode); reflexivity.
Qed.

Lemma form_upload_does_not_roll_back_witness :
  exists h',
    FormData.post Demo.X (Demo.opts 512) FormCase.cfg FormCase.imports "p11"
      (FormCase.prepared [FormCase.form "old.txt" "new"; FormCase.form "../x" "y"])
    = (Py.Ret tt, h') /\
    Http.status_code (Auth.resp (FormData.hb h')) = 400 /\
    holds (Auth.w (FormData.hb h')) "/tsd/p11/imp/old.txt" (Os.bytes "oldnew") 432.
Proof.
  destruct (form_upload_does_not_roll_back Demo.X (Demo.opts 512) FormCase.cfg
              FormCase.imports "ab+" "p11"
              (FormCase.prepared [FormCase.form "old.txt" "new"; FormCase.form "../x" "y"])
              "form_data" "/tsd/pXX/imp" "old.txt"
              (FormCase.form "old.txt" "new") (FormCase.form "../x" "y") [])
    as (h' & E & R & H).
  - vm_compute. reflexivity.
  - vm_compute. reflexivity.
  - vm_compute. reflexivity.
  - vm_compute. reflexivity.
  - vm_compute. reflexivity.
  - discriminate.
  - left. vm_compute. reflexivity.
  - vm_compute. reflexivity.
  - vm_compute. reflexivity.
  - intros n. vm_compute. intros [= <-]. reflexivity.
  - exists h'. split; [exact E|]. split; [rewrite R; reflexivity|exact H].
Defined.

(** ** [PATCH]: the end of a chunk *)

(** X24. [StreamHandler.patch] for a chunk whose visible name is taken
    when the body has arrived (the same chunk was written by another
    request). The handler closes its file, renames nothing, does not
    call [merge_chunk], writes [chunk_order_incorrect], sets the status
    201, and then raises [UnboundLocalError]: the last line reads
    [filename], which this branch never binds. The staged chunk stays
    where it was written. *)
Theorem patch_of_a_taken_chunk_name (E : StreamPatch.engine) (h : Stream.handler)
    (f : Os.handle) (pp : string) :
  Stream.completed_resumable_file h = false ->
  Stream.res h = true ->
  Stream.target_file h = Some f ->
  Stream.path_part h = Some pp ->
  is_Some (Os.fs (Auth.w (Stream.hb h)) !! pp) ->
  Http.finished (Auth.resp (Stream.hb h)) = false ->
  exists h',
    StreamPatch.patch E h = (Py.Raise Py.UnboundLocalError, h') /\
    Auth.resp (Stream.hb h')
    = Http.set_status 201
        (Http.push (Http.message_body "chunk_order_incorrect")
           (Auth.resp (Stream.hb h))) /\
    Auth.w (Stream.hb h')
    = (if Os.fh_closed f then Auth.w (Stream.hb h)
       else Os.log (Os.EvClose (Os.fh_path f)) (Auth.w (Stream.hb h))) /\
    Stream.target_file h'
    = Some {| Os.fh_path := Os.fh_path f; Os.fh_mode := Os.fh_mode f;
              Os.fh_closed := true |}.
Proof.
  intros Hc Hr Ht Hp Hx F.
  unfold StreamPatch.patch.
  erewrite bind_ret by reflexivity. rewrite Hc. cbn [negb].
  erewrite bind_ret.
  2:{ erewrite bind_ret by reflexivity. rewrite Hr.
      erewrite bind_ret by reflexivity.
      erewrite bind_ret by reflexivity. rewrite Ht.
      erewrite bind_ret by (apply stream_os_run; reflexivity).
      erewrite bind_ret by reflexivity.
      erewrite bind_ret by reflexivity.
      cbn [Stream.path_part Stream.put_target_file Stream.put_hb].
      rewrite Hp.
      erewrite bind_ret by reflexivity.
      erewrite bind_ret.
      2:{ apply stream_os_run. unfold OsCalls.lexists, Py.gets.
          cbn [Stream.hb Stream.put_hb Stream.put_target_file Auth.w Auth.put_w].
          rewrite bool_decide_eq_true_2; [reflexivity|].
          destruct (Os.fh_closed f); exact Hx. }
      cbn [negb].
      erewrite bind_ret; [reflexivity|].
      apply stream_base_run. unfold Auth.write.
      cbn [Stream.hb Stream.put_hb Stream.put_target_file Auth.resp Auth.put_w].
      rewrite F. reflexivity. }
  erewrite bind_ret by (apply stream_base_run; reflexivity).
  erewrite bind_raise by reflexivity.
  eexists. split; [reflexivity|].
  cbn. destruct (Os.fh_closed f); auto.
Qed.

Lemma patch_of_a_taken_chunk_name_witness :
  exists h',
    StreamPatch.patch PatchCase.engine PatchCase.raced
    = (Py.Raise Py.UnboundLocalError, h') /\
    Http.status_code (Auth.resp (Stream.hb h')) = 201 /\
    Http.body (Auth.resp (Stream.hb h')) = [Http.message_body "chunk_order_incorrect"].
Proof.
  destruct (patch_of_a_taken_chunk_name PatchCase.engine PatchCase.raced
              {| Os.fh_path := "/imp/u1/big.bin.chunk.3.uuid0.part"; Os.fh_mode := "wb+";
                 Os.fh_closed := false |} "/imp/u1/big.bin.chunk.3")
    as (h' & P & R & _).
  - vm_compute. reflexivity.
  - vm_compute. reflexivity.
  - vm_compute. reflexivity.
  - vm_compute. reflexivity.
  - vm_compute. eauto.
  - vm_compute. reflexivity.
  - exists h'. split; [exact P|]. rewrite R. split; vm_compute; reflexivity.
Defined.

(** X25. [StreamHandler.patch] for a chunk whose visible name is
    free. The handler closes its file and moves the staged chunk to the
    visible name, and only then calls [merge_chunk], with the base name
    of the chunk. When [merge_chunk] returns, the answer is 201 with
    the file name (the base name up to [.chunk]), the upload id and the
    chunk number. When [merge_chunk] raises, [patch] raises the same
    exception and leaves the response untouched; the chunk stays under
    its visible name. *)
Theorem patch_moves_the_chunk_then_merges (E : StreamPatch.engine)
    (h : Stream.handler) (f : Os.handle) (staged visible id : string) (n : Os.node)
    (rq : Os.claim) (c : Resumable.chunk) :
  Stream.completed_resumable_file h = false ->
  Stream.res h = true ->
  Stream.target_file h = Some f ->
  Stream.path h = Some staged ->
  Stream.path_part h = Some visible ->
  Os.fs (Auth.w (Stream.hb h)) !! visible = None ->
  Os.fs (Auth.w (Stream.hb h)) !! staged = Some n ->
  Stream.upload_id h = Some id ->
  Auth.requestor (Stream.hb h) = Some rq ->
  Stream.chunk_num h = Some c ->
  Http.finished (Auth.resp (Stream.hb h)) = false ->
  let w := Auth.w (Stream.hb h) in
  let w1 := if Os.fh_closed f then w else Os.log (Os.EvClose (Os.fh_path f)) w in
  let w2 := Os.log (Os.EvRename staged visible)
              (Os.with_fs (fun m => <[visible := n]> (delete staged m)) w1) in
  let name := FileStreamer.basename visible in
  exists h',
    Auth.w (Stream.hb h')
    = snd (StreamPatch.merge_chunk E (Stream.tenant_dir (Stream.cfg h)) name id rq w2) /\
    match fst (StreamPatch.merge_chunk E (Stream.tenant_dir (Stream.cfg h)) name id rq w2)
    with
    | Py.Ret _ =>
        StreamPatch.patch E h = (Py.Ret tt, h') /\
        Auth.resp (Stream.hb h')
        = Http.push
            (Http.OutJson [("filename", Http.JStr (StreamPatch.before ".chunk" name));
                           ("id", Http.JStr id);
                           ("max_chunk", StreamPatch.chunk_json c)])
            (Http.set_status 201 (Auth.resp (Stream.hb h)))
    | Py.Raise e =>
        StreamPatch.patch E h = (Py.Raise e, h') /\
        Auth.resp (Stream.hb h') = Auth.resp (Stream.hb h)
    end.
Proof.
  intros Hc Hr Ht Hpa Hpp Hv Hs Hid Hrq Hch F w w1 w2 name.
  destruct (StreamPatch.merge_chunk E (Stream.tenant_dir (Stream.cfg h)) name id rq w2)
    as [[u|e] w3] eqn:M; cbn [fst snd].
  - eexists. split; [|split].
    2:{ unfold StreamPatch.patch.
        erewrite bind_ret by reflexivity. rewrite Hc. cbn [negb].
        erewrite bind_ret.
        2:{ erewrite bind_ret by reflexivity. rewrite Hr.
            erewrite bind_ret by reflexivity.
            erewrite bind_ret by reflexivity. rewrite Ht.
            erewrite bind_ret by (apply stream_os_run; reflexivity).
            erewrite bind_ret by reflexivity.
            erewrite bind_ret by reflexivity.
            cbn [Stream.path_part Stream.put_target_file Stream.put_hb].
            rewrite Hpp.
            erewrite bind_ret by reflexivity.
            erewrite bind_ret.
            2:{ apply stream_os_run. unfold OsCalls.lexists, Py.gets.
                cbn [Stream.hb Stream.put_hb Stream.put_target_file Auth.w Auth.put_w].
                rewrite bool_decide_eq_false_2; [reflexivity|].
                destruct (Os.fh_closed f); cbn [Os.fs Os.log]; rewrite Hv;
                  intros [? ?]; discriminate. }
            cbn [negb].
            erewrite bind_ret.
            2:{ unfold Stream.rename_path_to_path_part.
                erewrite bind_ret by reflexivity.
                erewrite bind_ret by reflexivity.
                cbn [Stream.path Stream.path_part Stream.put_target_file Stream.put_hb].
                rewrite Hpa, Hpp.
                apply stream_os_run. unfold OsCalls.rename.
                cbn [Stream.hb Stream.put_hb Stream.put_target_file Auth.w Auth.put_w].
                replace (Os.fs (if Os.fh_closed f then Auth.w (Stream.hb h)
                                else Os.log (Os.EvClose (Os.fh_path f))
                                       (Auth.w (Stream.hb h))) !! staged)
                  with (Some n)
                  by (destruct (Os.fh_closed f); cbn [Os.fs Os.log]; now rewrite Hs).
                reflexivity. }
            erewrite bind_ret by reflexivity.
            erewrite bind_ret by (unfold StreamPatch.attr; cbn; rewrite Hid; reflexivity).
            erewrite bind_ret by (unfold StreamPatch.attr; cbn; rewrite Hrq; reflexivity).
            erewrite bind_ret; [reflexivity|].
            apply stream_os_run.
            cbn [Stream.hb Stream.put_hb Stream.put_target_file Auth.w Auth.put_w
                   Stream.cfg].
            fold w. fold w1. fold w2. fold name. exact M. }
        erewrite bind_ret by (apply stream_base_run; reflexivity).
        erewrite bind_ret by reflexivity.
        erewrite bind_ret by (unfold StreamPatch.attr; cbn; rewrite Hid; reflexivity).
        erewrite bind_ret by (unfold StreamPatch.attr; cbn; rewrite Hch; reflexivity).
        apply stream_base_run. unfold Auth.write. cbn. rewrite F. reflexivity. }
    + reflexivity.
    + reflexivity.
  - eexists. split; [|split].
    2:{ unfold StreamPatch.patch.
        erewrite bind_ret by reflexivity. rewrite Hc. cbn [negb].
        erewrite bind_raise; [reflexivity|].
        erewrite bind_ret by reflexivity. rewrite Hr.
        erewrite bind_ret by reflexivity.
        erewrite bind_ret by reflexivity. rewrite Ht.
        erewrite bind_ret by (apply stream_os_run; reflexivity).
        erewrite bind_ret by reflexivity.
        erewrite bind_ret by reflexivity.
        cbn [Stream.path_part Stream.put_target_file Stream.put_hb].
        rewrite Hpp.
        erewrite bind_ret by reflexivity.
        erewrite bind_ret.
        2:{ apply stream_os_run. unfold OsCalls.lexists, Py.gets.
            cbn [Stream.hb Stream.put_hb Stream.put_target_file Auth.w Auth.put_w].
            rewrite bool_decide_eq_false_2; [reflexivity|].
            destruct (Os.fh_closed f); cbn [Os.fs Os.log]; rewrite Hv;
              intros [? ?]; discriminate. }
        cbn [negb].
        erewrite bind_ret.
        2:{ unfold Stream.rename_path_to_path_part.
            erewrite bind_ret by reflexivity.
            erewrite bind_ret by reflexivity.
            cbn [Stream.path Stream.path_part Stream.put_target_file Stream.put_hb].
            rewrite Hpa, Hpp.
            apply stream_os_run. unfold OsCalls.rename.
            cbn [Stream.hb Stream.put_hb Stream.put_target_file Auth.w Auth.put_w].
            replace (Os.fs (if Os.fh_closed f then Auth.w (Stream.hb h)
                            else Os.log (Os.EvClose (Os.fh_path f))
                                   (Auth.w (Stream.hb h))) !! staged)
              with (Some n)
              by (destruct (Os.fh_closed f); cbn [Os.fs Os.log]; now rewrite Hs).
            reflexivity. }
        erewrite bind_ret by reflexivity.
        erewrite bind_ret by (unfold StreamPatch.attr; cbn; rewrite Hid; reflexivity).
        erewrite bind_ret by (unfold StreamPatch.attr; cbn; rewrite Hrq; reflexivity).
        erewrite bind_raise; [reflexivity|].
        apply stream_os_run.
        cbn [Stream.hb Stream.put_hb Stream.put_target_file Auth.w Auth.put_w
               Stream.cfg].
        fold w. fold w1. fold w2. fold name. exact M. }
    + reflexivity.
    + reflexivity.
Qed.

Lemma patch_moves_the_chunk_then_merges_witness :
  exists h',
    StreamPatch.patch PatchCase.engine PatchCase.received = (Py.Ret tt, h') /\
    Http.body (Auth.resp (Stream.hb h'))
    = [Http.OutJson [("filename", Http.JStr "big.bin"); ("id", Http.JStr "u1");
                     ("max_chunk", Http.JInt 3)]] /\
    Http.status_code (Auth.resp (Stream.hb h')) = 201.
Proof.
  destruct (patch_moves_the_chunk_then_merges PatchCase.engine PatchCase.received
              {| Os.fh_path := "/imp/u1/big.bin.chunk.3.uuid0.part"; Os.fh_mode := "wb+";
                 Os.fh_closed := false |}
              "/imp/u1/big.bin.chunk.3.uuid0.part" "/imp/u1/big.bin.chunk.3" "u1"
              {| Os.n_dir := false; Os.n_data := Os.bytes "abc";
                 Os.n_mode := 420; Os.n_mtime := 1700000000; Os.n_uid := 1000 |}
              (Os.CStr "p11-alice") (Resumable.CNum 3))
    as (h' & _ & P & R).
  - vm_compute. reflexivity.
  - vm_compute. reflexivity.
  - vm_compute. reflexivity.
  - vm_compute. reflexivity.
  - vm_compute. reflexivity.
  - vm_compute. reflexivity.
  - vm_compute. reflexivity.
  - vm_compute. reflexivity.
  - vm_compute. reflexivity.
  - vm_compute. reflexivity.
  - vm_compute. reflexivity.
  - exists h'. split; [exact P|]. rewrite R. split; vm_compute; reflexivity.
Defined.

(** ** The resumables of a tenant *)

Section ResumablesSteps.
Import Py Resumables.

Lemma resumables_base_run {A} (c : M Auth.base A) h r b :
  c (hb h) = (r, b) -> base c h = (r, put_hb b h).
Proof. intros E. unfold base, zoom. now rewrite E. Qed.

Lemma resumables_os_run {A} (c : M Os.world A) h r w' :
  c (Auth.w (hb h)) = (r, w') -> os c h = (r, put_hb (Auth.put_w w' (hb h)) h).
Proof. intros E. unfold os, base, Auth.os, zoom. now rewrite E. Qed.

End ResumablesSteps.

(** X26. [ResumablesHandler.delete] on a response that is not
    finished always returns. The engine is called only when the file
    name passes [check_filename] and the query has an [id] (and the
    handler has its tenant directory and requestor); it is then given
    the file name as it came in the URI, not the checked name. The
    answer is 200 with [resumable deleted] exactly when the engine
    returns a true value; in every other case it is 400 with
    [cannot delete resumable], and when the engine was not called the
    world is untouched. *)
Theorem resumable_delete_outcomes (X : externals) (opts : options)
    (E : Resumables.engine) (filename : string) (h : Resumables.handler) :
  Http.finished (Auth.resp (Resumables.hb h)) = false ->
  let w := Auth.w (Resumables.hb h) in
  let answer code msg :=
    Http.push (Http.message_body msg)
      (Http.set_status code (Auth.resp (Resumables.hb h))) in
  exists h',
    Resumables.delete X opts E filename h = (Py.Ret tt, h') /\
    match check_filename X (url_unescape X filename) (start_chars opts),
          Http.query (Auth.req (Resumables.hb h)) !! "id",
          Resumables.tenant_dir h, Auth.requestor (Resumables.hb h) with
    | Some _, Some i, Some td, Some rq =>
        let r := Resumables.delete_ E td filename (url_unescape X i) rq w in
        Auth.w (Resumables.hb h') = snd r /\
        Auth.resp (Resumables.hb h')
        = match fst r with
          | Py.Ret true => answer 200 "resumable deleted"
          | _ => answer 400 "cannot delete resumable"
          end
    | _, _, _, _ =>
        Auth.w (Resumables.hb h') = w /\
        Auth.resp (Resumables.hb h') = answer 400 "cannot delete resumable"
    end.
Proof.
  intros F w answer.
  unfold Resumables.delete, Py.lift, Py.try_except, Py.bind, Py.modify,
    Resumables.attr, Resumables.os, Resumables.base, Auth.os, Py.zoom,
    Auth.get_query_argument, Auth.set_status, Auth.write, Py.modify, Py.of_option,
    Py.ret, Py.raise, Py.gets, Py.assert.
  cbn.
  destruct (check_filename X (url_unescape X filename) (start_chars opts)) as [s|];
    cbn.
  2:{ rewrite F. eexists. split; [reflexivity|]. split; reflexivity. }
  destruct (Http.query (Auth.req (Resumables.hb h)) !! "id") as [i|]; cbn.
  2:{ rewrite F. eexists. split; [reflexivity|]. split; reflexivity. }
  destruct (Resumables.tenant_dir h) as [td|]; cbn.
  2:{ rewrite F. eexists. split; [reflexivity|]. split; reflexivity. }
  destruct (Auth.requestor (Resumables.hb h)) as [rq|]; cbn.
  2:{ rewrite F. eexists. split; [reflexivity|]. split; reflexivity. }
  fold w.
  destruct (Resumables.delete_ E td filename (url_unescape X i) rq w)
    as [[[|]|e] w'] eqn:D; cbn; rewrite F;
    (eexists; split; [reflexivity|]; split; reflexivity).
Qed.

Lemma resumable_delete_outcomes_witness :
  exists h',
    Resumables.delete Demo.X (Demo.opts 512)
      {| Resumables.list_all := fun _ _ => Py.ret (Http.OutFiles []);
         Resumables.info := fun _ _ _ _ => Py.ret (Http.OutFiles []);
         Resumables.delete_ := fun _ _ _ _ => Py.ret true |}
      "big.bin"
      {| Resumables.hb := Auth.start (Scenario.upload_old "DELETE") Scenario.import_world;
         Resumables.tenant_dir := Some "/imp"; Resumables.message := [] |}
    = (Py.Ret tt, h') /\
    Http.status_code (Auth.resp (Resumables.hb h')) = 400 /\
    Auth.w (Resumables.hb h') = Scenario.import_world.
Proof.
  destruct (resumable_delete_outcomes Demo.X (Demo.opts 512)
      {| Resumables.list_all := fun _ _ => Py.ret (Http.OutFiles []);
         Resumables.info := fun _ _ _ _ => Py.ret (Http.OutFiles []);
         Resumables.delete_ := fun _ _ _ _ => Py.ret true |}
      "big.bin"
      {| Resumables.hb := Auth.start (Scenario.upload_old "DELETE") Scenario.import_world;
         Resumables.tenant_dir := Some "/imp"; Resumables.message := [] |})
    as (h' & D & W & R).
  - reflexivity.
  - exists h'. split; [exact D|]. split; [rewrite R; reflexivity|exact W].
Defined.

(** X27. [ResumablesHandler.get] on a response that is not finished
    always returns. Without a file name it asks the engine for the list
    of all resumables of the requestor; with a file name that passes
    [check_filename] it asks for the information on that name, with the
    [id] of the query if there is one; with a file name that does not
    pass, the engine is not called and the world is untouched. The
    answer is 200 with what the engine returned; when the name is
    refused or the engine raises, it is 400 with the file name as it
    came and the other three fields [null]. *)
Theorem resumable_get_outcomes (X : externals) (opts : options)
    (E : Resumables.engine) (filename : option string) (h : Resumables.handler) :
  Http.finished (Auth.resp (Resumables.hb h)) = false ->
  let w := Auth.w (Resumables.hb h) in
  let refused :=
    Http.push
      (Http.OutJson [("filename", Resumables.jstr filename); ("id", Http.JNull);
                     ("chunk_size", Http.JNull); ("max_chunk", Http.JNull)])
      (Http.set_status 400 (Auth.resp (Resumables.hb h))) in
  let id := url_unescape X <$> (Http.query (Auth.req (Resumables.hb h)) !! "id") in
  let asked (r : Py.outcome Http.out * Os.world) (h' : Resumables.handler) :=
    Auth.w (Resumables.hb h') = snd r /\
    Auth.resp (Resumables.hb h')
    = match fst r with
      | Py.Ret o => Http.push o (Http.set_status 200 (Auth.resp (Resumables.hb h)))
      | Py.Raise _ => refused
      end in
  let not_asked (h' : Resumables.handler) :=
    Auth.w (Resumables.hb h') = w /\ Auth.resp (Resumables.hb h') = refused in
  exists h',
    Resumables.get X opts E filename h = (Py.Ret tt, h') /\
    match Resumables.tenant_dir h, Auth.requestor (Resumables.hb h) with
    | Some td, Some rq =>
        if Resumables.given filename
        then
          match check_filename X (url_unescape X (default "" filename))
                  (start_chars opts) with
          | Some s => asked (Resumables.info E td s id rq w) h'
          | None => not_asked h'
          end
        else asked (Resumables.list_all E td rq w) h'
    | _, _ => not_asked h'
    end.
Proof.
  intros F w refused id asked not_asked.
  unfold Resumables.get, Py.lift, Py.try_except, Py.bind, Py.modify,
    Resumables.attr, Resumables.os, Resumables.base, Auth.os, Py.zoom,
    Auth.get_query_argument, Auth.set_status, Auth.write, Py.modify, Py.of_option,
    Py.ret, Py.raise, Py.gets, Py.assert.
  subst asked not_asked id refused. cbn.
  destruct (Resumables.given filename) eqn:G; cbn.
  - destruct (check_filename X (url_unescape X (default "" filename)) (start_chars opts))
      as [s|]; cbn.
    2:{ rewrite F. eexists. split; [reflexivity|].
        destruct (Resumables.tenant_dir h), (Auth.requestor (Resumables.hb h));
          split; reflexivity. }
    destruct (Http.query (Auth.req (Resumables.hb h)) !! "id") as [i|]; cbn;
      (destruct (Resumables.tenant_dir h) as [td|]; cbn;
       [|rewrite F; eexists; split; [reflexivity|]; split; reflexivity]);
      (destruct (Auth.requestor (Resumables.hb h)) as [rq|]; cbn;
       [|rewrite F; eexists; split; [reflexivity|]; split; reflexivity]);
      fold w;
      match goal with
      | |- context [Resumables.info E ?a ?b ?c ?d w] =>
          destruct (Resumables.info E a b c d w) as [[o|e] w']
      end; cbn; rewrite F;
      (eexists; split; [reflexivity|]; split; reflexivity).
  - destruct (Http.query (Auth.req (Resumables.hb h)) !! "id") as [i|]; cbn;
      (destruct (Resumables.tenant_dir h) as [td|]; cbn;
       [|rewrite F; eexists; split; [reflexivity|]; split; reflexivity]);
      (destruct (Auth.requestor (Resumables.hb h)) as [rq|]; cbn;
       [|rewrite F; eexists; split; [reflexivity|]; split; reflexivity]);
      fold w;
      destruct (Resumables.list_all E td rq w) as [[o|e] w']; cbn; rewrite F;
      (eexists; split; [reflexivity|]; split; reflexivity).
Qed.

Lemma resumable_get_outcomes_witness :
  exists h',
    Resumables.get Demo.X (Demo.opts 512)
      {| Resumables.list_all := fun _ _ => Py.ret (Http.OutFiles []);
         Resumables.info := fun _ _ _ _ => Py.ret (Http.OutFiles []);
         Resumables.delete_ := fun _ _ _ _ => Py.ret true |}
      (Some "../big.bin")
      {| Resumables.hb := Auth.start (Scenario.upload_old "GET") Scenario.import_world;
         Resumables.tenant_dir := Some "/imp"; Resumables.message := [] |}
    = (Py.Ret tt, h') /\
    Http.body (Auth.resp (Resumables.hb h'))
    = [Http.OutJson [("filename", Http.JStr "../big.bin"); ("id", Http.JNull);
                     ("chunk_size", Http.JNull); ("max_chunk", Http.JNull)]].
Proof.
  destruct (resumable_get_outcomes Demo.X (Demo.opts 512)
      {| Resumables.list_all := fun _ _ => Py.ret (Http.OutFiles []);
         Resumables.info := fun _ _ _ _ => Py.ret (Http.OutFiles []);
         Resumables.delete_ := fun _ _ _ _ => Py.ret true |}
      (Some "../big.bin")
      {| Resumables.hb := Auth.start (Scenario.upload_old "GET") Scenario.import_world;
         Resumables.tenant_dir := Some "/imp"; Resumables.message := [] |})
    as (h' & D & R).
  - reflexivity.
  - exists h'. split; [exact D|].
    vm_compute in D. injection D as <-. reflexivity.
Defined.

(** ** The tables of a tenant *)

Section TablesSteps.
Import Py Tables.
Context (X : externals) (opts : options) {engine data : Type} (I : imports engine data).

Lemma tables_base_run {A} (c : M Auth.base A) h r b :
  c (hb h) = (r, b) -> base c h = (r, put_hb b h).
Proof. intros E. unfold base, zoom. now rewrite E. Qed.

(** [authorize] when the token gate refuses. *)
Lemma authorize_raise h e b' :
  Auth.process_token_and_extract_claims X opts (hb h) = (Raise e, b') ->
  authorize X opts h = (Raise e, put_hb b' h).
Proof.
  intros G. unfold authorize.
  erewrite bind_raise; [reflexivity|]. now apply tables_base_run.
Qed.

(** The [except] clause on a response that is not finished. *)
Lemma answer_error_run h :
  Http.finished (Auth.resp (hb h)) = false ->
  answer_error h
  = (Ret tt,
     put_hb (Auth.with_resp
               (fun r => Http.push (Http.message_body "error") (Http.set_status 400 r))
               (hb h)) h).
Proof.
  intros F. unfold answer_error, bind, base, zoom, Auth.set_status, Auth.write, modify.
  cbn. rewrite F. reflexivity.
Qed.

(** A method whose block starts with [authorize], when the gate
    refuses. *)
Lemma refused_method (k : M handler unit) h e b' :
  Auth.process_token_and_extract_claims X opts (hb h) = (Raise e, b') ->
  Http.finished (Auth.resp (hb h)) = false ->
  exists h',
    try_except (do! authorize X opts in k) [Exception] (fun _ => answer_error) h
    = (Ret tt, h') /\
    Auth.resp (hb h')
    = Http.push (Http.message_body "error") (Http.set_status 400 (Auth.resp (hb h))) /\
    Auth.w (hb h') = Auth.w (hb h).
Proof.
  intros G F.
  pose proof (gate_raise_resp X opts _ _ _ G) as R.
  destruct (gate_raise X opts _ _ _ G) as (_ & _ & W & _).
  eexists. split.
  - erewrite try_caught; [| |apply caught_Exception; now left].
    2:{ erewrite bind_raise; [reflexivity|]. apply authorize_raise. exact G. }
    apply answer_error_run. cbn. rewrite R. exact F.
  - cbn. rewrite R, W. split; reflexivity.
Qed.

End TablesSteps.

(** X28. A request to the tables of a tenant that does not pass the
    token gate, whatever the reason: [get] (with or without a table
    name), [put], [patch] and [delete] return, and the answer is 400
    with the message [error], not the 401 that the gate has set. The
    world is the one the request started in: the database is not
    opened. *)
Theorem tables_answer_400_without_token (X : externals) (opts : options)
    {engine data : Type} (I : Tables.imports engine data) (h : Tables.handler)
    (e : Py.exn) (b' : Auth.base) (table_name : string) :
  Auth.process_token_and_extract_claims X opts (Tables.hb h) = (Py.Raise e, b') ->
  Http.finished (Auth.resp (Tables.hb h)) = false ->
  let refused (c : Py.M Tables.handler unit) :=
    exists h',
      c h = (Py.Ret tt, h') /\
      Auth.resp (Tables.hb h')
      = Http.push (Http.message_body "error")
          (Http.set_status 400 (Auth.resp (Tables.hb h))) /\
      Auth.w (Tables.hb h') = Auth.w (Tables.hb h) in
  refused (Tables.get X opts I None) /\
  refused (Tables.get X opts I (Some table_name)) /\
  refused (Tables.put X opts I table_name) /\
  refused (Tables.patch X opts I table_name) /\
  refused (Tables.delete X opts I table_name).
Proof.
  intros G F refused.
  split; [|split; [|split; [|split]]].
  - unfold Tables.get. cbn [Resumables.given negb].
    eapply refused_method; eassumption.
  - unfold Tables.get.
    destruct (negb (Resumables.given (Some table_name)));
      eapply refused_method; eassumption.
  - unfold Tables.put. eapply refused_method; eassumption.
  - unfold Tables.patch, Tables.query. eapply refused_method; eassumption.
  - unfold Tables.delete, Tables.query. eapply refused_method; eassumption.
Qed.

Lemma tables_answer_400_without_token_witness :
  exists h',
    Tables.put Demo.X (Demo.opts 512) TablesCase.db "t1"
      (TablesCase.put_t1 "Bearer bad" "{}") = (Py.Ret tt, h') /\
    Http.status_code (Auth.resp (Tables.hb h')) = 400 /\
    Os.fs (Auth.w (Tables.hb h')) = ∅.
Proof.
  destruct (tables_answer_400_without_token Demo.X (Demo.opts 512) TablesCase.db
              (TablesCase.put_t1 "Bearer bad" "{}") Py.Exception
              (snd (Auth.process_token_and_extract_claims Demo.X (Demo.opts 512)
                      (Tables.hb (TablesCase.put_t1 "Bearer bad" "{}")))) "t1")
    as (_ & _ & (h' & P & R & W) & _).
  - vm_compute. reflexivity.
  - vm_compute. reflexivity.
  - exists h'. split; [exact P|]. split; [rewrite R; reflexivity|].
    rewrite W. vm_compute. reflexivity.
Defined.

(** X29. [GenericTableHandler.put]: when it returns with the status
    201, the token gate has accepted the request, the body has been
    decoded, and the last thing done to the world was to set the
    permission bits of the database file,
    [<tenant_dir>/<db_name>], to 0600: the file exists and has exactly
    these bits. *)
Theorem table_put_leaves_the_database_private (X : externals) (opts : options)
    {engine data : Type} (I : Tables.imports engine data) (table_name : string)
    (h h' : Tables.handler) :
  Tables.put X opts I table_name h = (Py.Ret tt, h') ->
  Http.status_code (Auth.resp (Tables.hb h')) = 201 ->
  exists a b1 td name n evs,
    Auth.process_token_and_extract_claims X opts (Tables.hb h) = (Py.Ret a, b1) /\
    is_Some (Tables.json_decode I (Tables.body h)) /\
    Tables.tenant_dir h = Some td /\ Tables.db_name h = Some name /\
    Os.fs (Auth.w (Tables.hb h')) !! (td ++ "/" ++ name) = Some n /\
    Os.n_mode n = 384 /\
    Os.trace (Auth.w (Tables.hb h'))
    = (evs ++ [Os.EvChmod (td ++ "/" ++ name) 384])%list.
Proof.
  unfold Tables.put, Tables.authorize, Tables.answer_error, Py.lift, Py.try_except,
    Py.bind, Tables.attr, Tables.os, Tables.base, Auth.os, Py.zoom,
    OsCalls.chmod, Auth.set_status, Auth.write, Py.modify, Py.of_option,
    Py.ret, Py.raise, Py.gets, Py.assert.
  cbv beta.
  destruct (Auth.process_token_and_extract_claims X opts (Tables.hb h))
    as [[a|e] b1] eqn:G; cbn.
  2:{ destruct (Http.finished (Auth.resp b1)); cbn; [discriminate|].
      intros [= <-]. cbn. discriminate. }
  destruct (Tables.json_decode I (Tables.body h)) as [d|] eqn:J; cbn.
  2:{ destruct (Http.finished (Auth.resp b1)); cbn; [discriminate|].
      intros [= <-]. cbn. discriminate. }
  destruct (Tables.tenant_dir h) as [td|] eqn:T; cbn.
  2:{ destruct (Http.finished (Auth.resp b1)); cbn; [discriminate|].
      intros [= <-]. cbn. discriminate. }
  destruct (Tables.db_name h) as [name|] eqn:N; cbn.
  2:{ destruct (Http.finished (Auth.resp b1)); cbn; [discriminate|].
      intros [= <-]. cbn. discriminate. }
  destruct (Tables.sqlite_init I td name false (Auth.w b1)) as [[en|e] w1]; cbn.
  2:{ destruct (Http.finished (Auth.resp b1)); cbn; [discriminate|].
      intros [= <-]. cbn. discriminate. }
  destruct (Tables.sqlite_insert I en table_name d w1) as [[u|e] w2]; cbn.
  2:{ destruct (Http.finished (Auth.resp b1)); cbn; [discriminate|].
      intros [= <-]. cbn. discriminate. }
  destruct (Os.fs w2 !! (td ++ "/" ++ name)) as [n|] eqn:L; cbn.
  2:{ destruct (Http.finished (Auth.resp b1)); cbn; [discriminate|].
      intros [= <-]. cbn. discriminate. }
  destruct (Http.finished (Auth.resp b1)) eqn:F; cbn; rewrite ?F; cbn;
    [discriminate|].
  intros [= <-] _. cbn.
  exists a, b1, td, name, (Os.set_mode Os._RW______ n), (Os.trace w2).
  split; [reflexivity|]. split; [eauto|]. split; [reflexivity|]. split; [reflexivity|].
  split; [apply lookup_insert_eq|]. split; reflexivity.
Qed.

Lemma table_put_leaves_the_database_private_witness :
  exists n,
    Os.fs (Auth.w (Tables.hb
                     (snd (Tables.put Demo.X (Demo.opts 512) TablesCase.db "t1"
                             (TablesCase.put_t1 "Bearer good" "{}")))))
    !! "/tsd/p11/db/generic/.generic.db" = Some n /\
    Os.n_mode n = 384.
Proof.
  destruct (table_put_leaves_the_database_private Demo.X (Demo.opts 512) TablesCase.db
              "t1" (TablesCase.put_t1 "Bearer good" "{}")
              (snd (Tables.put Demo.X (Demo.opts 512) TablesCase.db "t1"
                      (TablesCase.put_t1 "Bearer good" "{}"))))
    as (a & b1 & td & name & n & evs & _ & _ & T & N & L & M & _).
  - vm_compute. reflexivity.
  - vm_compute. reflexivity.
  - exists n. split; [|exact M].
    vm_compute in T. vm_compute in N. injection T as <-. injection N as <-.
    exact L.
Defined.

(** ** [prepare] never lets an exception escape *)

Section UploadQuiet.
Import Py Stream.
Context (X : externals) (opts : options).

#[global] Instance same_but_status_preorder : PreOrder same_but_status.
Proof.
  split.
  - intros r. repeat split.
  - intros r1 r2 r3 (A1 & B1 & C1 & D1) (A2 & B2 & C2 & D2).
    repeat split; congruence.
Qed.

#[global] Instance upload_quiet_preorder : PreOrder upload_quiet.
Proof.
  split.
  - intros h. unfold upload_quiet. reflexivity.
  - intros h1 h2 h3 H1 H2. unfold upload_quiet in *. etransitivity; eassumption.
Qed.

Lemma uq_base {A} (c : M Auth.base A) :
  (forall b, same_but_status (Auth.resp b) (Auth.resp (snd (c b)))) ->
  preserves upload_quiet (base c).
Proof.
  intros H h. unfold base, zoom, upload_quiet. specialize (H (hb h)).
  destruct (c (hb h)) as [r b]. exact H.
Qed.

Lemma uq_os {A} (c : M Os.world A) : preserves upload_quiet (os c).
Proof.
  apply uq_base. intros b. unfold Auth.os, zoom.
  destruct (c (Auth.w b)) as [r w']. cbn. reflexivity.
Qed.

Lemma uq_modify (f : handler -> handler) :
  (forall h, hb (f h) = hb h) -> preserves upload_quiet (modify f).
Proof. intros H h. unfold upload_quiet. cbn. rewrite H. reflexivity. Qed.

Lemma uq_gate :
  preserves upload_quiet (base (Auth.process_token_and_extract_claims X opts)).
Proof.
  apply uq_base. intros b.
  destruct (Auth.process_token_and_extract_claims X opts b) as [[a|e] b'] eqn:G; cbn.
  - apply gate_ret in G as (hdr & j & t & rq & _ & _ & _ & _ & _ & _ & _ & ->).
    cbn. reflexivity.
  - apply gate_raise_resp in G. rewrite G. repeat split.
Qed.

Lemma uq_header k : preserves upload_quiet (base (Auth.header k)).
Proof.
  apply uq_base. intros b. unfold Auth.header.
  destruct (Http.headers (Auth.req b) !! k); reflexivity.
Qed.

Lemma uq_has_header k : preserves upload_quiet (base (Auth.has_header k)).
Proof. apply uq_base. intros b. reflexivity. Qed.

Lemma uq_query k : preserves upload_quiet (base (Auth.get_query_argument k)).
Proof.
  apply uq_base. intros b. unfold Auth.get_query_argument.
  destruct (Http.query (Auth.req b) !! k); reflexivity.
Qed.

Lemma uq_base_modify (f : Auth.base -> Auth.base) :
  (forall b, Auth.resp (f b) = Auth.resp b) -> preserves upload_quiet (base (modify f)).
Proof. intros H. apply uq_base. intros b. cbn. rewrite H. reflexivity. Qed.

Lemma uq_requestor :
  preserves upload_quiet
    (base (fun b => of_option AttributeError (Auth.requestor b) b)).
Proof. apply uq_base. intros b. destruct (Auth.requestor b); reflexivity. Qed.

Hint Resolve uq_os uq_gate uq_header uq_has_header uq_query uq_requestor : frame.

Ltac quiet :=
  frame;
  try (apply uq_modify; reflexivity);
  try (apply uq_base_modify; reflexivity).

Lemma uq_close_target : preserves upload_quiet close_target.
Proof. unfold close_target. quiet. Qed.

Lemma uq_rename : preserves upload_quiet rename_path_to_path_part.
Proof. unfold rename_path_to_path_part. quiet. Qed.

Hint Resolve uq_close_target uq_rename : frame.

Lemma uq_aes_args : preserves upload_quiet (aes_decryption_args_from_headers X).
Proof. unfold aes_decryption_args_from_headers. quiet. Qed.

Hint Resolve uq_aes_args : frame.

Lemma uq_openssl o b : preserves upload_quiet (start_openssl_proc X o b).
Proof. unfold start_openssl_proc. quiet. Qed.

Lemma uq_bind_proc name : preserves upload_quiet (bind_proc name).
Proof. unfold bind_proc. quiet. Qed.

Lemma uq_open_target m : preserves upload_quiet (open_target X m).
Proof. unfold open_target. quiet. Qed.

Hint Resolve uq_openssl uq_bind_proc uq_open_target : frame.

Lemma uq_dispatch ct m : preserves upload_quiet (dispatch X ct m).
Proof.
  unfold dispatch, handle_aes, handle_aes_octet_stream, handle_tar, handle_tar_aes,
    handle_gz, handle_gz_aes.
  quiet.
Qed.

Lemma uq_stage f : preserves upload_quiet (stage X f).
Proof. unfold stage. quiet. Qed.

Lemma uq_prepare_resumable f : preserves upload_quiet (prepare_resumable X f).
Proof. unfold prepare_resumable. quiet. Qed.

Hint Resolve uq_dispatch uq_stage uq_prepare_resumable : frame.

End UploadQuiet.

#[global] Hint Resolve uq_os uq_gate uq_header uq_has_header uq_query uq_requestor
  uq_close_target uq_rename uq_dispatch uq_stage uq_prepare_resumable : frame.



